(** * The boosting drivers of [core/Training.cpp]

    A shallow embedding of the training-set pass, the validation-set pass,
    the update-generation driver, the update-application driver and the
    training step of [core/Training.cpp], with the properties the
    specification states about them, and of the model accessors and the
    initialisation of a training state, with further properties of the
    code.

    Conventions of the embedding.
    - [FractionalDataType] is IEEE 754 binary64, taken from the Standard
      Library's executable specification [SpecFloat] (round to nearest even,
      one NaN, signed zeros and infinities).
    - [size_t], [ptrdiff_t] and [StorageDataTypeCore] values are [Z].  A
      pointer into a buffer is the [Z] offset of the element it points to, so
      pointer comparison is comparison of offsets and [p + n] is addition.
    - A buffer is a [list]; reads and writes go through [load] and [store].
      An access outside a buffer has no defined behaviour in the source;
      here such a read gives +0 and such a write does nothing, and the
      statements that depend on what is stored suppose that the buffers
      hold a value for every case.
    - A nullable pointer is an [option]; dereferencing [nullptr] has no
      defined behaviour and the drivers return [None] there.
    - Loops whose exit test compares pointers run under a fuel bound; the
      theorems show that the bound the drivers pass is never reached.  The
      loops of the initialisation run as often as the count that bounds
      them says.
    - The headers this file includes are not part of the sources at hand.
      What the code uses from them is collected in the classes
      [BuildConfig], [EbmStatistics], [SegmentedTensorOps],
      [TreeLearners], [Allocators] and [Initializers]; the few definitions
      taken from the specification instead are marked as such.
    - The log statements and the per-combination log counters are left out:
      they never influence control flow or the training data.
    - An [EBM_ASSERT] is a check of the debug build and no part of the
      definitions; a statement about a path that asserts a condition on
      what the caller passed takes that condition as a hypothesis. *)

From Stdlib Require Import ZArith Lia Bool.
From Stdlib Require Import Floats.SpecFloat.
From stdpp Require Import base option numbers list relations.

Local Open Scope Z_scope.

(** ** Binary64 arithmetic *)

Abbreviation FractionalDataType := spec_float.

Definition fadd : spec_float -> spec_float -> spec_float := SFadd 53 1024.
Definition fsub : spec_float -> spec_float -> spec_float := SFsub 53 1024.
Definition fmul : spec_float -> spec_float -> spec_float := SFmul 53 1024.
Definition fdiv : spec_float -> spec_float -> spec_float := SFdiv 53 1024.
Definition fsqrt : spec_float -> spec_float := SFsqrt 53 1024.

(** [a < b] on doubles: false as soon as one side is NaN. *)
Definition flt : spec_float -> spec_float -> bool := SFltb.
Definition fle : spec_float -> spec_float -> bool := SFleb.

Definition fzero : spec_float := S754_zero false.
Definition finfinity : spec_float := S754_infinity false.
Definition fnan : spec_float := S754_nan.

(** Conversion of a [size_t] to [FractionalDataType], as in
    [static_cast<FractionalDataType>(c)] and in the usual arithmetic
    conversions of [x / c]. *)
Definition of_size_t (c : Z) : spec_float := binary_normalize 53 1024 c 0 false.

Definition is_nan (x : spec_float) : bool :=
  match x with S754_nan => true | _ => false end.

Definition is_zero (x : spec_float) : bool :=
  match x with S754_zero _ => true | _ => false end.

#[global] Instance spec_float_inhabited : Inhabited spec_float := populate fzero.

(** ** The value of a float

    IEEE 754 has two zeros, which compare equal.  [canon] forgets the sign
    of a zero; two floats are the same value when they agree up to it. *)
Definition canon (x : spec_float) : spec_float :=
  match x with S754_zero _ => fzero | _ => x end.

Definition same_value (x y : spec_float) : Prop := canon x = canon y.

(** [x'] is [x], or [x] is the negative zero and [x'] the positive one. *)
Definition kept (x x' : spec_float) : Prop := x' = x \/ x' = canon x.

(** ** Buffers and loops *)

Definition load {A} `{Inhabited A} (a : list A) (p : Z) : A := a !!! Z.to_nat p.
Definition store {A} (a : list A) (p : Z) (v : A) : list A := <[Z.to_nat p := v]> a.

(** [rewrites l l' lo n f]: the buffer [l'] is the buffer [l] with the [n]
    values from index [lo] on replaced, the value [x] at index [k] by
    [f k x]; a buffer that ends earlier is rewritten as far as it goes. *)
Definition rewrites {A} (l l' : list A) (lo n : nat) (f : nat -> A -> A) : Prop :=
  forall k, l' !! k
            = if decide (lo <= k < lo + n)%nat then f k <$> l !! k else l !! k.

(** [while (cond) body], cut off after [fuel] tests of the condition. *)
Fixpoint while_ {St} (fuel : nat) (cond : St -> bool) (body : St -> St) (s : St)
  : option St :=
  match fuel with
  | O => None
  | S fuel' => if cond s then while_ fuel' cond body (body s) else Some s
  end.

(** The bound the passes give to their loops over the cases of a data set. *)
Definition loop_fuel (cCases : Z) : nat := S (S (Z.to_nat cCases)).

(** ** What the code takes from its headers *)

(** The template argument [countCompilerClassificationTargetStates]:
    [k_Regression], [k_DynamicClassification], or a class count fixed at
    compile time. *)
Inductive CompilerTargetStates :=
| k_Regression
| k_DynamicClassification
| k_Compiled (cTargetStates : Z).

Definition IsRegression (c : CompilerTargetStates) : bool :=
  match c with k_Regression => true | _ => false end.

Definition IsClassification (c : CompilerTargetStates) : bool :=
  negb (IsRegression c).

Definition IsBinaryClassification (c : CompilerTargetStates) : bool :=
  match c with k_Compiled n => n =? 2 | _ => false end.

(** Modelled from the spec: [GET_VECTOR_LENGTH] and [GetVectorLengthFlatCore]
    (EbmInternal.h).  Section 3: "V = 1 for regression and binary
    classification; V = K (class count) for multiclass"; with the dynamic
    template argument the class count is the run-time one. *)
Definition GetVectorLengthFlatCore (cTargetStates : Z) : Z :=
  if cTargetStates <=? 2 then 1 else cTargetStates.

Definition GET_VECTOR_LENGTH (c : CompilerTargetStates) (cTargetStates : Z) : Z :=
  match c with
  | k_Regression => 1
  | k_DynamicClassification => cTargetStates
  | k_Compiled n => GetVectorLengthFlatCore n
  end.

(** Modelled from the spec: [EbmStatistics::ComputeRegressionResidualError]
    (EbmStatistics.h).  Section 4.2: "residual <- (target_effective) -
    update[b]": the difference the caller formed is the residual. *)
Definition ComputeRegressionResidualError (value : spec_float) : spec_float := value.

(** Compile-time constants and helpers of EbmInternal.h. *)
Class BuildConfig := {
  k_cBitsForStorageType : Z;
  GetCountBits : Z -> Z;
  k_iZeroResidual : Z;
  bExpandBinaryLogits : bool;
  k_cCompilerOptimizedTargetStatesMax : Z;
  k_cDimensionsMax : Z
}.

(** The per-case statistics of EbmStatistics.h, and [std::exp]. *)
Class EbmStatistics := {
  exp : spec_float -> spec_float;
  ComputeClassificationResidualErrorBinaryclass :
    spec_float -> Z -> spec_float;
  ComputeClassificationResidualErrorMulticlass :
    spec_float -> spec_float -> Z -> Z -> spec_float;
  ComputeClassificationSingleCaseLogLossBinaryclass :
    spec_float -> Z -> spec_float;
  (** sumExp, the scores of the case (the function is handed a pointer to
      the first of them), the target *)
  ComputeClassificationSingleCaseLogLossMulticlass :
    spec_float -> list spec_float -> Z -> spec_float
}.

(** ** Data model *)

Record Feature := { m_cStates : Z }.

#[global] Instance Feature_inhabited : Inhabited Feature :=
  populate {| m_cStates := 0 |}.

Record FeatureCombination := {
  m_cFeatures : Z;
  m_iInputData : Z;
  m_cItemsPerBitPackDataUnit : Z;
  m_FeatureCombinationEntry : list Feature
}.

Record DataSetByFeatureCombination := {
  m_cCases : Z;
  m_aResidualErrors : list spec_float;
  m_aPredictionScores : list spec_float;
  m_aTargetData : list Z;
  m_aaInputData : list (list Z)
}.

(** The [cVectorLength] values of a buffer from [p] on. *)
Definition CaseScores (a : list spec_float) (p cVectorLength : Z) : list spec_float :=
  take (Z.to_nat cVectorLength) (drop (Z.to_nat p) a).

Definition GetCountCases (d : DataSetByFeatureCombination) : Z := m_cCases d.

Definition GetDataPointer (d : DataSetByFeatureCombination)
    (pFeatureCombination : FeatureCombination) : list Z :=
  load (m_aaInputData d) (m_iInputData pFeatureCombination).

(** The local variables the body of a pass works on: the moving pointers,
    the buffers they point into, and the running sum of the validation pass
    ([rootMeanSquareError] or [sumLogLoss]).  The pointer [pInputData] into
    the packed column belongs to the loop around the body and is kept
    beside the cursor. *)
Record Cursor := {
  pResidualError : Z;
  pPredictionScores : Z;
  pTargetData : Z;
  aResidualErrors : list spec_float;
  aPredictionScores : list spec_float;
  sumMetric : spec_float
}.

Definition start (d : DataSetByFeatureCombination) : Cursor :=
  {| pResidualError := 0; pPredictionScores := 0; pTargetData := 0;
     aResidualErrors := m_aResidualErrors d;
     aPredictionScores := m_aPredictionScores d;
     sumMetric := fzero |}.

Definition finish (d : DataSetByFeatureCombination) (s : Cursor)
  : DataSetByFeatureCombination :=
  {| m_cCases := m_cCases d;
     m_aResidualErrors := aResidualErrors s;
     m_aPredictionScores := aPredictionScores s;
     m_aTargetData := m_aTargetData d;
     m_aaInputData := m_aaInputData d |}.

Definition write_residual (s : Cursor) (p : Z) (v : spec_float) : Cursor :=
  {| pResidualError := pResidualError s;
     pPredictionScores := pPredictionScores s; pTargetData := pTargetData s;
     aResidualErrors := store (aResidualErrors s) p v;
     aPredictionScores := aPredictionScores s; sumMetric := sumMetric s |}.

Definition write_score (s : Cursor) (p : Z) (v : spec_float) : Cursor :=
  {| pResidualError := pResidualError s;
     pPredictionScores := pPredictionScores s; pTargetData := pTargetData s;
     aResidualErrors := aResidualErrors s;
     aPredictionScores := store (aPredictionScores s) p v;
     sumMetric := sumMetric s |}.

Definition move (s : Cursor) (dResidual dScores dTarget : Z) : Cursor :=
  {| pResidualError := pResidualError s + dResidual;
     pPredictionScores := pPredictionScores s + dScores;
     pTargetData := pTargetData s + dTarget;
     aResidualErrors := aResidualErrors s;
     aPredictionScores := aPredictionScores s; sumMetric := sumMetric s |}.

Definition add_metric (s : Cursor) (v : spec_float) : Cursor :=
  {| pResidualError := pResidualError s;
     pPredictionScores := pPredictionScores s; pTargetData := pTargetData s;
     aResidualErrors := aResidualErrors s;
     aPredictionScores := aPredictionScores s;
     sumMetric := fadd (sumMetric s) v |}.

(** Trip count of [i = 0; do { ...; ++i; } while (i < n)]. *)
Definition do_while_count (n : Z) : nat := Z.to_nat (Z.max 1 n).

(** [std::numeric_limits<size_t>::max()] of a 64-bit [size_t]. *)
Definition size_t_max : Z := 2 ^ 64 - 1.

(** ** The bit-packed loop

    The four loops over a packed input column (training and validation,
    regression and classification) are the same statement around four
    different bodies:
<<
      while(p < pLast) {
         cItemsRemaining = cItemsPerBitPackDataUnit;
      one_last_loop:;
         size_t iBinCombined = static_cast<size_t>( *pInputData);
         ++pInputData;
         do {
            const size_t iBin = maskBits & iBinCombined;
            ... one case ...
            iBinCombined >>= cBitsPerItemMax;
            --cItemsRemaining;
         } while(0 != cItemsRemaining);
      }
      pEnd = pLast + cVectorLength * cItemsPerBitPackDataUnit;
      if(p < pEnd) {
         cItemsRemaining = (pEnd - p) / cVectorLength;
         goto one_last_loop;
      }
>>
    The jump enters the body of the [while], so after the last block the
    [while] test and then the [if] are evaluated again. *)
Section BitPackedLoop.
(** the body for one case, given its bin *)
Variable item : Z -> Cursor -> Cursor.
(** the pointer the loop tests *)
Variable p : Cursor -> Z.
Variable aInputData : list Z.
Variables cItemsPerBitPackDataUnit cBitsPerItemMax maskBits cVectorLength : Z.

(** The inner [do ... while(0 != cItemsRemaining)].  The source enters it
    with [0 < cItemsRemaining] only (it asserts so at the jump). *)
Fixpoint DoItems (cItemsRemaining : nat) (iBinCombined : Z) (s : Cursor) : Cursor :=
  match cItemsRemaining with
  | O => s
  | S n =>
      let iBin := Z.land maskBits iBinCombined in
      DoItems n (Z.shiftr iBinCombined cBitsPerItemMax) (item iBin s)
  end.

(** From the label [one_last_loop] to the end of the [while] body. *)
Definition OneBlock (cItemsRemaining : Z) (ps : Z * Cursor) : Z * Cursor :=
  let '(pInputData, s) := ps in
  let iBinCombined := load aInputData pInputData in
  (pInputData + 1, DoItems (Z.to_nat cItemsRemaining) iBinCombined s).

(** The loop starts at the first word of the column. *)
Definition BitPackedLoop (fuel : nat) (pLast : Z) (s : Cursor) : option Cursor :=
  let pEnd := pLast + cVectorLength * cItemsPerBitPackDataUnit in
  snd <$>
    while_ fuel
      (fun ps => (p (snd ps) <? pLast) || (p (snd ps) <? pEnd))
      (fun ps =>
         if p (snd ps) <? pLast then OneBlock cItemsPerBitPackDataUnit ps
         else OneBlock ((pEnd - p (snd ps)) / cVectorLength) ps)
      (0, s).
End BitPackedLoop.

(** ** The training-set pass and the validation-set pass *)
Section Passes.
Context `{BuildConfig} `{EbmStatistics}.
Variable countCompilerClassificationTargetStates : CompilerTargetStates.
Variable aModelUpdateTensor : list spec_float.
Variable aTargetData : list Z.
Variable cVectorLength : Z.

(** *** One case of the training-set pass *)

(** The first inner loop of the multiclass branch: add the update to the
    scores of the case and sum their exponentials. *)
Fixpoint TrainingScoresMulticlass (n : nat) (iVector1 : Z) (pValues : Z)
    (s : Cursor) (sumExp : spec_float) : Cursor * spec_float :=
  match n with
  | O => (s, sumExp)
  | S n' =>
      let smallChangeToPredictionScores := load aModelUpdateTensor (pValues + iVector1) in
      let trainingPredictionScores :=
        fadd (load (aPredictionScores s) (pPredictionScores s + iVector1))
             smallChangeToPredictionScores in
      let s := write_score s (pPredictionScores s + iVector1) trainingPredictionScores in
      TrainingScoresMulticlass n' (iVector1 + 1) pValues s
        (fadd sumExp (exp trainingPredictionScores))
  end.

(** The second inner loop: one residual per class. *)
Fixpoint TrainingResidualsMulticlass (n : nat) (iVector2 : Z)
    (sumExp : spec_float) (targetData : Z) (s : Cursor) : Cursor :=
  match n with
  | O => s
  | S n' =>
      let residualError :=
        ComputeClassificationResidualErrorMulticlass sumExp
          (load (aPredictionScores s) (pPredictionScores s + iVector2))
          targetData iVector2 in
      let s := move (write_residual s (pResidualError s) residualError) 1 0 0 in
      TrainingResidualsMulticlass n' (iVector2 + 1) sumExp targetData s
  end.

Definition TrainingCase (iBin : Z) (s : Cursor) : Cursor :=
  if IsRegression countCompilerClassificationTargetStates then
    let smallChangeToPrediction := load aModelUpdateTensor (iBin * cVectorLength) in
    let residualError :=
      ComputeRegressionResidualError
        (fsub (load (aResidualErrors s) (pResidualError s)) smallChangeToPrediction) in
    move (write_residual s (pResidualError s) residualError) 1 0 0
  else
    let targetData := load aTargetData (pTargetData s) in
    let pValues := iBin * cVectorLength in
    let s :=
      if IsBinaryClassification countCompilerClassificationTargetStates then
        let smallChangeToPredictionScores := load aModelUpdateTensor pValues in
        let trainingPredictionScore :=
          fadd (load (aPredictionScores s) (pPredictionScores s))
               smallChangeToPredictionScores in
        let s := write_score s (pPredictionScores s) trainingPredictionScore in
        let residualError :=
          ComputeClassificationResidualErrorBinaryclass trainingPredictionScore targetData in
        move (write_residual s (pResidualError s) residualError) 1 0 0
      else
        let '(s, sumExp) :=
          TrainingScoresMulticlass (do_while_count cVectorLength) 0 pValues s fzero in
        let s :=
          TrainingResidualsMulticlass (do_while_count cVectorLength) 0 sumExp targetData s in
        if 0 <=? k_iZeroResidual then
          write_residual s (pResidualError s + (k_iZeroResidual - cVectorLength)) fzero
        else s in
    move s 0 cVectorLength 1.

(** *** One case of the validation-set pass *)

Fixpoint ValidationScoresMulticlass (n : nat) (iVector : Z) (pValues : Z)
    (s : Cursor) (sumExp : spec_float) : Cursor * spec_float :=
  match n with
  | O => (s, sumExp)
  | S n' =>
      let smallChangeToPredictionScores := load aModelUpdateTensor (pValues + iVector) in
      let validationPredictionScores :=
        fadd (load (aPredictionScores s) (pPredictionScores s))
             smallChangeToPredictionScores in
      let s := write_score s (pPredictionScores s) validationPredictionScores in
      ValidationScoresMulticlass n' (iVector + 1) pValues (move s 0 1 0)
        (fadd sumExp (exp validationPredictionScores))
  end.

Definition ValidationCase (iBin : Z) (s : Cursor) : Cursor :=
  if IsRegression countCompilerClassificationTargetStates then
    let smallChangeToPrediction := load aModelUpdateTensor (iBin * cVectorLength) in
    let residualError :=
      ComputeRegressionResidualError
        (fsub (load (aResidualErrors s) (pResidualError s)) smallChangeToPrediction) in
    let s := add_metric s (fmul residualError residualError) in
    move (write_residual s (pResidualError s) residualError) 1 0 0
  else
    let targetData := load aTargetData (pTargetData s) in
    let pValues := iBin * cVectorLength in
    let s :=
      if IsBinaryClassification countCompilerClassificationTargetStates then
        let smallChangeToPredictionScores := load aModelUpdateTensor pValues in
        let validationPredictionScores :=
          fadd (load (aPredictionScores s) (pPredictionScores s))
               smallChangeToPredictionScores in
        let s := write_score s (pPredictionScores s) validationPredictionScores in
        let s :=
          add_metric s
            (ComputeClassificationSingleCaseLogLossBinaryclass
               validationPredictionScores targetData) in
        move s 0 1 0
      else
        let '(s, sumExp) :=
          ValidationScoresMulticlass (do_while_count cVectorLength) 0 pValues s fzero in
        add_metric s
          (ComputeClassificationSingleCaseLogLossMulticlass sumExp
             (CaseScores (aPredictionScores s)
                (pPredictionScores s - cVectorLength) cVectorLength)
             targetData) in
    move s 0 0 1.
End Passes.

Section Loops.
Context `{BuildConfig} `{EbmStatistics}.

(** [cTargetBits], as chosen by the ladders of [TrainingSetInputFeatureLoop]
    and [ValidationSetInputFeatureLoop]. *)
Definition TargetBits (cTargetStates : Z) : Z :=
  if cTargetStates <=? 2 ^ 1 then 1
  else if cTargetStates <=? 2 ^ 2 then 2
  else if cTargetStates <=? 2 ^ 4 then 4
  else if cTargetStates <=? 2 ^ 8 then 8
  else if cTargetStates <=? 2 ^ 16 then 16
  else if cTargetStates <=? 2 ^ 32 then 32
  else 64.

Definition maskBitsOf (cBitsPerItemMax : Z) : Z :=
  Z.shiftr size_t_max (k_cBitsForStorageType - cBitsPerItemMax).

Definition TrainingSetTargetFeatureLoop (cInputBits cTargetBits : Z)
    (countCompilerClassificationTargetStates : CompilerTargetStates)
    (pFeatureCombination : FeatureCombination)
    (pTrainingSet : DataSetByFeatureCombination)
    (aModelUpdateTensor : list spec_float) (cTargetStates : Z)
  : option DataSetByFeatureCombination :=
  let cVectorLength :=
    GET_VECTOR_LENGTH countCompilerClassificationTargetStates cTargetStates in
  let cCases := GetCountCases pTrainingSet in
  let case_ :=
    TrainingCase countCompilerClassificationTargetStates aModelUpdateTensor
      (m_aTargetData pTrainingSet) cVectorLength in
  if m_cFeatures pFeatureCombination =? 0 then
    let pResidualErrorEnd := 0 + cVectorLength * cCases in
    finish pTrainingSet <$>
      while_ (loop_fuel cCases)
        (fun s => negb (pResidualErrorEnd =? pResidualError s))
        (case_ 0) (start pTrainingSet)
  else
    let cItemsPerBitPackDataUnit := m_cItemsPerBitPackDataUnit pFeatureCombination in
    let cBitsPerItemMax := GetCountBits cItemsPerBitPackDataUnit in
    let maskBits := maskBitsOf cBitsPerItemMax in
    let pLast := 0 + cVectorLength * (cCases - cItemsPerBitPackDataUnit) in
    finish pTrainingSet <$>
      BitPackedLoop case_ pResidualError
        (GetDataPointer pTrainingSet pFeatureCombination)
        cItemsPerBitPackDataUnit cBitsPerItemMax maskBits cVectorLength
        (loop_fuel cCases) pLast (start pTrainingSet).

Definition TrainingSetInputFeatureLoop (cInputBits : Z)
    (countCompilerClassificationTargetStates : CompilerTargetStates)
    (pFeatureCombination : FeatureCombination)
    (pTrainingSet : DataSetByFeatureCombination)
    (aModelUpdateTensor : list spec_float) (cTargetStates : Z)
  : option DataSetByFeatureCombination :=
  TrainingSetTargetFeatureLoop cInputBits (TargetBits cTargetStates)
    countCompilerClassificationTargetStates pFeatureCombination pTrainingSet
    aModelUpdateTensor cTargetStates.

Definition ValidationSetTargetFeatureLoop (cInputBits cTargetBits : Z)
    (countCompilerClassificationTargetStates : CompilerTargetStates)
    (pFeatureCombination : FeatureCombination)
    (pValidationSet : DataSetByFeatureCombination)
    (aModelUpdateTensor : list spec_float) (cTargetStates : Z)
  : option (DataSetByFeatureCombination * spec_float) :=
  let cVectorLength :=
    GET_VECTOR_LENGTH countCompilerClassificationTargetStates cTargetStates in
  let cCases := GetCountCases pValidationSet in
  let case_ :=
    ValidationCase countCompilerClassificationTargetStates aModelUpdateTensor
      (m_aTargetData pValidationSet) cVectorLength in
  let rmse (s : Cursor) :=
    (finish pValidationSet s,
     fsqrt (fdiv (sumMetric s) (of_size_t (GetCountCases pValidationSet)))) in
  let logloss (s : Cursor) := (finish pValidationSet s, sumMetric s) in
  if m_cFeatures pFeatureCombination =? 0 then
    if IsRegression countCompilerClassificationTargetStates then
      let pResidualErrorEnd := 0 + cCases in
      rmse <$>
        while_ (loop_fuel cCases)
          (fun s => negb (pResidualErrorEnd =? pResidualError s))
          (case_ 0) (start pValidationSet)
    else
      let pValidationPredictionEnd := 0 + cVectorLength * cCases in
      logloss <$>
        while_ (loop_fuel cCases)
          (fun s => negb (pValidationPredictionEnd =? pPredictionScores s))
          (case_ 0) (start pValidationSet)
  else
    let cItemsPerBitPackDataUnit := m_cItemsPerBitPackDataUnit pFeatureCombination in
    let cBitsPerItemMax := GetCountBits cItemsPerBitPackDataUnit in
    let maskBits := maskBitsOf cBitsPerItemMax in
    let aInputData := GetDataPointer pValidationSet pFeatureCombination in
    if IsRegression countCompilerClassificationTargetStates then
      let pLast := 0 + (cCases - cItemsPerBitPackDataUnit) in
      rmse <$>
        BitPackedLoop case_ pResidualError aInputData
          cItemsPerBitPackDataUnit cBitsPerItemMax maskBits cVectorLength
          (loop_fuel cCases) pLast (start pValidationSet)
    else
      let pLast := 0 + cVectorLength * (cCases - cItemsPerBitPackDataUnit) in
      logloss <$>
        BitPackedLoop case_ pPredictionScores aInputData
          cItemsPerBitPackDataUnit cBitsPerItemMax maskBits cVectorLength
          (loop_fuel cCases) pLast (start pValidationSet).

Definition ValidationSetInputFeatureLoop (cInputBits : Z)
    (countCompilerClassificationTargetStates : CompilerTargetStates)
    (pFeatureCombination : FeatureCombination)
    (pValidationSet : DataSetByFeatureCombination)
    (aModelUpdateTensor : list spec_float) (cTargetStates : Z)
  : option (DataSetByFeatureCombination * spec_float) :=
  ValidationSetTargetFeatureLoop cInputBits (TargetBits cTargetStates)
    countCompilerClassificationTargetStates pFeatureCombination pValidationSet
    aModelUpdateTensor cTargetStates.
End Loops.

(** ** The collaborators of the drivers *)

(** [SegmentedTensor<ActiveDataType, FractionalDataType>] (SegmentedTensor.h).
    A member function that changes its object returns the object after the
    call; one that can fail returns its error flag first. *)
Class SegmentedTensorOps := {
  SegmentedTensor : Type;
  Allocate : Z -> Z -> option SegmentedTensor;
  SetCountDimensions : SegmentedTensor -> Z -> SegmentedTensor;
  Reset : SegmentedTensor -> SegmentedTensor;
  Add : SegmentedTensor -> SegmentedTensor -> bool * SegmentedTensor;
  Multiply : SegmentedTensor -> spec_float -> SegmentedTensor;
  Expand : SegmentedTensor -> list Z -> bool * SegmentedTensor;
  Copy : SegmentedTensor -> SegmentedTensor -> bool * SegmentedTensor;
  AddExpanded : SegmentedTensor -> list spec_float -> SegmentedTensor;
  (** the value buffer, [m_aValues] and [GetValuePointer()] *)
  m_aValues : SegmentedTensor -> list spec_float
}.

(** The tree learners of DimensionSingle.h and DimensionMultiple.h, and the
    sampling sets they read.  Each returns its error flag and the tensor it
    wrote into [pSmallChangeToModelOverwriteSingleSamplingSet];
    [TrainSingleDimensional] also returns what it left in [*pTotalGain].
    The cached thread resources they use as scratch memory are left out. *)
Class TreeLearners `{SegmentedTensorOps} := {
  SamplingMethod : Type;
  TrainZeroDimensional :
    CompilerTargetStates -> SamplingMethod -> SegmentedTensor -> Z ->
    bool * SegmentedTensor;
  TrainSingleDimensional :
    CompilerTargetStates -> SamplingMethod -> FeatureCombination -> Z -> Z ->
    SegmentedTensor -> Z -> bool * SegmentedTensor * spec_float;
  TrainMultiDimensional :
    CompilerTargetStates -> SamplingMethod -> FeatureCombination ->
    SegmentedTensor -> Z -> bool * SegmentedTensor
}.

(** The allocations of the constructor's initialiser list. *)
Class Allocators := {
  AllocateFeatureCombinations : Z -> option (list FeatureCombination);
  malloc_Features : Z -> option (list Feature)
}.

(** ** The training state *)

Record EbmTrainingState `{TreeLearners} := {
  m_bRegression : bool;
  m_cTargetStates : Z;
  m_cFeatureCombinations : Z;
  m_apFeatureCombinations : option (list FeatureCombination);
  m_pTrainingSet : option DataSetByFeatureCombination;
  m_pValidationSet : option DataSetByFeatureCombination;
  m_cSamplingSets : Z;
  m_apSamplingSets : option (list SamplingMethod);
  m_apCurrentModel : option (list SegmentedTensor);
  m_apBestModel : option (list SegmentedTensor);
  m_bestModelMetric : spec_float;
  m_pSmallChangeToModelOverwriteSingleSamplingSet : option SegmentedTensor;
  m_pSmallChangeToModelAccumulatedFromSamplingSets : option SegmentedTensor;
  (** [m_cFeatures] and [m_aFeatures] of the class *)
  m_cFeaturesOfState : Z;
  m_aFeatures : option (list Feature)
}.

Section Drivers.
Context `{BuildConfig} `{EbmStatistics} `{TreeLearners} `{Allocators}.

(** The constructor [EbmTrainingState::EbmTrainingState]. *)
Definition EbmTrainingState_new (bRegression : bool)
    (cTargetStates cFeatures cFeatureCombinations cSamplingSets : Z)
  : EbmTrainingState :=
  {| m_bRegression := bRegression;
     m_cTargetStates := cTargetStates;
     m_cFeatureCombinations := cFeatureCombinations;
     m_apFeatureCombinations :=
       if cFeatureCombinations =? 0 then None
       else AllocateFeatureCombinations cFeatureCombinations;
     m_pTrainingSet := None;
     m_pValidationSet := None;
     m_cSamplingSets := cSamplingSets;
     m_apSamplingSets := None;
     m_apCurrentModel := None;
     m_apBestModel := None;
     m_bestModelMetric := finfinity;
     m_pSmallChangeToModelOverwriteSingleSamplingSet :=
       Allocate k_cDimensionsMax (GetVectorLengthFlatCore cTargetStates);
     m_pSmallChangeToModelAccumulatedFromSamplingSets :=
       Allocate k_cDimensionsMax (GetVectorLengthFlatCore cTargetStates);
     m_cFeaturesOfState := cFeatures;
     m_aFeatures :=
       if cFeatures =? 0 then None else malloc_Features cFeatures |}.

(** Setters for the members the drivers assign. *)
Definition set_scratch (st : EbmTrainingState)
    (overwrite accumulated : option SegmentedTensor) : EbmTrainingState :=
  {| m_bRegression := m_bRegression st;
     m_cTargetStates := m_cTargetStates st;
     m_cFeatureCombinations := m_cFeatureCombinations st;
     m_apFeatureCombinations := m_apFeatureCombinations st;
     m_pTrainingSet := m_pTrainingSet st;
     m_pValidationSet := m_pValidationSet st;
     m_cSamplingSets := m_cSamplingSets st;
     m_apSamplingSets := m_apSamplingSets st;
     m_apCurrentModel := m_apCurrentModel st;
     m_apBestModel := m_apBestModel st;
     m_bestModelMetric := m_bestModelMetric st;
     m_pSmallChangeToModelOverwriteSingleSamplingSet := overwrite;
     m_pSmallChangeToModelAccumulatedFromSamplingSets := accumulated;
     m_cFeaturesOfState := m_cFeaturesOfState st;
     m_aFeatures := m_aFeatures st |}.

Definition set_training (st : EbmTrainingState)
    (apCurrentModel : list SegmentedTensor)
    (pTrainingSet pValidationSet : option DataSetByFeatureCombination)
  : EbmTrainingState :=
  {| m_bRegression := m_bRegression st;
     m_cTargetStates := m_cTargetStates st;
     m_cFeatureCombinations := m_cFeatureCombinations st;
     m_apFeatureCombinations := m_apFeatureCombinations st;
     m_pTrainingSet := pTrainingSet;
     m_pValidationSet := pValidationSet;
     m_cSamplingSets := m_cSamplingSets st;
     m_apSamplingSets := m_apSamplingSets st;
     m_apCurrentModel := Some apCurrentModel;
     m_apBestModel := m_apBestModel st;
     m_bestModelMetric := m_bestModelMetric st;
     m_pSmallChangeToModelOverwriteSingleSamplingSet :=
       m_pSmallChangeToModelOverwriteSingleSamplingSet st;
     m_pSmallChangeToModelAccumulatedFromSamplingSets :=
       m_pSmallChangeToModelAccumulatedFromSamplingSets st;
     m_cFeaturesOfState := m_cFeaturesOfState st;
     m_aFeatures := m_aFeatures st |}.

Definition set_best (st : EbmTrainingState) (bestModelMetric : spec_float)
    (apBestModel : list SegmentedTensor) : EbmTrainingState :=
  {| m_bRegression := m_bRegression st;
     m_cTargetStates := m_cTargetStates st;
     m_cFeatureCombinations := m_cFeatureCombinations st;
     m_apFeatureCombinations := m_apFeatureCombinations st;
     m_pTrainingSet := m_pTrainingSet st;
     m_pValidationSet := m_pValidationSet st;
     m_cSamplingSets := m_cSamplingSets st;
     m_apSamplingSets := m_apSamplingSets st;
     m_apCurrentModel := m_apCurrentModel st;
     m_apBestModel := Some apBestModel;
     m_bestModelMetric := bestModelMetric;
     m_pSmallChangeToModelOverwriteSingleSamplingSet :=
       m_pSmallChangeToModelOverwriteSingleSamplingSet st;
     m_pSmallChangeToModelAccumulatedFromSamplingSets :=
       m_pSmallChangeToModelAccumulatedFromSamplingSets st;
     m_cFeaturesOfState := m_cFeaturesOfState st;
     m_aFeatures := m_aFeatures st |}.

(** [*p = v] for a pointer that may be null: nothing is written through
    [nullptr]. *)
Definition assign {A} (p : option A) (v : A) : option A :=
  match p with Some _ => Some v | None => None end.

(** The template instance that
    [CompilerRecursiveGenerateModelFeatureCombinationUpdate<iPossible>] and
    [CompilerRecursiveApplyModelFeatureCombinationUpdate<iPossible>] end
    in; [n] counts the instances up to
    [k_cCompilerOptimizedTargetStatesMax + 1], whose specialisation is the
    dynamic one. *)
Fixpoint CompilerRecursive (n : nat) (iPossibleCompilerOptimizedTargetStates : Z)
    (cRuntimeTargetStates : Z) : CompilerTargetStates :=
  match n with
  | O => k_DynamicClassification
  | S n' =>
      if iPossibleCompilerOptimizedTargetStates =? cRuntimeTargetStates
      then k_Compiled iPossibleCompilerOptimizedTargetStates
      else CompilerRecursive n' (iPossibleCompilerOptimizedTargetStates + 1)
             cRuntimeTargetStates
  end.

Definition CompilerRecursiveFrom2 (cRuntimeTargetStates : Z) : CompilerTargetStates :=
  CompilerRecursive (Z.to_nat (k_cCompilerOptimizedTargetStatesMax + 1 - 2)) 2
    cRuntimeTargetStates.

(** [acDivisionIntegersEnd], filled by
    [do { ... ++iDimension; } while(iDimension < cDimensions)]. *)
Definition DivisionIntegersEnd (pFeatureCombination : FeatureCombination)
    (cDimensions : Z) : list Z :=
  (fun iDimension : nat =>
     m_cStates (load (m_FeatureCombinationEntry pFeatureCombination)
                     (Z.of_nat iDimension)))
  <$> seq 0 (do_while_count cDimensions).

(** *** Update generation *)

(** The body of [for(iSamplingSet = 0; iSamplingSet < cSamplingSetsAfterZero;
    ++iSamplingSet)], [n] iterations from [iSamplingSet] on.  The result is
    the error flag (the function returns [nullptr] when it is set), the two
    scratch tensors and [totalGain]. *)
Fixpoint SamplingSetLoop (n : nat) (iSamplingSet : Z)
    (countCompilerClassificationTargetStates : CompilerTargetStates)
    (apSamplingSets : list SamplingMethod)
    (pFeatureCombination : FeatureCombination)
    (cTreeSplitsMax cCasesRequiredForSplitParentMin cTargetStates : Z)
    (overwrite accumulated : SegmentedTensor) (totalGain : spec_float)
  : option (bool * SegmentedTensor * SegmentedTensor * spec_float) :=
  match n with
  | O => Some (false, overwrite, accumulated, totalGain)
  | S n' =>
      pSamplingSet ← apSamplingSets !! Z.to_nat iSamplingSet;
      let gain := fzero in
      let '(err, overwrite, gain) :=
        if m_cFeatures pFeatureCombination =? 0 then
          let '(err, t) :=
            TrainZeroDimensional countCompilerClassificationTargetStates
              pSamplingSet overwrite cTargetStates in
          (err, t, gain)
        else if m_cFeatures pFeatureCombination =? 1 then
          TrainSingleDimensional countCompilerClassificationTargetStates
            pSamplingSet pFeatureCombination cTreeSplitsMax
            cCasesRequiredForSplitParentMin overwrite cTargetStates
        else
          let '(err, t) :=
            TrainMultiDimensional countCompilerClassificationTargetStates
              pSamplingSet pFeatureCombination overwrite cTargetStates in
          (err, t, gain) in
      if err then Some (true, overwrite, accumulated, totalGain)
      else
        let totalGain := fadd totalGain gain in
        let '(err, accumulated) := Add accumulated overwrite in
        if err then Some (true, overwrite, accumulated, totalGain)
        else
          SamplingSetLoop n' (iSamplingSet + 1)
            countCompilerClassificationTargetStates apSamplingSets
            pFeatureCombination cTreeSplitsMax
            cCasesRequiredForSplitParentMin cTargetStates
            overwrite accumulated totalGain
  end.

(** The factor of the [Multiply] call: [learningRate /
    cSamplingSetsAfterZero / 2] when [bDividing], and [learningRate /
    cSamplingSetsAfterZero] otherwise. *)
Definition UpdateFactor
    (countCompilerClassificationTargetStates : CompilerTargetStates)
    (learningRate : spec_float) (cSamplingSetsAfterZero : Z) : spec_float :=
  if IsClassification countCompilerClassificationTargetStates then
    let bDividing :=
      bExpandBinaryLogits &&
      match countCompilerClassificationTargetStates with
      | k_Compiled n => 2 =? n
      | _ => false
      end in
    if bDividing then
      fdiv (fdiv learningRate (of_size_t cSamplingSetsAfterZero)) (of_size_t 2)
    else fdiv learningRate (of_size_t cSamplingSetsAfterZero)
  else fdiv learningRate (of_size_t cSamplingSetsAfterZero).

(** The result is the state after the call, the returned pointer ([None]
    is [nullptr]; otherwise the value buffer it points to) and the cell
    behind [pGainReturn]. *)
Definition GenerateModelFeatureCombinationUpdatePerTargetStates
    (countCompilerClassificationTargetStates : CompilerTargetStates)
    (pEbmTrainingState : EbmTrainingState) (iFeatureCombination : Z)
    (learningRate : spec_float)
    (cTreeSplitsMax cCasesRequiredForSplitParentMin : Z)
    (pGainReturn : option spec_float)
  : option (EbmTrainingState * option (list spec_float) * option spec_float) :=
  let pGainReturn := assign pGainReturn fzero in
  let cSamplingSetsAfterZero :=
    if m_cSamplingSets pEbmTrainingState =? 0 then 1
    else m_cSamplingSets pEbmTrainingState in
  apFeatureCombinations ← m_apFeatureCombinations pEbmTrainingState;
  pFeatureCombination ← apFeatureCombinations !! Z.to_nat iFeatureCombination;
  let cDimensions := m_cFeatures pFeatureCombination in
  accumulated ← m_pSmallChangeToModelAccumulatedFromSamplingSets pEbmTrainingState;
  let accumulated := Reset (SetCountDimensions accumulated cDimensions) in
  let totalGain := fzero in
  let failed overwrite accumulated :=
    Some (set_scratch pEbmTrainingState overwrite (Some accumulated),
          None, pGainReturn) in
  let finish_ overwrite accumulated totalGain :=
    let '(err, accumulated) :=
      if negb (cDimensions =? 0) then
        Expand accumulated (DivisionIntegersEnd pFeatureCombination cDimensions)
      else (false, accumulated) in
    if err then failed overwrite accumulated
    else
      Some (set_scratch pEbmTrainingState overwrite (Some accumulated),
            Some (m_aValues accumulated), assign pGainReturn totalGain) in
  match m_apSamplingSets pEbmTrainingState with
  | Some apSamplingSets =>
      overwrite ← m_pSmallChangeToModelOverwriteSingleSamplingSet pEbmTrainingState;
      let overwrite := SetCountDimensions overwrite cDimensions in
      match
        SamplingSetLoop (Z.to_nat cSamplingSetsAfterZero) 0
          countCompilerClassificationTargetStates apSamplingSets
          pFeatureCombination cTreeSplitsMax cCasesRequiredForSplitParentMin
          (m_cTargetStates pEbmTrainingState) overwrite accumulated totalGain
      with
      | None => None
      | Some (true, overwrite, accumulated, _) =>
          failed (Some overwrite) accumulated
      | Some (false, overwrite, accumulated, totalGain) =>
          let totalGain := fdiv totalGain (of_size_t cSamplingSetsAfterZero) in
          let accumulated :=
            Multiply accumulated
              (UpdateFactor countCompilerClassificationTargetStates
                 learningRate cSamplingSetsAfterZero) in
          finish_ (Some overwrite) accumulated totalGain
      end
  | None =>
      finish_ (m_pSmallChangeToModelOverwriteSingleSamplingSet pEbmTrainingState)
        accumulated totalGain
  end.

Definition IsNumberConvertable_size_t (c : Z) : bool :=
  (0 <=? c) && (c <=? size_t_max).

Definition GenerateModelFeatureCombinationUpdate
    (ebmTraining : EbmTrainingState) (indexFeatureCombination : Z)
    (learningRate : spec_float)
    (countTreeSplitsMax countCasesRequiredForSplitParentMin : Z)
    (gainReturn : option spec_float)
  : option (EbmTrainingState * option (list spec_float) * option spec_float) :=
  let pEbmTrainingState := ebmTraining in
  let iFeatureCombination := indexFeatureCombination in
  let cTreeSplitsMax :=
    if IsNumberConvertable_size_t countTreeSplitsMax then countTreeSplitsMax
    else size_t_max in
  let cCasesRequiredForSplitParentMin :=
    if IsNumberConvertable_size_t countCasesRequiredForSplitParentMin
    then countCasesRequiredForSplitParentMin else size_t_max in
  if m_bRegression pEbmTrainingState then
    GenerateModelFeatureCombinationUpdatePerTargetStates k_Regression
      pEbmTrainingState iFeatureCombination learningRate cTreeSplitsMax
      cCasesRequiredForSplitParentMin gainReturn
  else
    let cTargetStates := m_cTargetStates pEbmTrainingState in
    if cTargetStates <=? 1 then
      Some (pEbmTrainingState, None, assign gainReturn fzero)
    else
      GenerateModelFeatureCombinationUpdatePerTargetStates
        (CompilerRecursiveFrom2 cTargetStates)
        pEbmTrainingState iFeatureCombination learningRate cTreeSplitsMax
        cCasesRequiredForSplitParentMin gainReturn.

(** *** Update application *)

(** The commit loop [do { ... ++iModel; } while(iModel != iModelEnd)], [n]
    iterations from [iModel] on.  The result is the error flag of the
    first failing [Copy], if any, and [m_apBestModel] afterwards. *)
Fixpoint CopyModels (n : nat) (iModel : Z)
    (apBestModel apCurrentModel : list SegmentedTensor)
  : option (bool * list SegmentedTensor) :=
  match n with
  | O => Some (false, apBestModel)
  | S n' =>
      pBest ← apBestModel !! Z.to_nat iModel;
      pCurrent ← apCurrentModel !! Z.to_nat iModel;
      let '(err, pBest) := Copy pBest pCurrent in
      let apBestModel := store apBestModel iModel pBest in
      if err then Some (true, apBestModel)
      else CopyModels n' (iModel + 1) apBestModel apCurrentModel
  end.

(** The result is the state after the call, the returned status and the
    cell behind [pValidationMetricReturn]. *)
Definition ApplyModelFeatureCombinationUpdatePerTargetStates
    (countCompilerClassificationTargetStates : CompilerTargetStates)
    (pEbmTrainingState : EbmTrainingState) (iFeatureCombination : Z)
    (aModelUpdateTensor : list spec_float)
    (pValidationMetricReturn : option spec_float)
  : option (EbmTrainingState * Z * option spec_float) :=
  apCurrentModel ← m_apCurrentModel pEbmTrainingState;
  pCurrentModel ← apCurrentModel !! Z.to_nat iFeatureCombination;
  let apCurrentModel :=
    store apCurrentModel iFeatureCombination
      (AddExpanded pCurrentModel aModelUpdateTensor) in
  apFeatureCombinations ← m_apFeatureCombinations pEbmTrainingState;
  pFeatureCombination ← apFeatureCombinations !! Z.to_nat iFeatureCombination;
  pTrainingSet ←
    match m_pTrainingSet pEbmTrainingState with
    | Some pTrainingSet =>
        Some <$>
          TrainingSetInputFeatureLoop 1 countCompilerClassificationTargetStates
            pFeatureCombination pTrainingSet aModelUpdateTensor
            (m_cTargetStates pEbmTrainingState)
    | None => Some None
    end;
  let modelMetric := fzero in
  match m_pValidationSet pEbmTrainingState with
  | Some pValidationSet =>
      match
        ValidationSetInputFeatureLoop 1 countCompilerClassificationTargetStates
          pFeatureCombination pValidationSet aModelUpdateTensor
          (m_cTargetStates pEbmTrainingState)
      with
      | None => None
      | Some (pValidationSet, modelMetric) =>
          let st :=
            set_training pEbmTrainingState apCurrentModel pTrainingSet
              (Some pValidationSet) in
          if flt modelMetric (m_bestModelMetric pEbmTrainingState) then
            apBestModel ← m_apBestModel pEbmTrainingState;
            let iModelEnd := m_cFeatureCombinations pEbmTrainingState in
            match CopyModels (Z.to_nat iModelEnd) 0 apBestModel apCurrentModel with
            | None => None
            | Some (true, apBestModel) =>
                Some (set_best st modelMetric apBestModel, 1,
                      assign pValidationMetricReturn fzero)
            | Some (false, apBestModel) =>
                Some (set_best st modelMetric apBestModel, 0,
                      assign pValidationMetricReturn modelMetric)
            end
          else Some (st, 0, assign pValidationMetricReturn modelMetric)
      end
  | None =>
      Some (set_training pEbmTrainingState apCurrentModel pTrainingSet None,
            0, assign pValidationMetricReturn modelMetric)
  end.

(** [modelUpdateTensor] is [None] for [nullptr]. *)
Definition ApplyModelFeatureCombinationUpdate
    (ebmTraining : EbmTrainingState) (indexFeatureCombination : Z)
    (modelUpdateTensor : option (list spec_float))
    (validationMetricReturn : option spec_float)
  : option (EbmTrainingState * Z * option spec_float) :=
  let pEbmTrainingState := ebmTraining in
  let iFeatureCombination := indexFeatureCombination in
  match modelUpdateTensor with
  | None => Some (pEbmTrainingState, 0, assign validationMetricReturn fzero)
  | Some modelUpdateTensor =>
      if m_bRegression pEbmTrainingState then
        ApplyModelFeatureCombinationUpdatePerTargetStates k_Regression
          pEbmTrainingState iFeatureCombination modelUpdateTensor
          validationMetricReturn
      else
        let cTargetStates := m_cTargetStates pEbmTrainingState in
        if cTargetStates <=? 1 then
          Some (pEbmTrainingState, 0, assign validationMetricReturn fzero)
        else
          ApplyModelFeatureCombinationUpdatePerTargetStates
            (CompilerRecursiveFrom2 cTargetStates)
            pEbmTrainingState iFeatureCombination modelUpdateTensor
            validationMetricReturn
  end.

(** *** The training step *)

(** [gain] is a local the step never reads; the cell behind [&gain] starts
    with an arbitrary content, here [fzero]. *)
Definition TrainingStep
    (ebmTraining : EbmTrainingState) (indexFeatureCombination : Z)
    (learningRate : spec_float)
    (countTreeSplitsMax countCasesRequiredForSplitParentMin : Z)
    (validationMetricReturn : option spec_float)
  : option (EbmTrainingState * Z * option spec_float) :=
  let pEbmTrainingState := ebmTraining in
  if negb (m_bRegression pEbmTrainingState)
     && (m_cTargetStates pEbmTrainingState <=? 1)
  then Some (pEbmTrainingState, 0, assign validationMetricReturn fzero)
  else
    match
      GenerateModelFeatureCombinationUpdate ebmTraining
        indexFeatureCombination learningRate countTreeSplitsMax
        countCasesRequiredForSplitParentMin (Some fzero)
    with
    | None => None
    | Some (ebmTraining, None, _) =>
        Some (ebmTraining, 1, validationMetricReturn)
    | Some (ebmTraining, Some pModelUpdateTensor, _) =>
        ApplyModelFeatureCombinationUpdate ebmTraining
          indexFeatureCombination (Some pModelUpdateTensor)
          validationMetricReturn
    end.
End Drivers.

(** ** The packing of an input column

    Modelled from the spec: the bit-packing of the inputs is done by the
    constructor of [DataSetByFeatureCombination], which is not part of the
    sources at hand.  Section 4.1 and scenario 6 of section 8 fix the layout:
    a word holds the bins of [P] consecutive cases, [B] bits each, the first
    case in the lowest bits ("given P=4, B=2 and word 0b11_10_01_00,
    iterator yields 0,1,2,3"); the last word holds the remaining cases. *)
Fixpoint pack_word (B : Z) (bins : list Z) : Z :=
  match bins with
  | [] => 0
  | b :: rest => Z.lor b (Z.shiftl (pack_word B rest) B)
  end.

Fixpoint pack_words (cWords : nat) (P : nat) (B : Z) (bins : list Z) : list Z :=
  match cWords with
  | O => []
  | S n => pack_word B (take P bins) :: pack_words n P B (drop P bins)
  end.

Definition pack (P B : Z) (bins : list Z) : list Z :=
  pack_words (Z.to_nat ((Z.of_nat (length bins) + P - 1) / P)) (Z.to_nat P) B bins.

(** The bin the loop extracts for case [i] of a packed column. *)
Definition BinOfCase (aInputData : list Z)
    (cItemsPerBitPackDataUnit cBitsPerItemMax maskBits : Z) (i : Z) : Z :=
  Z.land maskBits
    (Z.shiftr (load aInputData (i / cItemsPerBitPackDataUnit))
       (cBitsPerItemMax * (i mod cItemsPerBitPackDataUnit))).

(** What a loop over a packed column does with case [i]: the body [item],
    run on the bin extracted for the case. *)
Definition Visit (item : Z -> Cursor -> Cursor) (aInputData : list Z)
    (P B maskBits : Z) (s : Cursor) (i : nat) : Cursor :=
  item (BinOfCase aInputData P B maskBits (Z.of_nat i)) s.

Section PassFolds.
Context `{BuildConfig} `{EbmStatistics}.

(** The bin of case [i] as the pass sees it: bin 0 for a combination
    without features, the bin extracted from the packed column otherwise. *)
Definition BinOf (pFeatureCombination : FeatureCombination)
    (d : DataSetByFeatureCombination) (i : nat) : Z :=
  if m_cFeatures pFeatureCombination =? 0 then 0
  else
    let P := m_cItemsPerBitPackDataUnit pFeatureCombination in
    BinOfCase (GetDataPointer d pFeatureCombination) P (GetCountBits P)
      (maskBitsOf (GetCountBits P)) (Z.of_nat i).

(** A data set and a feature combination a pass can run on. *)
Definition pass_ready (cc : CompilerTargetStates) (cTargetStates : Z)
    (pFeatureCombination : FeatureCombination)
    (d : DataSetByFeatureCombination) : Prop :=
  1 <= GET_VECTOR_LENGTH cc cTargetStates
  /\ 0 <= m_cCases d
  /\ (m_cFeatures pFeatureCombination <> 0 ->
      1 <= m_cItemsPerBitPackDataUnit pFeatureCombination
      /\ 0 <= GetCountBits (m_cItemsPerBitPackDataUnit pFeatureCombination)).

(** The cursor after the per-case body of the training-set pass has run
    on every case in order, each with its bin. *)
Definition TrainingFold (cc : CompilerTargetStates) (cTargetStates : Z)
    (fc : FeatureCombination) (d : DataSetByFeatureCombination)
    (U : list spec_float) : Cursor :=
  fold_left
    (fun s i =>
       TrainingCase cc U (m_aTargetData d)
         (GET_VECTOR_LENGTH cc cTargetStates) (BinOf fc d i) s)
    (seq 0 (Z.to_nat (m_cCases d))) (start d).

(** The same for the validation-set pass. *)
Definition ValidationFold (cc : CompilerTargetStates) (cTargetStates : Z)
    (fc : FeatureCombination) (d : DataSetByFeatureCombination)
    (U : list spec_float) : Cursor :=
  fold_left
    (fun s i =>
       ValidationCase cc U (m_aTargetData d)
         (GET_VECTOR_LENGTH cc cTargetStates) (BinOf fc d i) s)
    (seq 0 (Z.to_nat (m_cCases d))) (start d).
End PassFolds.

(** ** What a pass computes

    The values the statements about the passes speak of, written with the
    expressions of the loop bodies. *)
Section CaseValues.
Context `{BuildConfig} `{EbmStatistics}.
Variable cc : CompilerTargetStates.
Variable U : list spec_float.
Variable V : Z.

(** The score at offset [j] of the case whose scores start at [p], after
    the update values from [pValues] on have been added. *)
Definition NewScore (scores : list spec_float) (p pValues j : Z) : spec_float :=
  fadd (load scores (p + j)) (load U (pValues + j)).

(** [sumExp] of that case, summed in the order of the loop. *)
Definition CaseSumExp (scores : list spec_float) (p pValues : Z) : spec_float :=
  fold_left
    (fun sumExp j => fadd sumExp (exp (NewScore scores p pValues (Z.of_nat j))))
    (seq 0 (do_while_count V)) fzero.

(** The residual of class [j] of that case with target [t], as a
    classification pass over the training set leaves it. *)
Definition CaseResidual (scores : list spec_float) (p pValues t j : Z)
  : spec_float :=
  if IsBinaryClassification cc then
    ComputeClassificationResidualErrorBinaryclass (NewScore scores p pValues 0) t
  else if (0 <=? k_iZeroResidual) && (j =? k_iZeroResidual) then fzero
  else
    ComputeClassificationResidualErrorMulticlass (CaseSumExp scores p pValues)
      (NewScore scores p pValues j) t j.

(** The scores of that case after the update. *)
Definition NewCaseScores (scores : list spec_float) (p pValues : Z)
  : list spec_float :=
  imap (fun j x => fadd x (load U (pValues + Z.of_nat j))) (CaseScores scores p V).

(** What the validation-set pass adds to its sum for a case: the residuals
    start at [q], the scores at [p]. *)
Definition ValidationLoss (residuals scores : list spec_float)
    (q p pValues t : Z) : spec_float :=
  if IsRegression cc then
    let residualError := fsub (load residuals q) (load U pValues) in
    fmul residualError residualError
  else if IsBinaryClassification cc then
    ComputeClassificationSingleCaseLogLossBinaryclass
      (NewScore scores p pValues 0) t
  else
    ComputeClassificationSingleCaseLogLossMulticlass
      (CaseSumExp scores p pValues) (NewCaseScores scores p pValues) t.
End CaseValues.


Section PassValues.
Context `{BuildConfig} `{EbmStatistics}.
Variable cc : CompilerTargetStates.
Variable cTargetStates : Z.
Variable fc : FeatureCombination.
Variable d : DataSetByFeatureCombination.
Variable U : list spec_float.

(** The index into the update tensor of the value a pass adds to the score
    at index [k] of the score buffer (for regression: subtracts from the
    residual at index [k]). *)
Definition UpdateIndex (k : nat) : Z :=
  let V := GET_VECTOR_LENGTH cc cTargetStates in
  BinOf fc d (Z.to_nat (Z.of_nat k / V)) * V + Z.of_nat k mod V.

(** The residual a classification pass over the training set leaves at
    index [k] of the residual buffer. *)
Definition TrainedResidual (k : nat) : spec_float :=
  let V := GET_VECTOR_LENGTH cc cTargetStates in
  let i := Z.of_nat k / V in
  CaseResidual cc U V (m_aPredictionScores d) (i * V)
    (BinOf fc d (Z.to_nat i) * V) (load (m_aTargetData d) i)
    (Z.of_nat k mod V).

(** What the validation-set pass adds to its sum for case [i]. *)
Definition ValidationLossOfCase (i : nat) : spec_float :=
  let V := GET_VECTOR_LENGTH cc cTargetStates in
  ValidationLoss cc U V (m_aResidualErrors d) (m_aPredictionScores d)
    (Z.of_nat i) (Z.of_nat i * V) (BinOf fc d i * V)
    (load (m_aTargetData d) (Z.of_nat i)).
End PassValues.


(** ** Values of a data set as it is *)

Section StateValues.
Context `{BuildConfig} `{EbmStatistics}.

(** [sumExp] of the case whose scores start at [p], from the scores as
    they are. *)
Definition SumExp (scores : list spec_float) (p cVectorLength : Z) : spec_float :=
  fold_left
    (fun sumExp j => fadd sumExp (exp (load scores (p + Z.of_nat j))))
    (seq 0 (do_while_count cVectorLength)) fzero.

(** The residual that belongs at index [k] of the residual buffer of a
    classification, given the scores. *)
Definition ResidualOfScores (cc : CompilerTargetStates) (cVectorLength : Z)
    (aTargetData : list Z) (scores : list spec_float) (k : nat) : spec_float :=
  let i := Z.of_nat k / cVectorLength in
  let j := Z.of_nat k mod cVectorLength in
  let targetData := load aTargetData i in
  if IsBinaryClassification cc then
    ComputeClassificationResidualErrorBinaryclass (load scores (Z.of_nat k))
      targetData
  else if (0 <=? k_iZeroResidual) && (j =? k_iZeroResidual) then fzero
  else
    ComputeClassificationResidualErrorMulticlass
      (SumExp scores (i * cVectorLength) cVectorLength)
      (load scores (Z.of_nat k)) targetData j.

(** The term of case [i] in the metric of a data set. *)
Definition CaseLoss (cc : CompilerTargetStates) (cVectorLength : Z)
    (d : DataSetByFeatureCombination) (i : nat) : spec_float :=
  let targetData := load (m_aTargetData d) (Z.of_nat i) in
  if IsRegression cc then
    let residualError := load (m_aResidualErrors d) (Z.of_nat i) in
    fmul residualError residualError
  else if IsBinaryClassification cc then
    ComputeClassificationSingleCaseLogLossBinaryclass
      (load (m_aPredictionScores d) (Z.of_nat i)) targetData
  else
    ComputeClassificationSingleCaseLogLossMulticlass
      (SumExp (m_aPredictionScores d) (Z.of_nat i * cVectorLength) cVectorLength)
      (CaseScores (m_aPredictionScores d) (Z.of_nat i * cVectorLength)
         cVectorLength)
      targetData.

(** The metric of a data set as it is: root mean square of the residuals
    for regression, sum of the log losses of the scores for
    classification. *)
Definition MetricOf (cc : CompilerTargetStates) (cTargetStates : Z)
    (d : DataSetByFeatureCombination) : spec_float :=
  let cVectorLength := GET_VECTOR_LENGTH cc cTargetStates in
  let sum :=
    fold_left (fun sum i => fadd sum (CaseLoss cc cVectorLength d i))
      (seq 0 (Z.to_nat (m_cCases d))) fzero in
  if IsRegression cc then fsqrt (fdiv sum (of_size_t (m_cCases d))) else sum.

(** The residuals of a classification training set are those of its
    scores, the buffers hold every case, and the zeroing index, when
    there is one, is a class index. *)
Definition ResidualsInSync (cc : CompilerTargetStates) (cTargetStates : Z)
    (d : DataSetByFeatureCombination) : Prop :=
  let cVectorLength := GET_VECTOR_LENGTH cc cTargetStates in
  let cValues := (Z.to_nat (m_cCases d) * Z.to_nat cVectorLength)%nat in
  IsRegression cc = false ->
  (cValues <= length (m_aPredictionScores d))%nat
  /\ (IsBinaryClassification cc = false ->
      0 <= k_iZeroResidual -> k_iZeroResidual < cVectorLength)
  /\ forall k, (k < cValues)%nat ->
       m_aResidualErrors d !! k
       = Some (ResidualOfScores cc cVectorLength (m_aTargetData d)
                 (m_aPredictionScores d) k).

(** The buffers of a training set hold a value for every case (and every
    class), and the zeroing index, when it is used, is a class index. *)
Definition TrainingSetHolds (cc : CompilerTargetStates) (cTargetStates : Z)
    (d : DataSetByFeatureCombination) : Prop :=
  let cVectorLength := GET_VECTOR_LENGTH cc cTargetStates in
  let cValues := (Z.to_nat (m_cCases d) * Z.to_nat cVectorLength)%nat in
  (cValues <= length (m_aResidualErrors d))%nat
  /\ (IsRegression cc = false ->
      (cValues <= length (m_aPredictionScores d))%nat
      /\ (IsBinaryClassification cc = false ->
          0 <= k_iZeroResidual -> k_iZeroResidual < cVectorLength)).

(** The buffer a validation pass works on holds a value for every case
    (and every class). *)
Definition ValidationSetHolds (cc : CompilerTargetStates) (cTargetStates : Z)
    (d : DataSetByFeatureCombination) : Prop :=
  let cVectorLength := GET_VECTOR_LENGTH cc cTargetStates in
  let cValues := (Z.to_nat (m_cCases d) * Z.to_nat cVectorLength)%nat in
  if IsRegression cc then (cValues <= length (m_aResidualErrors d))%nat
  else (cValues <= length (m_aPredictionScores d))%nat.

(** The statistics see the value of a score, not the sign of a zero. *)
Definition ZeroSignInsensitive : Prop :=
  (forall x y, same_value x y -> exp x = exp y)
  /\ (forall x y t, same_value x y ->
        ComputeClassificationResidualErrorBinaryclass x t
        = ComputeClassificationResidualErrorBinaryclass y t)
  /\ (forall sumExp x y t j, same_value x y ->
        ComputeClassificationResidualErrorMulticlass sumExp x t j
        = ComputeClassificationResidualErrorMulticlass sumExp y t j)
  /\ (forall x y t, same_value x y ->
        ComputeClassificationSingleCaseLogLossBinaryclass x t
        = ComputeClassificationSingleCaseLogLossBinaryclass y t)
  /\ (forall sumExp l l' t, Forall2 same_value l l' ->
        ComputeClassificationSingleCaseLogLossMulticlass sumExp l t
        = ComputeClassificationSingleCaseLogLossMulticlass sumExp l' t).

(** Two data sets with the same cases whose scores and residuals are the
    same values. *)
Definition SameDataSet (d d' : DataSetByFeatureCombination) : Prop :=
  m_cCases d' = m_cCases d
  /\ m_aTargetData d' = m_aTargetData d
  /\ m_aaInputData d' = m_aaInputData d
  /\ Forall2 kept (m_aPredictionScores d) (m_aPredictionScores d')
  /\ Forall2 kept (m_aResidualErrors d) (m_aResidualErrors d').
End StateValues.


(** ** Vocabulary of the statements *)

Section Vocabulary.
Context `{BuildConfig} `{EbmStatistics} `{TreeLearners}.

(** The template instance the entry points run for a state. *)
Definition TemplateInstance (st : EbmTrainingState) : CompilerTargetStates :=
  if m_bRegression st then k_Regression
  else CompilerRecursiveFrom2 (m_cTargetStates st).

(** Classification with at most one class: the entry points return at once. *)
Definition Degenerate (st : EbmTrainingState) : bool :=
  negb (m_bRegression st) && (m_cTargetStates st <=? 1).

(** The metric the validation-set pass of the call
    [ApplyModelFeatureCombinationUpdate st c (Some U) _] computes, if the
    call gets to that pass. *)
Definition ComputedValidationMetric (st : EbmTrainingState) (c : Z)
    (U : list spec_float) : option spec_float :=
  if Degenerate st then None
  else
    apFeatureCombinations ← m_apFeatureCombinations st;
    pFeatureCombination ← apFeatureCombinations !! Z.to_nat c;
    pValidationSet ← m_pValidationSet st;
    snd <$>
      ValidationSetInputFeatureLoop 1 (TemplateInstance st) pFeatureCombination
        pValidationSet U (m_cTargetStates st).

(** A state on which update application for combination [c] is defined: the
    arrays the driver dereferences exist, [c] indexes them, both models hold
    a tensor for every combination, and the passes can run on the data
    sets. *)
Definition apply_ready (st : EbmTrainingState) (c : Z) : Prop :=
  exists apCurrentModel apBestModel apFeatureCombinations pFeatureCombination pCurrentModel,
    m_apCurrentModel st = Some apCurrentModel
    /\ m_apBestModel st = Some apBestModel
    /\ m_apFeatureCombinations st = Some apFeatureCombinations
    /\ 0 <= c
    /\ apFeatureCombinations !! Z.to_nat c = Some pFeatureCombination
    /\ apCurrentModel !! Z.to_nat c = Some pCurrentModel
    /\ 0 <= m_cFeatureCombinations st
    /\ (Z.to_nat (m_cFeatureCombinations st) <= length apBestModel)%nat
    /\ (Z.to_nat (m_cFeatureCombinations st) <= length apCurrentModel)%nat
    /\ (forall pTrainingSet, m_pTrainingSet st = Some pTrainingSet ->
        pass_ready (TemplateInstance st) (m_cTargetStates st)
          pFeatureCombination pTrainingSet)
    /\ (forall pValidationSet, m_pValidationSet st = Some pValidationSet ->
        pass_ready (TemplateInstance st) (m_cTargetStates st)
          pFeatureCombination pValidationSet).

(** One call of an entry point that changes the training state. *)
Inductive api_step : EbmTrainingState -> EbmTrainingState -> Prop :=
| step_generate st c learningRate cSplits cCasesMin gainReturn st' r gainReturn' :
    GenerateModelFeatureCombinationUpdate st c learningRate cSplits cCasesMin
      gainReturn = Some (st', r, gainReturn') ->
    api_step st st'
| step_apply st c modelUpdateTensor metricReturn st' r metricReturn' :
    ApplyModelFeatureCombinationUpdate st c modelUpdateTensor metricReturn
    = Some (st', r, metricReturn') ->
    api_step st st'
| step_training st c learningRate cSplits cCasesMin metricReturn st' r metricReturn' :
    TrainingStep st c learningRate cSplits cCasesMin metricReturn
    = Some (st', r, metricReturn') ->
    api_step st st'.

(** The values the local [gain] takes in the iterations of the loop over
    the sampling sets, in order (the loop of [SamplingSetLoop], stopping
    where it stops). *)
Fixpoint SamplingSetGains (n : nat) (iSamplingSet : Z)
    (countCompilerClassificationTargetStates : CompilerTargetStates)
    (apSamplingSets : list SamplingMethod)
    (pFeatureCombination : FeatureCombination)
    (cTreeSplitsMax cCasesRequiredForSplitParentMin cTargetStates : Z)
    (overwrite accumulated : SegmentedTensor) : list spec_float :=
  match n with
  | O => []
  | S n' =>
      match apSamplingSets !! Z.to_nat iSamplingSet with
      | None => []
      | Some pSamplingSet =>
          let '(err, overwrite, gain) :=
            if m_cFeatures pFeatureCombination =? 0 then
              let '(err, t) :=
                TrainZeroDimensional countCompilerClassificationTargetStates
                  pSamplingSet overwrite cTargetStates in
              (err, t, fzero)
            else if m_cFeatures pFeatureCombination =? 1 then
              TrainSingleDimensional countCompilerClassificationTargetStates
                pSamplingSet pFeatureCombination cTreeSplitsMax
                cCasesRequiredForSplitParentMin overwrite cTargetStates
            else
              let '(err, t) :=
                TrainMultiDimensional countCompilerClassificationTargetStates
                  pSamplingSet pFeatureCombination overwrite cTargetStates in
              (err, t, fzero) in
          if err then []
          else
            let '(err, accumulated) := Add accumulated overwrite in
            if err then [gain]
            else
              gain ::
              SamplingSetGains n' (iSamplingSet + 1)
                countCompilerClassificationTargetStates apSamplingSets
                pFeatureCombination cTreeSplitsMax
                cCasesRequiredForSplitParentMin cTargetStates
                overwrite accumulated
      end
  end.

(** [cSamplingSetsAfterZero]: no sampling set counts as one. *)
Definition SamplingSetsAfterZero (st : EbmTrainingState) : Z :=
  if m_cSamplingSets st =? 0 then 1 else m_cSamplingSets st.

(** The scratch tensors as the loop over the sampling sets of a call of
    generate_update for combination [c] starts with them, and the
    combination itself. *)
Definition GenerateStart (st : EbmTrainingState) (c : Z)
  : option (FeatureCombination * SegmentedTensor * SegmentedTensor) :=
  apFeatureCombinations ← m_apFeatureCombinations st;
  pFeatureCombination ← apFeatureCombinations !! Z.to_nat c;
  accumulated ← m_pSmallChangeToModelAccumulatedFromSamplingSets st;
  overwrite ← m_pSmallChangeToModelOverwriteSingleSamplingSet st;
  let cDimensions := m_cFeatures pFeatureCombination in
  Some (pFeatureCombination,
        SetCountDimensions overwrite cDimensions,
        Reset (SetCountDimensions accumulated cDimensions)).

(** The gains of the sampling sets in a call of generate_update. *)
Definition GainsOfCall (st : EbmTrainingState) (c : Z)
    (countTreeSplitsMax countCasesRequiredForSplitParentMin : Z)
  : list spec_float :=
  match m_apSamplingSets st, GenerateStart st c with
  | Some apSamplingSets, Some (pFeatureCombination, overwrite, accumulated) =>
      SamplingSetGains (Z.to_nat (SamplingSetsAfterZero st)) 0
        (TemplateInstance st) apSamplingSets pFeatureCombination
        (if IsNumberConvertable_size_t countTreeSplitsMax
         then countTreeSplitsMax else size_t_max)
        (if IsNumberConvertable_size_t countCasesRequiredForSplitParentMin
         then countCasesRequiredForSplitParentMin else size_t_max)
        (m_cTargetStates st) overwrite accumulated
  | _, _ => []
  end.

(** The accumulator scratch tensor after the loop over the sampling sets
    of the call: the learners' updates added up. *)
Definition AccumulatedOfCall (st : EbmTrainingState) (c : Z)
    (countTreeSplitsMax countCasesRequiredForSplitParentMin : Z)
  : option SegmentedTensor :=
  apSamplingSets ← m_apSamplingSets st;
  start ← GenerateStart st c;
  r ← SamplingSetLoop (Z.to_nat (SamplingSetsAfterZero st)) 0
         (TemplateInstance st) apSamplingSets start.1.1
         (if IsNumberConvertable_size_t countTreeSplitsMax
          then countTreeSplitsMax else size_t_max)
         (if IsNumberConvertable_size_t countCasesRequiredForSplitParentMin
          then countCasesRequiredForSplitParentMin else size_t_max)
         (m_cTargetStates st) start.1.2 start.2 fzero;
  Some r.1.2.
(** What the tensor operations of update application do to the value
    buffers: [AddExpanded] adds an update of the size of the tensor
    elementwise, a [Copy] that succeeds copies the values. *)
Definition TensorValueLaws : Prop :=
  (forall t U, length U = length (m_aValues t) ->
     m_aValues (AddExpanded t U) = zip_with fadd (m_aValues t) U)
  /\ (forall dst src, (Copy dst src).1 = false ->
        m_aValues (Copy dst src).2 = m_aValues src).

Definition SameTensor (t t' : SegmentedTensor) : Prop :=
  Forall2 kept (m_aValues t) (m_aValues t').

(** The validation metric of a state as it is: what update application
    reports when the scores do not move. *)
Definition CurrentMetric (st : EbmTrainingState) : spec_float :=
  match m_pValidationSet st with
  | Some pValidationSet =>
      if Degenerate st then fzero
      else MetricOf (TemplateInstance st) (m_cTargetStates st) pValidationSet
  | None => fzero
  end.

(** Update application with the scores as they are would find the metric
    of the validation set strictly better than the best metric. *)
Definition Improves (st : EbmTrainingState) : bool :=
  match m_pValidationSet st with
  | Some _ =>
      negb (Degenerate st) && flt (CurrentMetric st) (m_bestModelMetric st)
  | None => false
  end.

(** Where the metric of the state is better than the best metric, the best
    model holds the values of the current model (as before the first
    update, and never after a commit). *)
Definition BestIsCurrent (st : EbmTrainingState) : Prop :=
  Improves st = true ->
  option_Forall2 (Forall2 SameTensor) (m_apBestModel st) (m_apCurrentModel st).
End Vocabulary.


(** ** The model accessors *)

Section Accessors.
Context `{TreeLearners}.

(** [GetCurrentModelFeatureCombination].  The result [Some None] is the
    returned [nullptr]; [Some (Some values)] is a pointer to the value
    buffer of the tensor of the combination.  The index is asserted, not
    checked, to lie from 0 to below [m_cFeatureCombinations]: reading the
    model array beyond its end has no defined behaviour, and the
    statements that depend on the index suppose it is not negative. *)
Definition GetCurrentModelFeatureCombination
    (ebmTraining : EbmTrainingState) (indexFeatureCombination : Z)
  : option (option (list spec_float)) :=
  let pEbmTrainingState := ebmTraining in
  let iFeatureCombination := indexFeatureCombination in
  match m_apCurrentModel pEbmTrainingState with
  | None => Some None
  | Some apCurrentModel =>
      pCurrentModel ← apCurrentModel !! Z.to_nat iFeatureCombination;
      Some (Some (m_aValues pCurrentModel))
  end.

(** [GetBestModelFeatureCombination], with the same conventions. *)
Definition GetBestModelFeatureCombination
    (ebmTraining : EbmTrainingState) (indexFeatureCombination : Z)
  : option (option (list spec_float)) :=
  let pEbmTrainingState := ebmTraining in
  let iFeatureCombination := indexFeatureCombination in
  match m_apBestModel pEbmTrainingState with
  | None => Some None
  | Some apBestModel =>
      pBestModel ← apBestModel !! Z.to_nat iFeatureCombination;
      Some (Some (m_aValues pBestModel))
  end.
End Accessors.

(** ** Initialisation

    [InitializeSegmentedTensors], [EbmTrainingState::Initialize],
    [AllocateCore] and the two entry points that create a training state. *)

(** What a step of the initialisation comes to: [Undefined] where the
    source reads an array outside its bounds or through [nullptr] (no
    defined behaviour), [Failed] where it returns its error value ([true]
    for [Initialize], [nullptr] for the others, also after an exception),
    [Done] with its result otherwise. *)
Inductive Outcome (A : Type) : Type :=
| Undefined
| Failed
| Done (a : A).
Arguments Undefined {A}.
Arguments Failed {A}.
Arguments Done {A} a.

#[global] Instance Outcome_bind : MBind Outcome :=
  fun A B f m =>
    match m with
    | Undefined => Undefined
    | Failed => Failed
    | Done a => f a
    end.

(** [a[i]] for an array the code only reads; a null array is the empty
    list. *)
Definition read {A} (a : list A) (i : Z) : Outcome A :=
  match a !! Z.to_nat i with
  | Some x => Done x
  | None => Undefined
  end.

(** The same through a pointer member that can be null. *)
Definition read_at {A} (a : option (list A)) (i : Z) : Outcome A :=
  match a with
  | Some a => read a i
  | None => Undefined
  end.

(** A pointer the code tests against [nullptr] before it goes on. *)
Definition nonnull {A} (p : option A) : Outcome A :=
  match p with
  | Some x => Done x
  | None => Failed
  end.

(** [EbmCoreFeature] and [EbmCoreFeatureCombination] of the interface
    (ebmcore.h), with the fields the code reads. *)
Record EbmCoreFeature := {
  featureType : Z;
  hasMissing : Z;
  countBins : Z
}.

Record EbmCoreFeatureCombination := {
  countFeaturesInCombination : Z
}.

(** The targets behind the [const void *] of [AllocateCore]: doubles for a
    regression, integers for a classification. *)
Inductive Targets :=
| RegressionTargets (a : list spec_float)
| ClassificationTargets (a : list Z).

(** What the initialisation takes from the headers that are not part of the
    sources at hand.  An allocation or construction that can fail returns
    [None] where the source sees [nullptr], an error flag or an
    exception. *)
Class Initializers `{TreeLearners} := {
  (** Feature.h: the constructor
      [Feature(cStates, iFeatureData, featureType, bMissing)] *)
  Feature_new : Z -> Z -> Z -> bool -> Feature;
  (** FeatureCombination.h:
      [FeatureCombination::Allocate(cFeatures, iFeatureCombination)] *)
  FeatureCombination_Allocate : Z -> Z -> option FeatureCombination;
  (** EbmInternal.h *)
  IsMultiplyError : Z -> Z -> bool;
  CountBitsRequiredCore : Z -> Z;
  GetCountItemsBitPacked : Z -> Z;
  (** CachedThreadResources.h: [IsError()] of the cached thread resources
      the constructor of the state builds from [bRegression] and the vector
      length *)
  CachedTrainingThreadResources_IsError : bool -> Z -> bool;
  (** DataSetByFeatureCombination.h: [new (std::nothrow)] with the
      constructor, followed by [IsError()]; [None] when the pointer is null
      or the data set is in error *)
  DataSetByFeatureCombination_new :
    bool -> bool -> bool -> Z -> option (list FeatureCombination) -> Z ->
    option (list Z) -> option Targets -> option (list spec_float) -> Z ->
    option DataSetByFeatureCombination;
  (** RandomStream.h: the constructor, [None] when it throws *)
  RandomStream : Type;
  RandomStream_new : Z -> option RandomStream;
  (** SamplingWithReplacement.h *)
  GenerateSamplingSets :
    RandomStream -> option DataSetByFeatureCombination -> Z ->
    option (list SamplingMethod);
  (** InitializeResiduals.h: the residual buffer after
      [InitializeResiduals<countCompilerClassificationTargetStates>(cCases,
      aTargetData, aPredictionScores, pResidualError, cTargetStates)] *)
  InitializeResiduals :
    CompilerTargetStates -> Z -> option Targets -> option (list spec_float) ->
    list spec_float -> Z -> list spec_float;
  (** whether [new (std::nothrow) SegmentedTensor *[cFeatureCombinations]]
      gives an array *)
  new_SegmentedTensorPointers : Z -> bool;
  (** the assignment [m_bExpanded = b] to a tensor *)
  set_bExpanded : SegmentedTensor -> bool -> SegmentedTensor;
  (** whether [new (std::nothrow) EbmTrainingState(...)] gives a state *)
  new_EbmTrainingState : bool -> Z -> Z -> Z -> Z -> bool
}.

Section Initialization.
Context `{BuildConfig} `{TreeLearners} `{Allocators}.
Context `{!Initializers}.

(** The loop of [InitializeSegmentedTensors], [n] iterations from
    [iFeatureCombination] on.  [apSegmentedRegions] holds the pointers
    stored so far; the rest of the zeroed array is null.  On an error the
    function frees what it has allocated and returns [nullptr]. *)
Fixpoint InitializeSegmentedTensorsLoop (n : nat) (iFeatureCombination : Z)
    (apFeatureCombinations : list FeatureCombination) (cVectorLength : Z)
    (apSegmentedRegions : list SegmentedTensor)
  : Outcome (list SegmentedTensor) :=
  match n with
  | O => Done apSegmentedRegions
  | S n' =>
      pFeatureCombination ← read apFeatureCombinations iFeatureCombination;
      pSegmentedRegions ←
        nonnull (Allocate (m_cFeatures pFeatureCombination) cVectorLength);
      pSegmentedRegions ←
        (if m_cFeatures pFeatureCombination =? 0 then
           Done (set_bExpanded pSegmentedRegions true)
         else
           let acDivisionIntegersEnd :=
             DivisionIntegersEnd pFeatureCombination
               (m_cFeatures pFeatureCombination) in
           let '(err, pSegmentedRegions) :=
             Expand pSegmentedRegions acDivisionIntegersEnd in
           if err then Failed else Done pSegmentedRegions);
      InitializeSegmentedTensorsLoop n' (iFeatureCombination + 1)
        apFeatureCombinations cVectorLength
        (apSegmentedRegions ++ [pSegmentedRegions])
  end.

Definition InitializeSegmentedTensors (cFeatureCombinations : Z)
    (apFeatureCombinations : list FeatureCombination) (cVectorLength : Z)
  : Outcome (list SegmentedTensor) :=
  if negb (new_SegmentedTensorPointers cFeatureCombinations) then Failed
  else
    InitializeSegmentedTensorsLoop (Z.to_nat cFeatureCombinations) 0
      apFeatureCombinations cVectorLength [].

(** *** [EbmTrainingState::Initialize] *)

(** The loop over the features,
    [do { ... } while(pFeatureEnd != pFeatureInitialize)], [n] iterations
    from [iFeatureInitialize] on. *)
Fixpoint InitializeFeatures (n : nat) (iFeatureInitialize : Z)
    (aFeatures : list EbmCoreFeature) (m_aFeatures : list Feature)
  : Outcome (list Feature) :=
  match n with
  | O => Done m_aFeatures
  | S n' =>
      pFeatureInitialize ← read aFeatures iFeatureInitialize;
      let featureTypeCore := featureType pFeatureInitialize in
      let countStates := countBins pFeatureInitialize in
      if negb (IsNumberConvertable_size_t countStates) then Failed
      else
        let cStates := countStates in
        let bMissing := negb (hasMissing pFeatureInitialize =? 0) in
        let m_aFeatures :=
          store m_aFeatures iFeatureInitialize
            (Feature_new cStates iFeatureInitialize featureTypeCore bMissing) in
        InitializeFeatures n' (iFeatureInitialize + 1) aFeatures m_aFeatures
  end.

(** The first loop over the feature indexes of a combination: it counts
    the features with more than one state. *)
Fixpoint CountSignificantFeatures (n : nat) (pFeatureCombinationIndexTemp : Z)
    (featureCombinationIndexes : list Z) (m_aFeatures : option (list Feature))
    (cSignificantFeaturesInCombination : Z) : Outcome Z :=
  match n with
  | O => Done cSignificantFeaturesInCombination
  | S n' =>
      indexFeatureInterop ←
        read featureCombinationIndexes pFeatureCombinationIndexTemp;
      if negb (IsNumberConvertable_size_t indexFeatureInterop) then Failed
      else
        let iFeatureForCombination := indexFeatureInterop in
        pInputFeature ← read_at m_aFeatures iFeatureForCombination;
        let cSignificantFeaturesInCombination :=
          if 1 <? m_cStates pInputFeature
          then cSignificantFeaturesInCombination + 1
          else cSignificantFeaturesInCombination in
        CountSignificantFeatures n' (pFeatureCombinationIndexTemp + 1)
          featureCombinationIndexes m_aFeatures
          cSignificantFeaturesInCombination
  end.

(** [pFeatureCombinationEntry->m_pFeature = pInputFeature] for the entry at
    offset [pFeatureCombinationEntry]. *)
Definition set_m_pFeature (pFeatureCombination : FeatureCombination)
    (pFeatureCombinationEntry : Z) (pInputFeature : Feature)
  : FeatureCombination :=
  {| m_cFeatures := m_cFeatures pFeatureCombination;
     m_iInputData := m_iInputData pFeatureCombination;
     m_cItemsPerBitPackDataUnit :=
       m_cItemsPerBitPackDataUnit pFeatureCombination;
     m_FeatureCombinationEntry :=
       store (m_FeatureCombinationEntry pFeatureCombination)
         pFeatureCombinationEntry pInputFeature |}.

Definition set_m_cItemsPerBitPackDataUnit
    (pFeatureCombination : FeatureCombination)
    (cItemsPerBitPackDataUnit : Z) : FeatureCombination :=
  {| m_cFeatures := m_cFeatures pFeatureCombination;
     m_iInputData := m_iInputData pFeatureCombination;
     m_cItemsPerBitPackDataUnit := cItemsPerBitPackDataUnit;
     m_FeatureCombinationEntry :=
       m_FeatureCombinationEntry pFeatureCombination |}.

(** The second loop over the feature indexes of a combination: it enters
    the features with more than one state into the combination and
    multiplies their state counts ([cTensorStates *= cStates] on a 64-bit
    [size_t]).  The result is the combination, the entry pointer and
    [cTensorStates]. *)
Fixpoint EnterSignificantFeatures (n : nat) (pFeatureCombinationIndex : Z)
    (featureCombinationIndexes : list Z) (m_aFeatures : option (list Feature))
    (pFeatureCombination : FeatureCombination)
    (pFeatureCombinationEntry : Z) (cTensorStates : Z)
  : Outcome (FeatureCombination * Z * Z) :=
  match n with
  | O => Done (pFeatureCombination, pFeatureCombinationEntry, cTensorStates)
  | S n' =>
      indexFeatureInterop ←
        read featureCombinationIndexes pFeatureCombinationIndex;
      let iFeatureForCombination := indexFeatureInterop in
      pInputFeature ← read_at m_aFeatures iFeatureForCombination;
      let cStates := m_cStates pInputFeature in
      if 1 <? cStates then
        let pFeatureCombination :=
          set_m_pFeature pFeatureCombination pFeatureCombinationEntry
            pInputFeature in
        let pFeatureCombinationEntry := pFeatureCombinationEntry + 1 in
        if IsMultiplyError cTensorStates cStates then Failed
        else
          let cTensorStates := (cTensorStates * cStates) mod 2 ^ 64 in
          EnterSignificantFeatures n' (pFeatureCombinationIndex + 1)
            featureCombinationIndexes m_aFeatures pFeatureCombination
            pFeatureCombinationEntry cTensorStates
      else
        EnterSignificantFeatures n' (pFeatureCombinationIndex + 1)
          featureCombinationIndexes m_aFeatures pFeatureCombination
          pFeatureCombinationEntry cTensorStates
  end.

(** One iteration of the loop over the feature combinations: the
    combination it builds for index [iFeatureCombination] from the indexes
    at [pFeatureCombinationIndex] on.  The source stores the pointer to the
    combination in [m_apFeatureCombinations] before it fills the
    combination in; the result is the combination as the iteration leaves
    it. *)
Definition InitializeFeatureCombination (iFeatureCombination : Z)
    (pFeatureCombinationIndex : Z)
    (pFeatureCombinationInterop : EbmCoreFeatureCombination)
    (featureCombinationIndexes : list Z) (m_aFeatures : option (list Feature))
  : Outcome FeatureCombination :=
  let countFeaturesInCombination :=
    countFeaturesInCombination pFeatureCombinationInterop in
  if negb (IsNumberConvertable_size_t countFeaturesInCombination) then Failed
  else
    let cFeaturesInCombination := countFeaturesInCombination in
    cSignificantFeaturesInCombination ←
      (if cFeaturesInCombination =? 0 then Done 0
       else
         cSignificantFeaturesInCombination ←
           CountSignificantFeatures (do_while_count cFeaturesInCombination)
             pFeatureCombinationIndex featureCombinationIndexes m_aFeatures 0;
         if k_cDimensionsMax <? cSignificantFeaturesInCombination then Failed
         else Done cSignificantFeaturesInCombination);
    pFeatureCombination ←
      nonnull (FeatureCombination_Allocate cSignificantFeaturesInCombination
                 iFeatureCombination);
    if cSignificantFeaturesInCombination =? 0 then Done pFeatureCombination
    else
      '(pFeatureCombination, _, cTensorStates) ←
        EnterSignificantFeatures (do_while_count cFeaturesInCombination)
          pFeatureCombinationIndex featureCombinationIndexes m_aFeatures
          pFeatureCombination 0 1;
      let cBitsRequiredMin := CountBitsRequiredCore (cTensorStates - 1) in
      Done (set_m_cItemsPerBitPackDataUnit pFeatureCombination
              (GetCountItemsBitPacked cBitsRequiredMin)).

(** The loop over the feature combinations,
    [do { ... } while(iFeatureCombination < m_cFeatureCombinations)], [n]
    iterations from [iFeatureCombination] on; in either branch of an
    iteration [pFeatureCombinationIndex] ends at
    [pFeatureCombinationIndexEnd]. *)
Fixpoint InitializeFeatureCombinations (n : nat) (iFeatureCombination : Z)
    (pFeatureCombinationIndex : Z)
    (aFeatureCombinations : list EbmCoreFeatureCombination)
    (featureCombinationIndexes : list Z) (m_aFeatures : option (list Feature))
    (m_apFeatureCombinations : list FeatureCombination)
  : Outcome (list FeatureCombination) :=
  match n with
  | O => Done m_apFeatureCombinations
  | S n' =>
      pFeatureCombinationInterop ← read aFeatureCombinations iFeatureCombination;
      let pFeatureCombinationIndexEnd :=
        pFeatureCombinationIndex
        + countFeaturesInCombination pFeatureCombinationInterop in
      pFeatureCombination ←
        InitializeFeatureCombination iFeatureCombination
          pFeatureCombinationIndex pFeatureCombinationInterop
          featureCombinationIndexes m_aFeatures;
      let m_apFeatureCombinations :=
        store m_apFeatureCombinations iFeatureCombination pFeatureCombination in
      InitializeFeatureCombinations n' (iFeatureCombination + 1)
        pFeatureCombinationIndexEnd aFeatureCombinations
        featureCombinationIndexes m_aFeatures m_apFeatureCombinations
  end.

(** A data set with the residual buffer [InitializeResiduals] has
    written. *)
Definition set_residuals (d : DataSetByFeatureCombination)
    (aResidualErrors : list spec_float) : DataSetByFeatureCombination :=
  {| m_cCases := m_cCases d;
     m_aResidualErrors := aResidualErrors;
     m_aPredictionScores := m_aPredictionScores d;
     m_aTargetData := m_aTargetData d;
     m_aaInputData := m_aaInputData d |}.

(** The state a failed [Initialize] leaves behind is only destroyed (its
    one caller deletes it), so a failure carries no state. *)
Definition Initialize (st : EbmTrainingState) (randomSeed : Z)
    (aFeatures : list EbmCoreFeature)
    (aFeatureCombinations : list EbmCoreFeatureCombination)
    (featureCombinationIndexes : list Z)
    (cTrainingCases : Z) (aTrainingTargets : option Targets)
    (aTrainingData : option (list Z))
    (aTrainingPredictionScores : option (list spec_float))
    (cValidationCases : Z) (aValidationTargets : option Targets)
    (aValidationData : option (list Z))
    (aValidationPredictionScores : option (list spec_float))
  : Outcome EbmTrainingState :=
  if CachedTrainingThreadResources_IsError (m_bRegression st)
       (GetVectorLengthFlatCore (m_cTargetStates st)) then Failed
  else if negb (m_cFeaturesOfState st =? 0) && bool_decide (m_aFeatures st = None)
  then Failed
  else if negb (m_cFeatureCombinations st =? 0)
          && bool_decide (m_apFeatureCombinations st = None)
  then Failed
  else
    _ ← nonnull (m_pSmallChangeToModelOverwriteSingleSamplingSet st);
    _ ← nonnull (m_pSmallChangeToModelAccumulatedFromSamplingSets st);
    m_aFeatures ←
      (if negb (m_cFeaturesOfState st =? 0) then
         a ← nonnull (m_aFeatures st);
         a ← InitializeFeatures (do_while_count (m_cFeaturesOfState st)) 0
               aFeatures a;
         Done (Some a)
       else Done (m_aFeatures st));
    m_apFeatureCombinations ←
      (if negb (m_cFeatureCombinations st =? 0) then
         a ← nonnull (m_apFeatureCombinations st);
         a ← InitializeFeatureCombinations
               (do_while_count (m_cFeatureCombinations st)) 0 0
               aFeatureCombinations featureCombinationIndexes m_aFeatures a;
         Done (Some a)
       else Done (m_apFeatureCombinations st));
    let cVectorLength := GetVectorLengthFlatCore (m_cTargetStates st) in
    m_pTrainingSet ←
      (if negb (cTrainingCases =? 0) then
         d ← nonnull
               (DataSetByFeatureCombination_new true
                  (negb (m_bRegression st)) (negb (m_bRegression st))
                  (m_cFeatureCombinations st) m_apFeatureCombinations
                  cTrainingCases aTrainingData aTrainingTargets
                  aTrainingPredictionScores cVectorLength);
         Done (Some d)
       else Done (m_pTrainingSet st));
    m_pValidationSet ←
      (if negb (cValidationCases =? 0) then
         d ← nonnull
               (DataSetByFeatureCombination_new (m_bRegression st)
                  (negb (m_bRegression st)) (negb (m_bRegression st))
                  (m_cFeatureCombinations st) m_apFeatureCombinations
                  cValidationCases aValidationData aValidationTargets
                  aValidationPredictionScores cVectorLength);
         Done (Some d)
       else Done (m_pValidationSet st));
    randomStream ← nonnull (RandomStream_new randomSeed);
    m_apSamplingSets ←
      (if negb (cTrainingCases =? 0) then
         a ← nonnull
               (GenerateSamplingSets randomStream m_pTrainingSet
                  (m_cSamplingSets st));
         Done (Some a)
       else Done (m_apSamplingSets st));
    '(m_apCurrentModel, m_apBestModel) ←
      (if negb (m_cFeatureCombinations st =? 0)
          && (m_bRegression st || (2 <=? m_cTargetStates st))
       then
         apFeatureCombinations ←
           match m_apFeatureCombinations with
           | Some a => Done a
           | None => Undefined
           end;
         current ←
           InitializeSegmentedTensors (m_cFeatureCombinations st)
             apFeatureCombinations cVectorLength;
         best ←
           InitializeSegmentedTensors (m_cFeatureCombinations st)
             apFeatureCombinations cVectorLength;
         Done (Some current, Some best)
       else Done (m_apCurrentModel st, m_apBestModel st));
    let initialized (countCompilerClassificationTargetStates : CompilerTargetStates)
        (cCases : Z) (aTargets : option Targets)
        (aPredictionScores : option (list spec_float))
        (pSet : option DataSetByFeatureCombination) (cTargetStates : Z) :=
      (fun d =>
         set_residuals d
           (InitializeResiduals countCompilerClassificationTargetStates cCases
              aTargets aPredictionScores (m_aResidualErrors d) cTargetStates))
      <$> pSet in
    let '(m_pTrainingSet, m_pValidationSet) :=
      if m_bRegression st then
        (if negb (cTrainingCases =? 0)
         then initialized k_Regression cTrainingCases aTrainingTargets
                aTrainingPredictionScores m_pTrainingSet 0
         else m_pTrainingSet,
         if negb (cValidationCases =? 0)
         then initialized k_Regression cValidationCases aValidationTargets
                aValidationPredictionScores m_pValidationSet 0
         else m_pValidationSet)
      else if m_cTargetStates st =? 2 then
        (if negb (cTrainingCases =? 0)
         then initialized (k_Compiled 2) cTrainingCases aTrainingTargets
                aTrainingPredictionScores m_pTrainingSet (m_cTargetStates st)
         else m_pTrainingSet,
         m_pValidationSet)
      else
        (if negb (cTrainingCases =? 0)
         then initialized k_DynamicClassification cTrainingCases
                aTrainingTargets aTrainingPredictionScores m_pTrainingSet
                (m_cTargetStates st)
         else m_pTrainingSet,
         m_pValidationSet) in
    Done
      {| m_bRegression := m_bRegression st;
         m_cTargetStates := m_cTargetStates st;
         m_cFeatureCombinations := m_cFeatureCombinations st;
         m_apFeatureCombinations := m_apFeatureCombinations;
         m_pTrainingSet := m_pTrainingSet;
         m_pValidationSet := m_pValidationSet;
         m_cSamplingSets := m_cSamplingSets st;
         m_apSamplingSets := m_apSamplingSets;
         m_apCurrentModel := m_apCurrentModel;
         m_apBestModel := m_apBestModel;
         m_bestModelMetric := m_bestModelMetric st;
         m_pSmallChangeToModelOverwriteSingleSamplingSet :=
           m_pSmallChangeToModelOverwriteSingleSamplingSet st;
         m_pSmallChangeToModelAccumulatedFromSamplingSets :=
           m_pSmallChangeToModelAccumulatedFromSamplingSets st;
         m_cFeaturesOfState := m_cFeaturesOfState st;
         m_aFeatures := m_aFeatures |}.

(** *** [AllocateCore] and the entry points *)

(** [Failed] is the returned [nullptr]. *)
Definition AllocateCore (bRegression : bool) (randomSeed countFeatures : Z)
    (features : list EbmCoreFeature) (countFeatureCombinations : Z)
    (featureCombinations : list EbmCoreFeatureCombination)
    (featureCombinationIndexes : list Z)
    (countTargetStates countTrainingCases : Z)
    (trainingTargets : option Targets) (trainingData : option (list Z))
    (trainingPredictionScores : option (list spec_float))
    (countValidationCases : Z)
    (validationTargets : option Targets) (validationData : option (list Z))
    (validationPredictionScores : option (list spec_float))
    (countInnerBags : Z) : Outcome EbmTrainingState :=
  if negb (IsNumberConvertable_size_t countFeatures) then Failed
  else if negb (IsNumberConvertable_size_t countFeatureCombinations) then Failed
  else if negb (IsNumberConvertable_size_t countTargetStates) then Failed
  else if negb (IsNumberConvertable_size_t countTrainingCases) then Failed
  else if negb (IsNumberConvertable_size_t countValidationCases) then Failed
  else if negb (IsNumberConvertable_size_t countInnerBags) then Failed
  else
    let cFeatures := countFeatures in
    let cFeatureCombinations := countFeatureCombinations in
    let cTargetStates := countTargetStates in
    let cTrainingCases := countTrainingCases in
    let cValidationCases := countValidationCases in
    let cInnerBags := countInnerBags in
    let cVectorLength := GetVectorLengthFlatCore cTargetStates in
    if IsMultiplyError cVectorLength cTrainingCases then Failed
    else if IsMultiplyError cVectorLength cValidationCases then Failed
    else if negb (new_EbmTrainingState bRegression cTargetStates cFeatures
                    cFeatureCombinations cInnerBags) then Failed
    else
      let pEbmTrainingState :=
        EbmTrainingState_new bRegression cTargetStates cFeatures
          cFeatureCombinations cInnerBags in
      Initialize pEbmTrainingState randomSeed features featureCombinations
        featureCombinationIndexes cTrainingCases trainingTargets trainingData
        trainingPredictionScores cValidationCases validationTargets
        validationData validationPredictionScores.

Definition InitializeTrainingRegression (randomSeed countFeatures : Z)
    (features : list EbmCoreFeature) (countFeatureCombinations : Z)
    (featureCombinations : list EbmCoreFeatureCombination)
    (featureCombinationIndexes : list Z) (countTrainingCases : Z)
    (trainingTargets : option (list spec_float))
    (trainingData : option (list Z))
    (trainingPredictionScores : option (list spec_float))
    (countValidationCases : Z)
    (validationTargets : option (list spec_float))
    (validationData : option (list Z))
    (validationPredictionScores : option (list spec_float))
    (countInnerBags : Z) : Outcome EbmTrainingState :=
  AllocateCore true randomSeed countFeatures features countFeatureCombinations
    featureCombinations featureCombinationIndexes 0 countTrainingCases
    (RegressionTargets <$> trainingTargets) trainingData
    trainingPredictionScores countValidationCases
    (RegressionTargets <$> validationTargets) validationData
    validationPredictionScores countInnerBags.

Definition InitializeTrainingClassification (randomSeed countFeatures : Z)
    (features : list EbmCoreFeature) (countFeatureCombinations : Z)
    (featureCombinations : list EbmCoreFeatureCombination)
    (featureCombinationIndexes : list Z)
    (countTargetStates countTrainingCases : Z)
    (trainingTargets : option (list Z)) (trainingData : option (list Z))
    (trainingPredictionScores : option (list spec_float))
    (countValidationCases : Z)
    (validationTargets : option (list Z)) (validationData : option (list Z))
    (validationPredictionScores : option (list spec_float))
    (countInnerBags : Z) : Outcome EbmTrainingState :=
  AllocateCore false randomSeed countFeatures features countFeatureCombinations
    featureCombinations featureCombinationIndexes countTargetStates
    countTrainingCases (ClassificationTargets <$> trainingTargets) trainingData
    trainingPredictionScores countValidationCases
    (ClassificationTargets <$> validationTargets) validationData
    validationPredictionScores countInnerBags.
End Initialization.

(** ** Vocabulary of the statements about initialisation *)

Section InitializationVocabulary.
Context `{Initializers}.

(** The indexes [featureCombinationIndexes] holds for combination [i]: the
    combinations take their indexes one after the other. *)
Definition CombinationOffset
    (aFeatureCombinations : list EbmCoreFeatureCombination) (i : nat) : Z :=
  fold_left (fun offset c => offset + countFeaturesInCombination c)
    (take i aFeatureCombinations) 0.

Definition IndexesFrom (featureCombinationIndexes : list Z)
    (pFeatureCombinationIndex cFeaturesInCombination : Z) : list Z :=
  take (Z.to_nat cFeaturesInCombination)
    (drop (Z.to_nat pFeatureCombinationIndex) featureCombinationIndexes).

Definition CombinationIndexes
    (aFeatureCombinations : list EbmCoreFeatureCombination)
    (featureCombinationIndexes : list Z) (i : nat) : list Z :=
  match aFeatureCombinations !! i with
  | Some c =>
      IndexesFrom featureCombinationIndexes
        (CombinationOffset aFeatureCombinations i)
        (countFeaturesInCombination c)
  | None => []
  end.

(** The features a list of indexes names. *)
Definition FeaturesAt (m_aFeatures : option (list Feature)) (indexes : list Z)
  : list Feature :=
  omap (fun k => default [] m_aFeatures !! Z.to_nat k) indexes.

(** Those of them with more than one state. *)
Definition Significant (features : list Feature) : list Feature :=
  filter (fun f => 1 < m_cStates f) features.

(** The number of cells of the tensor of a combination, multiplied up as
    the code does on a 64-bit [size_t]. *)
Definition TensorStates (features : list Feature) : Z :=
  fold_left (fun cTensorStates f => (cTensorStates * m_cStates f) mod 2 ^ 64)
    features 1.

(** What the statements suppose of [FeatureCombination::Allocate] and of
    the constructor of [Feature]: the combination has the feature count
    and the index it was allocated for and room for as many entries, the
    feature has the state count it was built with. *)
Definition AllocationLaws : Prop :=
  (forall cFeatures iFeatureCombination fc,
     FeatureCombination_Allocate cFeatures iFeatureCombination = Some fc ->
     m_cFeatures fc = cFeatures
     /\ m_iInputData fc = iFeatureCombination
     /\ length (m_FeatureCombinationEntry fc) = Z.to_nat cFeatures)
  /\ (forall cStates iFeatureData featureType bMissing,
        m_cStates (Feature_new cStates iFeatureData featureType bMissing)
        = cStates).
End InitializationVocabulary.

Section InitializedVocabulary.
Context `{BuildConfig} `{TreeLearners} `{Allocators}.
Context `{!Initializers}.

(** The template instance of [InitializeResiduals] that [Initialize] calls
    for a state, and the class count it passes. *)
Definition ResidualsInstance (st : EbmTrainingState) : CompilerTargetStates :=
  if m_bRegression st then k_Regression
  else if m_cTargetStates st =? 2 then k_Compiled 2
  else k_DynamicClassification.

Definition ResidualsTargetStates (st : EbmTrainingState) : Z :=
  if m_bRegression st then 0 else m_cTargetStates st.

(** Whether [Initialize] allocates the models of a state: there are
    feature combinations, and the state is a regression or a
    classification with at least two classes. *)
Definition HasModels (st : EbmTrainingState) : bool :=
  negb (m_cFeatureCombinations st =? 0)
  && (m_bRegression st || (2 <=? m_cTargetStates st)).
End InitializedVocabulary.

(** The bin counts of the features a list of indexes names, from the
    features the caller hands to the initialisation. *)
Definition BinsAt (features : list EbmCoreFeature) (indexes : list Z) : list Z :=
  omap (fun k => countBins <$> features !! Z.to_nat k) indexes.

(** Two data sets with the same cases: the same count, targets and packed
    inputs. *)
Definition SameCases (d d' : DataSetByFeatureCombination) : Prop :=
  m_cCases d' = m_cCases d
  /\ m_aTargetData d' = m_aTargetData d
  /\ m_aaInputData d' = m_aaInputData d.

(** ** Example collaborators

    Concrete stand-ins for the parts taken from the headers, used to run the
    model on inputs: the default build (64-bit storage words, no residual
    zeroing, no expansion of binary logits), tensors that are their value
    buffers, and learners that return the tensor they are given. *)
Module Example.
Definition config : BuildConfig :=
  {| k_cBitsForStorageType := 64;
     GetCountBits := fun cItemsBitPacked => 64 / cItemsBitPacked;
     k_iZeroResidual := -1;
     bExpandBinaryLogits := false;
     k_cCompilerOptimizedTargetStatesMax := 3;
     k_cDimensionsMax := 2 |}.

(** As [config], with residual zeroing at index 0 and expanded binary
    logits. *)
Definition config_zeroing : BuildConfig :=
  {| k_cBitsForStorageType := 64;
     GetCountBits := fun cItemsBitPacked => 64 / cItemsBitPacked;
     k_iZeroResidual := 0;
     bExpandBinaryLogits := true;
     k_cCompilerOptimizedTargetStatesMax := 3;
     k_cDimensionsMax := 2 |}.

(** Statistics that only depend on the value of their arguments (the
    sign of a zero does not matter to them). *)
Definition statistics : EbmStatistics :=
  {| exp := fun x => fmul x x;
     ComputeClassificationResidualErrorBinaryclass :=
       fun score target => fsub (of_size_t target) (fmul score score);
     ComputeClassificationResidualErrorMulticlass :=
       fun sumExp score target iVector =>
         fsub (fmul score score) (of_size_t (if target =? iVector then 1 else 0));
     ComputeClassificationSingleCaseLogLossBinaryclass :=
       fun score target => fmul score score;
     ComputeClassificationSingleCaseLogLossMulticlass :=
       fun sumExp scores target =>
         fsub sumExp (fmul (load scores target) (load scores target)) |}.

Definition tensors : SegmentedTensorOps :=
  {| SegmentedTensor := list spec_float;
     Allocate := fun cDimensionsMax cVectorLength =>
       Some (replicate (Z.to_nat cVectorLength) fzero);
     SetCountDimensions := fun t _ => t;
     Reset := fun t => (fun _ => fzero) <$> t;
     Add := fun t rhs => (false, zip_with fadd t rhs);
     Multiply := fun t v => (fun x => fmul x v) <$> t;
     Expand := fun t _ => (false, t);
     Copy := fun _ rhs => (false, rhs);
     AddExpanded := fun t u => zip_with fadd t u;
     m_aValues := fun t => t |}.

Definition one : spec_float := of_size_t 1.
Definition two : spec_float := of_size_t 2.
Definition three : spec_float := of_size_t 3.

Definition update : list spec_float := [one; fzero; two; one].

(** Learners that never fail; the one-dimensional learner writes [update]
    and reports the gain -1. *)
Definition learners : @TreeLearners tensors :=
  {| SamplingMethod := unit;
     TrainZeroDimensional := fun _ _ t _ => (false, t);
     TrainSingleDimensional :=
       fun _ _ _ _ _ _ _ =>
         (false, update : @SegmentedTensor tensors, SFopp one);
     TrainMultiDimensional := fun _ _ _ t _ => (false, t) |}.

Definition allocators : Allocators :=
  {| AllocateFeatureCombinations := fun _ => Some [];
     malloc_Features := fun _ => Some [] |}.

(** A combination of one feature with four states, four bins to a word
    of sixteen bits each. *)
Definition combination : FeatureCombination :=
  {| m_cFeatures := 1; m_iInputData := 0; m_cItemsPerBitPackDataUnit := 4;
     m_FeatureCombinationEntry := [ {| m_cStates := 4 |} ] |}.

Definition bins : list Z := [0; 1; 2; 3; 1].

(** Five regression cases over [combination]. *)
Definition regression_set : DataSetByFeatureCombination :=
  {| m_cCases := 5;
     m_aResidualErrors := [one; two; three; one; two];
     m_aPredictionScores := [];
     m_aTargetData := [];
     m_aaInputData := [ pack 4 16 bins ] |}.

(** Three validation cases over [combination]. *)
Definition validation_set : DataSetByFeatureCombination :=
  {| m_cCases := 3;
     m_aResidualErrors := [three; one; two];
     m_aPredictionScores := [];
     m_aTargetData := [];
     m_aaInputData := [ pack 4 16 [2; 0; 1] ] |}.

Definition zeros : list spec_float := [fzero; fzero; fzero; fzero].

(** A regression state over the single combination [combination], as it
    is after initialisation, with or without a validation set. *)
Definition regression_state
    (pValidationSet : option DataSetByFeatureCombination)
  : @EbmTrainingState tensors learners :=
  {| m_bRegression := true;
     m_cTargetStates := 0;
     m_cFeatureCombinations := 1;
     m_apFeatureCombinations := Some [combination];
     m_pTrainingSet := Some regression_set;
     m_pValidationSet := pValidationSet;
     m_cSamplingSets := 0;
     m_apSamplingSets := Some ([tt] : list (@SamplingMethod tensors learners));
     m_apCurrentModel := Some ([zeros] : list (@SegmentedTensor tensors));
     m_apBestModel := Some ([zeros] : list (@SegmentedTensor tensors));
     m_bestModelMetric := finfinity;
     m_pSmallChangeToModelOverwriteSingleSamplingSet :=
       Some (zeros : @SegmentedTensor tensors);
     m_pSmallChangeToModelAccumulatedFromSamplingSets :=
       Some (zeros : @SegmentedTensor tensors);
     m_cFeaturesOfState := 1;
     m_aFeatures := Some [ {| m_cStates := 4 |} ] |}.

(** Five cases of a binary classification over [combination]. *)
Definition binary_set : DataSetByFeatureCombination :=
  {| m_cCases := 5;
     m_aResidualErrors := [fzero; fzero; fzero; fzero; fzero];
     m_aPredictionScores := [fzero; one; fzero; two; one];
     m_aTargetData := [0; 1; 1; 0; 1];
     m_aaInputData := [ pack 4 16 bins ] |}.

(** A binary classification state with two sampling sets. *)
Definition binary_state : @EbmTrainingState tensors learners :=
  {| m_bRegression := false;
     m_cTargetStates := 2;
     m_cFeatureCombinations := 1;
     m_apFeatureCombinations := Some [combination];
     m_pTrainingSet := Some binary_set;
     m_pValidationSet := None;
     m_cSamplingSets := 2;
     m_apSamplingSets :=
       Some ([tt; tt] : list (@SamplingMethod tensors learners));
     m_apCurrentModel := Some ([zeros] : list (@SegmentedTensor tensors));
     m_apBestModel := Some ([zeros] : list (@SegmentedTensor tensors));
     m_bestModelMetric := finfinity;
     m_pSmallChangeToModelOverwriteSingleSamplingSet :=
       Some (zeros : @SegmentedTensor tensors);
     m_pSmallChangeToModelAccumulatedFromSamplingSets :=
       Some (zeros : @SegmentedTensor tensors);
     m_cFeaturesOfState := 1;
     m_aFeatures := Some [ {| m_cStates := 4 |} ] |}.

(** A classification state with a single class, as the constructor
    leaves it. *)
Definition one_class_state : @EbmTrainingState tensors learners :=
  @EbmTrainingState_new config tensors learners allocators false 1 0 1 0.

(** Two cases of a classification with three classes over [combination]:
    case 0 has bin 1 and target 2, case 1 has bin 0 and target 0. *)
Definition multiclass_set : DataSetByFeatureCombination :=
  {| m_cCases := 2;
     m_aResidualErrors := [one; one; one; one; one; one];
     m_aPredictionScores := [fzero; one; two; one; fzero; three];
     m_aTargetData := [2; 0];
     m_aaInputData := [ pack 4 16 [1; 0] ] |}.

(** An update for the four bins of [combination] and three classes. *)
Definition multiclass_update : list spec_float :=
  [one; two; three; two; one; fzero; fzero; fzero; fzero; fzero; fzero; fzero].


(** [multiclass_set] after a pass with [multiclass_update] and zeroing
    index 0. *)
Definition multiclass_trained : DataSetByFeatureCombination :=
  {| m_cCases := 2;
     m_aResidualErrors :=
       [fzero; of_size_t 4; three; fzero; of_size_t 4; of_size_t 36];
     m_aPredictionScores := [two; two; two; two; two; of_size_t 6];
     m_aTargetData := [2; 0];
     m_aaInputData := [ pack 4 16 [1; 0] ] |}.

(** Two validation cases with three classes; one score is the negative
    zero. *)
Definition multiclass_validation : DataSetByFeatureCombination :=
  {| m_cCases := 2;
     m_aResidualErrors := [];
     m_aPredictionScores := [one; two; three; fzero; S754_zero true; one];
     m_aTargetData := [1; 2];
     m_aaInputData := [ pack 4 16 [3; 1] ] |}.

Definition zeros12 : list spec_float := replicate 12 fzero.

(** An update of zeros of both signs. *)
Definition zero_update : list spec_float :=
  replicate 6 fzero ++ replicate 6 (S754_zero true).

(** A classification state with three classes before its first update. *)
Definition multiclass_state : @EbmTrainingState tensors learners :=
  {| m_bRegression := false;
     m_cTargetStates := 3;
     m_cFeatureCombinations := 1;
     m_apFeatureCombinations := Some [combination];
     m_pTrainingSet := Some multiclass_trained;
     m_pValidationSet := Some multiclass_validation;
     m_cSamplingSets := 1;
     m_apSamplingSets := Some ([tt] : list (@SamplingMethod tensors learners));
     m_apCurrentModel := Some ([zeros12] : list (@SegmentedTensor tensors));
     m_apBestModel := Some ([zeros12] : list (@SegmentedTensor tensors));
     m_bestModelMetric := finfinity;
     m_pSmallChangeToModelOverwriteSingleSamplingSet :=
       Some (zeros12 : @SegmentedTensor tensors);
     m_pSmallChangeToModelAccumulatedFromSamplingSets :=
       Some (zeros12 : @SegmentedTensor tensors);
     m_cFeaturesOfState := 1;
     m_aFeatures := Some [ {| m_cStates := 4 |} ] |}.

(** A second combination over the same feature, its bins in the second
    input column. *)
Definition combination_second : FeatureCombination :=
  {| m_cFeatures := 1; m_iInputData := 1; m_cItemsPerBitPackDataUnit := 4;
     m_FeatureCombinationEntry := [ {| m_cStates := 4 |} ] |}.

(** [regression_set] and [validation_set] with a column for each of the
    two combinations. *)
Definition regression_set_two : DataSetByFeatureCombination :=
  {| m_cCases := 5;
     m_aResidualErrors := [one; two; three; one; two];
     m_aPredictionScores := [];
     m_aTargetData := [];
     m_aaInputData := [ pack 4 16 bins; pack 4 16 [3; 2; 1; 0; 2] ] |}.

Definition validation_set_two : DataSetByFeatureCombination :=
  {| m_cCases := 3;
     m_aResidualErrors := [three; one; two];
     m_aPredictionScores := [];
     m_aTargetData := [];
     m_aaInputData := [ pack 4 16 [2; 0; 1]; pack 4 16 [1; 3; 0] ] |}.

(** A regression state over the two combinations whose best model still
    holds zeros where the current model holds [update], at index 1. *)
Definition regression_state_two : @EbmTrainingState tensors learners :=
  {| m_bRegression := true;
     m_cTargetStates := 0;
     m_cFeatureCombinations := 2;
     m_apFeatureCombinations := Some [combination; combination_second];
     m_pTrainingSet := Some regression_set_two;
     m_pValidationSet := Some validation_set_two;
     m_cSamplingSets := 0;
     m_apSamplingSets := Some ([tt] : list (@SamplingMethod tensors learners));
     m_apCurrentModel :=
       Some ([zeros; update] : list (@SegmentedTensor tensors));
     m_apBestModel := Some ([zeros; zeros] : list (@SegmentedTensor tensors));
     m_bestModelMetric := finfinity;
     m_pSmallChangeToModelOverwriteSingleSamplingSet :=
       Some (zeros : @SegmentedTensor tensors);
     m_pSmallChangeToModelAccumulatedFromSamplingSets :=
       Some (zeros : @SegmentedTensor tensors);
     m_cFeaturesOfState := 1;
     m_aFeatures := Some [ {| m_cStates := 4 |} ] |}.

(** Tensors as [tensors], but whose [Copy] always fails. *)
Definition fragile_tensors : SegmentedTensorOps :=
  {| SegmentedTensor := list spec_float;
     Allocate := fun cDimensionsMax cVectorLength =>
       Some (replicate (Z.to_nat cVectorLength) fzero);
     SetCountDimensions := fun t _ => t;
     Reset := fun t => (fun _ => fzero) <$> t;
     Add := fun t rhs => (false, zip_with fadd t rhs);
     Multiply := fun t v => (fun x => fmul x v) <$> t;
     Expand := fun t _ => (false, t);
     Copy := fun t _ => (true, t);
     AddExpanded := fun t u => zip_with fadd t u;
     m_aValues := fun t => t |}.

(** Learners over them whose one-dimensional learner fails, after it has
    set its gain to one. *)
Definition fragile_learners : @TreeLearners fragile_tensors :=
  {| SamplingMethod := unit;
     TrainZeroDimensional := fun _ _ t _ => (false, t);
     TrainSingleDimensional := fun _ _ _ _ _ t _ => (true, t, one);
     TrainMultiDimensional := fun _ _ _ t _ => (false, t) |}.

(** The regression state [regression_state (Some validation_set)] over
    these collaborators. *)
Definition fragile_state : @EbmTrainingState fragile_tensors fragile_learners :=
  {| m_bRegression := true;
     m_cTargetStates := 0;
     m_cFeatureCombinations := 1;
     m_apFeatureCombinations := Some [combination];
     m_pTrainingSet := Some regression_set;
     m_pValidationSet := Some validation_set;
     m_cSamplingSets := 0;
     m_apSamplingSets :=
       Some ([tt] : list (@SamplingMethod fragile_tensors fragile_learners));
     m_apCurrentModel := Some ([zeros] : list (@SegmentedTensor fragile_tensors));
     m_apBestModel := Some ([zeros] : list (@SegmentedTensor fragile_tensors));
     m_bestModelMetric := finfinity;
     m_pSmallChangeToModelOverwriteSingleSamplingSet :=
       Some (zeros : @SegmentedTensor fragile_tensors);
     m_pSmallChangeToModelAccumulatedFromSamplingSets :=
       Some (zeros : @SegmentedTensor fragile_tensors);
     m_cFeaturesOfState := 1;
     m_aFeatures := Some [ {| m_cStates := 4 |} ] |}.

(** [regression_set] with a word of other content behind the two words
    that hold its five cases. *)
Definition regression_set_longer : DataSetByFeatureCombination :=
  {| m_cCases := 5;
     m_aResidualErrors := [one; two; three; one; two];
     m_aPredictionScores := [];
     m_aTargetData := [];
     m_aaInputData := [ pack 4 16 bins ++ [12345] ] |}.

(** Stand-ins for the collaborators of the initialisation: allocations
    that succeed, a data set that keeps the scores it is given (zeros
    without) and has a zeroed residual buffer where one is asked for, one
    input column for all combinations, residuals target minus score for a
    regression and zero otherwise. *)
Definition initializers : @Initializers tensors learners :=
  {| Feature_new := fun cStates _ _ _ => {| m_cStates := cStates |};
     FeatureCombination_Allocate := fun cFeatures iFeatureCombination =>
       Some {| m_cFeatures := cFeatures;
               m_iInputData := iFeatureCombination;
               m_cItemsPerBitPackDataUnit := 0;
               m_FeatureCombinationEntry :=
                 replicate (Z.to_nat cFeatures) {| m_cStates := 0 |} |};
     IsMultiplyError := fun a b => size_t_max <? a * b;
     CountBitsRequiredCore := fun c => if c =? 0 then 0 else Z.log2 c + 1;
     GetCountItemsBitPacked := fun cBits => 64 / cBits;
     CachedTrainingThreadResources_IsError := fun _ _ => false;
     DataSetByFeatureCombination_new :=
       fun bResiduals bScores bTargets cFeatureCombinations _ cCases
           aInputData aTargets aScores cVectorLength =>
         let cValues := (Z.to_nat cCases * Z.to_nat cVectorLength)%nat in
         Some {| m_cCases := cCases;
                 m_aResidualErrors :=
                   if bResiduals then replicate cValues fzero else [];
                 m_aPredictionScores :=
                   if bScores
                   then default (replicate cValues fzero) aScores else [];
                 m_aTargetData :=
                   match aTargets with
                   | Some (ClassificationTargets a) =>
                       if bTargets then a else []
                   | _ => []
                   end;
                 m_aaInputData :=
                   replicate (Z.to_nat cFeatureCombinations)
                     (default [] aInputData) |};
     RandomStream := Z;
     RandomStream_new := fun randomSeed => Some randomSeed;
     GenerateSamplingSets := fun _ _ cSamplingSets =>
       Some (replicate (Z.to_nat (Z.max 1 cSamplingSets)) tt
             : list (@SamplingMethod tensors learners));
     InitializeResiduals := fun cc cCases aTargets aScores aResiduals _ =>
       match aTargets with
       | Some (RegressionTargets a) =>
           zip_with fsub a
             (default (replicate (Z.to_nat cCases) fzero) aScores)
       | _ => aResiduals
       end;
     new_SegmentedTensorPointers := fun _ => true;
     set_bExpanded := fun t _ => t;
     new_EbmTrainingState := fun _ _ _ _ _ => true |}.

(** Allocators that give arrays of the size asked for. *)
Definition array_allocators : Allocators :=
  {| AllocateFeatureCombinations := fun cFeatureCombinations =>
       Some (replicate (Z.to_nat cFeatureCombinations)
               {| m_cFeatures := 0; m_iInputData := 0;
                  m_cItemsPerBitPackDataUnit := 0;
                  m_FeatureCombinationEntry := [] |});
     malloc_Features := fun cFeatures =>
       Some (replicate (Z.to_nat cFeatures) {| m_cStates := 0 |}) |}.

(** Two features, with four bins and with one bin, and two feature
    combinations: the first names both features, the second none. *)
Definition creation_features : list EbmCoreFeature :=
  [ {| featureType := 0; hasMissing := 0; countBins := 4 |};
    {| featureType := 0; hasMissing := 0; countBins := 1 |} ].

Definition creation_combinations : list EbmCoreFeatureCombination :=
  [ {| countFeaturesInCombination := 2 |};
    {| countFeaturesInCombination := 0 |} ].

(** The creation of a regression state over them, with five training cases
    and three validation cases. *)
Definition created_regression : Outcome (@EbmTrainingState tensors learners) :=
  @AllocateCore config tensors learners array_allocators initializers
    true 7 2 creation_features 2 creation_combinations [0; 1] 0
    5 (Some (RegressionTargets [one; two; three; one; two]))
    (Some (pack 32 2 bins)) None
    3 (Some (RegressionTargets [three; one; two]))
    (Some (pack 32 2 [2; 0; 1])) None 0.

(** The creation of a classification state with a single class. *)
Definition created_one_class : Outcome (@EbmTrainingState tensors learners) :=
  @InitializeTrainingClassification config tensors learners array_allocators
    initializers 7 2 creation_features 2 creation_combinations [0; 1] 1
    2 (Some [0; 0]) (Some (pack 32 2 [1; 3])) None
    0 None None None 0.

(** Three features with four bins each and one combination that names
    all three, one more than [k_cDimensionsMax] of [config]. *)
Definition creation_features_three : list EbmCoreFeature :=
  [ {| featureType := 0; hasMissing := 0; countBins := 4 |};
    {| featureType := 0; hasMissing := 0; countBins := 4 |};
    {| featureType := 0; hasMissing := 0; countBins := 4 |} ].

Definition created_three_dimensions
  : Outcome (@EbmTrainingState tensors learners) :=
  @AllocateCore config tensors learners array_allocators initializers
    true 7 3 creation_features_three 1
    [ {| countFeaturesInCombination := 3 |} ] [0; 1; 2] 0
    0 None None None 0 None None None 0.

(** The creation of a regression state without training or validation
    cases. *)
Definition created_without_cases
  : Outcome (@EbmTrainingState tensors learners) :=
  @AllocateCore config tensors learners array_allocators initializers
    true 7 2 creation_features 2 creation_combinations [0; 1] 0
    0 None None None 0 None None None 0.
End Example.

(** * Properties *)

(** ** Bits *)

Lemma size_t_max_ones : size_t_max = Z.ones 64.
Proof. reflexivity. Qed.

Lemma mask_is_ones (B : Z) :
  0 <= B <= 64 -> Z.shiftr size_t_max (64 - B) = Z.ones B.
Proof.
  intros HB. rewrite size_t_max_ones. apply Z.bits_inj'. intros i Hi.
  rewrite Z.shiftr_spec by lia.
  rewrite !Z.testbit_ones_nonneg by lia.
  destruct (Z.ltb_spec (i + (64 - B)) 64), (Z.ltb_spec i B); lia.
Qed.

Lemma small_testbit_high (b B i : Z) :
  0 <= b < 2 ^ B -> B <= i -> Z.testbit b i = false.
Proof.
  intros Hb Hi.
  assert (0 <= B) by (destruct (Z.le_gt_cases 0 B); [lia|];
                      rewrite Z.pow_neg_r in Hb; lia).
  rewrite <- (Z.mod_small b (2 ^ B)) by lia.
  apply Z.mod_pow2_bits_high. lia.
Qed.

Lemma pack_word_testbit (B : Z) (bins : list Z) (t : nat) (i : Z) :
  0 <= i < B ->
  Forall (fun b => 0 <= b < 2 ^ B) bins ->
  (t < length bins)%nat ->
  Z.testbit (pack_word B bins) (B * Z.of_nat t + i) = Z.testbit (bins !!! t) i.
Proof.
  intros Hi Hall. revert t. induction Hall as [|b rest Hb Hrest IH]; intros t Ht.
  - simpl in Ht. lia.
  - cbn [pack_word].
    assert (0 <= B * Z.of_nat t) by nia.
    rewrite Z.lor_spec, Z.shiftl_spec by lia.
    destruct t as [|t].
    + replace (B * Z.of_nat 0 + i) with i by lia.
      rewrite (Z.testbit_neg_r _ (i - B)) by lia.
      rewrite orb_false_r. reflexivity.
    + rewrite (small_testbit_high b B) by (auto; nia).
      replace (B * Z.of_nat (S t) + i - B) with (B * Z.of_nat t + i) by lia.
      cbn [orb]. rewrite IH by (simpl in Ht; lia). reflexivity.
Qed.

Lemma unpack_pack_word (B : Z) (bins : list Z) (t : nat) :
  0 <= B ->
  Forall (fun b => 0 <= b < 2 ^ B) bins ->
  (t < length bins)%nat ->
  Z.land (Z.ones B) (Z.shiftr (pack_word B bins) (B * Z.of_nat t)) = bins !!! t.
Proof.
  intros HB Hall Ht. apply Z.bits_inj'. intros i Hi.
  assert (0 <= B * Z.of_nat t) by nia.
  rewrite Z.land_spec, Z.testbit_ones_nonneg, Z.shiftr_spec by lia.
  destruct (Z.ltb_spec i B) as [Hlt|Hge]; cbn [andb].
  - rewrite Z.add_comm. apply pack_word_testbit; auto.
  - symmetry. apply (small_testbit_high _ B); [|lia].
    apply (proj1 (Forall_forall _ _) Hall).
    apply list_elem_of_lookup_total_2. exact Ht.
Qed.

Lemma pack_words_lookup (cWords P : nat) (B : Z) (bins : list Z) (j : nat) :
  (j < cWords)%nat ->
  pack_words cWords P B bins !!! j = pack_word B (take P (drop (j * P) bins)).
Proof.
  revert bins j. induction cWords as [|n IH]; intros bins j Hj; [lia|].
  destruct j as [|j]; cbn [pack_words].
  - reflexivity.
  - change ((pack_word B (take P bins) :: pack_words n P B (drop P bins)) !!! S j)
      with (pack_words n P B (drop P bins) !!! j).
    rewrite IH by lia. rewrite drop_drop. reflexivity.
Qed.

(** Reading case [i] back from the packed column gives its bin. *)
Lemma BinOfCase_pack (P B : Z) (bins : list Z) (i : nat) :
  1 <= P -> 0 <= B ->
  Forall (fun b => 0 <= b < 2 ^ B) bins ->
  (i < length bins)%nat ->
  BinOfCase (pack P B bins) P B (Z.ones B) (Z.of_nat i) = bins !!! i.
Proof.
  intros HP HB Hall Hi. unfold BinOfCase, pack, load.
  set (n := Z.of_nat (length bins)).
  assert (Hdiv : Z.of_nat i / P < (n + P - 1) / P).
  { replace (n + P - 1) with ((n - 1) + 1 * P) by lia.
    rewrite Z.div_add by lia.
    assert (Z.of_nat i / P <= (n - 1) / P) by (apply Z.div_le_mono; lia). lia. }
  assert (H0 : 0 <= Z.of_nat i / P) by (apply Z.div_pos; lia).
  pose proof (Z.mod_pos_bound (Z.of_nat i) P ltac:(lia)) as Hmod.
  pose proof (Z.div_mod (Z.of_nat i) P ltac:(lia)) as Hdm.
  rewrite pack_words_lookup by lia.
  set (chunk := take (Z.to_nat P) (drop (Z.to_nat (Z.of_nat i / P) * Z.to_nat P) bins)).
  assert (Hlen : (Z.to_nat (Z.of_nat i mod P) < length chunk)%nat).
  { unfold chunk. rewrite length_take, length_drop. nia. }
  replace (B * (Z.of_nat i mod P))
    with (B * Z.of_nat (Z.to_nat (Z.of_nat i mod P))) by (f_equal; lia).
  rewrite unpack_pack_word; auto.
  - unfold chunk. rewrite lookup_total_take_lt by lia.
    rewrite !list_lookup_total_alt, lookup_drop. do 2 f_equal. nia.
  - unfold chunk. apply Forall_take, Forall_drop, Hall.
Qed.

(** ** Loops *)

Lemma while_false {St} (fuel : nat) (cond : St -> bool) (body : St -> St) (s : St) :
  cond s = false -> while_ (S fuel) cond body s = Some s.
Proof. intros Hc. cbn [while_]. rewrite Hc. reflexivity. Qed.

Lemma while_true {St} (fuel : nat) (cond : St -> bool) (body : St -> St) (s : St) :
  cond s = true -> while_ (S fuel) cond body s = while_ fuel cond body (body s).
Proof. intros Hc. cbn [while_]. rewrite Hc. reflexivity. Qed.

(** A loop [while (pEnd != p) body] whose body advances [p] by [V] runs
    once per case. *)
Lemma while_counted (p : Cursor -> Z) (body : Cursor -> Cursor) (V : Z) :
  1 <= V ->
  (forall s, p (body s) = p s + V) ->
  forall (n : nat) (fuel : nat) (s : Cursor) (pEnd : Z),
    pEnd = p s + V * Z.of_nat n ->
    (n < fuel)%nat ->
    while_ fuel (fun s' => negb (pEnd =? p s')) body s
    = Some (Nat.iter n body s).
Proof.
  intros HV Hstep n. induction n as [|n IH]; intros fuel s pEnd HpEnd Hfuel.
  - destruct fuel as [|fuel]; [lia|]. rewrite while_false; [reflexivity|].
    apply negb_false_iff, Z.eqb_eq. lia.
  - destruct fuel as [|fuel]; [lia|]. rewrite while_true.
    + rewrite IH by (rewrite ?Hstep; lia). rewrite Nat.iter_succ_r. reflexivity.
    + apply negb_true_iff, Z.eqb_neq. nia.
Qed.

Lemma iter_fold_seq {A} (f : A -> A) (n : nat) (a : A) (m : nat) :
  Nat.iter n f a = fold_left (fun s (_ : nat) => f s) (seq m n) a.
Proof.
  revert a m. induction n as [|n IH]; intros a m; [reflexivity|].
  rewrite Nat.iter_succ_r. cbn [seq fold_left]. apply IH.
Qed.

Section BitPackedLoopCorrect.
Variable item : Z -> Cursor -> Cursor.
Variable p : Cursor -> Z.
Variable aInputData : list Z.
Variables P B maskBits V : Z.
Hypothesis HP : 1 <= P.
Hypothesis HB : 0 <= B.
Hypothesis HV : 1 <= V.
Hypothesis Hitem : forall b s, p (item b s) = p s + V.

Local Abbreviation Visit := (Visit item aInputData P B maskBits).

Lemma DoItems_p (k : nat) (w : Z) (s : Cursor) :
  p (DoItems item B maskBits k w s) = p s + V * Z.of_nat k.
Proof.
  revert w s. induction k as [|k IH]; intros w s; cbn [DoItems]; [lia|].
  rewrite IH, Hitem. lia.
Qed.

(** A block that starts at case [j * P] of word [j]. *)
Lemma DoItems_visits (j : Z) (k t : nat) (s : Cursor) :
  0 <= j -> (Z.of_nat (t + k) <= P) ->
  DoItems item B maskBits k
    (Z.shiftr (load aInputData j) (B * Z.of_nat t)) s
  = fold_left Visit (seq (Z.to_nat (j * P) + t) k) s.
Proof.
  intros Hj. revert t s. induction k as [|k IH]; intros t s Hk; [reflexivity|].
  cbn [DoItems seq fold_left].
  rewrite Z.shiftr_shiftr by nia.
  replace (B * Z.of_nat t + B) with (B * Z.of_nat (S t)) by lia.
  rewrite IH by lia.
  replace (Z.to_nat (j * P) + S t)%nat with (S (Z.to_nat (j * P) + t)) by lia.
  f_equal. unfold Visit, BinOfCase. do 3 f_equal.
  - f_equal. apply (Z.div_unique _ _ _ (Z.of_nat t)); nia.
  - f_equal. apply (Z.mod_unique _ _ j); nia.
Qed.

Variable cCases : nat.
Variable c0 : Z.

Variable pLast : Z.
Hypothesis HpLast : pLast = c0 + V * (Z.of_nat cCases - P).
Local Abbreviation pEnd := (pLast + V * P).
Local Abbreviation cond :=
  (fun ps : Z * Cursor => (p (snd ps) <? pLast) || (p (snd ps) <? pEnd)).
Local Abbreviation body :=
  (fun ps : Z * Cursor =>
     if p (snd ps) <? pLast
     then OneBlock item aInputData B maskBits P ps
     else OneBlock item aInputData B maskBits ((pEnd - p (snd ps)) / V) ps).

(** From the start of word [j] on, the loop visits the remaining cases in
    order and stops behind the last word. *)
Lemma BitPackedLoop_from (fuel : nat) (j : nat) (s : Cursor) :
  (Z.of_nat j * P <= Z.of_nat cCases) ->
  p s = c0 + V * (Z.of_nat j * P) ->
  (cCases - j + 2 <= fuel)%nat ->
  while_ fuel cond body (Z.of_nat j, s)
  = Some ((Z.of_nat cCases + P - 1) / P,
          fold_left Visit (seq (Z.to_nat (Z.of_nat j * P))
                               (cCases - Z.to_nat (Z.of_nat j * P))) s).
Proof.
  revert j s. induction fuel as [|fuel IH]; intros j s Hj Hp Hfuel; [lia|].
  set (done := Z.of_nat j * P) in *.
  destruct (Z.ltb_spec (p s) pLast) as [Hfull|Hnfull].
  - (* a full block, and more cases behind it *)
    assert (Hmore : done + P < Z.of_nat cCases) by nia.
    assert (Hbody : body (Z.of_nat j, s)
                    = (Z.of_nat (S j),
                       fold_left Visit (seq (Z.to_nat done) (Z.to_nat P)) s)).
    { cbn beta. unfold OneBlock. cbn [snd].
      destruct (Z.ltb_spec (p s) pLast) as [_|]; [|lia].
      pose proof (DoItems_visits (Z.of_nat j) (Z.to_nat P) 0 s) as Hblock.
      rewrite Z.mul_0_r, Z.shiftr_0_r, Nat.add_0_r in Hblock.
      rewrite Hblock by lia. f_equal. lia. }
    rewrite while_true by (cbn [snd]; apply orb_true_iff; left;
                           apply Z.ltb_lt; exact Hfull).
    rewrite Hbody, IH.
    + f_equal. f_equal.
      replace (cCases - Z.to_nat done)%nat
        with (Z.to_nat P + (cCases - Z.to_nat (Z.of_nat (S j) * P)))%nat by nia.
      rewrite seq_app, fold_left_app. do 2 f_equal. nia.
    + nia.
    + pose proof (DoItems_visits (Z.of_nat j) (Z.to_nat P) 0 s) as Hblock.
      rewrite Z.mul_0_r, Z.shiftr_0_r, Nat.add_0_r in Hblock.
      fold done in Hblock. rewrite <- Hblock by lia.
      rewrite DoItems_p, Hp. nia.
    + nia.
  - destruct (Z.ltb_spec (p s) pEnd) as [Htail|Hdone].
    + (* the last block *)
      assert (Hrest : done < Z.of_nat cCases) by nia.
      assert (Hshort : Z.of_nat cCases <= done + P) by nia.
      assert (Hrem : (pEnd - p s) / V = Z.of_nat cCases - done).
      { rewrite HpLast, Hp.
        replace (c0 + V * (Z.of_nat cCases - P) + V * P - (c0 + V * done))
          with ((Z.of_nat cCases - done) * V) by lia.
        apply Z.div_mul. lia. }
      pose proof (DoItems_visits (Z.of_nat j) (Z.to_nat (Z.of_nat cCases - done)) 0 s)
        as Hblock.
      rewrite Z.mul_0_r, Z.shiftr_0_r, Nat.add_0_r in Hblock.
      fold done in Hblock. specialize (Hblock ltac:(lia) ltac:(lia)).
      assert (Hbody : body (Z.of_nat j, s)
                      = (Z.of_nat j + 1,
                         fold_left Visit
                           (seq (Z.to_nat done) (Z.to_nat (Z.of_nat cCases - done))) s)).
      { cbn beta. unfold OneBlock. cbn [snd].
        destruct (Z.ltb_spec (p s) pLast) as [|_]; [lia|].
        rewrite Hrem, Hblock. reflexivity. }
      rewrite while_true by (cbn [snd]; apply orb_true_iff; right;
                             apply Z.ltb_lt; exact Htail).
      rewrite Hbody.
      destruct fuel as [|fuel]; [lia|].
      rewrite while_false.
      * f_equal. f_equal.
        -- apply (Z.div_unique _ _ _ (Z.of_nat cCases - done - 1)); nia.
        -- do 2 f_equal. lia.
      * cbn [snd].
        rewrite <- Hblock. rewrite DoItems_p, Hp.
        apply orb_false_iff. split; apply Z.ltb_ge; nia.
    + (* nothing left *)
      assert (Hall : done = Z.of_nat cCases) by nia.
      rewrite while_false by (cbn [snd]; apply orb_false_iff;
                              split; apply Z.ltb_ge; assumption).
      f_equal. f_equal.
      * rewrite <- Hall. unfold done.
        apply (Z.div_unique _ _ _ (P - 1)); nia.
      * replace (cCases - Z.to_nat done)%nat with 0%nat by lia. reflexivity.
Qed.

(** The loop visits the cases [0 .. cCases) in order, each with the bin
    [BinOfCase] extracts for it, and reads one word per block. *)
Lemma BitPackedLoop_visits (s : Cursor) :
  p s = c0 ->
  BitPackedLoop item p aInputData P B maskBits V
    (loop_fuel (Z.of_nat cCases)) pLast s
  = Some (fold_left Visit (seq 0 cCases) s).
Proof.
  intros Hp. unfold BitPackedLoop.
  pose proof (BitPackedLoop_from (loop_fuel (Z.of_nat cCases)) 0 s) as H.
  change (Z.of_nat 0) with 0 in H. rewrite Z.mul_0_l in H.
  change (Z.to_nat 0) with 0%nat in H. rewrite Nat.sub_0_r in H.
  rewrite H; [reflexivity|lia|lia|].
  unfold loop_fuel. lia.
Qed.
End BitPackedLoopCorrect.

(** ** The passes as folds over the cases *)

Section PassesCorrect.
Context `{BuildConfig} `{EbmStatistics}.
Variable cc : CompilerTargetStates.
Variable U : list spec_float.
Variable aTargetData : list Z.
Variable V : Z.
Hypothesis HV : 1 <= V.
Hypothesis HV1 : IsRegression cc || IsBinaryClassification cc = true -> V = 1.

Lemma do_while_count_V : Z.of_nat (do_while_count V) = V.
Proof. unfold do_while_count. lia. Qed.

Lemma TrainingScoresMulticlass_pointers n i pv s acc :
  let r := (TrainingScoresMulticlass U n i pv s acc).1 in
  pResidualError r = pResidualError s
  /\ pPredictionScores r = pPredictionScores s
  /\ pTargetData r = pTargetData s
  /\ aResidualErrors r = aResidualErrors s
  /\ sumMetric r = sumMetric s.
Proof.
  revert i s acc. induction n as [|n IH]; intros i s acc; [cbn; tauto|].
  cbn [TrainingScoresMulticlass].
  match goal with
  | |- context [TrainingScoresMulticlass U n ?i' ?pv' ?s' ?acc'] =>
      destruct (IH i' s' acc') as (H1 & H2 & H3 & H4 & H5)
  end.
  cbn zeta. rewrite H1, H2, H3, H4, H5. cbn. tauto.
Qed.

Lemma TrainingResidualsMulticlass_pointers n i sumExp t s :
  let r := TrainingResidualsMulticlass n i sumExp t s in
  pResidualError r = pResidualError s + Z.of_nat n
  /\ pPredictionScores r = pPredictionScores s
  /\ pTargetData r = pTargetData s
  /\ aPredictionScores r = aPredictionScores s
  /\ sumMetric r = sumMetric s.
Proof.
  revert i s. induction n as [|n IH]; intros i s.
  - cbn. repeat split; lia.
  - cbn [TrainingResidualsMulticlass].
    match goal with
    | |- context [TrainingResidualsMulticlass n ?i' _ _ ?s'] =>
        destruct (IH i' s') as (H1 & H2 & H3 & H4 & H5)
    end.
    cbn zeta. rewrite H1, H2, H3, H4, H5. cbn. repeat split; lia.
Qed.

Lemma TrainingCase_pResidualError b s :
  pResidualError (TrainingCase cc U aTargetData V b s) = pResidualError s + V.
Proof.
  unfold TrainingCase.
  destruct (IsRegression cc) eqn:Hr.
  - cbn. rewrite HV1 by reflexivity. lia.
  - destruct (IsBinaryClassification cc) eqn:Hb.
    + cbn. rewrite HV1 by reflexivity. lia.
    + destruct (TrainingScoresMulticlass U (do_while_count V) 0 (b * V) s fzero)
        as [s1 sumExp] eqn:Hs1.
      pose proof (TrainingScoresMulticlass_pointers (do_while_count V) 0 (b * V) s fzero)
        as Hp1. rewrite Hs1 in Hp1. cbn [fst] in Hp1.
      destruct Hp1 as (Hp1 & _).
      pose proof (TrainingResidualsMulticlass_pointers (do_while_count V) 0 sumExp
                    (load aTargetData (pTargetData s)) s1) as (Hp2 & _).
      destruct (0 <=? k_iZeroResidual); cbn;
        rewrite Hp2, Hp1, do_while_count_V; lia.
Qed.

Lemma ValidationScoresMulticlass_pointers n i pv s acc :
  let r := (ValidationScoresMulticlass U n i pv s acc).1 in
  pResidualError r = pResidualError s
  /\ pPredictionScores r = pPredictionScores s + Z.of_nat n
  /\ pTargetData r = pTargetData s
  /\ aResidualErrors r = aResidualErrors s
  /\ sumMetric r = sumMetric s.
Proof.
  revert i s acc. induction n as [|n IH]; intros i s acc.
  - cbn. repeat split; lia.
  - cbn [ValidationScoresMulticlass].
    match goal with
    | |- context [ValidationScoresMulticlass U n ?i' ?pv' ?s' ?acc'] =>
        destruct (IH i' s' acc') as (H1 & H2 & H3 & H4 & H5)
    end.
    cbn zeta. rewrite H1, H2, H3, H4, H5. cbn. repeat split; lia.
Qed.

Lemma ValidationCase_pointer b s :
  (if IsRegression cc then pResidualError else pPredictionScores)
    (ValidationCase cc U aTargetData V b s)
  = (if IsRegression cc then pResidualError else pPredictionScores) s + V.
Proof.
  unfold ValidationCase.
  destruct (IsRegression cc) eqn:Hr.
  - cbn. rewrite HV1 by reflexivity. lia.
  - destruct (IsBinaryClassification cc) eqn:Hb.
    + cbn. rewrite HV1 by reflexivity. lia.
    + destruct (ValidationScoresMulticlass U (do_while_count V) 0 (b * V) s fzero)
        as [s1 sumExp] eqn:Hs1.
      pose proof (ValidationScoresMulticlass_pointers (do_while_count V) 0 (b * V) s fzero)
        as Hp1. rewrite Hs1 in Hp1. cbn [fst] in Hp1.
      destruct Hp1 as (_ & Hp1 & _).
      cbn. rewrite Hp1, do_while_count_V. lia.
Qed.
End PassesCorrect.

Lemma GET_VECTOR_LENGTH_flat (cc : CompilerTargetStates) (cTargetStates : Z) :
  IsRegression cc || IsBinaryClassification cc = true ->
  GET_VECTOR_LENGTH cc cTargetStates = 1.
Proof.
  destruct cc as [| |n]; cbn; intros Hc; try reflexivity; try discriminate.
  apply Z.eqb_eq in Hc. subst n. reflexivity.
Qed.

Section PassesAsFolds.
Context `{BuildConfig} `{EbmStatistics}.

Variable cc : CompilerTargetStates.
Variable cTargetStates : Z.
Variable fc : FeatureCombination.
Variable d : DataSetByFeatureCombination.
Variable U : list spec_float.
Hypothesis Hready : pass_ready cc cTargetStates fc d.

Local Abbreviation V := (GET_VECTOR_LENGTH cc cTargetStates).
Local Abbreviation TFold := (TrainingFold cc cTargetStates fc d U).
Local Abbreviation VFold := (ValidationFold cc cTargetStates fc d U).

Lemma TrainingSetTargetFeatureLoop_fold (cInputBits cTargetBits : Z) :
  TrainingSetTargetFeatureLoop cInputBits cTargetBits cc fc d U cTargetStates
  = Some (finish d TFold).
Proof.
  destruct Hready as (HV & Hn & Hfc).
  unfold TrainingSetTargetFeatureLoop, TrainingFold, BinOf, GetCountCases.
  destruct (Z.eqb_spec (m_cFeatures fc) 0) as [Hz|Hnz].
  - pose proof (while_counted pResidualError
                  (TrainingCase cc U (m_aTargetData d) V 0) V HV
                  (TrainingCase_pResidualError cc U (m_aTargetData d) V HV
                     (GET_VECTOR_LENGTH_flat cc cTargetStates) 0)
                  (Z.to_nat (m_cCases d)) (loop_fuel (m_cCases d)) (start d)
                  (0 + V * m_cCases d)) as Hw.
    rewrite Hw by (cbn [start pResidualError]; unfold loop_fuel; lia).
    cbn [fmap option_fmap option_map].
    rewrite (iter_fold_seq _ _ _ 0). reflexivity.
  - destruct (Hfc Hnz) as (HP & HB).
    pose proof (BitPackedLoop_visits
                  (TrainingCase cc U (m_aTargetData d) V) pResidualError
                  (GetDataPointer d fc) (m_cItemsPerBitPackDataUnit fc)
                  (GetCountBits (m_cItemsPerBitPackDataUnit fc))
                  (maskBitsOf (GetCountBits (m_cItemsPerBitPackDataUnit fc))) V
                  HP HB HV
                  (TrainingCase_pResidualError cc U (m_aTargetData d) V HV
                     (GET_VECTOR_LENGTH_flat cc cTargetStates))
                  (Z.to_nat (m_cCases d)) 0
                  (0 + V * (m_cCases d - m_cItemsPerBitPackDataUnit fc))
                  ltac:(lia) (start d) eq_refl) as Hw.
    rewrite Z2Nat.id in Hw by lia.
    rewrite Hw. reflexivity.
Qed.

Lemma ValidationSetTargetFeatureLoop_fold (cInputBits cTargetBits : Z) :
  ValidationSetTargetFeatureLoop cInputBits cTargetBits cc fc d U cTargetStates
  = Some (finish d VFold,
          if IsRegression cc
          then fsqrt (fdiv (sumMetric VFold) (of_size_t (m_cCases d)))
          else sumMetric VFold).
Proof.
  destruct Hready as (HV & Hn & Hfc).
  pose proof (ValidationCase_pointer cc U (m_aTargetData d) V HV
                (GET_VECTOR_LENGTH_flat cc cTargetStates)) as Hptr.
  unfold ValidationSetTargetFeatureLoop, ValidationFold, BinOf, GetCountCases.
  destruct (Z.eqb_spec (m_cFeatures fc) 0) as [Hz|Hnz].
  - destruct (IsRegression cc) eqn:Hr.
    + assert (HV1 : V = 1)
        by (apply GET_VECTOR_LENGTH_flat; rewrite Hr; reflexivity).
      pose proof (while_counted pResidualError
                    (ValidationCase cc U (m_aTargetData d) V 0) V HV
                    (Hptr 0)
                    (Z.to_nat (m_cCases d)) (loop_fuel (m_cCases d)) (start d)
                    (0 + m_cCases d)) as Hw.
      rewrite Hw by (cbn [start pResidualError]; unfold loop_fuel; lia).
      cbn [fmap option_fmap option_map].
      rewrite (iter_fold_seq _ _ _ 0). reflexivity.
    + pose proof (while_counted pPredictionScores
                    (ValidationCase cc U (m_aTargetData d) V 0) V HV
                    (Hptr 0)
                    (Z.to_nat (m_cCases d)) (loop_fuel (m_cCases d)) (start d)
                    (0 + V * m_cCases d)) as Hw.
      rewrite Hw by (cbn [start pPredictionScores]; unfold loop_fuel; lia).
      cbn [fmap option_fmap option_map].
      rewrite (iter_fold_seq _ _ _ 0). reflexivity.
  - destruct (Hfc Hnz) as (HP & HB).
    destruct (IsRegression cc) eqn:Hr.
    + assert (HV1 : V = 1)
        by (apply GET_VECTOR_LENGTH_flat; rewrite Hr; reflexivity).
      pose proof (BitPackedLoop_visits
                    (ValidationCase cc U (m_aTargetData d) V) pResidualError
                    (GetDataPointer d fc) (m_cItemsPerBitPackDataUnit fc)
                    (GetCountBits (m_cItemsPerBitPackDataUnit fc))
                    (maskBitsOf (GetCountBits (m_cItemsPerBitPackDataUnit fc))) V
                    HP HB HV Hptr
                    (Z.to_nat (m_cCases d)) 0
                    (0 + (m_cCases d - m_cItemsPerBitPackDataUnit fc))
                    ltac:(lia) (start d) eq_refl) as Hw.
      rewrite Z2Nat.id in Hw by lia.
      rewrite Hw. reflexivity.
    + pose proof (BitPackedLoop_visits
                    (ValidationCase cc U (m_aTargetData d) V) pPredictionScores
                    (GetDataPointer d fc) (m_cItemsPerBitPackDataUnit fc)
                    (GetCountBits (m_cItemsPerBitPackDataUnit fc))
                    (maskBitsOf (GetCountBits (m_cItemsPerBitPackDataUnit fc))) V
                    HP HB HV Hptr
                    (Z.to_nat (m_cCases d)) 0
                    (0 + V * (m_cCases d - m_cItemsPerBitPackDataUnit fc))
                    ltac:(lia) (start d) eq_refl) as Hw.
      rewrite Z2Nat.id in Hw by lia.
      rewrite Hw. reflexivity.
Qed.
End PassesAsFolds.

(** ** Folds over the cases and folds over their bins *)

Lemma fold_left_ext_elem {A C} (f g : A -> C -> A) (l : list C) (a : A) :
  (forall x s, x ∈ l -> f s x = g s x) ->
  fold_left f l a = fold_left g l a.
Proof.
  revert a. induction l as [|x l IH]; intros a Hfg; [reflexivity|].
  cbn [fold_left]. rewrite Hfg by left. apply IH.
  intros y s Hy. apply Hfg. right. exact Hy.
Qed.

Lemma fold_left_fmap {A C D} (f : A -> D -> A) (g : C -> D) (l : list C) (a : A) :
  fold_left f (g <$> l) a = fold_left (fun s x => f s (g x)) l a.
Proof. revert a. induction l as [|x l IH]; intros a; [reflexivity|]. apply IH. Qed.

Lemma fmap_lookup_total_seq {A} `{Inhabited A} (l : list A) :
  (fun i : nat => l !!! i) <$> seq 0 (length l) = l.
Proof.
  apply list_eq. intros i. rewrite list_lookup_fmap.
  destruct (decide (i < length l)%nat) as [Hlt|Hge].
  - rewrite lookup_seq_lt by exact Hlt. cbn.
    symmetry. apply list_lookup_lookup_total_lt. exact Hlt.
  - rewrite lookup_seq_ge by lia. cbn. symmetry. apply lookup_ge_None_2. lia.
Qed.

(** Folding over the case indices with the bin of each case is folding over
    the bins. *)
Lemma fold_cases_bins {A} (g : Z -> A -> A) (bin : nat -> Z)
    (bins : list Z) (a : A) :
  (forall i, (i < length bins)%nat -> bin i = bins !!! i) ->
  fold_left (fun s i => g (bin i) s) (seq 0 (length bins)) a
  = fold_left (fun s b => g b s) bins a.
Proof.
  intros Hbin.
  rewrite (fold_left_ext_elem _ (fun s i => g (bins !!! i) s)).
  - rewrite <- (fold_left_fmap (fun s b => g b s) (fun i => bins !!! i)).
    rewrite fmap_lookup_total_seq. reflexivity.
  - intros i s Hi. apply elem_of_seq in Hi. rewrite Hbin by lia. reflexivity.
Qed.

Lemma pack_word_bound (B : Z) (bins : list Z) :
  0 <= B ->
  Forall (fun b => 0 <= b < 2 ^ B) bins ->
  0 <= pack_word B bins < 2 ^ (B * Z.of_nat (length bins)).
Proof.
  intros HB Hall. induction Hall as [|b rest Hb Hrest IH].
  - cbn. lia.
  - cbn [pack_word length].
    assert (Hlor : Z.lor b (Z.shiftl (pack_word B rest) B)
                   = b + pack_word B rest * 2 ^ B).
    { rewrite <- Z.shiftl_mul_pow2 by lia.
      rewrite <- Z.lxor_lor, <- Z.add_nocarry_lxor; try reflexivity;
        apply Z.bits_inj'; intros i Hi;
        rewrite Z.land_spec, Z.shiftl_spec, Z.bits_0 by lia;
        destruct (Z.ltb_spec i B);
        [rewrite (Z.testbit_neg_r _ (i - B)) by lia; apply andb_false_r
        |rewrite (small_testbit_high b B) by (auto; lia); reflexivity
        |rewrite (Z.testbit_neg_r _ (i - B)) by lia; apply andb_false_r
        |rewrite (small_testbit_high b B) by (auto; lia); reflexivity]. }
    rewrite Hlor.
    replace (B * Z.of_nat (S (length rest))) with (B * Z.of_nat (length rest) + B) by lia.
    rewrite Z.pow_add_r by nia.
    assert (0 < 2 ^ B) by (apply Z.pow_pos_nonneg; lia).
    nia.
Qed.

Lemma pack_fits_storage (P B : Z) (bins : list Z) :
  1 <= P -> 0 <= B -> P * B <= 64 ->
  Forall (fun b => 0 <= b < 2 ^ B) bins ->
  Forall (fun w => 0 <= w <= size_t_max) (pack P B bins).
Proof.
  intros HP HB HPB Hall. unfold pack.
  generalize (Z.to_nat ((Z.of_nat (length bins) + P - 1) / P)) as cWords.
  intros cWords. revert bins Hall.
  induction cWords as [|n IH]; intros bins Hall; cbn [pack_words]; constructor.
  - pose proof (pack_word_bound B (take (Z.to_nat P) bins) HB
                  (Forall_take _ _ _ Hall)) as Hb.
    assert (2 ^ (B * Z.of_nat (length (take (Z.to_nat P) bins))) <= 2 ^ 64).
    { apply Z.pow_le_mono_r; [lia|]. rewrite length_take. nia. }
    unfold size_t_max. lia.
  - apply IH, Forall_drop, Hall.
Qed.


(** ** The bit-packed iteration *)

(** C2.  For a feature combination with at least one feature, [P] items per
    storage word and [B = GetCountBits P] bits per item ([1 <= P], [1 <= B],
    [P * B] at most the 64 bits of a word) and a column that packs the bins
    [bins] of the cases, the loop's mask is [(1 << B) - 1], the packed words
    fit the storage type, and the training-set pass, which reads one word
    per block of [P] cases (the rest of the cases in the last block), masks
    the low [B] bits and shifts the word right by [B], runs its per-case
    body on exactly the original bin of every case, in the original order
    of the cases.  The validation-set pass does the same. *)
Theorem bit_packed_pass_visits_original_bins
    {cfg : BuildConfig} {stat : EbmStatistics}
    (cc : CompilerTargetStates) (cTargetStates : Z)
    (fc : FeatureCombination) (d : DataSetByFeatureCombination)
    (U : list spec_float) (bins : list Z) (cInputBits cTargetBits : Z) :
  let P := m_cItemsPerBitPackDataUnit fc in
  let B := GetCountBits P in
  let V := GET_VECTOR_LENGTH cc cTargetStates in
  1 <= m_cFeatures fc ->
  k_cBitsForStorageType = 64 ->
  1 <= P -> 1 <= B -> P * B <= k_cBitsForStorageType ->
  1 <= V ->
  m_cCases d = Z.of_nat (length bins) ->
  Forall (fun b => 0 <= b < 2 ^ B) bins ->
  GetDataPointer d fc = pack P B bins ->
  maskBitsOf B = Z.shiftl 1 B - 1
  /\ Forall (fun w => 0 <= w <= size_t_max) (pack P B bins)
  /\ TrainingSetTargetFeatureLoop cInputBits cTargetBits cc fc d U cTargetStates
     = Some (finish d
               (fold_left (fun s b => TrainingCase cc U (m_aTargetData d) V b s)
                  bins (start d)))
  /\ ValidationSetTargetFeatureLoop cInputBits cTargetBits cc fc d U cTargetStates
     = (let s :=
          fold_left (fun s b => ValidationCase cc U (m_aTargetData d) V b s)
            bins (start d) in
        Some (finish d s,
              if IsRegression cc
              then fsqrt (fdiv (sumMetric s) (of_size_t (m_cCases d)))
              else sumMetric s)).
Proof.
  intros P B V Hd Hk HP HB HPB HV Hn Hbins Hdata.
  assert (HB64 : 0 <= B <= 64) by nia.
  assert (Hmask : maskBitsOf B = Z.ones B).
  { unfold maskBitsOf. rewrite Hk. apply mask_is_ones. exact HB64. }
  assert (Hready : pass_ready cc cTargetStates fc d).
  { repeat split; try assumption; fold P B; lia. }
  assert (Hbin : forall i, (i < length bins)%nat -> BinOf fc d i = bins !!! i).
  { intros i Hi. unfold BinOf.
    destruct (Z.eqb_spec (m_cFeatures fc) 0) as [|_]; [lia|].
    fold P B. rewrite Hdata, Hmask. apply BinOfCase_pack; auto; lia. }
  split; [|split; [|split]].
  - rewrite Hmask. rewrite Z.ones_equiv, Z.shiftl_1_l. lia.
  - apply pack_fits_storage; auto; lia.
  - rewrite (TrainingSetTargetFeatureLoop_fold cc cTargetStates fc d U Hready).
    unfold TrainingFold. rewrite Hn, Nat2Z.id. fold V.
    rewrite (fold_cases_bins
               (fun b s => TrainingCase cc U (m_aTargetData d) V b s)
               (BinOf fc d) bins (start d) Hbin).
    reflexivity.
  - rewrite (ValidationSetTargetFeatureLoop_fold cc cTargetStates fc d U Hready).
    unfold ValidationFold. rewrite Hn, Nat2Z.id. fold V.
    rewrite (fold_cases_bins
               (fun b s => ValidationCase cc U (m_aTargetData d) V b s)
               (BinOf fc d) bins (start d) Hbin).
    reflexivity.
Qed.

(** Five regression cases, four to a word: the pass subtracts from each
    residual the update cell of the case's own bin. *)
Lemma bit_packed_pass_visits_original_bins_witness :
  @TrainingSetTargetFeatureLoop Example.config Example.statistics 1 1
    k_Regression Example.combination Example.regression_set Example.update 0
  = Some (finish Example.regression_set
            (fold_left
               (fun s b =>
                  @TrainingCase Example.config Example.statistics k_Regression
                    Example.update [] 1 b s)
               Example.bins (start Example.regression_set))).
Proof.
  apply (@bit_packed_pass_visits_original_bins Example.config Example.statistics
           k_Regression 0 Example.combination Example.regression_set
           Example.update Example.bins 1 1).
  - vm_compute. discriminate.
  - reflexivity.
  - vm_compute. discriminate.
  - vm_compute. discriminate.
  - vm_compute. discriminate.
  - vm_compute. discriminate.
  - reflexivity.
  - repeat constructor; vm_compute; (discriminate || reflexivity).
  - reflexivity.
Defined.

Example bit_packed_pass_example :
  m_aResidualErrors <$>
    @TrainingSetTargetFeatureLoop Example.config Example.statistics 1 1
      k_Regression Example.combination Example.regression_set Example.update 0
  = Some [fzero; Example.two; Example.one; fzero; Example.two].
Proof. vm_compute. reflexivity. Qed.

(** Scenario 6 of the specification: "given P=4, B=2 and word 0b11_10_01_00,
    iterator yields 0,1,2,3; with P=2, B=4 and word 0xAB, iterator yields
    0xB, 0xA". *)
Example bit_pack_scenario :
  pack 4 2 [0; 1; 2; 3] = [228]
  /\ (fun i => BinOfCase [228] 4 2 3 i) <$> [0; 1; 2; 3] = [0; 1; 2; 3]
  /\ (fun i => BinOfCase [171] 2 4 15 i) <$> [0; 1] = [11; 10].
Proof. repeat split. Qed.

(** ** Comparison of doubles *)

Ltac compare_cases :=
  repeat match goal with
    | H : context [Pos.compare_cont Eq ?a ?b] |- _ =>
        change (Pos.compare_cont Eq a b) with (Pos.compare a b) in H
    | |- context [Pos.compare_cont Eq ?a ?b] =>
        change (Pos.compare_cont Eq a b) with (Pos.compare a b)
    end;
  repeat match goal with
    | H : context [Z.compare ?a ?b] |- _ => destruct (Z.compare_spec a b)
    | |- context [Z.compare ?a ?b] => destruct (Z.compare_spec a b)
    | H : context [Pos.compare ?a ?b] |- _ => destruct (Pos.compare_spec a b)
    | |- context [Pos.compare ?a ?b] => destruct (Pos.compare_spec a b)
    end;
  cbn in *; subst; try discriminate; try reflexivity; try lia.

Lemma flt_irrefl (x : spec_float) : flt x x = false.
Proof.
  unfold flt, SFltb.
  destruct x as [[]|[]| |[] m e]; cbn; try reflexivity; compare_cases.
Qed.

Lemma flt_nan_l (y : spec_float) : flt fnan y = false.
Proof. reflexivity. Qed.

Lemma flt_nan_r (x : spec_float) : flt x fnan = false.
Proof. destruct x as [[]|[]| |[] m e]; reflexivity. Qed.

(** [b <= m] excludes [m < b]. *)
Lemma fle_not_flt (b m : spec_float) : fle b m = true -> flt m b = false.
Proof.
  unfold fle, flt, SFleb, SFltb.
  destruct b as [[]|[]| |[] mb eb], m as [[]|[]| |[] mm em];
    cbn; try reflexivity; try discriminate; intros Hle; compare_cases.
Qed.

Lemma flt_fle (x y : spec_float) : flt x y = true -> fle x y = true.
Proof.
  unfold fle, flt, SFleb, SFltb.
  destruct (SFcompare x y) as [[]|]; intros; try discriminate; reflexivity.
Qed.

Lemma flt_trans (x y z : spec_float) :
  flt x y = true -> flt y z = true -> flt x z = true.
Proof.
  unfold flt, SFltb.
  destruct x as [[]|[]| |[] mx ex], y as [[]|[]| |[] my ey],
           z as [[]|[]| |[] mz ez];
    cbn; try reflexivity; try discriminate; intros Hxy Hyz; compare_cases.
Qed.

Lemma fle_refl (x : spec_float) : is_nan x = false -> fle x x = true.
Proof.
  unfold fle, SFleb.
  destruct x as [[]|[]| |[] m e]; cbn; try reflexivity; try discriminate;
    intros _; compare_cases.
Qed.

Lemma flt_not_nan (x y : spec_float) : flt x y = true -> is_nan x = false.
Proof. destruct x; try reflexivity. discriminate. Qed.

Lemma flt_infinity (x : spec_float) :
  flt x finfinity = negb (is_nan x) && negb (match x with
                                            | S754_infinity false => true
                                            | _ => false
                                            end).
Proof. destruct x as [[]|[]| |[] m e]; reflexivity. Qed.

(** ** Update application *)

Section ApplyProperties.
Context {cfg : BuildConfig} {stat : EbmStatistics}
        {ops : SegmentedTensorOps} {learn : TreeLearners}.

Lemma assign_Some {A} (p : option A) (v w : A) : assign (assign p v) w = assign p w.
Proof. destruct p; reflexivity. Qed.

(** The commit loop never dereferences outside the two model arrays when
    both hold [iModel + n] tensors. *)
Lemma CopyModels_total (n : nat) (iModel : Z)
    (apBestModel apCurrentModel : list SegmentedTensor) :
  0 <= iModel ->
  (Z.to_nat iModel + n <= length apBestModel)%nat ->
  (Z.to_nat iModel + n <= length apCurrentModel)%nat ->
  exists err apBestModel',
    CopyModels n iModel apBestModel apCurrentModel = Some (err, apBestModel').
Proof.
  revert iModel apBestModel. induction n as [|n IH]; intros iModel best Hi Hb Hc.
  - eexists _, _. reflexivity.
  - cbn [CopyModels].
    destruct (lookup_lt_is_Some_2 best (Z.to_nat iModel) ltac:(lia)) as [b Hbl].
    destruct (lookup_lt_is_Some_2 apCurrentModel (Z.to_nat iModel) ltac:(lia))
      as [cm Hcl].
    rewrite Hbl, Hcl. cbn [mbind option_bind].
    destruct (Copy b cm) as [[|] b']; [eexists _, _; reflexivity|].
    apply IH; [lia| |lia]. unfold store. rewrite length_insert. lia.
Qed.

(** When no [Copy] fails, every tensor in the range of the loop has been
    replaced by the result of copying the current tensor of the same index
    into it, and no other tensor has changed. *)
Lemma CopyModels_copies (n : nat) (iModel : Z)
    (apBestModel apCurrentModel apBestModel' : list SegmentedTensor) :
  0 <= iModel ->
  CopyModels n iModel apBestModel apCurrentModel = Some (false, apBestModel') ->
  length apBestModel' = length apBestModel
  /\ (forall i, (i < Z.to_nat iModel \/ Z.to_nat iModel + n <= i)%nat ->
      apBestModel' !! i = apBestModel !! i)
  /\ (forall i, (Z.to_nat iModel <= i < Z.to_nat iModel + n)%nat ->
      exists pBest pCurrent,
        apBestModel !! i = Some pBest
        /\ apCurrentModel !! i = Some pCurrent
        /\ (Copy pBest pCurrent).1 = false
        /\ apBestModel' !! i = Some (Copy pBest pCurrent).2).
Proof.
  revert iModel apBestModel. induction n as [|n IH]; intros iModel best Hi Hrun.
  - cbn in Hrun. injection Hrun as <-. repeat split; intros; try reflexivity; lia.
  - cbn [CopyModels] in Hrun.
    destruct (best !! Z.to_nat iModel) as [b|] eqn:Hbl; [|discriminate].
    destruct (apCurrentModel !! Z.to_nat iModel) as [cm|] eqn:Hcl; [|discriminate].
    cbn [mbind option_bind] in Hrun.
    destruct (Copy b cm) as [[|] b'] eqn:Hcopy; [discriminate|].
    apply IH in Hrun; [|lia].
    destruct Hrun as (Hlen & Hout & Hin). unfold store in *.
    rewrite length_insert in Hlen.
    replace (Z.to_nat (iModel + 1)) with (S (Z.to_nat iModel)) in * by lia.
    split; [exact Hlen|]. split.
    + intros i Hi'. rewrite Hout by lia. apply list_lookup_insert_ne. lia.
    + intros i Hi'.
      destruct (decide (i = Z.to_nat iModel)) as [->|Hne].
      * exists b, cm. rewrite Hcopy. repeat split; auto.
        rewrite Hout by lia. apply list_lookup_insert_eq.
        apply lookup_lt_Some in Hbl. exact Hbl.
      * destruct (Hin i ltac:(lia)) as (pb & pcur & H1 & H2 & H3 & H4).
        exists pb, pcur. repeat split; auto.
        rewrite list_lookup_insert_ne in H1 by lia. exact H1.
Qed.

(** The loop reports no error when every [Copy] it can come to make -- of
    the current tensor of an index of its range into the best tensor of
    that index -- succeeds. *)
Lemma CopyModels_succeeds (n : nat) (iModel : Z)
    (apBestModel apCurrentModel apBestModel' : list SegmentedTensor)
    (err : bool) :
  0 <= iModel ->
  CopyModels n iModel apBestModel apCurrentModel = Some (err, apBestModel') ->
  (forall i pBest pCurrent,
      (Z.to_nat iModel <= i < Z.to_nat iModel + n)%nat ->
      apBestModel !! i = Some pBest ->
      apCurrentModel !! i = Some pCurrent ->
      (Copy pBest pCurrent).1 = false) ->
  err = false.
Proof.
  revert iModel apBestModel.
  induction n as [|n IH]; intros iModel best Hi Hrun Hall.
  - cbn in Hrun. injection Hrun as <- _. reflexivity.
  - cbn [CopyModels] in Hrun.
    destruct (best !! Z.to_nat iModel) as [b|] eqn:Hbl; [|discriminate].
    destruct (apCurrentModel !! Z.to_nat iModel) as [cm|] eqn:Hcl; [|discriminate].
    cbn [mbind option_bind] in Hrun.
    pose proof (Hall (Z.to_nat iModel) b cm ltac:(lia) Hbl Hcl) as Hok.
    destruct (Copy b cm) as [e b'] eqn:Hcopy. cbn in Hok. subst e.
    apply IH in Hrun; [exact Hrun|lia|].
    intros i pb pcur Hrange Hb Hc.
    unfold store in Hb. rewrite list_lookup_insert_ne in Hb by lia.
    apply (Hall i); [lia|exact Hb|exact Hc].
Qed.

(** When the loop reports an error, a [Copy] failed: at some index [k] of
    its range the copy of the current tensor into the best tensor failed;
    the tensors before [k] have been replaced by successful copies, the
    tensor at [k] is what the failed [Copy] left of it, and the loop has
    not come to any other tensor. *)
Lemma CopyModels_failure (n : nat) (iModel : Z)
    (apBestModel apCurrentModel apBestModel' : list SegmentedTensor) :
  0 <= iModel ->
  CopyModels n iModel apBestModel apCurrentModel = Some (true, apBestModel') ->
  exists k pBest pCurrent,
    (Z.to_nat iModel <= k < Z.to_nat iModel + n)%nat
    /\ apBestModel !! k = Some pBest
    /\ apCurrentModel !! k = Some pCurrent
    /\ (Copy pBest pCurrent).1 = true
    /\ apBestModel' !! k = Some (Copy pBest pCurrent).2
    /\ (forall i, (Z.to_nat iModel <= i < k)%nat ->
        exists pb pc,
          apBestModel !! i = Some pb
          /\ apCurrentModel !! i = Some pc
          /\ (Copy pb pc).1 = false
          /\ apBestModel' !! i = Some (Copy pb pc).2)
    /\ (forall i, (i < Z.to_nat iModel \/ k < i)%nat ->
        apBestModel' !! i = apBestModel !! i).
Proof.
  revert iModel apBestModel. induction n as [|n IH]; intros iModel best Hi Hrun.
  - cbn in Hrun. discriminate.
  - cbn [CopyModels] in Hrun.
    destruct (best !! Z.to_nat iModel) as [b|] eqn:Hbl; [|discriminate].
    destruct (apCurrentModel !! Z.to_nat iModel) as [cm|] eqn:Hcl; [|discriminate].
    cbn [mbind option_bind] in Hrun.
    pose proof (lookup_lt_Some _ _ _ Hbl) as Hlt.
    destruct (Copy b cm) as [[|] b'] eqn:Hcopy.
    + injection Hrun as <-.
      exists (Z.to_nat iModel), b, cm. rewrite Hcopy. unfold store.
      split; [lia|]. split; [exact Hbl|]. split; [exact Hcl|].
      split; [reflexivity|]. split; [apply list_lookup_insert_eq; exact Hlt|].
      split; [intros i Hi'; lia|].
      intros i Hi'. apply list_lookup_insert_ne. lia.
    + apply IH in Hrun; [|lia].
      destruct Hrun as (k & pb & pcur & Hk & Hb & Hc & Hfail & Hk' & Hbefore
                        & Hout).
      unfold store in *.
      replace (Z.to_nat (iModel + 1)) with (S (Z.to_nat iModel)) in * by lia.
      rewrite list_lookup_insert_ne in Hb by lia.
      exists k, pb, pcur.
      split; [lia|]. split; [exact Hb|]. split; [exact Hc|].
      split; [exact Hfail|]. split; [exact Hk'|]. split.
      * intros i Hi'.
        destruct (decide (i = Z.to_nat iModel)) as [->|Hne].
        -- exists b, cm. rewrite Hcopy. repeat split; auto.
           rewrite Hout by lia. apply list_lookup_insert_eq. exact Hlt.
        -- destruct (Hbefore i ltac:(lia)) as (pb0 & pc0 & H1 & H2 & H3 & H4).
           exists pb0, pc0. rewrite list_lookup_insert_ne in H1 by lia.
           repeat split; auto.
      * intros i Hi'. rewrite Hout by lia. apply list_lookup_insert_ne. lia.
Qed.

(** What a call of the driver that returns has done. *)
Lemma ApplyPerTargetStates_inv (cc : CompilerTargetStates)
    (st : EbmTrainingState) (c : Z) (U : list spec_float)
    (ptr : option spec_float) (st' : EbmTrainingState) (ret : Z)
    (ptr' : option spec_float) :
  ApplyModelFeatureCombinationUpdatePerTargetStates cc st c U ptr
  = Some (st', ret, ptr') ->
  exists cur pc fcs fc ts',
    m_apCurrentModel st = Some cur
    /\ cur !! Z.to_nat c = Some pc
    /\ m_apFeatureCombinations st = Some fcs
    /\ fcs !! Z.to_nat c = Some fc
    /\ match m_pTrainingSet st with
       | Some ts =>
           exists ts0,
             TrainingSetInputFeatureLoop 1 cc fc ts U (m_cTargetStates st) = Some ts0
             /\ ts' = Some ts0
       | None => ts' = None
       end
    /\ let cur' := store cur c (AddExpanded pc U) in
       match m_pValidationSet st with
       | None =>
           st' = set_training st cur' ts' None
           /\ ret = 0 /\ ptr' = assign ptr fzero
       | Some vs =>
           exists vs' m,
             ValidationSetInputFeatureLoop 1 cc fc vs U (m_cTargetStates st)
             = Some (vs', m)
             /\ if flt m (m_bestModelMetric st) then
                  exists best err best',
                    m_apBestModel st = Some best
                    /\ CopyModels (Z.to_nat (m_cFeatureCombinations st)) 0 best cur'
                       = Some (err, best')
                    /\ st' = set_best (set_training st cur' ts' (Some vs')) m best'
                    /\ ret = (if err then 1 else 0)
                    /\ ptr' = assign ptr (if err then fzero else m)
                else
                  st' = set_training st cur' ts' (Some vs')
                  /\ ret = 0 /\ ptr' = assign ptr m
       end.
Proof.
  unfold ApplyModelFeatureCombinationUpdatePerTargetStates. intros Hrun.
  destruct (m_apCurrentModel st) as [cur|] eqn:Hcur; [|discriminate].
  cbn [mbind option_bind] in Hrun.
  destruct (cur !! Z.to_nat c) as [pc|] eqn:Hpc; [|discriminate].
  cbn [mbind option_bind] in Hrun.
  destruct (m_apFeatureCombinations st) as [fcs|] eqn:Hfcs; [|discriminate].
  cbn [mbind option_bind] in Hrun.
  destruct (fcs !! Z.to_nat c) as [fc|] eqn:Hfc; [|discriminate].
  cbn [mbind option_bind] in Hrun.
  destruct (m_pTrainingSet st) as [ts|] eqn:Hts.
  - destruct (TrainingSetInputFeatureLoop 1 cc fc ts U (m_cTargetStates st))
      as [ts0|] eqn:Htrain; [|discriminate].
    cbn [fmap option_fmap option_map mbind option_bind] in Hrun.
    exists cur, pc, fcs, fc, (Some ts0).
    split; [reflexivity|]. split; [exact Hpc|]. split; [reflexivity|].
    split; [exact Hfc|]. split; [exists ts0; split; [exact Htrain|reflexivity]|].
    cbn zeta.
    destruct (m_pValidationSet st) as [vs|] eqn:Hvs; cbv beta iota zeta.
    + destruct (ValidationSetInputFeatureLoop 1 cc fc vs U (m_cTargetStates st))
        as [[vs' m]|] eqn:Hval; [|discriminate].
      exists vs', m. split; [first [exact Hval|reflexivity]|].
      destruct (flt m (m_bestModelMetric st)).
      * destruct (m_apBestModel st) as [best|] eqn:Hbest; [|discriminate].
        cbn [mbind option_bind] in Hrun.
        destruct (CopyModels _ 0 best _) as [[[|] best']|] eqn:Hcopy;
          [| |discriminate]; injection Hrun as <- <- <-;
          exists best; eexists _, best';
          (split; [reflexivity|]); (split; [first [exact Hcopy|reflexivity]|]);
          repeat split; reflexivity.
      * injection Hrun as <- <- <-. repeat split; reflexivity.
    + injection Hrun as <- <- <-. repeat split; reflexivity.
  - cbn [mbind option_bind] in Hrun.
    exists cur, pc, fcs, fc, None.
    split; [reflexivity|]. split; [exact Hpc|]. split; [reflexivity|].
    split; [exact Hfc|]. split; [reflexivity|].
    cbn zeta.
    destruct (m_pValidationSet st) as [vs|] eqn:Hvs; cbv beta iota zeta.
    + destruct (ValidationSetInputFeatureLoop 1 cc fc vs U (m_cTargetStates st))
        as [[vs' m]|] eqn:Hval; [|discriminate].
      exists vs', m. split; [first [exact Hval|reflexivity]|].
      destruct (flt m (m_bestModelMetric st)).
      * destruct (m_apBestModel st) as [best|] eqn:Hbest; [|discriminate].
        cbn [mbind option_bind] in Hrun.
        destruct (CopyModels _ 0 best _) as [[[|] best']|] eqn:Hcopy;
          [| |discriminate]; injection Hrun as <- <- <-;
          exists best; eexists _, best';
          (split; [reflexivity|]); (split; [first [exact Hcopy|reflexivity]|]);
          repeat split; reflexivity.
      * injection Hrun as <- <- <-. repeat split; reflexivity.
    + injection Hrun as <- <- <-. repeat split; reflexivity.
Qed.

(** On a ready state the driver returns. *)
Lemma ApplyPerTargetStates_total (st : EbmTrainingState) (c : Z)
    (U : list spec_float) (ptr : option spec_float) :
  apply_ready st c ->
  exists st' ret ptr',
    ApplyModelFeatureCombinationUpdatePerTargetStates (TemplateInstance st)
      st c U ptr = Some (st', ret, ptr').
Proof.
  intros (cur & best & fcs & fc & pc & Hcur & Hbest & Hfcs & Hc & Hfc & Hpc
          & Hn & Hlb & Hlc & Hts & Hvs).
  unfold ApplyModelFeatureCombinationUpdatePerTargetStates.
  rewrite Hcur. cbn [mbind option_bind]. rewrite Hpc. cbn [mbind option_bind].
  rewrite Hfcs. cbn [mbind option_bind]. rewrite Hfc. cbn [mbind option_bind].
  assert (Htrain : exists ts',
             match m_pTrainingSet st with
             | Some pTrainingSet =>
                 Some <$>
                   TrainingSetInputFeatureLoop 1 (TemplateInstance st) fc
                     pTrainingSet U (m_cTargetStates st)
             | None => Some None
             end = Some ts').
  { destruct (m_pTrainingSet st) as [ts|]; [|eexists; reflexivity].
    unfold TrainingSetInputFeatureLoop.
    rewrite (TrainingSetTargetFeatureLoop_fold _ _ _ _ _ (Hts ts eq_refl)).
    eexists. reflexivity. }
  destruct Htrain as [ts' ->]. cbn [mbind option_bind].
  destruct (m_pValidationSet st) as [vs|]; [|eexists _, _, _; reflexivity].
  unfold ValidationSetInputFeatureLoop.
  rewrite (ValidationSetTargetFeatureLoop_fold _ _ _ _ _ (Hvs vs eq_refl)).
  destruct (flt _ (m_bestModelMetric st)); [|eexists _, _, _; reflexivity].
  rewrite Hbest. cbn [mbind option_bind].
  destruct (CopyModels_total (Z.to_nat (m_cFeatureCombinations st)) 0 best
              (store cur c (AddExpanded pc U)))
    as (err & best' & ->); [lia|cbn; lia| |].
  - unfold store. rewrite length_insert. cbn. lia.
  - destruct err; eexists _, _, _; reflexivity.
Qed.
End ApplyProperties.

Section ApplyTheorems.
Context {cfg : BuildConfig} {stat : EbmStatistics}
        {ops : SegmentedTensorOps} {learn : TreeLearners}.

(** C10.  A call of apply_update with a null update tensor returns status
    0, stores 0 behind [validationMetricReturn] when that pointer is not
    null (and stores nothing otherwise), and returns the training state as
    it was: current model, best model, scores, residuals and best metric
    are unchanged. *)
Theorem apply_null_update_is_noop (st : EbmTrainingState) (c : Z)
    (validationMetricReturn : option spec_float) :
  ApplyModelFeatureCombinationUpdate st c None validationMetricReturn
  = Some (st, 0,
          match validationMetricReturn with
          | Some _ => Some fzero
          | None => None
          end).
Proof. unfold ApplyModelFeatureCombinationUpdate, assign. reflexivity. Qed.

(** C3.  On a classification state with [m_cTargetStates <= 1]:
    generate_update returns a null tensor and stores gain 0 behind a
    non-null [gainReturn]; apply_update (with or without an update tensor)
    and training_step return status 0 and store metric 0 behind a non-null
    [validationMetricReturn]; each returns the state as it was. *)
Theorem degenerate_classification_succeeds (st : EbmTrainingState) :
  m_bRegression st = false ->
  m_cTargetStates st <= 1 ->
  (forall c learningRate cSplits cCasesMin gainReturn,
     GenerateModelFeatureCombinationUpdate st c learningRate cSplits cCasesMin
       gainReturn
     = Some (st, None, assign gainReturn fzero))
  /\ (forall c modelUpdateTensor metricReturn,
        ApplyModelFeatureCombinationUpdate st c modelUpdateTensor metricReturn
        = Some (st, 0, assign metricReturn fzero))
  /\ (forall c learningRate cSplits cCasesMin metricReturn,
        TrainingStep st c learningRate cSplits cCasesMin metricReturn
        = Some (st, 0, assign metricReturn fzero)).
Proof.
  intros Hclass Hone.
  assert (Hle : (m_cTargetStates st <=? 1) = true) by (apply Z.leb_le; exact Hone).
  repeat split; intros.
  - unfold GenerateModelFeatureCombinationUpdate. rewrite Hclass, Hle. reflexivity.
  - unfold ApplyModelFeatureCombinationUpdate. rewrite Hclass, Hle.
    destruct modelUpdateTensor; reflexivity.
  - unfold TrainingStep. rewrite Hclass, Hle. reflexivity.
Qed.
Lemma Apply_nondegenerate (st : EbmTrainingState) (c : Z)
    (U : list spec_float) (ptr : option spec_float) :
  Degenerate st = false ->
  ApplyModelFeatureCombinationUpdate st c (Some U) ptr
  = ApplyModelFeatureCombinationUpdatePerTargetStates (TemplateInstance st)
      st c U ptr.
Proof.
  unfold Degenerate, ApplyModelFeatureCombinationUpdate, TemplateInstance.
  destruct (m_bRegression st); cbn [negb andb]; [reflexivity|].
  intros ->. reflexivity.
Qed.

Lemma Apply_degenerate (st : EbmTrainingState) (c : Z)
    (t : option (list spec_float)) (ptr : option spec_float) :
  Degenerate st = true ->
  ApplyModelFeatureCombinationUpdate st c t ptr = Some (st, 0, assign ptr fzero).
Proof.
  unfold Degenerate, ApplyModelFeatureCombinationUpdate.
  destruct (m_bRegression st); cbn [negb andb]; [discriminate|].
  intros ->. destruct t; reflexivity.
Qed.

(** C5.  On a state without a validation set, a call of apply_update
    returns (status 0), the metric it reports behind a non-null
    [validationMetricReturn] is 0, and it changes neither the best metric
    nor any tensor of the best model. *)
Theorem apply_without_validation_set (st : EbmTrainingState) (c : Z)
    (modelUpdateTensor : option (list spec_float))
    (validationMetricReturn : option spec_float) :
  m_pValidationSet st = None ->
  apply_ready st c ->
  exists st',
    ApplyModelFeatureCombinationUpdate st c modelUpdateTensor validationMetricReturn
    = Some (st', 0, assign validationMetricReturn fzero)
    /\ m_bestModelMetric st' = m_bestModelMetric st
    /\ m_apBestModel st' = m_apBestModel st.
Proof.
  intros Hvs Hready.
  destruct modelUpdateTensor as [U|];
    [|exists st; repeat split; reflexivity].
  destruct (Degenerate st) eqn:Hdeg.
  - exists st. rewrite Apply_degenerate by exact Hdeg. repeat split; reflexivity.
  - rewrite Apply_nondegenerate by exact Hdeg.
    destruct (ApplyPerTargetStates_total st c U validationMetricReturn Hready)
      as (st' & ret & ptr' & Hrun).
    rewrite Hrun. apply ApplyPerTargetStates_inv in Hrun.
    destruct Hrun as (cur & pc & fcs & fc & ts' & _ & _ & _ & _ & _ & Hrest).
    cbn zeta in Hrest. rewrite Hvs in Hrest.
    destruct Hrest as (-> & -> & ->).
    exists (set_training st (store cur c (AddExpanded pc U)) ts' None).
    repeat split; reflexivity.
Qed.

(** C1.  On a state with a validation set on which update application runs
    its passes, a call of apply_update with an update tensor returns, its
    validation-set pass computes a metric [m], and:
    - if [m < best_metric], the best metric becomes [m] and the commit loop
      copies the current model, the one after the update, into the best
      model.  The call reports success (status 0) exactly when every
      [Copy] of a current tensor into the best tensor of the same index
      succeeds; then every tensor of the best model, for every feature
      combination index and not only for [c], is the result of that
      [Copy], and a [Copy] that gives its object the value of its argument
      leaves the two models equal;
    - if [best_metric <= m] or [m] is NaN, the best metric and the best
      model are as before the call. *)
Theorem apply_commits_best_on_strict_improvement (st : EbmTrainingState)
    (c : Z) (U : list spec_float) (validationMetricReturn : option spec_float)
    (pValidationSet : DataSetByFeatureCombination) :
  m_pValidationSet st = Some pValidationSet ->
  Degenerate st = false ->
  apply_ready st c ->
  exists m st' ret ptr',
    ComputedValidationMetric st c U = Some m
    /\ ApplyModelFeatureCombinationUpdate st c (Some U) validationMetricReturn
       = Some (st', ret, ptr')
    /\ (flt m (m_bestModelMetric st) = true ->
        m_bestModelMetric st' = m
        /\ exists apCurrentModel apBestModel apBestModel',
             m_apCurrentModel st' = Some apCurrentModel
             /\ m_apBestModel st = Some apBestModel
             /\ m_apBestModel st' = Some apBestModel'
             /\ (ret = 0 <->
                 forall i pBest pCurrent,
                   (i < Z.to_nat (m_cFeatureCombinations st))%nat ->
                   apBestModel !! i = Some pBest ->
                   apCurrentModel !! i = Some pCurrent ->
                   (Copy pBest pCurrent).1 = false)
             /\ (ret = 0 ->
                 (forall i, (i < Z.to_nat (m_cFeatureCombinations st))%nat ->
                    exists pBest pCurrent,
                      apBestModel !! i = Some pBest
                      /\ apCurrentModel !! i = Some pCurrent
                      /\ (Copy pBest pCurrent).1 = false
                      /\ apBestModel' !! i = Some (Copy pBest pCurrent).2)
                 /\ ((forall pBest pCurrent,
                         (Copy pBest pCurrent).1 = false ->
                         (Copy pBest pCurrent).2 = pCurrent) ->
                     forall i, (i < Z.to_nat (m_cFeatureCombinations st))%nat ->
                       apBestModel' !! i = apCurrentModel !! i)))
    /\ (fle (m_bestModelMetric st) m = true \/ is_nan m = true ->
        m_bestModelMetric st' = m_bestModelMetric st
        /\ m_apBestModel st' = m_apBestModel st).
Proof.
  intros Hvs Hdeg Hready.
  destruct (ApplyPerTargetStates_total st c U validationMetricReturn Hready)
    as (st' & ret & ptr' & Hrun).
  pose proof (ApplyPerTargetStates_inv _ _ _ _ _ _ _ _ Hrun)
    as (cur & pc & fcs & fc & ts' & Hcur & Hpc & Hfcs & Hfc & _ & Hrest).
  cbn zeta in Hrest. rewrite Hvs in Hrest.
  destruct Hrest as (vs' & m & Hval & Hrest).
  exists m, st', ret, ptr'.
  split.
  { unfold ComputedValidationMetric. rewrite Hdeg, Hfcs. cbn [mbind option_bind].
    rewrite Hfc. cbn [mbind option_bind]. rewrite Hvs. cbn [mbind option_bind].
    rewrite Hval. reflexivity. }
  split; [rewrite Apply_nondegenerate by exact Hdeg; exact Hrun|].
  destruct (flt m (m_bestModelMetric st)) eqn:Hlt.
  - destruct Hrest as (best & err & best' & Hbest & Hcopy & -> & -> & ->).
    split.
    + intros _. split; [reflexivity|].
      exists (store cur c (AddExpanded pc U)), best, best'.
      split; [reflexivity|]. split; [exact Hbest|]. split; [reflexivity|].
      split; [split|].
      * intros Hret. destruct err; [discriminate Hret|].
        apply CopyModels_copies in Hcopy; [|lia].
        destruct Hcopy as (_ & _ & Hin).
        intros i pb pcur Hi Hb Hc.
        destruct (Hin i ltac:(cbn; lia)) as (pb0 & pc0 & Hb0 & Hc0 & Hok & _).
        cbn in Hc. congruence.
      * intros Hall.
        assert (Herr : err = false).
        { eapply CopyModels_succeeds; [|exact Hcopy|]; [lia|].
          intros i pb pcur Hi Hb Hc.
          apply (Hall i); [cbn in Hi; lia|exact Hb|exact Hc]. }
        rewrite Herr. reflexivity.
      * intros Hret. destruct err; [discriminate Hret|].
        apply CopyModels_copies in Hcopy; [|lia].
        destruct Hcopy as (_ & _ & Hin).
        split.
        -- intros i Hi. apply Hin. cbn. lia.
        -- intros Hlaw i Hi.
           destruct (Hin i ltac:(cbn; lia)) as (pb & pcur & _ & Hc2 & Hok & Hb').
           cbn. rewrite Hb', Hc2, (Hlaw _ _ Hok). reflexivity.
    + intros [Hle|Hnan].
      * apply fle_not_flt in Hle. congruence.
      * destruct m; discriminate.
  - destruct Hrest as (-> & -> & ->).
    split; [discriminate|]. intros _. split; reflexivity.
Qed.

(** *** The best metric never grows *)

Lemma Apply_best_metric (st : EbmTrainingState) (c : Z)
    (t : option (list spec_float)) (ptr : option spec_float)
    (st' : EbmTrainingState) (ret : Z) (ptr' : option spec_float) :
  ApplyModelFeatureCombinationUpdate st c t ptr = Some (st', ret, ptr') ->
  m_bestModelMetric st' = m_bestModelMetric st
  \/ flt (m_bestModelMetric st') (m_bestModelMetric st) = true.
Proof.
  intros Hrun. destruct t as [U|].
  - destruct (Degenerate st) eqn:Hdeg.
    + rewrite Apply_degenerate in Hrun by exact Hdeg.
      injection Hrun as <- _ _. left. reflexivity.
    + rewrite Apply_nondegenerate in Hrun by exact Hdeg.
      apply ApplyPerTargetStates_inv in Hrun.
      destruct Hrun as (cur & pc & fcs & fc & ts' & _ & _ & _ & _ & _ & Hrest).
      cbn zeta in Hrest.
      destruct (m_pValidationSet st) as [vs|].
      * destruct Hrest as (vs' & m & _ & Hrest).
        destruct (flt m (m_bestModelMetric st)) eqn:Hlt.
        -- destruct Hrest as (best & err & best' & _ & _ & -> & _).
           right. exact Hlt.
        -- destruct Hrest as (-> & _). left. reflexivity.
      * destruct Hrest as (-> & _). left. reflexivity.
  - injection Hrun as <- _ _. left. reflexivity.
Qed.

Lemma GeneratePerTargetStates_keeps (cc : CompilerTargetStates)
    (st : EbmTrainingState) (c : Z) (learningRate : spec_float)
    (cSplits cCasesMin : Z) (g : option spec_float)
    (st' : EbmTrainingState) (r : option (list spec_float))
    (g' : option spec_float) :
  GenerateModelFeatureCombinationUpdatePerTargetStates cc st c learningRate
    cSplits cCasesMin g = Some (st', r, g') ->
  exists overwrite accumulated, st' = set_scratch st overwrite accumulated.
Proof.
  unfold GenerateModelFeatureCombinationUpdatePerTargetStates. intros Hrun.
  destruct (m_apFeatureCombinations st) as [fcs|]; [|discriminate].
  cbn [mbind option_bind] in Hrun.
  destruct (fcs !! Z.to_nat c) as [fc|]; [|discriminate].
  cbn [mbind option_bind] in Hrun.
  destruct (m_pSmallChangeToModelAccumulatedFromSamplingSets st) as [acc|];
    [|discriminate].
  cbn [mbind option_bind] in Hrun.
  destruct (m_apSamplingSets st) as [sets|].
  - destruct (m_pSmallChangeToModelOverwriteSingleSamplingSet st) as [ow|];
      [|discriminate].
    cbn [mbind option_bind] in Hrun.
    destruct (SamplingSetLoop _ _ _ _ _ _ _ _ _ _ _) as [[[[[|] ow'] acc'] tg]|];
      [| |discriminate].
    + injection Hrun as <- _ _. eexists _, _. reflexivity.
    + destruct (negb (m_cFeatures fc =? 0)).
      * destruct (Expand _ _) as [[|] acc''];
          injection Hrun as <- _ _; eexists _, _; reflexivity.
      * injection Hrun as <- _ _. eexists _, _. reflexivity.
  - destruct (negb (m_cFeatures fc =? 0)).
    + destruct (Expand _ _) as [[|] acc''];
        injection Hrun as <- _ _; eexists _, _; reflexivity.
    + injection Hrun as <- _ _. eexists _, _. reflexivity.
Qed.

(** Update generation only writes the two scratch tensors. *)
Lemma Generate_keeps (st : EbmTrainingState) (c : Z)
    (learningRate : spec_float) (cSplits cCasesMin : Z)
    (g : option spec_float) (st' : EbmTrainingState)
    (r : option (list spec_float)) (g' : option spec_float) :
  GenerateModelFeatureCombinationUpdate st c learningRate cSplits cCasesMin g
  = Some (st', r, g') ->
  st' = st \/ exists overwrite accumulated, st' = set_scratch st overwrite accumulated.
Proof.
  unfold GenerateModelFeatureCombinationUpdate. intros Hrun.
  destruct (m_bRegression st).
  - right. eapply GeneratePerTargetStates_keeps. exact Hrun.
  - destruct (m_cTargetStates st <=? 1).
    + injection Hrun as <- _ _. left. reflexivity.
    + right. eapply GeneratePerTargetStates_keeps. exact Hrun.
Qed.

Lemma api_step_best_metric (st st' : EbmTrainingState) :
  api_step st st' ->
  m_bestModelMetric st' = m_bestModelMetric st
  \/ flt (m_bestModelMetric st') (m_bestModelMetric st) = true.
Proof.
  intros Hstep. destruct Hstep as [st c lr a b g st' r g' Hrun
                                  |st c t p st' r p' Hrun
                                  |st c lr a b p st' r p' Hrun].
  - apply Generate_keeps in Hrun.
    destruct Hrun as [->|(ow & acc & ->)]; left; reflexivity.
  - eapply Apply_best_metric. exact Hrun.
  - unfold TrainingStep in Hrun.
    destruct (negb (m_bRegression st) && (m_cTargetStates st <=? 1)).
    + injection Hrun as <- _ _. left. reflexivity.
    + destruct (GenerateModelFeatureCombinationUpdate st c lr a b (Some fzero))
        as [[[st1 [t|]] g1]|] eqn:Hgen; [| |discriminate].
      * apply Generate_keeps in Hgen. apply Apply_best_metric in Hrun.
        destruct Hgen as [->|(ow & acc & ->)]; exact Hrun.
      * injection Hrun as <- _ _. apply Generate_keeps in Hgen.
        destruct Hgen as [->|(ow & acc & ->)]; left; reflexivity.
Qed.

(** C6.  The constructor sets the best metric to +infinity, and along
    every sequence of calls of the entry points on a training state
    (apply_update, and also generate_update and training_step) the best
    metric never grows: between any two points of the sequence it is
    unchanged or strictly smaller, so that it is [<=] its earlier value
    whenever that value is not NaN, as it is from +infinity on. *)
Theorem best_metric_starts_infinite_and_never_grows {alloc : Allocators} :
  (forall bRegression cTargetStates cFeatures cFeatureCombinations cSamplingSets,
      m_bestModelMetric
        (EbmTrainingState_new bRegression cTargetStates cFeatures
           cFeatureCombinations cSamplingSets) = finfinity)
  /\ (forall st st' : EbmTrainingState,
         rtc api_step st st' ->
         (m_bestModelMetric st' = m_bestModelMetric st
          \/ flt (m_bestModelMetric st') (m_bestModelMetric st) = true)
         /\ (is_nan (m_bestModelMetric st) = false ->
             fle (m_bestModelMetric st') (m_bestModelMetric st) = true
             /\ is_nan (m_bestModelMetric st') = false)).
Proof.
  split; [reflexivity|].
  intros st st' Hsteps.
  assert (Hmono : m_bestModelMetric st' = m_bestModelMetric st
                  \/ flt (m_bestModelMetric st') (m_bestModelMetric st) = true).
  { induction Hsteps as [st|st st1 st2 Hstep _ IH]; [left; reflexivity|].
    destruct (api_step_best_metric _ _ Hstep) as [H1|H1], IH as [H2|H2].
    - left. congruence.
    - right. rewrite <- H1. exact H2.
    - right. rewrite H2. exact H1.
    - right. eapply flt_trans; eassumption. }
  split; [exact Hmono|]. intros Hnan.
  destruct Hmono as [->|Hlt].
  - split; [apply fle_refl|]; exact Hnan.
  - split; [apply flt_fle; exact Hlt|]. eapply flt_not_nan. exact Hlt.
Qed.

End ApplyTheorems.

Lemma degenerate_classification_succeeds_witness :
  (forall c learningRate cSplits cCasesMin gainReturn,
     @GenerateModelFeatureCombinationUpdate Example.config Example.tensors
       Example.learners Example.one_class_state c learningRate cSplits
       cCasesMin gainReturn
     = Some (Example.one_class_state, None, assign gainReturn fzero))
  /\ (forall c modelUpdateTensor metricReturn,
        @ApplyModelFeatureCombinationUpdate Example.config Example.statistics
          Example.tensors Example.learners Example.one_class_state c
          modelUpdateTensor metricReturn
        = Some (Example.one_class_state, 0, assign metricReturn fzero))
  /\ (forall c learningRate cSplits cCasesMin metricReturn,
        @TrainingStep Example.config Example.statistics Example.tensors
          Example.learners Example.one_class_state c learningRate cSplits
          cCasesMin metricReturn
        = Some (Example.one_class_state, 0, assign metricReturn fzero)).
Proof.
  apply (@degenerate_classification_succeeds Example.config Example.statistics
           Example.tensors Example.learners Example.one_class_state).
  - reflexivity.
  - vm_compute. discriminate.
Defined.

(** ** The theorems on the example state *)

Lemma regression_state_ready (vs : option DataSetByFeatureCombination) :
  (forall d, vs = Some d -> 0 <= m_cCases d) ->
  @apply_ready Example.config Example.tensors Example.learners
    (Example.regression_state vs) 0.
Proof.
  intros Hvs.
  assert (Hpass : forall d, 0 <= m_cCases d ->
            @pass_ready Example.config k_Regression 0 Example.combination d).
  { intros d Hd. split; [vm_compute; discriminate|]. split; [exact Hd|].
    intros _. split; vm_compute; discriminate. }
  exists [Example.zeros], [Example.zeros], [Example.combination],
    Example.combination, Example.zeros.
  split; [reflexivity|]. split; [reflexivity|]. split; [reflexivity|].
  split; [lia|]. split; [reflexivity|]. split; [reflexivity|].
  split; [vm_compute; discriminate|].
  split; [cbn; lia|]. split; [cbn; lia|].
  split.
  - intros ts Hts. cbn in Hts. injection Hts as <-.
    apply Hpass. vm_compute. discriminate.
  - intros d Hd. cbn in Hd. apply Hpass, Hvs, Hd.
Qed.

Lemma apply_without_validation_set_witness :
  exists st',
    @ApplyModelFeatureCombinationUpdate Example.config Example.statistics
      Example.tensors Example.learners (Example.regression_state None) 0
      (Some Example.update) (Some Example.one)
    = Some (st', 0, Some fzero)
    /\ m_bestModelMetric st' = finfinity
    /\ m_apBestModel st' = Some [Example.zeros].
Proof.
  apply (@apply_without_validation_set Example.config Example.statistics
           Example.tensors Example.learners (Example.regression_state None) 0
           (Some Example.update) (Some Example.one)).
  - reflexivity.
  - apply regression_state_ready. intros d Hd. discriminate Hd.
Defined.

(** [regression_state_two] is ready for an update of its first
    combination. *)
Lemma regression_state_two_ready :
  @apply_ready Example.config Example.tensors Example.learners
    Example.regression_state_two 0.
Proof.
  assert (Hpass : forall d, 0 <= m_cCases d ->
            @pass_ready Example.config k_Regression 0 Example.combination d).
  { intros d Hd. split; [vm_compute; discriminate|]. split; [exact Hd|].
    intros _. split; vm_compute; discriminate. }
  exists [Example.zeros; Example.update], [Example.zeros; Example.zeros],
    [Example.combination; Example.combination_second],
    Example.combination, Example.zeros.
  split; [reflexivity|]. split; [reflexivity|]. split; [reflexivity|].
  split; [lia|]. split; [reflexivity|]. split; [reflexivity|].
  split; [vm_compute; discriminate|].
  split; [cbn; lia|]. split; [cbn; lia|].
  split.
  - intros ts Hts. cbn in Hts. injection Hts as <-.
    apply Hpass. vm_compute. discriminate.
  - intros d Hd. cbn in Hd. injection Hd as <-.
    apply Hpass. vm_compute. discriminate.
Qed.

(** The metric of [update] on [regression_state_two] is a number. *)
Example computed_metric_two_example :
  (fun m => flt m finfinity) <$>
    @ComputedValidationMetric Example.config Example.statistics Example.tensors
      Example.learners Example.regression_state_two 0 Example.update
  = Some true.
Proof. vm_compute. reflexivity. Qed.

Lemma apply_commits_best_on_strict_improvement_witness :
  exists m st' ptr' apCurrentModel apBestModel',
    @ComputedValidationMetric Example.config Example.statistics Example.tensors
      Example.learners Example.regression_state_two 0 Example.update = Some m
    /\ @ApplyModelFeatureCombinationUpdate Example.config Example.statistics
         Example.tensors Example.learners Example.regression_state_two 0
         (Some Example.update) (Some fzero)
       = Some (st', 0, ptr')
    /\ m_bestModelMetric st' = m
    /\ m_apCurrentModel st' = Some apCurrentModel
    /\ m_apBestModel st' = Some apBestModel'
    /\ apBestModel' !! 0%nat = apCurrentModel !! 0%nat
    /\ apBestModel' !! 1%nat = apCurrentModel !! 1%nat.
Proof.
  destruct (@apply_commits_best_on_strict_improvement Example.config
              Example.statistics Example.tensors Example.learners
              Example.regression_state_two 0
              Example.update (Some fzero) Example.validation_set_two
              eq_refl eq_refl regression_state_two_ready)
    as (m & st' & ret & ptr' & Hm & Hrun & Hlt & _).
  pose proof computed_metric_two_example as Hex.
  rewrite Hm in Hex. cbn [fmap option_fmap option_map] in Hex.
  injection Hex as Hex.
  destruct (Hlt Hex) as (Hbest & cur & best & best' & Hcur & _ & Hbest'
                         & Hstatus & Hcopies).
  assert (Hret : ret = 0).
  { apply Hstatus. intros i pb pcur _ _ _. reflexivity. }
  subst ret.
  destruct (Hcopies eq_refl) as (_ & Hsame).
  exists m, st', ptr', cur, best'.
  split; [exact Hm|]. split; [exact Hrun|]. split; [exact Hbest|].
  split; [exact Hcur|]. split; [exact Hbest'|].
  split; apply Hsame; try (intros pb pcur _; reflexivity);
    vm_compute; constructor; repeat constructor.
Defined.

Example apply_example :
  (fun r => (m_bestModelMetric r.1.1, m_apBestModel r.1.1, r.1.2, r.2)) <$>
    @ApplyModelFeatureCombinationUpdate Example.config Example.statistics
      Example.tensors Example.learners
      (Example.regression_state (Some Example.validation_set)) 0
      (Some Example.update) (Some fzero)
  = Some (S754_finite false 5814122118263953 (-52),
          Some [Example.update], 0,
          Some (S754_finite false 5814122118263953 (-52))).
Proof. vm_compute. reflexivity. Qed.

Lemma best_metric_starts_infinite_and_never_grows_witness :
  exists st',
    @api_step Example.config Example.statistics Example.tensors
      Example.learners
      (Example.regression_state (Some Example.validation_set)) st'
    /\ fle (m_bestModelMetric st') finfinity = true.
Proof.
  destruct (@ApplyPerTargetStates_total Example.config Example.statistics
              Example.tensors Example.learners
              (Example.regression_state (Some Example.validation_set)) 0
              Example.update (Some fzero)) as (st' & ret & ptr' & Hrun).
  { apply regression_state_ready. intros d Hd. injection Hd as <-.
    vm_compute. discriminate. }
  rewrite <- Apply_nondegenerate in Hrun by reflexivity.
  assert (Hstep : @api_step Example.config Example.statistics Example.tensors
                    Example.learners
                    (Example.regression_state (Some Example.validation_set)) st').
  { eapply step_apply. exact Hrun. }
  exists st'. split; [exact Hstep|].
  apply (proj2 (@best_metric_starts_infinite_and_never_grows Example.config
                  Example.statistics Example.tensors Example.learners
                  Example.allocators)
           (Example.regression_state (Some Example.validation_set)) st').
  - apply rtc_once. exact Hstep.
  - reflexivity.
Defined.

(** ** Update generation *)

Section GenerateProperties.
Context {cfg : BuildConfig} {stat : EbmStatistics}
        {ops : SegmentedTensorOps} {learn : TreeLearners}.

(** [totalGain] after the loop is the sum, in the order of the sampling
    sets, of the gains of its iterations, one per iteration. *)
Lemma SamplingSetLoop_gains (n : nat) (i : Z) (cc : CompilerTargetStates)
    (sets : list SamplingMethod) (fc : FeatureCombination)
    (cSplits cCasesMin cts : Z) (ow acc : SegmentedTensor) (tg : spec_float)
    (ow' acc' : SegmentedTensor) (tg' : spec_float) :
  SamplingSetLoop n i cc sets fc cSplits cCasesMin cts ow acc tg
  = Some (false, ow', acc', tg') ->
  tg' = fold_left fadd
          (SamplingSetGains n i cc sets fc cSplits cCasesMin cts ow acc) tg
  /\ length (SamplingSetGains n i cc sets fc cSplits cCasesMin cts ow acc) = n.
Proof.
  revert i ow acc tg. induction n as [|n IH]; intros i ow acc tg Hrun.
  - cbn in Hrun. injection Hrun as _ _ <-. split; reflexivity.
  - cbn [SamplingSetLoop SamplingSetGains] in *.
    destruct (sets !! Z.to_nat i) as [pSamplingSet|]; [|discriminate].
    cbn [mbind option_bind] in Hrun. cbn zeta in Hrun.
    destruct (if m_cFeatures fc =? 0
              then let '(err, t) := TrainZeroDimensional cc pSamplingSet ow cts in
                   (err, t, fzero)
              else if m_cFeatures fc =? 1
                   then TrainSingleDimensional cc pSamplingSet fc cSplits
                          cCasesMin ow cts
                   else let '(err, t) :=
                          TrainMultiDimensional cc pSamplingSet fc ow cts in
                        (err, t, fzero))
      as [[[|] ow1] gain]; [discriminate|].
    destruct (Add acc ow1) as [[|] acc1]; [discriminate|].
    apply IH in Hrun. destruct Hrun as (-> & Hlen).
    split; [reflexivity|]. cbn [length]. rewrite Hlen. reflexivity.
Qed.

(** Only a one-dimensional combination has a gain other than zero. *)
Lemma SamplingSetGains_zero (n : nat) (i : Z) (cc : CompilerTargetStates)
    (sets : list SamplingMethod) (fc : FeatureCombination)
    (cSplits cCasesMin cts : Z) (ow acc : SegmentedTensor) :
  m_cFeatures fc <> 1 ->
  Forall (fun gain => gain = fzero)
    (SamplingSetGains n i cc sets fc cSplits cCasesMin cts ow acc).
Proof.
  intros Hd. revert i ow acc. induction n as [|n IH]; intros i ow acc.
  - constructor.
  - cbn [SamplingSetGains].
    destruct (sets !! Z.to_nat i) as [pSamplingSet|]; [|constructor].
    destruct (Z.eqb_spec (m_cFeatures fc) 1) as [|_]; [contradiction|].
    destruct (m_cFeatures fc =? 0).
    + destruct (TrainZeroDimensional cc pSamplingSet ow cts) as [[|] ow1];
        [constructor|].
      destruct (Add acc ow1) as [[|] acc1]; repeat constructor. apply IH.
    + destruct (TrainMultiDimensional cc pSamplingSet fc ow cts) as [[|] ow1];
        [constructor|].
      destruct (Add acc ow1) as [[|] acc1]; repeat constructor. apply IH.
Qed.

(** What a call of the driver that returns a tensor has done. *)
Lemma GeneratePerTargetStates_inv (cc : CompilerTargetStates)
    (st : EbmTrainingState) (c : Z) (learningRate : spec_float)
    (cSplits cCasesMin : Z) (g : option spec_float)
    (st' : EbmTrainingState) (values : list spec_float)
    (g' : option spec_float) :
  GenerateModelFeatureCombinationUpdatePerTargetStates cc st c learningRate
    cSplits cCasesMin g = Some (st', Some values, g') ->
  exists fcs fc acc0,
    m_apFeatureCombinations st = Some fcs
    /\ fcs !! Z.to_nat c = Some fc
    /\ m_pSmallChangeToModelAccumulatedFromSamplingSets st = Some acc0
    /\ let cDimensions := m_cFeatures fc in
       let expanded (t : SegmentedTensor) :=
         if negb (cDimensions =? 0)
         then (Expand t (DivisionIntegersEnd fc cDimensions)).2 else t in
       match m_apSamplingSets st with
       | Some sets =>
           exists ow0 ow' acc' tg,
             m_pSmallChangeToModelOverwriteSingleSamplingSet st = Some ow0
             /\ SamplingSetLoop (Z.to_nat (SamplingSetsAfterZero st)) 0 cc sets
                  fc cSplits cCasesMin (m_cTargetStates st)
                  (SetCountDimensions ow0 cDimensions)
                  (Reset (SetCountDimensions acc0 cDimensions)) fzero
                = Some (false, ow', acc', tg)
             /\ g' = assign g (fdiv tg (of_size_t (SamplingSetsAfterZero st)))
             /\ values
                = m_aValues
                    (expanded
                       (Multiply acc'
                          (UpdateFactor cc learningRate (SamplingSetsAfterZero st))))
       | None =>
           g' = assign g fzero
           /\ values
              = m_aValues (expanded (Reset (SetCountDimensions acc0 cDimensions)))
       end.
Proof.
  unfold GenerateModelFeatureCombinationUpdatePerTargetStates. intros Hrun.
  destruct (m_apFeatureCombinations st) as [fcs|]; [|discriminate].
  cbn [mbind option_bind] in Hrun.
  destruct (fcs !! Z.to_nat c) as [fc|] eqn:Hfc; [|discriminate].
  cbn [mbind option_bind] in Hrun.
  destruct (m_pSmallChangeToModelAccumulatedFromSamplingSets st) as [acc0|];
    [|discriminate].
  cbn [mbind option_bind] in Hrun.
  exists fcs, fc, acc0. split; [reflexivity|]. split; [exact Hfc|].
  split; [reflexivity|]. cbn zeta. fold (SamplingSetsAfterZero st) in Hrun.
  destruct (m_apSamplingSets st) as [sets|].
  - destruct (m_pSmallChangeToModelOverwriteSingleSamplingSet st) as [ow0|];
      [|discriminate].
    cbn [mbind option_bind] in Hrun.
    destruct (SamplingSetLoop _ 0 cc sets fc _ _ _ _ _ _)
      as [[[[[|] ow'] acc'] tg]|] eqn:Hloop; [discriminate| |discriminate].
    exists ow0, ow', acc', tg. split; [reflexivity|]. split; [exact Hloop|].
    destruct (negb (m_cFeatures fc =? 0)).
    + destruct (Expand _ _) as [[|] acc''] eqn:Hexp; [discriminate|].
      injection Hrun as _ <- <-. rewrite assign_Some. split; reflexivity.
    + injection Hrun as _ <- <-. rewrite assign_Some. split; reflexivity.
  - destruct (negb (m_cFeatures fc =? 0)).
    + destruct (Expand _ _) as [[|] acc''] eqn:Hexp; [discriminate|].
      injection Hrun as _ <- <-. rewrite assign_Some. split; reflexivity.
    + injection Hrun as _ <- <-. rewrite assign_Some. split; reflexivity.
Qed.

Lemma Generate_inv (st : EbmTrainingState) (c : Z) (learningRate : spec_float)
    (cSplits cCasesMin : Z) (g : option spec_float)
    (st' : EbmTrainingState) (values : list spec_float)
    (g' : option spec_float) :
  GenerateModelFeatureCombinationUpdate st c learningRate cSplits cCasesMin g
  = Some (st', Some values, g') ->
  Degenerate st = false
  /\ GenerateModelFeatureCombinationUpdatePerTargetStates (TemplateInstance st)
       st c learningRate
       (if IsNumberConvertable_size_t cSplits then cSplits else size_t_max)
       (if IsNumberConvertable_size_t cCasesMin then cCasesMin else size_t_max)
       g = Some (st', Some values, g').
Proof.
  unfold GenerateModelFeatureCombinationUpdate, Degenerate, TemplateInstance.
  destruct (m_bRegression st); cbn [negb andb]; [intros Hrun; split; auto|].
  destruct (m_cTargetStates st <=? 1); [discriminate|].
  intros Hrun; split; auto.
Qed.

Lemma CompilerRecursive_class (n : nat) (i cts k : Z) :
  CompilerRecursive n i cts = k_Compiled k -> k = cts.
Proof.
  revert i. induction n as [|n IH]; intros i; cbn; [discriminate|].
  destruct (Z.eqb_spec i cts) as [->|_]; [|apply IH].
  intros Hk. injection Hk as <-. reflexivity.
Qed.

(** The factor by mode: only the binary instance divides, and only when the
    logits are expanded. *)
Lemma UpdateFactor_by_mode (st : EbmTrainingState) (learningRate : spec_float)
    (cSamplingSets : Z) :
  2 <= k_cCompilerOptimizedTargetStatesMax ->
  UpdateFactor (TemplateInstance st) learningRate cSamplingSets
  = if negb (m_bRegression st) && (m_cTargetStates st =? 2) && bExpandBinaryLogits
    then fdiv (fdiv learningRate (of_size_t cSamplingSets)) (of_size_t 2)
    else fdiv learningRate (of_size_t cSamplingSets).
Proof.
  intros Hmax. unfold UpdateFactor, TemplateInstance.
  destruct (m_bRegression st); cbn [negb andb]; [reflexivity|].
  destruct (Z.eqb_spec (m_cTargetStates st) 2) as [->|Hne]; cbn [andb].
  - unfold CompilerRecursiveFrom2.
    destruct (Z.to_nat (k_cCompilerOptimizedTargetStatesMax + 1 - 2))
      as [|n] eqn:Hn; [lia|].
    cbn. destruct bExpandBinaryLogits; reflexivity.
  - destruct (CompilerRecursiveFrom2 (m_cTargetStates st)) as [| |k] eqn:Hk;
      cbn [IsClassification IsRegression negb];
      rewrite ?andb_false_r; try reflexivity.
    apply CompilerRecursive_class in Hk. subst k.
    destruct (Z.eqb_spec 2 (m_cTargetStates st)) as [Heq|_]; [congruence|].
    rewrite andb_false_r. reflexivity.
Qed.
(** C7.  When generate_update returns a tensor, the gain it stores behind
    a non-null [gainReturn] is the sum of the gains of the sampling sets,
    added up in the order of the sets, divided by the number [S] of
    sampling sets, where [S] is 1 when the state was created with 0 sampling
    sets; the loop contributes one gain per sampling set.  Without training
    data there is no sampling set and no gain, and the gain stored is 0. *)
Theorem generate_gain_is_average_of_sampling_set_gains
    (st : EbmTrainingState) (c : Z) (learningRate : spec_float)
    (cSplits cCasesMin : Z) (gainReturn : option spec_float)
    (st' : EbmTrainingState) (values : list spec_float)
    (gainReturn' : option spec_float) :
  GenerateModelFeatureCombinationUpdate st c learningRate cSplits cCasesMin
    gainReturn = Some (st', Some values, gainReturn') ->
  let S := if m_cSamplingSets st =? 0 then 1 else m_cSamplingSets st in
  let gains := GainsOfCall st c cSplits cCasesMin in
  match m_apSamplingSets st with
  | Some _ =>
      length gains = Z.to_nat S
      /\ gainReturn'
         = assign gainReturn (fdiv (fold_left fadd gains fzero) (of_size_t S))
  | None => gains = [] /\ gainReturn' = assign gainReturn fzero
  end.
Proof.
  intros Hrun S gains. apply Generate_inv in Hrun. destruct Hrun as (_ & Hrun).
  apply GeneratePerTargetStates_inv in Hrun.
  destruct Hrun as (fcs & fc & acc0 & Hfcs & Hfc & Hacc & Hrest).
  cbn zeta in Hrest. subst gains. unfold GainsOfCall, GenerateStart.
  destruct (m_apSamplingSets st) as [sets|].
  - destruct Hrest as (ow0 & ow' & acc' & tg & How & Hloop & -> & _).
    rewrite Hfcs. cbn [mbind option_bind]. rewrite Hfc. cbn [mbind option_bind].
    rewrite Hacc. cbn [mbind option_bind]. rewrite How. cbn [mbind option_bind].
    apply SamplingSetLoop_gains in Hloop. destruct Hloop as (-> & Hlen).
    split; [exact Hlen|reflexivity].
  - destruct Hrest as (-> & _). split; reflexivity.
Qed.

(** C4.  When generate_update returns a tensor for a state with sampling
    sets, the values it returns are those of the accumulated update (the
    updates of the sampling sets added up), multiplied by one factor and
    then expanded if the combination has features.  With learning rate
    [eta] and [S] sampling sets (1 for 0) the factor is [eta / S / 2], that
    is eta/(2 S) computed as the source writes it, when the state is a
    binary classification and binary logits are expanded, and [eta / S] in
    every other mode: regression, multiclass, and binary without
    expansion. *)
Theorem generate_scales_accumulated_update
    (st : EbmTrainingState) (c : Z) (learningRate : spec_float)
    (cSplits cCasesMin : Z) (gainReturn : option spec_float)
    (st' : EbmTrainingState) (values : list spec_float)
    (gainReturn' : option spec_float) (sets : list SamplingMethod) :
  2 <= k_cCompilerOptimizedTargetStatesMax ->
  m_apSamplingSets st = Some sets ->
  GenerateModelFeatureCombinationUpdate st c learningRate cSplits cCasesMin
    gainReturn = Some (st', Some values, gainReturn') ->
  let S := if m_cSamplingSets st =? 0 then 1 else m_cSamplingSets st in
  let factor :=
    if negb (m_bRegression st) && (m_cTargetStates st =? 2) && bExpandBinaryLogits
    then fdiv (fdiv learningRate (of_size_t S)) (of_size_t 2)
    else fdiv learningRate (of_size_t S) in
  exists pFeatureCombination accumulated,
    GenerateStart st c ≫= (fun start => Some start.1.1) = Some pFeatureCombination
    /\ AccumulatedOfCall st c cSplits cCasesMin = Some accumulated
    /\ values
       = m_aValues
           (if m_cFeatures pFeatureCombination =? 0
            then Multiply accumulated factor
            else (Expand (Multiply accumulated factor)
                    (DivisionIntegersEnd pFeatureCombination
                       (m_cFeatures pFeatureCombination))).2).
Proof.
  intros Hmax Hsets Hrun S factor.
  apply Generate_inv in Hrun. destruct Hrun as (_ & Hrun).
  apply GeneratePerTargetStates_inv in Hrun.
  destruct Hrun as (fcs & fc & acc0 & Hfcs & Hfc & Hacc & Hrest).
  cbn zeta in Hrest. rewrite Hsets in Hrest.
  destruct Hrest as (ow0 & ow' & acc' & tg & How & Hloop & _ & ->).
  exists fc, acc'.
  unfold AccumulatedOfCall, GenerateStart.
  rewrite Hsets, Hfcs. cbn [mbind option_bind]. rewrite Hfc.
  cbn [mbind option_bind]. rewrite Hacc. cbn [mbind option_bind].
  rewrite How. cbn [mbind option_bind fst snd].
  split; [reflexivity|].
  rewrite Hloop. cbn [mbind option_bind fst snd].
  split; [reflexivity|].
  rewrite (UpdateFactor_by_mode st learningRate _ Hmax).
  fold S. fold factor.
  destruct (m_cFeatures fc =? 0); reflexivity.
Qed.
End GenerateProperties.

Example generate_example :
  (fun r => (r.1.2, r.2)) <$>
    @GenerateModelFeatureCombinationUpdate Example.config_zeroing
      Example.tensors Example.learners Example.binary_state 0 Example.one
      1 1 (Some fzero)
  = Some (Some [S754_finite false 4503599627370496 (-53); fzero;
                Example.one; S754_finite false 4503599627370496 (-53)],
          Some (SFopp Example.one)).
Proof. vm_compute. reflexivity. Qed.

Lemma generate_gain_is_average_of_sampling_set_gains_witness :
  match
    @GenerateModelFeatureCombinationUpdate Example.config_zeroing
      Example.tensors Example.learners Example.binary_state 0 Example.one
      1 1 (Some fzero)
  with
  | Some (_, Some _, gainReturn') =>
      let gains :=
        @GainsOfCall Example.config_zeroing Example.tensors Example.learners
          Example.binary_state 0 1 1 in
      length gains = 2%nat
      /\ gainReturn' = Some (fdiv (fold_left fadd gains fzero) Example.two)
  | _ => False
  end.
Proof.
  pose proof generate_example as Hex.
  destruct (@GenerateModelFeatureCombinationUpdate Example.config_zeroing
              Example.tensors Example.learners Example.binary_state 0
              Example.one 1 1 (Some fzero))
    as [[[st' [values|]] g']|] eqn:Hrun; try discriminate Hex.
  exact (@generate_gain_is_average_of_sampling_set_gains Example.config_zeroing
           Example.tensors Example.learners Example.binary_state 0
           Example.one 1 1 (Some fzero) st' values g' Hrun).
Defined.

Lemma generate_scales_accumulated_update_witness :
  match
    @GenerateModelFeatureCombinationUpdate Example.config_zeroing
      Example.tensors Example.learners Example.binary_state 0 Example.one
      1 1 (Some fzero)
  with
  | Some (_, Some values, _) =>
      exists accumulated,
        @AccumulatedOfCall Example.config_zeroing Example.tensors
          Example.learners Example.binary_state 0 1 1 = Some accumulated
        /\ values
           = (fun x => fmul x (fdiv (fdiv Example.one Example.two) Example.two))
             <$> accumulated
  | _ => False
  end.
Proof.
  pose proof generate_example as Hex.
  destruct (@GenerateModelFeatureCombinationUpdate Example.config_zeroing
              Example.tensors Example.learners Example.binary_state 0
              Example.one 1 1 (Some fzero))
    as [[[st' [values|]] g']|] eqn:Hrun; try discriminate Hex.
  destruct (@generate_scales_accumulated_update Example.config_zeroing
              Example.tensors Example.learners Example.binary_state 0
              Example.one 1 1 (Some fzero) st' values g' [tt; tt])
    as (fc & acc & Hfc & Hacc & Hvalues).
  - vm_compute. discriminate.
  - reflexivity.
  - exact Hrun.
  - exists acc. split; [exact Hacc|].
    cbn in Hfc. injection Hfc as <-. exact Hvalues.
Defined.

(** ** The effect of a pass on its buffers *)

Lemma fadd_zero_same (x u : spec_float) :
  is_zero u = true -> same_value (fadd x u) x.
Proof.
  destruct u as [s| | |]; try discriminate. intros _.
  destruct x as [[|]| | |]; destruct s; reflexivity.
Qed.

Lemma fsub_zero_same (x u : spec_float) :
  is_zero u = true -> same_value (fsub x u) x.
Proof.
  destruct u as [s| | |]; try discriminate. intros _.
  destruct x as [[|]| | |]; destruct s; reflexivity.
Qed.

Lemma fmul_same_square (x y : spec_float) :
  same_value x y -> fmul x x = fmul y y.
Proof.
  unfold same_value.
  destruct x as [[|]|[|]| |]; destruct y as [[|]|[|]| |]; cbn [canon];
    intros Heq; try discriminate Heq; try reflexivity;
    injection Heq as -> -> ->; reflexivity.
Qed.

Lemma same_value_refl (x : spec_float) : same_value x x.
Proof. reflexivity. Qed.

Lemma same_value_sym (x y : spec_float) : same_value x y -> same_value y x.
Proof. unfold same_value. congruence. Qed.

Lemma same_value_trans (x y z : spec_float) :
  same_value x y -> same_value y z -> same_value x z.
Proof. unfold same_value. congruence. Qed.

(** ** Buffers *)

Lemma load_lookup {A} `{Inhabited A} (l : list A) (p : Z) :
  load l p = default inhabitant (l !! Z.to_nat p).
Proof. unfold load. apply list_lookup_total_alt. Qed.

Lemma load_ext {A} `{Inhabited A} (l l' : list A) (p : Z) :
  l' !! Z.to_nat p = l !! Z.to_nat p -> load l' p = load l p.
Proof. intros Heq. rewrite !load_lookup, Heq. reflexivity. Qed.

Lemma load_Some {A} `{Inhabited A} (l : list A) (p : Z) (x : A) :
  l !! Z.to_nat p = Some x -> load l p = x.
Proof. intros Heq. rewrite load_lookup, Heq. reflexivity. Qed.

Lemma rewrites_nil {A} (l : list A) (lo : nat) (f : nat -> A -> A) :
  rewrites l l lo 0 f.
Proof. intros k. destruct (decide _) as [Hk|]; [lia|reflexivity]. Qed.

Lemma rewrites_length {A} (l l' : list A) (lo n : nat) (f : nat -> A -> A) :
  rewrites l l' lo n f -> length l' = length l.
Proof.
  intros Hr.
  destruct (Nat.lt_trichotomy (length l') (length l)) as [Hlt|[Heq|Hgt]];
    [|exact Heq|].
  - specialize (Hr (length l')).
    rewrite (lookup_ge_None_2 l') in Hr by lia.
    destruct (lookup_lt_is_Some_2 l (length l') Hlt) as [x Hx].
    rewrite Hx in Hr. destruct (decide _); discriminate.
  - specialize (Hr (length l)).
    rewrite (lookup_ge_None_2 l) in Hr by lia.
    destruct (lookup_lt_is_Some_2 l' (length l) Hgt) as [x Hx].
    rewrite Hx in Hr. destruct (decide _); discriminate.
Qed.

Lemma rewrites_store {A} (l : list A) (p : Z) (v : A) :
  rewrites l (store l p v) (Z.to_nat p) 1 (fun _ _ => v).
Proof.
  intros k. unfold store.
  destruct (decide (Z.to_nat p <= k < Z.to_nat p + 1)%nat) as [Hk|Hk].
  - assert (k = Z.to_nat p) as -> by lia.
    destruct (l !! Z.to_nat p) as [x|] eqn:Hx.
    + apply list_lookup_insert_eq. apply lookup_lt_Some in Hx. exact Hx.
    + cbn. apply lookup_ge_None_2. rewrite length_insert.
      apply lookup_ge_None_1 in Hx. exact Hx.
  - apply list_lookup_insert_ne. lia.
Qed.

Lemma rewrites_ext {A} (l l' : list A) (lo n : nat) (f g : nat -> A -> A) :
  rewrites l l' lo n f ->
  (forall k x, (lo <= k < lo + n)%nat -> l !! k = Some x -> f k x = g k x) ->
  rewrites l l' lo n g.
Proof.
  intros Hr Hfg k. rewrite (Hr k).
  destruct (decide _) as [Hk|]; [|reflexivity].
  destruct (l !! k) as [x|] eqn:Hx; [|reflexivity].
  cbn. rewrite (Hfg k x Hk Hx). reflexivity.
Qed.

Lemma rewrites_app {A} (l0 l1 l2 : list A) (lo m n : nat) (f g : nat -> A -> A) :
  rewrites l0 l1 lo m f ->
  rewrites l1 l2 (lo + m) n g ->
  (forall k x, (lo + m <= k < lo + m + n)%nat -> l0 !! k = Some x ->
               g k x = f k x) ->
  rewrites l0 l2 lo (m + n) f.
Proof.
  intros H01 H12 Hgf k. rewrite (H12 k), (H01 k).
  destruct (decide (lo + m <= k < lo + m + n)%nat) as [Hk|Hk].
  - destruct (decide (lo <= k < lo + m)%nat) as [Hk'|_]; [lia|].
    destruct (decide (lo <= k < lo + (m + n))%nat) as [_|Hk']; [|lia].
    destruct (l0 !! k) as [x|] eqn:Hx; [|reflexivity].
    cbn. rewrite (Hgf k x Hk Hx). reflexivity.
  - destruct (decide (lo <= k < lo + m)%nat) as [Hk'|Hk'].
    + destruct (decide (lo <= k < lo + (m + n))%nat) as [_|Hk'']; [|lia].
      reflexivity.
    + destruct (decide (lo <= k < lo + (m + n))%nat) as [Hk''|_]; [lia|].
      reflexivity.
Qed.

Lemma load_rewrites_out {A} `{Inhabited A} (l l' : list A) (lo n : nat)
    (f : nat -> A -> A) (p : Z) :
  rewrites l l' lo n f ->
  ~ (lo <= Z.to_nat p < lo + n)%nat ->
  load l' p = load l p.
Proof.
  intros Hr Hp. apply load_ext. rewrite (Hr (Z.to_nat p)).
  destruct (decide _); [contradiction|reflexivity].
Qed.

Lemma load_rewrites_in {A} `{Inhabited A} (l l' : list A) (lo n : nat)
    (f : nat -> A -> A) (p : Z) :
  rewrites l l' lo n f ->
  (lo <= Z.to_nat p < lo + n)%nat ->
  (Z.to_nat p < length l)%nat ->
  load l' p = f (Z.to_nat p) (load l p).
Proof.
  intros Hr Hp Hlen.
  destruct (lookup_lt_is_Some_2 l (Z.to_nat p) Hlen) as [x Hx].
  rewrite (load_Some l p x Hx). apply load_Some.
  rewrite (Hr (Z.to_nat p)), Hx.
  destruct (decide _); [reflexivity|contradiction].
Qed.

Lemma rewrites_point {A} (l0 l1 : list A) (lo n : nat) (f : nat -> A -> A)
    (p : Z) (v : A) :
  rewrites l0 l1 lo n f ->
  (lo <= Z.to_nat p < lo + n)%nat ->
  rewrites l0 (store l1 p v) lo n
    (fun k x => if decide (k = Z.to_nat p) then v else f k x).
Proof.
  intros Hr Hp k.
  rewrite (rewrites_store l1 p v k), (Hr k).
  destruct (decide (Z.to_nat p <= k < Z.to_nat p + 1)%nat) as [Hk|Hk].
  - assert (k = Z.to_nat p) as -> by lia.
    destruct (decide _) as [_|Hn]; [|lia].
    destruct (decide _) as [_|Hn]; [|congruence].
    destruct (l0 !! Z.to_nat p); reflexivity.
  - destruct (decide (lo <= k < lo + n)%nat); [|reflexivity].
    destruct (decide (k = Z.to_nat p)) as [->|_]; [lia|reflexivity].
Qed.

Section CaseEffects.
Context `{BuildConfig} `{EbmStatistics}.
Variable cc : CompilerTargetStates.
Variable U : list spec_float.
Variable aTargetData : list Z.
Variable V : Z.
Hypothesis HV : 1 <= V.
Hypothesis HV1 : IsRegression cc || IsBinaryClassification cc = true -> V = 1.

Lemma TrainingScoresMulticlass_effect n i pv s acc :
  0 <= pPredictionScores s -> 0 <= i ->
  let r := TrainingScoresMulticlass U n i pv s acc in
  rewrites (aPredictionScores s) (aPredictionScores r.1)
    (Z.to_nat (pPredictionScores s + i)) n
    (fun k x => fadd x (load U (pv + (Z.of_nat k - pPredictionScores s))))
  /\ r.2 = fold_left
             (fun a j =>
                fadd a (exp (NewScore U (aPredictionScores s)
                               (pPredictionScores s) pv (i + Z.of_nat j))))
             (seq 0 n) acc.
Proof.
  revert i s acc. induction n as [|n IH]; intros i s acc Hp Hi.
  - cbn. split; [apply rewrites_nil|reflexivity].
  - cbn [TrainingScoresMulticlass]. cbv zeta.
    set (v := fadd (load (aPredictionScores s) (pPredictionScores s + i))
                (load U (pv + i))).
    set (s1 := write_score s (pPredictionScores s + i) v).
    destruct (IH (i + 1) s1 (fadd acc (exp v)) Hp ltac:(lia)) as [IHr IHf].
    cbn [write_score s1 aPredictionScores pPredictionScores] in IHr, IHf.
    split.
    + apply (rewrites_app _ (store (aPredictionScores s) (pPredictionScores s + i) v)
               _ _ 1 n _
               (fun k x => fadd x (load U (pv + (Z.of_nat k - pPredictionScores s))))).
      * eapply rewrites_ext; [apply rewrites_store|].
        intros k x Hk Hx. assert (k = Z.to_nat (pPredictionScores s + i)) as -> by lia.
        unfold v. rewrite (load_Some _ _ _ Hx).
        rewrite Z2Nat.id by lia. f_equal. f_equal. lia.
      * replace (Z.to_nat (pPredictionScores s + i) + 1)%nat
          with (Z.to_nat (pPredictionScores s + (i + 1))) by lia.
        exact IHr.
      * reflexivity.
    + rewrite IHf. cbn [seq fold_left].
      rewrite <- seq_shift, fold_left_fmap.
      unfold NewScore at 3. rewrite Z.add_0_r. fold v.
      apply fold_left_ext_elem. intros j a Hj.
      unfold NewScore. f_equal. f_equal.
      replace (i + 1 + Z.of_nat j) with (i + Z.of_nat (S j)) by lia.
      f_equal.
      apply (load_rewrites_out _ _ _ 1 _ _ (rewrites_store _ _ _)). lia.
Qed.

Lemma TrainingResidualsMulticlass_effect n i sumExp t s :
  0 <= pResidualError s ->
  let r := TrainingResidualsMulticlass n i sumExp t s in
  rewrites (aResidualErrors s) (aResidualErrors r)
    (Z.to_nat (pResidualError s)) n
    (fun k _ =>
       let j := i + (Z.of_nat k - pResidualError s) in
       ComputeClassificationResidualErrorMulticlass sumExp
         (load (aPredictionScores s) (pPredictionScores s + j)) t j).
Proof.
  revert i s. induction n as [|n IH]; intros i s Hq.
  - cbn. apply rewrites_nil.
  - cbn [TrainingResidualsMulticlass]. cbv zeta.
    set (v := ComputeClassificationResidualErrorMulticlass sumExp
                (load (aPredictionScores s) (pPredictionScores s + i)) t i).
    set (s1 := move (write_residual s (pResidualError s) v) 1 0 0).
    pose proof (IH (i + 1) s1) as IHr.
    cbn [s1 move write_residual aResidualErrors aPredictionScores
         pResidualError pPredictionScores] in IHr.
    specialize (IHr ltac:(lia)). cbv zeta in IHr.
    replace (Z.to_nat (pResidualError s + 1))
      with (Z.to_nat (pResidualError s) + 1)%nat in IHr by lia.
    rewrite Z.add_0_r in IHr.
    refine (rewrites_app _ _ _ _ 1 n _ _ _ IHr _).
    + eapply rewrites_ext; [apply rewrites_store|].
      intros k x Hk Hx. assert (k = Z.to_nat (pResidualError s)) as -> by lia.
      rewrite Z2Nat.id by lia. rewrite Z.sub_diag, Z.add_0_r. reflexivity.
    + intros k x Hk Hx. cbv beta.
      replace (i + 1 + (Z.of_nat k - (pResidualError s + 1)))
        with (i + (Z.of_nat k - pResidualError s)) by lia.
      reflexivity.
Qed.

Lemma TrainingCase_regression b s :
  IsRegression cc = true ->
  0 <= pResidualError s ->
  let s' := TrainingCase cc U aTargetData V b s in
  rewrites (aResidualErrors s) (aResidualErrors s')
    (Z.to_nat (pResidualError s)) 1
    (fun _ x => fsub x (load U (b * V)))
  /\ aPredictionScores s' = aPredictionScores s
  /\ pResidualError s' = pResidualError s + 1
  /\ sumMetric s' = sumMetric s.
Proof.
  intros Hr Hq. unfold TrainingCase. rewrite Hr. cbn.
  split; [|repeat split; reflexivity].
  eapply rewrites_ext; [apply rewrites_store|].
  intros k x Hk Hx. assert (k = Z.to_nat (pResidualError s)) as -> by lia.
  unfold ComputeRegressionResidualError. rewrite (load_Some _ _ _ Hx).
  reflexivity.
Qed.

Lemma NewScore_written (scores scores' : list spec_float) (p pv j : Z) :
  0 <= p -> 0 <= j ->
  rewrites scores scores' (Z.to_nat p) (Z.to_nat V)
    (fun k x => fadd x (load U (pv + (Z.of_nat k - p)))) ->
  (Z.to_nat p + Z.to_nat V <= length scores)%nat ->
  j < V ->
  load scores' (p + j) = NewScore U scores p pv j.
Proof.
  intros Hp Hj Hr Hlen HjV.
  rewrite (load_rewrites_in _ _ _ _ _ _ Hr) by lia.
  unfold NewScore. rewrite Z2Nat.id by lia. f_equal. f_equal. lia.
Qed.

Lemma TrainingCase_classification b s :
  IsRegression cc = false ->
  0 <= pResidualError s ->
  0 <= pPredictionScores s ->
  (Z.to_nat (pPredictionScores s) + Z.to_nat V
   <= length (aPredictionScores s))%nat ->
  (IsBinaryClassification cc = false ->
   0 <= k_iZeroResidual -> k_iZeroResidual < V) ->
  let s' := TrainingCase cc U aTargetData V b s in
  rewrites (aPredictionScores s) (aPredictionScores s')
    (Z.to_nat (pPredictionScores s)) (Z.to_nat V)
    (fun k x => fadd x (load U (b * V + (Z.of_nat k - pPredictionScores s))))
  /\ rewrites (aResidualErrors s) (aResidualErrors s')
       (Z.to_nat (pResidualError s)) (Z.to_nat V)
       (fun k _ =>
          CaseResidual cc U V (aPredictionScores s) (pPredictionScores s)
            (b * V) (load aTargetData (pTargetData s))
            (Z.of_nat k - pResidualError s))
  /\ pResidualError s' = pResidualError s + V
  /\ pPredictionScores s' = pPredictionScores s + V
  /\ pTargetData s' = pTargetData s + 1
  /\ sumMetric s' = sumMetric s.
Proof.
  intros Hr Hq Hp Hlen Hzero. unfold TrainingCase. rewrite Hr.
  destruct (IsBinaryClassification cc) eqn:Hb.
  - assert (V = 1) as HVone by (apply HV1; apply orb_true_r).
    cbv zeta.
    cbn [move write_residual write_score aResidualErrors aPredictionScores
         pResidualError pPredictionScores pTargetData sumMetric].
    rewrite HVone. change (Z.to_nat 1) with 1%nat.
    split; [|split; [|repeat split; first [reflexivity|lia]]].
    + eapply rewrites_ext; [apply rewrites_store|].
      intros k x Hk Hx. assert (k = Z.to_nat (pPredictionScores s)) as -> by lia.
      rewrite (load_Some _ _ _ Hx). rewrite Z2Nat.id by lia.
      rewrite Z.sub_diag, Z.add_0_r. reflexivity.
    + eapply rewrites_ext; [apply rewrites_store|].
      intros k x Hk Hx. unfold CaseResidual, NewScore. rewrite Hb.
      rewrite !Z.add_0_r. reflexivity.
  - specialize (Hzero eq_refl).
    pose proof (TrainingScoresMulticlass_effect (do_while_count V) 0 (b * V) s
                  fzero Hp ltac:(lia)) as Heff.
    pose proof (TrainingScoresMulticlass_pointers U (do_while_count V) 0 (b * V)
                  s fzero) as Hptr.
    destruct (TrainingScoresMulticlass U (do_while_count V) 0 (b * V) s fzero)
      as [s1 sumExp] eqn:Hs1.
    cbn [fst snd] in Heff, Hptr. cbv zeta in Heff, Hptr.
    destruct Heff as [Hscores HsumExp].
    destruct Hptr as (Hq1 & Hp1 & Ht1 & Hres1 & Hm1).
    rewrite Z.add_0_r in Hscores.
    assert (Hdw : do_while_count V = Z.to_nat V) by (unfold do_while_count; lia).
    rewrite Hdw in Hscores.
    assert (HsumExp' : sumExp = CaseSumExp U V (aPredictionScores s)
                                  (pPredictionScores s) (b * V))
      by (rewrite HsumExp; reflexivity).
    pose proof (TrainingResidualsMulticlass_effect (do_while_count V) 0 sumExp
                  (load aTargetData (pTargetData s)) s1 ltac:(lia)) as Hres.
    pose proof (TrainingResidualsMulticlass_pointers (do_while_count V) 0 sumExp
                  (load aTargetData (pTargetData s)) s1) as Hptr2.
    set (s2 := TrainingResidualsMulticlass (do_while_count V) 0 sumExp
                 (load aTargetData (pTargetData s)) s1) in *.
    cbv zeta in Hres, Hptr2.
    destruct Hptr2 as (Hq2 & Hp2 & Ht2 & Hsc2 & Hm2).
    rewrite Hdw, Hres1, Hq1, Hp1 in Hres.
    assert (Hfinal :
      rewrites (aResidualErrors s)
        (aResidualErrors
           (if 0 <=? k_iZeroResidual
            then write_residual s2 (pResidualError s2 + (k_iZeroResidual - V)) fzero
            else s2))
        (Z.to_nat (pResidualError s)) (Z.to_nat V)
        (fun k _ =>
           CaseResidual cc U V (aPredictionScores s) (pPredictionScores s)
             (b * V) (load aTargetData (pTargetData s))
             (Z.of_nat k - pResidualError s))).
    { destruct (Z.leb_spec 0 k_iZeroResidual) as [Hz|Hz].
      - cbn [write_residual aResidualErrors].
        eapply rewrites_ext.
        + apply rewrites_point; [exact Hres|].
          rewrite Hq2, Hq1, Hdw. specialize (Hzero Hz). lia.
        + intros k x Hk Hx. cbv beta.
          unfold CaseResidual. rewrite Hb.
          rewrite Hq2, Hq1, Hdw. specialize (Hzero Hz).
          destruct (Z.leb_spec 0 k_iZeroResidual) as [_|]; [|lia].
          cbn [andb].
          destruct (decide (k = Z.to_nat
                      (pResidualError s + Z.of_nat (Z.to_nat V)
                       + (k_iZeroResidual - V)))) as [Hkz|Hkz].
          * destruct (Z.eqb_spec (Z.of_nat k - pResidualError s) k_iZeroResidual);
              [reflexivity|lia].
          * destruct (Z.eqb_spec (Z.of_nat k - pResidualError s) k_iZeroResidual);
              [lia|].
            rewrite <- HsumExp'. cbn [Z.add]. f_equal.
            apply (NewScore_written _ _ _ (b * V)); [exact Hp|lia|exact Hscores|exact Hlen|lia].
      - eapply rewrites_ext; [exact Hres|].
        intros k x Hk Hx. cbv beta.
        unfold CaseResidual. rewrite Hb.
        destruct (Z.leb_spec 0 k_iZeroResidual) as [|_]; [lia|].
        cbn [andb]. rewrite <- HsumExp'. cbn [Z.add]. f_equal.
        apply (NewScore_written _ _ _ (b * V)); [exact Hp|lia|exact Hscores|exact Hlen|lia]. }
    split; [|split; [exact Hfinal|]].
    + destruct (0 <=? k_iZeroResidual); cbn; rewrite Hsc2; exact Hscores.
    + destruct (0 <=? k_iZeroResidual); cbn;
        rewrite Hq2, Hp2, Ht2, Hm2, Hq1, Hp1, Ht1, Hm1, Hdw;
        repeat split; lia.
Qed.

Lemma ValidationScoresMulticlass_effect n i pv s acc :
  0 <= pPredictionScores s ->
  let r := ValidationScoresMulticlass U n i pv s acc in
  rewrites (aPredictionScores s) (aPredictionScores r.1)
    (Z.to_nat (pPredictionScores s)) n
    (fun k x => fadd x (load U (pv + i + (Z.of_nat k - pPredictionScores s))))
  /\ r.2 = fold_left
             (fun a j =>
                fadd a (exp (NewScore U (aPredictionScores s)
                               (pPredictionScores s) (pv + i) (Z.of_nat j))))
             (seq 0 n) acc.
Proof.
  revert i s acc. induction n as [|n IH]; intros i s acc Hp.
  - cbn. split; [apply rewrites_nil|reflexivity].
  - cbn [ValidationScoresMulticlass]. cbv zeta.
    set (v := fadd (load (aPredictionScores s) (pPredictionScores s))
                (load U (pv + i))).
    set (s1 := move (write_score s (pPredictionScores s) v) 0 1 0).
    pose proof (IH (i + 1) s1 (fadd acc (exp v))) as IH1.
    cbn [s1 move write_score aPredictionScores pPredictionScores] in IH1.
    destruct (IH1 ltac:(lia)) as [IHr IHf]. clear IH1.
    split.
    + replace (Z.to_nat (pPredictionScores s + 1))
        with (Z.to_nat (pPredictionScores s) + 1)%nat in IHr by lia.
      refine (rewrites_app _ _ _ _ 1 n _ _ _ IHr _).
      * eapply rewrites_ext; [apply rewrites_store|].
        intros k x Hk Hx. assert (k = Z.to_nat (pPredictionScores s)) as -> by lia.
        unfold v. rewrite (load_Some _ _ _ Hx).
        rewrite Z2Nat.id by lia. f_equal. f_equal. lia.
      * intros k x Hk Hx. cbv beta. f_equal. f_equal. lia.
    + rewrite IHf. cbn [seq fold_left].
      rewrite <- seq_shift, fold_left_fmap.
      unfold NewScore at 3. change (Z.of_nat 0) with 0. rewrite !Z.add_0_r.
      fold v.
      apply fold_left_ext_elem. intros j a Hj.
      unfold NewScore. f_equal. f_equal.
      replace (pPredictionScores s + 1 + Z.of_nat j)
        with (pPredictionScores s + Z.of_nat (S j)) by lia.
      replace (pv + (i + 1) + Z.of_nat j) with (pv + i + Z.of_nat (S j)) by lia.
      f_equal.
      apply (load_rewrites_out _ _ _ 1 _ _ (rewrites_store _ _ _)). lia.
Qed.

Lemma CaseScores_rewrites (scores scores' : list spec_float) (p pv : Z) :
  0 <= p -> 0 <= V ->
  rewrites scores scores' (Z.to_nat p) (Z.to_nat V)
    (fun k x => fadd x (load U (pv + (Z.of_nat k - p)))) ->
  CaseScores scores' p V = NewCaseScores U V scores p pv.
Proof.
  intros Hp HV0 Hr. unfold NewCaseScores, CaseScores.
  apply list_eq. intros j. rewrite list_lookup_imap.
  destruct (decide (j < Z.to_nat V)%nat) as [Hj|Hj].
  - rewrite !lookup_take_lt, !lookup_drop by exact Hj.
    rewrite (Hr (Z.to_nat p + j)%nat).
    destruct (decide _) as [_|Hn]; [|lia].
    destruct (scores !! (Z.to_nat p + j)%nat); [|reflexivity].
    cbn. f_equal. f_equal. f_equal. lia.
  - rewrite !lookup_take_ge by lia. reflexivity.
Qed.

Lemma ValidationCase_regression b s :
  IsRegression cc = true ->
  0 <= pResidualError s ->
  let s' := ValidationCase cc U aTargetData V b s in
  rewrites (aResidualErrors s) (aResidualErrors s')
    (Z.to_nat (pResidualError s)) 1
    (fun _ x => fsub x (load U (b * V)))
  /\ aPredictionScores s' = aPredictionScores s
  /\ pResidualError s' = pResidualError s + 1
  /\ sumMetric s'
     = fadd (sumMetric s)
         (ValidationLoss cc U V (aResidualErrors s) (aPredictionScores s)
            (pResidualError s) (pPredictionScores s) (b * V)
            (load aTargetData (pTargetData s))).
Proof.
  intros Hr Hq. unfold ValidationCase, ValidationLoss. rewrite Hr.
  cbv zeta.
  cbn [move write_residual add_metric aResidualErrors aPredictionScores
       pResidualError pPredictionScores pTargetData sumMetric].
  split; [|repeat split; reflexivity].
  eapply rewrites_ext; [apply rewrites_store|].
  intros k x Hk Hx. assert (k = Z.to_nat (pResidualError s)) as -> by lia.
  unfold ComputeRegressionResidualError. rewrite (load_Some _ _ _ Hx).
  reflexivity.
Qed.

Lemma ValidationCase_classification b s :
  IsRegression cc = false ->
  0 <= pPredictionScores s ->
  let s' := ValidationCase cc U aTargetData V b s in
  rewrites (aPredictionScores s) (aPredictionScores s')
    (Z.to_nat (pPredictionScores s)) (Z.to_nat V)
    (fun k x => fadd x (load U (b * V + (Z.of_nat k - pPredictionScores s))))
  /\ aResidualErrors s' = aResidualErrors s
  /\ pPredictionScores s' = pPredictionScores s + V
  /\ pTargetData s' = pTargetData s + 1
  /\ sumMetric s'
     = fadd (sumMetric s)
         (ValidationLoss cc U V (aResidualErrors s) (aPredictionScores s)
            (pResidualError s) (pPredictionScores s) (b * V)
            (load aTargetData (pTargetData s))).
Proof.
  intros Hr Hp. unfold ValidationCase, ValidationLoss. rewrite Hr.
  destruct (IsBinaryClassification cc) eqn:Hb.
  - assert (V = 1) as HVone by (apply HV1; apply orb_true_r).
    cbv zeta.
    cbn [move write_residual write_score add_metric aResidualErrors
         aPredictionScores pResidualError pPredictionScores pTargetData
         sumMetric].
    rewrite HVone. change (Z.to_nat 1) with 1%nat.
    split;
      [|repeat split;
        first [reflexivity|lia
              |unfold NewScore; rewrite !Z.add_0_r; reflexivity]].
    eapply rewrites_ext; [apply rewrites_store|].
    intros k x Hk Hx. assert (k = Z.to_nat (pPredictionScores s)) as -> by lia.
    rewrite (load_Some _ _ _ Hx). rewrite Z2Nat.id by lia.
    rewrite Z.sub_diag, Z.add_0_r. reflexivity.
  - pose proof (ValidationScoresMulticlass_effect (do_while_count V) 0 (b * V) s
                  fzero Hp) as Heff.
    pose proof (ValidationScoresMulticlass_pointers U (do_while_count V) 0 (b * V)
                  s fzero) as Hptr.
    destruct (ValidationScoresMulticlass U (do_while_count V) 0 (b * V) s fzero)
      as [s1 sumExp] eqn:Hs1.
    cbn [fst snd] in Heff, Hptr. cbv zeta in Heff, Hptr.
    destruct Heff as [Hscores HsumExp].
    destruct Hptr as (Hq1 & Hp1 & Ht1 & Hres1 & Hm1).
    rewrite Z.add_0_r in Hscores, HsumExp.
    assert (Hdw : do_while_count V = Z.to_nat V) by (unfold do_while_count; lia).
    rewrite Hdw in Hscores, Hp1.
    cbn [move add_metric aResidualErrors aPredictionScores pResidualError
         pPredictionScores pTargetData sumMetric].
    split; [exact Hscores|]. split; [exact Hres1|].
    split; [lia|]. split; [lia|].
    rewrite Hm1. f_equal. rewrite HsumExp. fold (CaseSumExp U V (aPredictionScores s)
                                                   (pPredictionScores s) (b * V)).
    f_equal.
    replace (pPredictionScores s1 - V) with (pPredictionScores s) by lia.
    apply CaseScores_rewrites; [exact Hp|lia|exact Hscores].
Qed.
End CaseEffects.

Lemma case_index (n : nat) (V : Z) (k : nat) :
  1 <= V ->
  (n * Z.to_nat V <= k < n * Z.to_nat V + Z.to_nat V)%nat ->
  Z.of_nat k / V = Z.of_nat n /\ Z.of_nat k mod V = Z.of_nat k - Z.of_nat n * V.
Proof.
  intros HV Hk.
  assert (Hz : Z.of_nat n * V <= Z.of_nat k < Z.of_nat n * V + V) by nia.
  assert (Hdiv : Z.of_nat k / V = Z.of_nat n).
  { symmetry. apply (Z.div_unique _ _ _ (Z.of_nat k - Z.of_nat n * V)); lia. }
  split; [exact Hdiv|].
  rewrite Z.mod_eq by lia. rewrite Hdiv. lia.
Qed.

Section ValueExt.
Context `{BuildConfig} `{EbmStatistics}.
Variable cc : CompilerTargetStates.
Variable U : list spec_float.
Variable V : Z.

Lemma CaseSumExp_ext (l l' : list spec_float) (p pv : Z) :
  (forall j, 0 <= j -> load l' (p + j) = load l (p + j)) ->
  CaseSumExp U V l' p pv = CaseSumExp U V l p pv.
Proof.
  intros Hl. unfold CaseSumExp. apply fold_left_ext_elem.
  intros j a _. unfold NewScore. rewrite Hl by lia. reflexivity.
Qed.

Lemma CaseResidual_ext (l l' : list spec_float) (p pv t j : Z) :
  (forall j, 0 <= j -> load l' (p + j) = load l (p + j)) ->
  0 <= j ->
  CaseResidual cc U V l' p pv t j = CaseResidual cc U V l p pv t j.
Proof.
  intros Hl Hj. unfold CaseResidual.
  rewrite (CaseSumExp_ext l l' p pv Hl).
  unfold NewScore. rewrite !Hl by lia. reflexivity.
Qed.

Lemma CaseScores_ext (l l' : list spec_float) (p : Z) :
  (forall k, (Z.to_nat p <= k)%nat -> l' !! k = l !! k) ->
  CaseScores l' p V = CaseScores l p V.
Proof.
  intros Hl. unfold CaseScores. f_equal.
  apply list_eq. intros k. rewrite !lookup_drop. apply Hl. lia.
Qed.

Lemma ValidationLoss_ext (r r' l l' : list spec_float) (q q' p pv t : Z) :
  0 <= p ->
  (IsRegression cc = true -> load r' q' = load r q) ->
  (IsRegression cc = false ->
   forall k, (Z.to_nat p <= k)%nat -> l' !! k = l !! k) ->
  ValidationLoss cc U V r' l' q' p pv t = ValidationLoss cc U V r l q p pv t.
Proof.
  intros Hp Hr Hl. unfold ValidationLoss.
  destruct (IsRegression cc); [rewrite Hr by reflexivity; reflexivity|].
  specialize (Hl eq_refl).
  assert (Hload : forall j, 0 <= j -> load l' (p + j) = load l (p + j)).
  { intros j Hj. apply load_ext. apply Hl. lia. }
  rewrite (CaseSumExp_ext l l' p pv Hload).
  unfold NewCaseScores. rewrite (CaseScores_ext l l' p Hl).
  unfold NewScore. rewrite !Hload by lia. reflexivity.
Qed.
End ValueExt.

Section FoldEffects.
Context `{BuildConfig} `{EbmStatistics}.
Variable cc : CompilerTargetStates.
Variable cTargetStates : Z.
Variable fc : FeatureCombination.
Variable d : DataSetByFeatureCombination.
Variable U : list spec_float.

Local Abbreviation V := (GET_VECTOR_LENGTH cc cTargetStates).
Hypothesis HV : 1 <= V.

Local Abbreviation Tn n :=
  (fold_left
     (fun s i => TrainingCase cc U (m_aTargetData d) V (BinOf fc d i) s)
     (seq 0 n) (start d)).
Local Abbreviation Vn n :=
  (fold_left
     (fun s i => ValidationCase cc U (m_aTargetData d) V (BinOf fc d i) s)
     (seq 0 n) (start d)).

Lemma TrainingFold_regression (n : nat) :
  IsRegression cc = true ->
  pResidualError (Tn n) = Z.of_nat n
  /\ aPredictionScores (Tn n) = m_aPredictionScores d
  /\ rewrites (m_aResidualErrors d) (aResidualErrors (Tn n)) 0 n
       (fun k x => fsub x (load U (UpdateIndex cc cTargetStates fc d k))).
Proof.
  intros Hr.
  assert (HV1 : V = 1) by (apply GET_VECTOR_LENGTH_flat; rewrite Hr; reflexivity).
  induction n as [|n IH].
  - cbn. repeat split; try apply rewrites_nil.
  - rewrite seq_S, fold_left_app. cbn [fold_left Nat.add].
    destruct IH as (Hq & Hs & Hres).
    assert (Hq0 : 0 <= pResidualError (Tn n)) by (rewrite Hq; lia).
    pose proof (TrainingCase_regression cc U (m_aTargetData d) V (BinOf fc d n)
                  (Tn n) Hr Hq0) as Hcase.
    cbv zeta in Hcase. destruct Hcase as (Hres' & Hs' & Hq' & _).
    split; [lia|]. split; [congruence|].
    rewrite Hq, Nat2Z.id in Hres'.
    replace (S n) with (n + 1)%nat by lia.
    refine (rewrites_app _ _ _ 0 n 1 _ _ Hres Hres' _).
    intros k x Hk _. assert (k = n) as -> by lia.
    unfold UpdateIndex. rewrite HV1, Z.div_1_r, Z.mod_1_r, Nat2Z.id, Z.add_0_r.
    reflexivity.
Qed.

Lemma TrainingFold_classification (n : nat) :
  IsRegression cc = false ->
  (n * Z.to_nat V <= length (m_aPredictionScores d))%nat ->
  (IsBinaryClassification cc = false ->
   0 <= k_iZeroResidual -> k_iZeroResidual < V) ->
  pResidualError (Tn n) = Z.of_nat n * V
  /\ pPredictionScores (Tn n) = Z.of_nat n * V
  /\ pTargetData (Tn n) = Z.of_nat n
  /\ rewrites (m_aPredictionScores d) (aPredictionScores (Tn n)) 0
       (n * Z.to_nat V)
       (fun k x => fadd x (load U (UpdateIndex cc cTargetStates fc d k)))
  /\ rewrites (m_aResidualErrors d) (aResidualErrors (Tn n)) 0
       (n * Z.to_nat V)
       (fun k _ => TrainedResidual cc cTargetStates fc d U k).
Proof.
  intros Hr Hlen Hzero.
  induction n as [|n IH].
  - cbn. repeat split; try apply rewrites_nil.
  - rewrite seq_S, fold_left_app. cbn [fold_left Nat.add].
    destruct (IH ltac:(lia)) as (Hq & Hp & Ht & Hsc & Hres). clear IH.
    pose proof (rewrites_length _ _ _ _ _ Hsc) as Hlen'.
    assert (Hq0 : 0 <= pResidualError (Tn n)) by (rewrite Hq; lia).
    assert (Hp0 : 0 <= pPredictionScores (Tn n)) by (rewrite Hp; lia).
    pose proof (TrainingCase_classification cc U (m_aTargetData d) V HV
                  (GET_VECTOR_LENGTH_flat cc cTargetStates) (BinOf fc d n)
                  (Tn n) Hr Hq0 Hp0) as Hcase.
    cbv zeta in Hcase.
    destruct Hcase as (Hsc' & Hres' & Hq' & Hp' & Ht' & _); [lia|exact Hzero|].
    split; [lia|]. split; [lia|]. split; [lia|].
    rewrite Hq, Hp, Ht in Hres'. rewrite Hp in Hsc'.
    replace (Z.to_nat (Z.of_nat n * V)) with (n * Z.to_nat V)%nat in Hsc', Hres'
      by nia.
    replace (S n * Z.to_nat V)%nat with (n * Z.to_nat V + Z.to_nat V)%nat by lia.
    split.
    + refine (rewrites_app _ _ _ 0 _ _ _ _ Hsc Hsc' _).
      intros k x Hk _. cbv beta.
      destruct (case_index n V k HV Hk) as [Hdiv Hmod].
      unfold UpdateIndex. rewrite Hdiv, Hmod, Nat2Z.id. reflexivity.
    + refine (rewrites_app _ _ _ 0 _ _ _ _ Hres Hres' _).
      intros k x Hk _. cbv beta.
      destruct (case_index n V k HV Hk) as [Hdiv Hmod].
      unfold TrainedResidual. rewrite Hdiv, Hmod, Nat2Z.id.
      apply CaseResidual_ext; [|lia].
      intros j Hj. apply (load_rewrites_out _ _ _ _ _ _ Hsc). nia.
Qed.

Lemma ValidationFold_regression (n : nat) :
  IsRegression cc = true ->
  pResidualError (Vn n) = Z.of_nat n
  /\ aPredictionScores (Vn n) = m_aPredictionScores d
  /\ rewrites (m_aResidualErrors d) (aResidualErrors (Vn n)) 0 n
       (fun k x => fsub x (load U (UpdateIndex cc cTargetStates fc d k)))
  /\ sumMetric (Vn n)
     = fold_left
         (fun sum i => fadd sum (ValidationLossOfCase cc cTargetStates fc d U i))
         (seq 0 n) fzero.
Proof.
  intros Hr.
  assert (HV1 : V = 1) by (apply GET_VECTOR_LENGTH_flat; rewrite Hr; reflexivity).
  induction n as [|n IH].
  - cbn. repeat split; try apply rewrites_nil.
  - rewrite !seq_S, !fold_left_app. cbn [fold_left Nat.add].
    destruct IH as (Hq & Hs & Hres & Hsum).
    assert (Hq0 : 0 <= pResidualError (Vn n)) by (rewrite Hq; lia).
    pose proof (ValidationCase_regression cc U (m_aTargetData d) V (BinOf fc d n)
                  (Vn n) Hr Hq0) as Hcase.
    cbv zeta in Hcase. destruct Hcase as (Hres' & Hs' & Hq' & Hsum').
    split; [lia|]. split; [congruence|].
    rewrite Hq, Nat2Z.id in Hres'.
    split.
    + replace (S n) with (n + 1)%nat by lia.
      refine (rewrites_app _ _ _ 0 n 1 _ _ Hres Hres' _).
      intros k x Hk _. assert (k = n) as -> by lia.
      unfold UpdateIndex. rewrite HV1, Z.div_1_r, Z.mod_1_r, Nat2Z.id, Z.add_0_r.
      reflexivity.
    + rewrite Hsum', Hsum. f_equal. unfold ValidationLossOfCase.
      unfold ValidationLoss. rewrite Hr. rewrite Hq.
      rewrite (load_rewrites_out _ _ _ _ _ _ Hres) by lia. reflexivity.
Qed.

Lemma ValidationFold_classification (n : nat) :
  IsRegression cc = false ->
  pPredictionScores (Vn n) = Z.of_nat n * V
  /\ pTargetData (Vn n) = Z.of_nat n
  /\ aResidualErrors (Vn n) = m_aResidualErrors d
  /\ rewrites (m_aPredictionScores d) (aPredictionScores (Vn n)) 0
       (n * Z.to_nat V)
       (fun k x => fadd x (load U (UpdateIndex cc cTargetStates fc d k)))
  /\ sumMetric (Vn n)
     = fold_left
         (fun sum i => fadd sum (ValidationLossOfCase cc cTargetStates fc d U i))
         (seq 0 n) fzero.
Proof.
  intros Hr.
  induction n as [|n IH].
  - cbn. repeat split; try apply rewrites_nil.
  - rewrite !seq_S, !fold_left_app. cbn [fold_left Nat.add].
    destruct IH as (Hp & Ht & Hres & Hsc & Hsum).
    assert (Hp0 : 0 <= pPredictionScores (Vn n)) by (rewrite Hp; lia).
    pose proof (ValidationCase_classification cc U (m_aTargetData d) V HV
                  (GET_VECTOR_LENGTH_flat cc cTargetStates) (BinOf fc d n)
                  (Vn n) Hr Hp0) as Hcase.
    cbv zeta in Hcase.
    destruct Hcase as (Hsc' & Hres' & Hp' & Ht' & Hsum').
    split; [lia|]. split; [lia|]. split; [congruence|].
    rewrite Hp in Hsc'.
    replace (Z.to_nat (Z.of_nat n * V)) with (n * Z.to_nat V)%nat in Hsc' by nia.
    replace (S n * Z.to_nat V)%nat with (n * Z.to_nat V + Z.to_nat V)%nat by lia.
    split.
    + refine (rewrites_app _ _ _ 0 _ _ _ _ Hsc Hsc' _).
      intros k x Hk _. cbv beta.
      destruct (case_index n V k HV Hk) as [Hdiv Hmod].
      unfold UpdateIndex. rewrite Hdiv, Hmod, Nat2Z.id. reflexivity.
    + rewrite Hsum', Hsum. f_equal. unfold ValidationLossOfCase.
      rewrite Hp, Ht.
      apply ValidationLoss_ext; [lia|congruence|].
      intros _ k Hk. rewrite (Hsc k).
      destruct (decide _) as [Hin|]; [nia|reflexivity].
Qed.
End FoldEffects.

(** ** Residual zeroing *)

Section Zeroing.
Context `{BuildConfig} `{EbmStatistics}.

(** C8.  With a zeroing index [k_iZeroResidual = Z], [0 <= Z < K], the
    training-set pass of a multiclass classification returns, and for every
    case [i] it leaves the residual 0 at class index [Z] and, at every
    other class index [j], the residual computed by
    [ComputeClassificationResidualErrorMulticlass] from [sumExp] and the
    updated score of class [j] of the case: the 0 is stored after the
    residuals of the case and nothing overwrites it. *)
Theorem multiclass_training_pass_zeroes_residual
    (cc : CompilerTargetStates) (cTargetStates : Z)
    (fc : FeatureCombination) (d : DataSetByFeatureCombination)
    (U : list spec_float) (cInputBits cTargetBits : Z) :
  let K := GET_VECTOR_LENGTH cc cTargetStates in
  IsRegression cc = false ->
  IsBinaryClassification cc = false ->
  pass_ready cc cTargetStates fc d ->
  0 <= k_iZeroResidual < K ->
  (Z.to_nat (m_cCases d * K) <= length (m_aResidualErrors d))%nat ->
  (Z.to_nat (m_cCases d * K) <= length (m_aPredictionScores d))%nat ->
  exists d',
    TrainingSetTargetFeatureLoop cInputBits cTargetBits cc fc d U cTargetStates
    = Some d'
    /\ forall i j, 0 <= i < m_cCases d -> 0 <= j < K ->
         let pValues := BinOf fc d (Z.to_nat i) * K in
         m_aResidualErrors d' !! Z.to_nat (i * K + j)
         = Some (if j =? k_iZeroResidual then fzero
                 else ComputeClassificationResidualErrorMulticlass
                        (CaseSumExp U K (m_aPredictionScores d) (i * K) pValues)
                        (NewScore U (m_aPredictionScores d) (i * K) pValues j)
                        (load (m_aTargetData d) i) j).
Proof.
  intros K Hr Hb Hready Hz Hlr Hls.
  pose proof Hready as (HV & Hn & _).
  rewrite (TrainingSetTargetFeatureLoop_fold cc cTargetStates fc d U Hready).
  eexists. split; [reflexivity|].
  intros i j Hi Hj pValues.
  destruct (TrainingFold_classification cc cTargetStates fc d U HV
              (Z.to_nat (m_cCases d)) Hr) as (_ & _ & _ & _ & Hres).
  { fold K. nia. }
  { intros _ _. apply Hz. }
  cbn [finish m_aResidualErrors]. unfold TrainingFold. fold K in Hres |- *.
  rewrite (Hres (Z.to_nat (i * K + j))).
  destruct (decide _) as [_|Hout]; [|exfalso; apply Hout; nia].
  destruct (lookup_lt_is_Some_2 (m_aResidualErrors d) (Z.to_nat (i * K + j)))
    as [x ->]; [nia|].
  cbn [fmap option_fmap option_map]. f_equal.
  destruct (case_index (Z.to_nat i) K (Z.to_nat (i * K + j)) HV) as [Hdiv Hmod];
    [nia|].
  unfold TrainedResidual. fold K. rewrite Hdiv, Hmod.
  rewrite !Z2Nat.id by nia.
  replace (i * K + j - i * K) with j by lia.
  unfold CaseResidual. rewrite Hb.
  destruct (Z.leb_spec 0 k_iZeroResidual) as [_|]; [|lia].
  reflexivity.
Qed.
End Zeroing.

Lemma multiclass_training_pass_zeroes_residual_witness :
  exists d',
    @TrainingSetTargetFeatureLoop Example.config_zeroing Example.statistics
      1 2 (k_Compiled 3) Example.combination Example.multiclass_set
      Example.multiclass_update 3 = Some d'
    /\ m_aResidualErrors d' !! 0%nat = Some fzero
    /\ m_aResidualErrors d' !! 3%nat = Some fzero.
Proof.
  destruct (@multiclass_training_pass_zeroes_residual Example.config_zeroing
              Example.statistics (k_Compiled 3) 3 Example.combination
              Example.multiclass_set Example.multiclass_update 1 2)
    as (d' & Hrun & Hres).
  - reflexivity.
  - reflexivity.
  - repeat split; try (vm_compute; discriminate).
  - vm_compute. split; [discriminate|reflexivity].
  - vm_compute. lia.
  - vm_compute. lia.
  - exists d'. split; [exact Hrun|]. split.
    + apply (Hres 0 0); vm_compute; split; first [discriminate|reflexivity].
    + apply (Hres 1 0); vm_compute; split; first [discriminate|reflexivity].
Defined.

(** The residuals of that run: class 0 of both cases has residual 0. *)
Lemma multiclass_example :
  m_aResidualErrors <$>
    @TrainingSetTargetFeatureLoop Example.config_zeroing Example.statistics
      1 2 (k_Compiled 3) Example.combination Example.multiclass_set
      Example.multiclass_update 3
  = Some [fzero; of_size_t 4; Example.three; fzero; of_size_t 4; of_size_t 36].
Proof. vm_compute. reflexivity. Qed.
(** ** Updates that are zero *)

Lemma kept_refl (x : spec_float) : kept x x.
Proof. left. reflexivity. Qed.

Lemma canon_idem (x : spec_float) : canon (canon x) = canon x.
Proof. destruct x; reflexivity. Qed.

Lemma kept_trans (x y z : spec_float) : kept x y -> kept y z -> kept x z.
Proof.
  intros [->| ->] [->| ->]; unfold kept; rewrite ?canon_idem; auto.
Qed.

Lemma kept_same_value (x x' : spec_float) : kept x x' -> same_value x x'.
Proof.
  intros [->| ->]; unfold same_value; rewrite ?canon_idem; reflexivity.
Qed.

(** Without negative zeros, kept values are identical. *)
Lemma kept_exact (x x' : spec_float) :
  kept x x' -> x <> S754_zero true -> x' = x.
Proof.
  intros [->| ->] Hx; [reflexivity|].
  destruct x as [[|]| | |]; try reflexivity. contradiction.
Qed.

Lemma Forall2_kept_exact (l l' : list spec_float) :
  Forall (fun x => x <> S754_zero true) l -> Forall2 kept l l' -> l' = l.
Proof.
  intros Hl Hk. induction Hk as [|x x' l l' Hx Hk IH]; [reflexivity|].
  inversion Hl as [|? ? Hx0 Hl0]; subst.
  rewrite (kept_exact x x' Hx Hx0), (IH Hl0). reflexivity.
Qed.

Lemma fadd_zero_kept (x u : spec_float) : is_zero u = true -> kept x (fadd x u).
Proof.
  destruct u as [s| | |]; try discriminate. intros _.
  destruct x as [[|]| | |]; destruct s; cbn; unfold kept; auto.
Qed.

Lemma fsub_zero_kept (x u : spec_float) : is_zero u = true -> kept x (fsub x u).
Proof.
  destruct u as [s| | |]; try discriminate. intros _.
  destruct x as [[|]| | |]; destruct s; cbn; unfold kept; auto.
Qed.

Lemma load_zero (U : list spec_float) (p : Z) :
  Forall (fun u => is_zero u = true) U -> is_zero (load U p) = true.
Proof.
  intros HU. rewrite load_lookup.
  destruct (U !! Z.to_nat p) as [u|] eqn:Hu; [|reflexivity].
  cbn. exact (proj1 (Forall_lookup _ U) HU _ _ Hu).
Qed.

Lemma rewrites_Forall2 {A} (P : A -> A -> Prop) (l l' : list A) (lo n : nat)
    (f : nat -> A -> A) :
  (forall x, P x x) ->
  rewrites l l' lo n f ->
  (forall k x, P x (f k x)) ->
  Forall2 P l l'.
Proof.
  intros Hrefl Hr Hf. apply Forall2_lookup. intros k. rewrite (Hr k).
  destruct (l !! k) as [x|]; destruct (decide _); constructor; auto.
Qed.

Lemma Forall2_kept_same_value (l l' : list spec_float) :
  Forall2 kept l l' -> Forall2 same_value l l'.
Proof. intros Hl. eapply Forall2_impl; [exact Hl|]. exact kept_same_value. Qed.

Lemma rewrites_eq {A} (l l' : list A) (lo n : nat) (f : nat -> A -> A) :
  rewrites l l' lo n f ->
  (forall k x, (lo <= k < lo + n)%nat -> l !! k = Some x -> f k x = x) ->
  l' = l.
Proof.
  intros Hr Hf. apply list_eq. intros k. rewrite (Hr k).
  destruct (decide _) as [Hk|]; [|reflexivity].
  destruct (l !! k) as [x|] eqn:Hx; [|reflexivity].
  cbn. rewrite (Hf k x Hk Hx). reflexivity.
Qed.

Section ZeroUpdate.
Context `{BuildConfig} `{EbmStatistics}.
Variable cc : CompilerTargetStates.
Variable cTargetStates : Z.
Variable fc : FeatureCombination.
Variable d : DataSetByFeatureCombination.
Variable U : list spec_float.
Hypothesis Hins : ZeroSignInsensitive.
Hypothesis HU : Forall (fun u => is_zero u = true) U.
Hypothesis Hready : pass_ready cc cTargetStates fc d.

Local Abbreviation V := (GET_VECTOR_LENGTH cc cTargetStates).

Lemma NewScore_zero (scores : list spec_float) (p pv j : Z) :
  same_value (NewScore U scores p pv j) (load scores (p + j)).
Proof. apply fadd_zero_same. apply load_zero. exact HU. Qed.

Lemma NewScore_zero_at (scores : list spec_float) (p pv j k : Z) :
  p + j = k -> same_value (NewScore U scores p pv j) (load scores k).
Proof. intros <-. apply NewScore_zero. Qed.

Lemma CaseSumExp_zero (scores : list spec_float) (p pv : Z) :
  CaseSumExp U V scores p pv = SumExp scores p V.
Proof.
  unfold CaseSumExp, SumExp. apply fold_left_ext_elem. intros j a _.
  f_equal. apply Hins. apply NewScore_zero.
Qed.

Lemma TrainedResidual_zero (k : nat) :
  TrainedResidual cc cTargetStates fc d U k
  = ResidualOfScores cc V (m_aTargetData d) (m_aPredictionScores d) k.
Proof.
  destruct Hready as (HV & _).
  destruct Hins as (_ & Hb & Hm & _).
  unfold TrainedResidual, ResidualOfScores, CaseResidual.
  rewrite CaseSumExp_zero.
  assert (Hk : Z.of_nat k / V * V + Z.of_nat k mod V = Z.of_nat k).
  { pose proof (Z.div_mod (Z.of_nat k) V ltac:(lia)). lia. }
  destruct (IsBinaryClassification cc) eqn:Hbin.
  - apply Hb. apply NewScore_zero_at.
    assert (HV1 : V = 1)
      by (apply GET_VECTOR_LENGTH_flat; rewrite Hbin; apply orb_true_r).
    rewrite HV1, Z.div_1_r. lia.
  - destruct (_ && _); [reflexivity|].
    apply Hm. apply NewScore_zero_at. exact Hk.
Qed.

Lemma NewCaseScores_zero (scores : list spec_float) (p pv : Z) :
  Forall2 same_value (NewCaseScores U V scores p pv) (CaseScores scores p V).
Proof.
  unfold NewCaseScores. apply Forall2_lookup. intros j.
  rewrite list_lookup_imap.
  destruct (CaseScores scores p V !! j) as [x|]; constructor.
  apply fadd_zero_same. apply load_zero. exact HU.
Qed.

Lemma ValidationLossOfCase_zero (i : nat) :
  ValidationLossOfCase cc cTargetStates fc d U i = CaseLoss cc V d i.
Proof.
  destruct Hins as (_ & _ & _ & Hb & Hm).
  unfold ValidationLossOfCase, ValidationLoss, CaseLoss.
  destruct (IsRegression cc) eqn:Hr.
  - apply fmul_same_square. apply fsub_zero_same. apply load_zero. exact HU.
  - destruct (IsBinaryClassification cc) eqn:Hbin.
    + apply Hb. apply NewScore_zero_at.
      assert (HV1 : V = 1)
        by (apply GET_VECTOR_LENGTH_flat; rewrite Hbin; apply orb_true_r).
      rewrite HV1. lia.
    + rewrite CaseSumExp_zero. apply Hm. apply NewCaseScores_zero.
Qed.

(** The training-set pass with an update of zeros. *)
Lemma TrainingSetInputFeatureLoop_zero (cInputBits : Z) :
  ResidualsInSync cc cTargetStates d ->
  exists d',
    TrainingSetInputFeatureLoop cInputBits cc fc d U cTargetStates = Some d'
    /\ SameDataSet d d'.
Proof.
  intros Hsync. pose proof Hready as (HV & Hn & _).
  unfold TrainingSetInputFeatureLoop.
  rewrite (TrainingSetTargetFeatureLoop_fold cc cTargetStates fc d U Hready).
  eexists. split; [reflexivity|].
  unfold SameDataSet, TrainingFold. cbn [finish m_cCases m_aTargetData
    m_aaInputData m_aPredictionScores m_aResidualErrors].
  do 3 (split; [reflexivity|]).
  destruct (IsRegression cc) eqn:Hr.
  - destruct (TrainingFold_regression cc cTargetStates fc d U
                (Z.to_nat (m_cCases d)) Hr) as (_ & Hsc & Hres).
    rewrite Hsc. split.
    + apply Forall2_lookup. intros k.
      destruct (m_aPredictionScores d !! k); constructor. apply kept_refl.
    + apply (rewrites_Forall2 _ _ _ _ _ _ kept_refl Hres).
      intros k x. apply fsub_zero_kept. apply load_zero. exact HU.
  - destruct (Hsync Hr) as (Hlen & Hz & Hsynced).
    destruct (TrainingFold_classification cc cTargetStates fc d U HV
                (Z.to_nat (m_cCases d)) Hr Hlen Hz)
      as (_ & _ & _ & Hsc & Hres).
    split.
    + apply (rewrites_Forall2 _ _ _ _ _ _ kept_refl Hsc).
      intros k x. apply fadd_zero_kept. apply load_zero. exact HU.
    + rewrite (rewrites_eq _ _ _ _ _ Hres).
      * apply Forall2_lookup. intros k.
        destruct (m_aResidualErrors d !! k); constructor. apply kept_refl.
      * intros k x Hk Hx. rewrite Hsynced in Hx by lia.
        injection Hx as <-. apply TrainedResidual_zero.
Qed.

(** The validation-set pass with an update of zeros. *)
Lemma ValidationSetInputFeatureLoop_zero (cInputBits : Z) :
  exists d',
    ValidationSetInputFeatureLoop cInputBits cc fc d U cTargetStates
    = Some (d', MetricOf cc cTargetStates d)
    /\ SameDataSet d d'.
Proof.
  pose proof Hready as (HV & Hn & _).
  unfold ValidationSetInputFeatureLoop.
  rewrite (ValidationSetTargetFeatureLoop_fold cc cTargetStates fc d U Hready).
  eexists. split.
  - f_equal. f_equal. unfold MetricOf, ValidationFold.
    destruct (IsRegression cc) eqn:Hr.
    + destruct (ValidationFold_regression cc cTargetStates fc d U
                  (Z.to_nat (m_cCases d)) Hr) as (_ & _ & _ & ->).
      f_equal. f_equal. apply fold_left_ext_elem. intros i a _.
      rewrite ValidationLossOfCase_zero. reflexivity.
    + destruct (ValidationFold_classification cc cTargetStates fc d U HV
                  (Z.to_nat (m_cCases d)) Hr) as (_ & _ & _ & _ & ->).
      apply fold_left_ext_elem. intros i a _.
      rewrite ValidationLossOfCase_zero. reflexivity.
  - unfold SameDataSet, ValidationFold.
    cbn [finish m_cCases m_aTargetData m_aaInputData m_aPredictionScores
         m_aResidualErrors].
    do 3 (split; [reflexivity|]).
    destruct (IsRegression cc) eqn:Hr.
    + destruct (ValidationFold_regression cc cTargetStates fc d U
                  (Z.to_nat (m_cCases d)) Hr) as (_ & Hsc & Hres & _).
      rewrite Hsc. split.
      * apply Forall2_lookup. intros k.
        destruct (m_aPredictionScores d !! k); constructor. apply kept_refl.
      * apply (rewrites_Forall2 _ _ _ _ _ _ kept_refl Hres).
        intros k x. apply fsub_zero_kept. apply load_zero. exact HU.
    + destruct (ValidationFold_classification cc cTargetStates fc d U HV
                  (Z.to_nat (m_cCases d)) Hr) as (_ & _ & Hres & Hsc & _).
      rewrite Hres. split.
      * apply (rewrites_Forall2 _ _ _ _ _ _ kept_refl Hsc).
        intros k x. apply fadd_zero_kept. apply load_zero. exact HU.
      * apply Forall2_lookup. intros k.
        destruct (m_aResidualErrors d !! k); constructor. apply kept_refl.
Qed.
End ZeroUpdate.

Lemma zip_with_zero_kept (l U : list spec_float) :
  Forall (fun u => is_zero u = true) U ->
  length U = length l ->
  Forall2 kept l (zip_with fadd l U).
Proof.
  intros HU Hlen. apply Forall2_lookup. intros k.
  rewrite lookup_zip_with.
  destruct (l !! k) as [x|] eqn:Hx; cbn; [|constructor].
  destruct (lookup_lt_is_Some_2 U k) as [u Hu].
  { rewrite Hlen. apply lookup_lt_Some in Hx. exact Hx. }
  rewrite Hu. cbn. constructor. apply fadd_zero_kept.
  exact (proj1 (Forall_lookup _ U) HU _ _ Hu).
Qed.

Lemma Forall2_kept_refl (l : list spec_float) : Forall2 kept l l.
Proof.
  apply Forall2_lookup. intros k. destruct (l !! k); constructor. apply kept_refl.
Qed.

Lemma Forall2_kept_trans (l1 l2 l3 : list spec_float) :
  Forall2 kept l1 l2 -> Forall2 kept l2 l3 -> Forall2 kept l1 l3.
Proof.
  intros H12 H23. apply Forall2_lookup. intros k.
  pose proof (proj1 (Forall2_lookup _ _ _) H12 k) as Ha.
  pose proof (proj1 (Forall2_lookup _ _ _) H23 k) as Hb.
  destruct Ha as [x y Hxy|]; inversion Hb as [y' z Hyz|]; subst; constructor.
  exact (kept_trans _ _ _ Hxy Hyz).
Qed.

Lemma SameDataSet_refl (d : DataSetByFeatureCombination) : SameDataSet d d.
Proof. repeat split; apply Forall2_kept_refl. Qed.

Section ZeroUpdateOfState.
Context {cfg : BuildConfig} {stat : EbmStatistics}
        {ops : SegmentedTensorOps} {learn : TreeLearners}.

Lemma SameTensors_refl (l : list SegmentedTensor) : Forall2 SameTensor l l.
Proof.
  apply Forall2_lookup. intros k. destruct (l !! k); constructor.
  apply Forall2_kept_refl.
Qed.

Lemma option_same_refl {A} (P : A -> A -> Prop) (o : option A) :
  (forall x, P x x) -> option_Forall2 P o o.
Proof. intros HP. destruct o; constructor. apply HP. Qed.

(** The current model after an update of zeros has been added to the
    tensor of combination [c]. *)
Lemma AddExpanded_zero (cur : list SegmentedTensor) (c : Z)
    (pc : SegmentedTensor) (U : list spec_float) :
  TensorValueLaws ->
  cur !! Z.to_nat c = Some pc ->
  Forall (fun u => is_zero u = true) U ->
  length U = length (m_aValues pc) ->
  Forall2 SameTensor cur (store cur c (AddExpanded pc U)).
Proof.
  intros [Hadd _] Hpc HU Hlen. apply Forall2_lookup. intros k.
  unfold store.
  destruct (decide (k = Z.to_nat c)) as [->|Hne].
  - rewrite list_lookup_insert_eq by (apply lookup_lt_Some in Hpc; exact Hpc).
    rewrite Hpc. constructor. unfold SameTensor.
    rewrite (Hadd pc U Hlen). apply zip_with_zero_kept; assumption.
  - rewrite list_lookup_insert_ne by congruence.
    destruct (cur !! k); constructor. apply Forall2_kept_refl.
Qed.

(** A commit that copies a current model whose values are those of the
    best model leaves the values of the best model as they are. *)
Lemma CopyModels_same (n : nat) (best cur cur' best' : list SegmentedTensor) :
  TensorValueLaws ->
  Forall2 SameTensor best cur ->
  Forall2 SameTensor cur cur' ->
  CopyModels n 0 best cur' = Some (false, best') ->
  Forall2 SameTensor best best'.
Proof.
  intros [_ Hcopy] Hbc Hcc Hrun.
  destruct (CopyModels_copies n 0 best cur' best' ltac:(lia) Hrun)
    as (Hlen & Hout & Hin).
  apply Forall2_lookup. intros k.
  destruct (decide (k < n)%nat) as [Hk|Hk].
  - destruct (Hin k ltac:(lia)) as (pb & pcur & Hb & Hc & Hok & Hb').
    rewrite Hb, Hb'. constructor. unfold SameTensor.
    rewrite (Hcopy _ _ Hok).
    pose proof (proj1 (Forall2_lookup _ _ _) Hbc k) as H1.
    pose proof (proj1 (Forall2_lookup _ _ _) Hcc k) as H2.
    rewrite Hb in H1. rewrite Hc in H2.
    inversion H1 as [? y Hby Heq1 Heq2|]; subst.
    inversion H2 as [? ? Hyc Heq3 Heq4|]; subst.
    assert (y = x) by congruence. subst y.
    exact (Forall2_kept_trans _ _ _ Hby Hyc).
  - rewrite Hout by lia. destruct (best !! k); constructor.
    apply Forall2_kept_refl.
Qed.

(** C9.  A call of apply_update with an update tensor of zeros (of
    either sign, as long as the tensor of the combination) returns, and
    leaves every prediction score, every residual and every value of the
    current model as it was ([kept]: the same float, or the positive zero
    where the negative zero was, so identical where there is no negative
    zero, [Forall2_kept_exact]).  When it returns status 0 the values of
    the best model are as they were and the metric it stores is the metric
    of the state as it was ([CurrentMetric], which after a successful call
    is the metric that call stored, [apply_leaves_consistent_state]).
    Where that metric is not better than the best metric, the call returns
    status 0 and the best model and the best metric are untouched.

    The state is one update application leaves behind or starts from: it
    is ready, the residuals of a classification training set are those of
    its scores ([ResidualsInSync]), and the best model holds the values of
    the current model where the metric of the state is better than the
    best metric ([BestIsCurrent]).  The statistics see the value of a
    score, not the sign of a zero ([ZeroSignInsensitive]), and the tensor
    operations act on the value buffers as [TensorValueLaws] says. *)
Theorem zero_update_changes_no_value (st : EbmTrainingState) (c : Z)
    (U : list spec_float) (validationMetricReturn : option spec_float) :
  ZeroSignInsensitive ->
  TensorValueLaws ->
  apply_ready st c ->
  (forall pTrainingSet, m_pTrainingSet st = Some pTrainingSet ->
     ResidualsInSync (TemplateInstance st) (m_cTargetStates st) pTrainingSet) ->
  BestIsCurrent st ->
  Forall (fun u => is_zero u = true) U ->
  (forall apCurrentModel pCurrentModel,
     m_apCurrentModel st = Some apCurrentModel ->
     apCurrentModel !! Z.to_nat c = Some pCurrentModel ->
     length U = length (m_aValues pCurrentModel)) ->
  exists st' ret validationMetricReturn',
    ApplyModelFeatureCombinationUpdate st c (Some U) validationMetricReturn
    = Some (st', ret, validationMetricReturn')
    /\ option_Forall2 SameDataSet (m_pTrainingSet st) (m_pTrainingSet st')
    /\ option_Forall2 SameDataSet (m_pValidationSet st) (m_pValidationSet st')
    /\ option_Forall2 (Forall2 SameTensor)
         (m_apCurrentModel st) (m_apCurrentModel st')
    /\ (ret = 0 ->
        option_Forall2 (Forall2 SameTensor)
          (m_apBestModel st) (m_apBestModel st')
        /\ validationMetricReturn'
           = assign validationMetricReturn (CurrentMetric st))
    /\ (Improves st = false ->
        ret = 0
        /\ m_apBestModel st' = m_apBestModel st
        /\ m_bestModelMetric st' = m_bestModelMetric st).
Proof.
  intros Hins Hlaws Hready Hsync Hbest HU Hlen.
  destruct (Degenerate st) eqn:Hdeg.
  { rewrite (Apply_degenerate st c (Some U) validationMetricReturn Hdeg).
    eexists _, _, _. split; [reflexivity|].
    split; [apply option_same_refl, SameDataSet_refl|].
    split; [apply option_same_refl, SameDataSet_refl|].
    split; [apply option_same_refl, SameTensors_refl|].
    split.
    - intros _. split; [apply option_same_refl, SameTensors_refl|].
      unfold CurrentMetric. rewrite Hdeg.
      destruct (m_pValidationSet st); reflexivity.
    - intros _. repeat split. }
  rewrite (Apply_nondegenerate st c U validationMetricReturn Hdeg).
  destruct (ApplyPerTargetStates_total st c U validationMetricReturn Hready)
    as (st' & ret & ptr' & Hrun).
  exists st', ret, ptr'. split; [exact Hrun|].
  apply ApplyPerTargetStates_inv in Hrun.
  destruct Hrun as (cur & pc & fcs & fc & ts' & Hcur & Hpc & Hfcs & Hfc
                    & Htrain & Hrest).
  destruct Hready as (cur0 & best0 & fcs0 & fc0 & pc0 & Hcur0 & Hbest0 & Hfcs0
                      & Hc & Hfc0 & Hpc0 & Hn & Hlb & Hlc & Hts & Hvs).
  assert (cur0 = cur) by congruence. subst cur0.
  assert (fcs0 = fcs) by congruence. subst fcs0.
  assert (fc0 = fc) by congruence. subst fc0.
  assert (pc0 = pc) by congruence. subst pc0.
  pose proof (AddExpanded_zero cur c pc U Hlaws Hpc HU (Hlen cur pc Hcur Hpc))
    as Hcur'.
  assert (Htraining : option_Forall2 SameDataSet (m_pTrainingSet st) ts').
  { destruct (m_pTrainingSet st) as [ts|] eqn:Hts0.
    - destruct Htrain as (ts0 & Hloop & ->).
      destruct (TrainingSetInputFeatureLoop_zero (TemplateInstance st)
                  (m_cTargetStates st) fc ts U Hins HU (Hts ts eq_refl) 1
                  (Hsync ts eq_refl)) as (d' & Hloop' & Hsame).
      rewrite Hloop' in Hloop. injection Hloop as <-.
      constructor. exact Hsame.
    - subst ts'. constructor. }
  cbv zeta in Hrest.
  destruct (m_pValidationSet st) as [vs|] eqn:Hvs0.
  - destruct Hrest as (vs' & m & Hloop & Hrest).
    destruct (ValidationSetInputFeatureLoop_zero (TemplateInstance st)
                (m_cTargetStates st) fc vs U Hins HU (Hvs vs eq_refl) 1)
      as (d' & Hloop' & Hsame).
    rewrite Hloop' in Hloop. injection Hloop as <- <-.
    assert (Hmetric : CurrentMetric st
                      = MetricOf (TemplateInstance st) (m_cTargetStates st) vs).
    { unfold CurrentMetric. rewrite Hvs0, Hdeg. reflexivity. }
    rewrite <- Hmetric in Hrest.
    assert (Himp : Improves st = flt (CurrentMetric st) (m_bestModelMetric st)).
    { unfold Improves. rewrite Hvs0, Hdeg. reflexivity. }
    destruct (flt (CurrentMetric st) (m_bestModelMetric st)) eqn:Hlt.
    + destruct Hrest as (best & err & best' & Hb & Hcopy & -> & -> & ->).
      cbn [set_best set_training m_pTrainingSet m_pValidationSet
           m_apCurrentModel m_apBestModel m_bestModelMetric].
      split; [exact Htraining|].
      split; [constructor; exact Hsame|].
      split; [rewrite Hcur; constructor; exact Hcur'|].
      split; [|rewrite Himp; discriminate].
      intros Hret. destruct err; [discriminate|].
      split; [|reflexivity].
      rewrite Hb. constructor.
      specialize (Hbest Himp). rewrite Hb, Hcur in Hbest.
      inversion Hbest as [? ? Hbc|]; subst.
      exact (CopyModels_same _ _ _ _ _ Hlaws Hbc Hcur' Hcopy).
    + destruct Hrest as (-> & -> & ->).
      cbn [set_best set_training m_pTrainingSet m_pValidationSet
           m_apCurrentModel m_apBestModel m_bestModelMetric].
      split; [exact Htraining|].
      split; [constructor; exact Hsame|].
      split; [rewrite Hcur; constructor; exact Hcur'|].
      split.
      * intros _. split; [apply option_same_refl, SameTensors_refl|reflexivity].
      * intros _. repeat split.
  - destruct Hrest as (-> & -> & ->).
    cbn [set_best set_training m_pTrainingSet m_pValidationSet
         m_apCurrentModel m_apBestModel m_bestModelMetric].
    split; [exact Htraining|].
    split; [constructor|].
    split; [rewrite Hcur; constructor; exact Hcur'|].
    split.
    + intros _. split; [apply option_same_refl, SameTensors_refl|].
      unfold CurrentMetric. rewrite Hvs0. reflexivity.
    + intros _. repeat split.
Qed.
End ZeroUpdateOfState.


(** ** What a pass leaves behind *)

Section PassConsistency.
Context `{BuildConfig} `{EbmStatistics}.
Variable cc : CompilerTargetStates.
Variable cTargetStates : Z.
Variable fc : FeatureCombination.
Variable d : DataSetByFeatureCombination.
Variable U : list spec_float.
Hypothesis Hready : pass_ready cc cTargetStates fc d.

Local Abbreviation V := (GET_VECTOR_LENGTH cc cTargetStates).
Local Abbreviation cValues := (Z.to_nat (m_cCases d) * Z.to_nat V)%nat.

Variable scores' : list spec_float.
Hypothesis Hscores :
  rewrites (m_aPredictionScores d) scores' 0 cValues
    (fun k x => fadd x (load U (UpdateIndex cc cTargetStates fc d k))).
Hypothesis Hlen : (cValues <= length (m_aPredictionScores d))%nat.

Lemma load_updated (i : nat) (j : Z) :
  (i < Z.to_nat (m_cCases d))%nat -> 0 <= j < V ->
  load scores' (Z.of_nat i * V + j)
  = NewScore U (m_aPredictionScores d) (Z.of_nat i * V) (BinOf fc d i * V) j.
Proof.
  intros Hi Hj. destruct Hready as (HV & _).
  rewrite (load_rewrites_in _ _ _ _ _ _ Hscores) by nia.
  destruct (case_index i V (Z.to_nat (Z.of_nat i * V + j)) HV) as [Hdiv Hmod];
    [nia|].
  unfold NewScore, UpdateIndex. rewrite Hdiv, Hmod, Nat2Z.id.
  rewrite Z2Nat.id by nia. f_equal. f_equal. lia.
Qed.

Lemma SumExp_updated (i : nat) :
  (i < Z.to_nat (m_cCases d))%nat ->
  SumExp scores' (Z.of_nat i * V) V
  = CaseSumExp U V (m_aPredictionScores d) (Z.of_nat i * V) (BinOf fc d i * V).
Proof.
  intros Hi. destruct Hready as (HV & _).
  unfold SumExp, CaseSumExp. apply fold_left_ext_elem. intros j a Hj.
  apply elem_of_seq in Hj. rewrite load_updated; [reflexivity|exact Hi|].
  unfold do_while_count in Hj. lia.
Qed.

Lemma CaseScores_updated (i : nat) :
  (i < Z.to_nat (m_cCases d))%nat ->
  CaseScores scores' (Z.of_nat i * V) V
  = NewCaseScores U V (m_aPredictionScores d) (Z.of_nat i * V) (BinOf fc d i * V).
Proof.
  intros Hi. destruct Hready as (HV & _).
  unfold NewCaseScores, CaseScores.
  apply list_eq. intros j. rewrite list_lookup_imap.
  destruct (decide (j < Z.to_nat V)%nat) as [Hj|Hj].
  - rewrite !lookup_take_lt, !lookup_drop by exact Hj.
    rewrite (Hscores (Z.to_nat (Z.of_nat i * V) + j)%nat).
    destruct (decide _) as [_|Hn]; [|exfalso; apply Hn; nia].
    destruct (m_aPredictionScores d !! _); [|reflexivity].
    cbn. f_equal. f_equal. f_equal.
    destruct (case_index i V (Z.to_nat (Z.of_nat i * V) + j)%nat HV)
      as [Hdiv Hmod]; [nia|].
    unfold UpdateIndex. rewrite Hdiv, Hmod, Nat2Z.id. nia.
  - rewrite !lookup_take_ge by lia. reflexivity.
Qed.

Lemma TrainedResidual_updated (k : nat) :
  (k < cValues)%nat ->
  TrainedResidual cc cTargetStates fc d U k
  = ResidualOfScores cc V (m_aTargetData d) scores' k.
Proof.
  intros Hk. destruct Hready as (HV & _).
  pose proof (Z.div_mod (Z.of_nat k) V ltac:(lia)) as Hdm.
  pose proof (Z.mod_pos_bound (Z.of_nat k) V ltac:(lia)) as Hmod.
  assert (Hdiv : 0 <= Z.of_nat k / V) by (apply Z.div_pos; lia).
  assert (Hi : (Z.to_nat (Z.of_nat k / V) < Z.to_nat (m_cCases d))%nat).
  { assert (Z.of_nat k / V < m_cCases d)
      by (apply Z.div_lt_upper_bound; nia).
    lia. }
  unfold TrainedResidual, ResidualOfScores, CaseResidual.
  set (i := Z.of_nat k / V) in *. set (j := Z.of_nat k mod V) in *.
  assert (Hki : Z.of_nat k = Z.of_nat (Z.to_nat i) * V + j)
    by (rewrite Z2Nat.id by lia; lia).
  pose proof (SumExp_updated (Z.to_nat i) Hi) as Hsum.
  rewrite Z2Nat.id in Hsum by lia. rewrite <- Hsum.
  destruct (IsBinaryClassification cc) eqn:Hbin.
  - assert (HV1 : V = 1)
      by (apply GET_VECTOR_LENGTH_flat; rewrite Hbin; apply orb_true_r).
    f_equal. rewrite Hki.
    assert (j = 0) as -> by (unfold j; rewrite HV1; apply Z.mod_1_r).
    rewrite (load_updated (Z.to_nat i) 0 Hi) by lia.
    rewrite Z2Nat.id by lia. reflexivity.
  - destruct (_ && _); [reflexivity|].
    f_equal. rewrite Hki.
    rewrite (load_updated (Z.to_nat i) j Hi) by lia.
    rewrite Z2Nat.id by lia. reflexivity.
Qed.
End PassConsistency.

Section PassLeaves.
Context `{BuildConfig} `{EbmStatistics}.
Variable cc : CompilerTargetStates.
Variable cTargetStates : Z.
Variable fc : FeatureCombination.
Variable d : DataSetByFeatureCombination.
Variable U : list spec_float.
Hypothesis Hready : pass_ready cc cTargetStates fc d.

Local Abbreviation V := (GET_VECTOR_LENGTH cc cTargetStates).

(** After the training-set pass the buffers still hold every case, and
    the residuals of a classification are those of the scores. *)
Lemma TrainingSetInputFeatureLoop_leaves (cInputBits : Z) :
  TrainingSetHolds cc cTargetStates d ->
  exists d',
    TrainingSetInputFeatureLoop cInputBits cc fc d U cTargetStates = Some d'
    /\ TrainingSetHolds cc cTargetStates d'
    /\ ResidualsInSync cc cTargetStates d'.
Proof.
  intros (Hlr & Hclass). pose proof Hready as (HV & Hn & _).
  unfold TrainingSetInputFeatureLoop.
  rewrite (TrainingSetTargetFeatureLoop_fold cc cTargetStates fc d U Hready).
  eexists. split; [reflexivity|].
  unfold TrainingSetHolds, ResidualsInSync, TrainingFold.
  cbn [finish m_cCases m_aTargetData m_aPredictionScores m_aResidualErrors].
  cbv zeta.
  destruct (IsRegression cc) eqn:Hr.
  - destruct (TrainingFold_regression cc cTargetStates fc d U
                (Z.to_nat (m_cCases d)) Hr) as (_ & Hsc & Hres).
    rewrite (rewrites_length _ _ _ _ _ Hres).
    split; [|discriminate]. split; [exact Hlr|discriminate].
  - destruct (Hclass eq_refl) as (Hls & Hz).
    destruct (TrainingFold_classification cc cTargetStates fc d U HV
                (Z.to_nat (m_cCases d)) Hr Hls Hz)
      as (_ & _ & _ & Hsc & Hres).
    rewrite (rewrites_length _ _ _ _ _ Hres), (rewrites_length _ _ _ _ _ Hsc).
    split; [split; [exact Hlr|intros _; split; [exact Hls|exact Hz]]|].
    intros _. split; [exact Hls|]. split; [exact Hz|].
    intros k Hk. rewrite (Hres k).
    destruct (decide _) as [_|Hout]; [|lia].
    destruct (lookup_lt_is_Some_2 (m_aResidualErrors d) k) as [x ->]; [lia|].
    cbn. f_equal.
    apply (TrainedResidual_updated cc cTargetStates fc d U Hready _ Hsc Hls k Hk).
Qed.

(** The metric the validation-set pass returns is the metric of the data
    set as the pass leaves it. *)
Lemma ValidationSetInputFeatureLoop_leaves (cInputBits : Z) :
  ValidationSetHolds cc cTargetStates d ->
  exists d',
    ValidationSetInputFeatureLoop cInputBits cc fc d U cTargetStates
    = Some (d', MetricOf cc cTargetStates d')
    /\ ValidationSetHolds cc cTargetStates d'.
Proof.
  intros Hholds. pose proof Hready as (HV & Hn & _).
  unfold ValidationSetInputFeatureLoop.
  rewrite (ValidationSetTargetFeatureLoop_fold cc cTargetStates fc d U Hready).
  eexists. split.
  - f_equal. f_equal.
    unfold MetricOf, ValidationSetHolds, ValidationFold in *.
    cbn [finish m_cCases]. cbv zeta in Hholds.
    destruct (IsRegression cc) eqn:Hr.
    + assert (HV1 : V = 1)
        by (apply GET_VECTOR_LENGTH_flat; rewrite Hr; reflexivity).
      destruct (ValidationFold_regression cc cTargetStates fc d U
                  (Z.to_nat (m_cCases d)) Hr) as (_ & _ & Hres & ->).
      f_equal. f_equal. apply fold_left_ext_elem. intros i a Hi.
      apply elem_of_seq in Hi. f_equal.
      unfold ValidationLossOfCase, ValidationLoss, CaseLoss. rewrite Hr.
      cbn [finish m_aResidualErrors].
      rewrite (load_rewrites_in _ _ _ _ _ _ Hres) by (rewrite HV1 in Hholds; lia).
      rewrite Nat2Z.id. unfold UpdateIndex.
      rewrite HV1, Z.div_1_r, Z.mod_1_r, Nat2Z.id, Z.add_0_r. reflexivity.
    + destruct (ValidationFold_classification cc cTargetStates fc d U HV
                  (Z.to_nat (m_cCases d)) Hr) as (_ & _ & _ & Hsc & ->).
      apply fold_left_ext_elem. intros i a Hi.
      apply elem_of_seq in Hi. f_equal.
      unfold ValidationLossOfCase, ValidationLoss, CaseLoss. rewrite Hr.
      cbn [finish m_aPredictionScores m_aTargetData].
      destruct (IsBinaryClassification cc) eqn:Hbin.
      * assert (HV1 : V = 1)
          by (apply GET_VECTOR_LENGTH_flat; rewrite Hbin; apply orb_true_r).
        f_equal.
        rewrite <- (load_updated cc cTargetStates fc d U Hready _ Hsc Hholds i 0)
          by lia.
        rewrite HV1. f_equal. lia.
      * rewrite (SumExp_updated cc cTargetStates fc d U Hready _ Hsc Hholds i)
          by lia.
        rewrite (CaseScores_updated cc cTargetStates fc d U Hready _ Hsc Hholds i)
          by lia.
        reflexivity.
  - unfold ValidationSetHolds, ValidationFold in *.
    cbn [finish m_cCases m_aPredictionScores m_aResidualErrors].
    cbv zeta in Hholds |- *.
    destruct (IsRegression cc) eqn:Hr.
    + destruct (ValidationFold_regression cc cTargetStates fc d U
                  (Z.to_nat (m_cCases d)) Hr) as (_ & _ & Hres & _).
      rewrite (rewrites_length _ _ _ _ _ Hres). exact Hholds.
    + destruct (ValidationFold_classification cc cTargetStates fc d U HV
                  (Z.to_nat (m_cCases d)) Hr) as (_ & _ & _ & Hsc & _).
      rewrite (rewrites_length _ _ _ _ _ Hsc). exact Hholds.
Qed.
End PassLeaves.

Section ApplyLeaves.
Context {cfg : BuildConfig} {stat : EbmStatistics}
        {ops : SegmentedTensorOps} {learn : TreeLearners}.

(** A call of update application that succeeds leaves a state in which
    the buffers hold every case, the residuals of a classification are
    those of the scores, the metric it reports is the metric of the state,
    and that metric is not better than the best metric. *)
Lemma apply_leaves_consistent_state (st : EbmTrainingState) (c : Z)
    (U : list spec_float) (validationMetricReturn : option spec_float)
    (st' : EbmTrainingState) (validationMetricReturn' : option spec_float) :
  apply_ready st c ->
  Degenerate st = false ->
  (forall pTrainingSet, m_pTrainingSet st = Some pTrainingSet ->
     TrainingSetHolds (TemplateInstance st) (m_cTargetStates st) pTrainingSet) ->
  (forall pValidationSet, m_pValidationSet st = Some pValidationSet ->
     ValidationSetHolds (TemplateInstance st) (m_cTargetStates st)
       pValidationSet) ->
  ApplyModelFeatureCombinationUpdate st c (Some U) validationMetricReturn
  = Some (st', 0, validationMetricReturn') ->
  (forall pTrainingSet, m_pTrainingSet st' = Some pTrainingSet ->
     TrainingSetHolds (TemplateInstance st') (m_cTargetStates st') pTrainingSet
     /\ ResidualsInSync (TemplateInstance st') (m_cTargetStates st')
          pTrainingSet)
  /\ (forall pValidationSet, m_pValidationSet st' = Some pValidationSet ->
        ValidationSetHolds (TemplateInstance st') (m_cTargetStates st')
          pValidationSet)
  /\ Improves st' = false
  /\ validationMetricReturn'
     = assign validationMetricReturn (CurrentMetric st').
Proof.
  intros Hready Hdeg Hths Hvhs Hrun.
  rewrite (Apply_nondegenerate st c U validationMetricReturn Hdeg) in Hrun.
  apply ApplyPerTargetStates_inv in Hrun.
  destruct Hrun as (cur & pc & fcs & fc & ts' & Hcur & Hpc & Hfcs & Hfc
                    & Htrain & Hrest).
  destruct Hready as (cur0 & best0 & fcs0 & fc0 & pc0 & Hcur0 & Hbest0 & Hfcs0
                      & Hc & Hfc0 & Hpc0 & Hn & Hlb & Hlc & Hts & Hvs).
  assert (fcs0 = fcs) by congruence. subst fcs0.
  assert (fc0 = fc) by congruence. subst fc0.
  assert (Htraining :
            forall d', ts' = Some d' ->
              TrainingSetHolds (TemplateInstance st) (m_cTargetStates st) d'
              /\ ResidualsInSync (TemplateInstance st) (m_cTargetStates st) d').
  { intros d' ->. destruct (m_pTrainingSet st) as [ts|] eqn:Hts0;
      [|discriminate].
    destruct Htrain as (ts0 & Hloop & Heq). injection Heq as ->.
    destruct (TrainingSetInputFeatureLoop_leaves (TemplateInstance st)
                (m_cTargetStates st) fc ts U (Hts ts eq_refl) 1
                (Hths ts eq_refl)) as (d'' & Hloop' & Hh & Hs).
    rewrite Hloop' in Hloop. injection Hloop as <-. split; assumption. }
  cbv zeta in Hrest.
  destruct (m_pValidationSet st) as [vs|] eqn:Hvs0.
  - destruct Hrest as (vs' & m & Hloop & Hrest).
    destruct (ValidationSetInputFeatureLoop_leaves (TemplateInstance st)
                (m_cTargetStates st) fc vs U (Hvs vs eq_refl) 1
                (Hvhs vs eq_refl)) as (d' & Hloop' & Hh).
    rewrite Hloop' in Hloop. injection Hloop as <- <-.
    destruct (flt (MetricOf (TemplateInstance st) (m_cTargetStates st) d')
                (m_bestModelMetric st)) eqn:Hlt.
    + destruct Hrest as (best & err & best' & Hb & Hcopy & -> & Hret & ->).
      destruct err; [discriminate|].
      unfold Improves, CurrentMetric, Degenerate, TemplateInstance in *.
      cbn [set_best set_training m_pTrainingSet m_pValidationSet
           m_bRegression m_cTargetStates m_bestModelMetric].
      rewrite Hdeg. cbn [negb andb].
      split; [exact Htraining|].
      split; [intros d'' Heq; injection Heq as <-; exact Hh|].
      split; [apply flt_irrefl|reflexivity].
    + destruct Hrest as (-> & _ & ->).
      unfold Improves, CurrentMetric, Degenerate, TemplateInstance in *.
      cbn [set_best set_training m_pTrainingSet m_pValidationSet
           m_bRegression m_cTargetStates m_bestModelMetric].
      rewrite Hdeg. cbn [negb andb].
      split; [exact Htraining|].
      split; [intros d'' Heq; injection Heq as <-; exact Hh|].
      split; [exact Hlt|reflexivity].
  - destruct Hrest as (-> & _ & ->).
    unfold Improves, CurrentMetric, Degenerate, TemplateInstance in *.
    cbn [set_best set_training m_pTrainingSet m_pValidationSet
         m_bRegression m_cTargetStates m_bestModelMetric].
    split; [exact Htraining|].
    split; [discriminate|]. split; reflexivity.
Qed.
End ApplyLeaves.

Lemma Example_statistics_insensitive :
  @ZeroSignInsensitive Example.statistics.
Proof.
  unfold ZeroSignInsensitive. cbn [Example.statistics exp
    ComputeClassificationResidualErrorBinaryclass
    ComputeClassificationResidualErrorMulticlass
    ComputeClassificationSingleCaseLogLossBinaryclass
    ComputeClassificationSingleCaseLogLossMulticlass].
  repeat split.
  - intros x y Hxy. apply fmul_same_square. exact Hxy.
  - intros x y t Hxy. rewrite (fmul_same_square x y Hxy). reflexivity.
  - intros s x y t j Hxy. rewrite (fmul_same_square x y Hxy). reflexivity.
  - intros x y t Hxy. apply fmul_same_square. exact Hxy.
  - intros s l l' t Hl. f_equal. apply fmul_same_square.
    rewrite !load_lookup.
    pose proof (proj1 (Forall2_lookup _ _ _) Hl (Z.to_nat t)) as Hk.
    destruct Hk; [assumption|reflexivity].
Qed.

Lemma Example_tensors_laws :
  @TensorValueLaws Example.tensors.
Proof. split; intros; reflexivity. Qed.

Lemma multiclass_state_ready :
  @apply_ready Example.config_zeroing Example.tensors Example.learners
    Example.multiclass_state 0.
Proof.
  assert (Hpass : forall d, 0 <= m_cCases d ->
            @pass_ready Example.config_zeroing (k_Compiled 3) 3
              Example.combination d).
  { intros d Hd. split; [vm_compute; discriminate|]. split; [exact Hd|].
    intros _. split; vm_compute; discriminate. }
  exists [Example.zeros12], [Example.zeros12], [Example.combination],
    Example.combination, Example.zeros12.
  split; [reflexivity|]. split; [reflexivity|]. split; [reflexivity|].
  split; [lia|]. split; [reflexivity|]. split; [reflexivity|].
  split; [vm_compute; discriminate|].
  split; [cbn; lia|]. split; [cbn; lia|].
  split; intros d Hd; cbn in Hd; injection Hd as <-;
    apply Hpass; vm_compute; discriminate.
Qed.

Lemma multiclass_trained_in_sync :
  @ResidualsInSync Example.config_zeroing Example.statistics (k_Compiled 3) 3
    Example.multiclass_trained.
Proof.
  intros _. split; [vm_compute; lia|]. split; [intros _ _; reflexivity|].
  intros k Hk.
  do 6 (destruct k as [|k]; [vm_compute; reflexivity|]).
  exfalso. revert Hk. vm_compute. lia.
Qed.

Lemma zero_update_changes_no_value_witness :
  let st := Example.multiclass_state in
  exists st' ret validationMetricReturn',
    @ApplyModelFeatureCombinationUpdate Example.config_zeroing
      Example.statistics Example.tensors Example.learners
      st 0 (Some Example.zero_update) (Some fzero)
    = Some (st', ret, validationMetricReturn')
    /\ option_Forall2 SameDataSet (m_pTrainingSet st) (m_pTrainingSet st')
    /\ option_Forall2 SameDataSet (m_pValidationSet st) (m_pValidationSet st')
    /\ option_Forall2 (Forall2 SameTensor)
         (m_apCurrentModel st) (m_apCurrentModel st')
    /\ (ret = 0 ->
        option_Forall2 (Forall2 SameTensor)
          (m_apBestModel st) (m_apBestModel st')
        /\ validationMetricReturn'
           = assign (Some fzero)
               (@CurrentMetric Example.config_zeroing Example.statistics
                  Example.tensors Example.learners st))
    /\ (@Improves Example.config_zeroing Example.statistics
          Example.tensors Example.learners st = false ->
        ret = 0
        /\ m_apBestModel st' = m_apBestModel st
        /\ m_bestModelMetric st' = m_bestModelMetric st).
Proof.
  intros st.
  apply (@zero_update_changes_no_value Example.config_zeroing
           Example.statistics Example.tensors Example.learners
           st 0 Example.zero_update (Some fzero)).
  - exact Example_statistics_insensitive.
  - exact Example_tensors_laws.
  - exact multiclass_state_ready.
  - intros ts Hts. cbn in Hts. injection Hts as <-.
    exact multiclass_trained_in_sync.
  - intros _. constructor. apply (@SameTensors_refl Example.tensors).
  - unfold Example.zero_update. cbn. repeat constructor.
  - intros cur pc Hcur Hpc. cbn in Hcur. injection Hcur as <-.
    cbn in Hpc. injection Hpc as <-. reflexivity.
Defined.

(** That run evaluated: status 0, the metric 10 of the validation set,
    residuals and training scores as they were; the validation score that
    was the negative zero is the positive zero. *)
Lemma zero_update_example :
  (fun r =>
     (r.1.2, r.2,
      m_aResidualErrors <$> m_pTrainingSet r.1.1,
      m_aPredictionScores <$> m_pTrainingSet r.1.1,
      m_aPredictionScores <$> m_pValidationSet r.1.1)) <$>
    @ApplyModelFeatureCombinationUpdate Example.config_zeroing
      Example.statistics Example.tensors Example.learners
      Example.multiclass_state 0 (Some Example.zero_update) (Some fzero)
  = Some (0, Some (of_size_t 10),
          Some (m_aResidualErrors Example.multiclass_trained),
          Some (m_aPredictionScores Example.multiclass_trained),
          Some [Example.one; Example.two; Example.three; fzero; fzero;
                Example.one]).
Proof. vm_compute. reflexivity. Qed.

(** ** What update generation leaves alone *)

Section GenerateFrame.
Context `{BuildConfig} `{EbmStatistics} `{TreeLearners} `{Allocators}.

(** X1.  A call of [GenerateModelFeatureCombinationUpdate] that returns,
    with an update or with [nullptr], changes nothing of the training
    state but its two scratch tensors: both models, the best metric, the
    data sets, the sampling sets, the feature combinations and the features
    are as before the call. *)
Theorem generate_changes_only_scratch_tensors (st : EbmTrainingState) (c : Z)
    (learningRate : spec_float) (cSplits cCasesMin : Z)
    (gainReturn : option spec_float) (st' : EbmTrainingState)
    (r : option (list spec_float)) (gainReturn' : option spec_float) :
  GenerateModelFeatureCombinationUpdate st c learningRate cSplits cCasesMin
    gainReturn = Some (st', r, gainReturn') ->
  m_apCurrentModel st' = m_apCurrentModel st
  /\ m_apBestModel st' = m_apBestModel st
  /\ m_bestModelMetric st' = m_bestModelMetric st
  /\ m_pTrainingSet st' = m_pTrainingSet st
  /\ m_pValidationSet st' = m_pValidationSet st
  /\ m_apSamplingSets st' = m_apSamplingSets st
  /\ m_cSamplingSets st' = m_cSamplingSets st
  /\ m_apFeatureCombinations st' = m_apFeatureCombinations st
  /\ m_cFeatureCombinations st' = m_cFeatureCombinations st
  /\ m_aFeatures st' = m_aFeatures st
  /\ m_cFeaturesOfState st' = m_cFeaturesOfState st
  /\ m_bRegression st' = m_bRegression st
  /\ m_cTargetStates st' = m_cTargetStates st.
Proof.
  intros Hrun.
  destruct (Generate_keeps _ _ _ _ _ _ _ _ _ Hrun) as [->|(o & a & ->)];
    repeat split; reflexivity.
Qed.

(** X2.  Whenever [GenerateModelFeatureCombinationUpdate] returns
    [nullptr] (a learner or a tensor operation failed, or the
    classification has at most one class), the cell behind a non-null
    [gainReturn] holds zero, whatever gain the learners had reported before
    the failure. *)
Theorem generate_failure_reports_zero_gain (st : EbmTrainingState) (c : Z)
    (learningRate : spec_float) (cSplits cCasesMin : Z)
    (gainReturn : option spec_float) (st' : EbmTrainingState)
    (gainReturn' : option spec_float) :
  GenerateModelFeatureCombinationUpdate st c learningRate cSplits cCasesMin
    gainReturn = Some (st', None, gainReturn') ->
  gainReturn' = assign gainReturn fzero.
Proof.
  assert (Hper : forall cc cs cm,
            GenerateModelFeatureCombinationUpdatePerTargetStates cc st c
              learningRate cs cm gainReturn = Some (st', None, gainReturn') ->
            gainReturn' = assign gainReturn fzero).
  { intros cc cs cm.
    unfold GenerateModelFeatureCombinationUpdatePerTargetStates.
    destruct (m_apFeatureCombinations st) as [fcs|]; [|discriminate].
    cbn [mbind option_bind].
    destruct (fcs !! Z.to_nat c) as [fc|]; [|discriminate].
    cbn [mbind option_bind].
    destruct (m_pSmallChangeToModelAccumulatedFromSamplingSets st) as [a0|];
      [|discriminate].
    cbn [mbind option_bind].
    destruct (m_apSamplingSets st) as [sets|].
    - destruct (m_pSmallChangeToModelOverwriteSingleSamplingSet st) as [o0|];
        [|discriminate].
      cbn [mbind option_bind].
      destruct (SamplingSetLoop _ _ _ _ _ _ _ _ _ _ _)
        as [[[[[|] o] a] tg]|]; [| |discriminate].
      + intros Hrun. injection Hrun as _ <-. reflexivity.
      + destruct (negb (m_cFeatures fc =? 0)).
        * destruct (Expand _ _) as [[|] a']; intros Hrun;
            [injection Hrun as _ <-; reflexivity|discriminate].
        * discriminate.
    - destruct (negb (m_cFeatures fc =? 0)).
      + destruct (Expand _ _) as [[|] a']; intros Hrun;
          [injection Hrun as _ <-; reflexivity|discriminate].
      + discriminate. }
  unfold GenerateModelFeatureCombinationUpdate.
  destruct (m_bRegression st); [apply Hper|].
  destruct (m_cTargetStates st <=? 1); [|apply Hper].
  intros Hrun. injection Hrun as _ <-. reflexivity.
Qed.
End GenerateFrame.

Lemma generate_changes_only_scratch_tensors_witness :
  exists st' r gainReturn',
    @GenerateModelFeatureCombinationUpdate Example.config_zeroing
      Example.tensors Example.learners Example.binary_state 0 Example.one
      1 1 (Some fzero) = Some (st', r, gainReturn')
    /\ m_apCurrentModel st' = m_apCurrentModel Example.binary_state
    /\ m_pTrainingSet st' = m_pTrainingSet Example.binary_state.
Proof.
  pose proof generate_example as Hex.
  destruct (@GenerateModelFeatureCombinationUpdate Example.config_zeroing
              Example.tensors Example.learners Example.binary_state 0
              Example.one 1 1 (Some fzero))
    as [[[st' r] g']|] eqn:Hrun; [|discriminate Hex].
  exists st', r, g'. split; [reflexivity|].
  destruct (@generate_changes_only_scratch_tensors Example.config_zeroing
              Example.tensors Example.learners Example.binary_state 0
              Example.one 1 1 (Some fzero) st' r g' Hrun)
    as (Hcur & _ & _ & Hts & _).
  split; [exact Hcur|exact Hts].
Defined.

(** The learner of [Example.fragile_state] fails: no update, the gain cell
    is zero although the learner had set its gain to one. *)
Example generate_failure_example (g : spec_float) :
  (fun r => (r.1.2, r.2)) <$>
    @GenerateModelFeatureCombinationUpdate Example.config
      Example.fragile_tensors Example.fragile_learners Example.fragile_state
      0 Example.one 1 1 (Some g)
  = Some (None, Some fzero).
Proof. vm_compute. reflexivity. Qed.

Lemma generate_failure_reports_zero_gain_witness :
  exists st',
    @GenerateModelFeatureCombinationUpdate Example.config
      Example.fragile_tensors Example.fragile_learners Example.fragile_state
      0 Example.one 1 1 (Some Example.two)
    = Some (st', None, Some fzero).
Proof.
  pose proof (generate_failure_example Example.two) as Hex.
  destruct (@GenerateModelFeatureCombinationUpdate Example.config
              Example.fragile_tensors Example.fragile_learners
              Example.fragile_state 0 Example.one 1 1 (Some Example.two))
    as [[[st' [values|]] g']|] eqn:Hrun; try discriminate Hex.
  exists st'.
  rewrite (@generate_failure_reports_zero_gain Example.config
             Example.fragile_tensors Example.fragile_learners
             Example.fragile_state 0 Example.one 1 1 (Some Example.two)
             st' g' Hrun).
  reflexivity.
Defined.

Section GenerateWithoutSamplingSets.
Context `{BuildConfig} `{EbmStatistics} `{TreeLearners} `{Allocators}.

(** X3.  On a state without sampling sets (one created without training
    cases) [GenerateModelFeatureCombinationUpdate] runs no learner: the
    scratch tensor the learners write is as before the call, the update
    returned is the accumulator scratch tensor, reset and expanded to the
    state counts of the combination, whatever the learning rate and the
    split limits, and the gain reported is zero. *)
Theorem generate_without_sampling_sets (st : EbmTrainingState) (c : Z)
    (learningRate : spec_float) (cSplits cCasesMin : Z)
    (gainReturn : option spec_float) (st' : EbmTrainingState)
    (values : list spec_float) (gainReturn' : option spec_float) :
  m_apSamplingSets st = None ->
  GenerateModelFeatureCombinationUpdate st c learningRate cSplits cCasesMin
    gainReturn = Some (st', Some values, gainReturn') ->
  gainReturn' = assign gainReturn fzero
  /\ m_pSmallChangeToModelOverwriteSingleSamplingSet st'
     = m_pSmallChangeToModelOverwriteSingleSamplingSet st
  /\ exists apFeatureCombinations pFeatureCombination accumulated,
       m_apFeatureCombinations st = Some apFeatureCombinations
       /\ apFeatureCombinations !! Z.to_nat c = Some pFeatureCombination
       /\ m_pSmallChangeToModelAccumulatedFromSamplingSets st
          = Some accumulated
       /\ let cDimensions := m_cFeatures pFeatureCombination in
          let reset := Reset (SetCountDimensions accumulated cDimensions) in
          values
          = m_aValues
              (if negb (cDimensions =? 0)
               then (Expand reset
                       (DivisionIntegersEnd pFeatureCombination cDimensions)).2
               else reset).
Proof.
  intros Hsets Hrun.
  assert (Hper : forall cc cs cm,
            GenerateModelFeatureCombinationUpdatePerTargetStates cc st c
              learningRate cs cm gainReturn
            = Some (st', Some values, gainReturn') ->
            m_pSmallChangeToModelOverwriteSingleSamplingSet st'
            = m_pSmallChangeToModelOverwriteSingleSamplingSet st).
  { intros cc cs cm.
    unfold GenerateModelFeatureCombinationUpdatePerTargetStates.
    rewrite Hsets.
    destruct (m_apFeatureCombinations st) as [fcs|]; [|discriminate].
    cbn [mbind option_bind].
    destruct (fcs !! Z.to_nat c) as [fc|]; [|discriminate].
    cbn [mbind option_bind].
    destruct (m_pSmallChangeToModelAccumulatedFromSamplingSets st) as [a0|];
      [|discriminate].
    cbn [mbind option_bind].
    destruct (negb (m_cFeatures fc =? 0)).
    - destruct (Expand _ _) as [[|] a']; intros Hgen; [discriminate|].
      injection Hgen as <- _ _. reflexivity.
    - intros Hgen. injection Hgen as <- _ _. reflexivity. }
  apply Generate_inv in Hrun as (_ & Hrun).
  split; [|split; [eapply Hper; exact Hrun|]].
  - apply GeneratePerTargetStates_inv in Hrun
      as (fcs & fc & acc0 & _ & _ & _ & Hrest).
    cbv zeta in Hrest. rewrite Hsets in Hrest. tauto.
  - apply GeneratePerTargetStates_inv in Hrun
      as (fcs & fc & acc0 & Hfcs & Hfc & Hacc & Hrest).
    cbv zeta in Hrest. rewrite Hsets in Hrest.
    destruct Hrest as (_ & ->).
    exists fcs, fc, acc0. repeat split; assumption.
Qed.
End GenerateWithoutSamplingSets.

(** ** The training step and update application: statuses and cells *)

Section StepProperties.
Context `{BuildConfig} `{EbmStatistics} `{TreeLearners} `{Allocators}.


(** X5.  [ApplyModelFeatureCombinationUpdate] returns status 0 or 1.
    Status 1 means that a [Copy] into the best model failed: the metric of
    the update was strictly better than the best metric, and at some index
    [k] the [Copy] of the current tensor into the best tensor reported an
    error.  Then zero is written through [validationMetricReturn], the
    best metric has nonetheless been lowered to the metric of the update,
    the best tensors before [k] have been replaced by copies of the
    current ones, the one at [k] is what the failed [Copy] left, and those
    behind [k] are as before the call. *)
Theorem apply_copy_failure_keeps_new_best_metric (st : EbmTrainingState)
    (c : Z) (U : list spec_float) (validationMetricReturn : option spec_float)
    (st' : EbmTrainingState) (ret : Z)
    (validationMetricReturn' : option spec_float) :
  ApplyModelFeatureCombinationUpdate st c (Some U) validationMetricReturn
  = Some (st', ret, validationMetricReturn') ->
  (ret = 0 \/ ret = 1)
  /\ (ret = 1 ->
      validationMetricReturn' = assign validationMetricReturn fzero
      /\ ComputedValidationMetric st c U = Some (m_bestModelMetric st')
      /\ flt (m_bestModelMetric st') (m_bestModelMetric st) = true
      /\ exists apCurrentModel apBestModel apBestModel' k pBest pCurrent,
           m_apCurrentModel st' = Some apCurrentModel
           /\ m_apBestModel st = Some apBestModel
           /\ m_apBestModel st' = Some apBestModel'
           /\ (k < Z.to_nat (m_cFeatureCombinations st))%nat
           /\ apBestModel !! k = Some pBest
           /\ apCurrentModel !! k = Some pCurrent
           /\ (Copy pBest pCurrent).1 = true
           /\ apBestModel' !! k = Some (Copy pBest pCurrent).2
           /\ (forall i, (i < k)%nat ->
               exists pb pc,
                 apBestModel !! i = Some pb
                 /\ apCurrentModel !! i = Some pc
                 /\ (Copy pb pc).1 = false
                 /\ apBestModel' !! i = Some (Copy pb pc).2)
           /\ (forall i, (k < i)%nat ->
               apBestModel' !! i = apBestModel !! i)).
Proof.
  intros Hrun.
  destruct (Degenerate st) eqn:Hdeg.
  - rewrite (Apply_degenerate _ _ _ _ Hdeg) in Hrun.
    injection Hrun as _ <- _. split; [left; reflexivity|discriminate].
  - rewrite (Apply_nondegenerate _ _ _ _ Hdeg) in Hrun.
    destruct (ApplyPerTargetStates_inv _ _ _ _ _ _ _ _ Hrun)
      as (cur & pc & fcs & fc & ts' & Hcur & Hpc & Hfcs & Hfc & _ & Hval).
    cbv zeta in Hval.
    unfold ComputedValidationMetric. rewrite Hdeg, Hfcs. cbn [mbind option_bind].
    rewrite Hfc. cbn [mbind option_bind].
    destruct (m_pValidationSet st) as [vs|].
    + destruct Hval as (vs' & m & Hpass & Hcase).
      cbn [mbind option_bind]. rewrite Hpass. cbn [fmap option_fmap option_map snd].
      destruct (flt m (m_bestModelMetric st)) eqn:Hlt.
      * destruct Hcase as (best & err & best' & Hbest & Hcopy & -> & -> & ->).
        destruct err.
        -- split; [right; reflexivity|]. intros _.
           split; [reflexivity|]. split; [reflexivity|]. split; [exact Hlt|].
           apply CopyModels_failure in Hcopy; [|lia].
           destruct Hcopy as (k & pb & pcur & Hk & Hb & Hc & Hfail & Hk'
                              & Hbefore & Hafter).
           exists (store cur c (AddExpanded pc U)), best, best', k, pb, pcur.
           split; [reflexivity|]. split; [exact Hbest|]. split; [reflexivity|].
           split; [cbn in Hk; lia|]. split; [exact Hb|]. split; [exact Hc|].
           split; [exact Hfail|]. split; [exact Hk'|]. split.
           ++ intros i Hi. apply Hbefore. cbn. lia.
           ++ intros i Hi. apply Hafter. right. exact Hi.
        -- split; [left; reflexivity|discriminate].
      * destruct Hcase as (_ & -> & _). split; [left; reflexivity|discriminate].
    + destruct Hval as (_ & -> & _). split; [left; reflexivity|discriminate].
Qed.

(** X6.  On a state with a validation set that is not a classification
    with at most one class, the metric that a call of
    [ApplyModelFeatureCombinationUpdate] with an update tensor (not
    [nullptr]) and status 0 writes through a non-null
    [validationMetricReturn] is the metric of the update, and it is never
    strictly better than the best metric the state records after the
    call. *)
Theorem apply_reports_no_metric_below_best (st : EbmTrainingState)
    (c : Z) (U : list spec_float) (v : spec_float)
    (st' : EbmTrainingState) (validationMetricReturn' : option spec_float) :
  Degenerate st = false ->
  is_Some (m_pValidationSet st) ->
  ApplyModelFeatureCombinationUpdate st c (Some U) (Some v)
  = Some (st', 0, validationMetricReturn') ->
  exists m,
    validationMetricReturn' = Some m
    /\ ComputedValidationMetric st c U = Some m
    /\ flt m (m_bestModelMetric st') = false.
Proof.
  intros Hdeg [vs Hvs] Hrun.
  rewrite (Apply_nondegenerate _ _ _ _ Hdeg) in Hrun.
  destruct (ApplyPerTargetStates_inv _ _ _ _ _ _ _ _ Hrun)
    as (cur & pc & fcs & fc & ts' & Hcur & Hpc & Hfcs & Hfc & _ & Hval).
  cbv zeta in Hval.
  unfold ComputedValidationMetric. rewrite Hdeg, Hfcs. cbn [mbind option_bind].
  rewrite Hfc. cbn [mbind option_bind].
  rewrite Hvs in Hval |- *.
  destruct Hval as (vs' & m & Hpass & Hcase).
  cbn [mbind option_bind]. rewrite Hpass. cbn [fmap option_fmap option_map snd].
  exists m.
  destruct (flt m (m_bestModelMetric st)) eqn:Hlt.
  - destruct Hcase as (best & err & best' & _ & _ & -> & Hret & ->).
    destruct err; [discriminate Hret|].
    split; [reflexivity|]. split; [reflexivity|]. apply flt_irrefl.
  - destruct Hcase as (-> & _ & ->).
    split; [reflexivity|]. split; [reflexivity|exact Hlt].
Qed.
End StepProperties.

(** Update application on [Example.fragile_state]: the metric improves,
    the copy fails, status 1 and a zeroed cell. *)
Example apply_copy_failure_example :
  (fun r => (flt (m_bestModelMetric r.1.1) finfinity, r.1.2, r.2)) <$>
    @ApplyModelFeatureCombinationUpdate Example.config Example.statistics
      Example.fragile_tensors Example.fragile_learners Example.fragile_state
      0 (Some Example.update) (Some Example.one)
  = Some (true, 1, Some fzero).
Proof. vm_compute. reflexivity. Qed.


Lemma apply_copy_failure_keeps_new_best_metric_witness :
  exists st' validationMetricReturn' apBestModel apCurrentModel k pBest pCurrent,
    @ApplyModelFeatureCombinationUpdate Example.config Example.statistics
      Example.fragile_tensors Example.fragile_learners Example.fragile_state
      0 (Some Example.update) (Some Example.one)
    = Some (st', 1, validationMetricReturn')
    /\ validationMetricReturn' = Some fzero
    /\ flt (m_bestModelMetric st') finfinity = true
    /\ m_apBestModel Example.fragile_state = Some apBestModel
    /\ m_apCurrentModel st' = Some apCurrentModel
    /\ apBestModel !! k = Some pBest
    /\ apCurrentModel !! k = Some pCurrent
    /\ (@Copy Example.fragile_tensors pBest pCurrent).1 = true.
Proof.
  pose proof apply_copy_failure_example as Hex.
  destruct (@ApplyModelFeatureCombinationUpdate Example.config
              Example.statistics Example.fragile_tensors
              Example.fragile_learners Example.fragile_state 0
              (Some Example.update) (Some Example.one))
    as [[[st' ret] p']|] eqn:Hrun; [|discriminate Hex].
  assert (Hret : ret = 1) by (cbn in Hex; congruence).
  subst ret.
  destruct (@apply_copy_failure_keeps_new_best_metric Example.config
              Example.statistics Example.fragile_tensors
              Example.fragile_learners Example.fragile_state 0
              Example.update (Some Example.one) st' 1 p' Hrun)
    as (_ & Hfail).
  destruct (Hfail eq_refl)
    as (Hcell & _ & Hlt & cur & best & best' & k & pb & pcur & Hcur & Hbest
        & _ & _ & Hb & Hc & Hcopy & _).
  exists st', p', best, cur, k, pb, pcur.
  split; [reflexivity|]. split; [exact Hcell|]. split; [exact Hlt|].
  split; [exact Hbest|]. split; [exact Hcur|]. split; [exact Hb|].
  split; [exact Hc|exact Hcopy].
Defined.

Lemma apply_reports_no_metric_below_best_witness :
  exists st' m,
    @ApplyModelFeatureCombinationUpdate Example.config Example.statistics
      Example.tensors Example.learners
      (Example.regression_state (Some Example.validation_set)) 0
      (Some Example.update) (Some fzero)
    = Some (st', 0, Some m)
    /\ flt m (m_bestModelMetric st') = false.
Proof.
  pose proof apply_example as Hex.
  destruct (@ApplyModelFeatureCombinationUpdate Example.config
              Example.statistics Example.tensors Example.learners
              (Example.regression_state (Some Example.validation_set)) 0
              (Some Example.update) (Some fzero))
    as [[[st' ret] p']|] eqn:Hrun; [|discriminate Hex].
  assert (Hret : ret = 0) by (cbn in Hex; congruence).
  subst ret.
  destruct (@apply_reports_no_metric_below_best Example.config
              Example.statistics Example.tensors Example.learners
              (Example.regression_state (Some Example.validation_set)) 0
              Example.update fzero st' p' eq_refl
              (ex_intro _ Example.validation_set eq_refl) Hrun)
    as (m & -> & _ & Hm).
  exists st', m. split; [reflexivity|exact Hm].
Defined.

(** ** What the passes do to a data set *)

Lemma SameCases_refl (d : DataSetByFeatureCombination) : SameCases d d.
Proof. repeat split. Qed.

Lemma SameCases_trans (d1 d2 d3 : DataSetByFeatureCombination) :
  SameCases d1 d2 -> SameCases d2 d3 -> SameCases d1 d3.
Proof.
  intros (H1 & H2 & H3) (H4 & H5 & H6). repeat split; congruence.
Qed.

Lemma option_SameCases_refl (o : option DataSetByFeatureCombination) :
  option_Forall2 SameCases o o.
Proof. destruct o; constructor. apply SameCases_refl. Qed.

Lemma option_SameCases_trans (o1 o2 o3 : option DataSetByFeatureCombination) :
  option_Forall2 SameCases o1 o2 -> option_Forall2 SameCases o2 o3 ->
  option_Forall2 SameCases o1 o3.
Proof.
  intros H12 H23. destruct H12; inversion H23; subst; constructor.
  eapply SameCases_trans; eassumption.
Qed.

Section PassCases.
Context `{BuildConfig} `{EbmStatistics}.

Lemma TrainingSetInputFeatureLoop_cases (cInputBits : Z)
    (cc : CompilerTargetStates) (fc : FeatureCombination)
    (d d' : DataSetByFeatureCombination) (U : list spec_float)
    (cTargetStates : Z) :
  TrainingSetInputFeatureLoop cInputBits cc fc d U cTargetStates = Some d' ->
  SameCases d d'.
Proof.
  unfold TrainingSetInputFeatureLoop, TrainingSetTargetFeatureLoop.
  destruct (m_cFeatures fc =? 0).
  - destruct (while_ _ _ _ _) as [s|]; [|discriminate].
    intros Hrun. injection Hrun as <-. repeat split.
  - destruct (BitPackedLoop _ _ _ _ _ _ _ _ _ _) as [s|]; [|discriminate].
    intros Hrun. injection Hrun as <-. repeat split.
Qed.

Lemma ValidationSetInputFeatureLoop_cases (cInputBits : Z)
    (cc : CompilerTargetStates) (fc : FeatureCombination)
    (d d' : DataSetByFeatureCombination) (U : list spec_float)
    (cTargetStates : Z) (metric : spec_float) :
  ValidationSetInputFeatureLoop cInputBits cc fc d U cTargetStates
  = Some (d', metric) ->
  SameCases d d'.
Proof.
  unfold ValidationSetInputFeatureLoop, ValidationSetTargetFeatureLoop.
  destruct (m_cFeatures fc =? 0), (IsRegression cc).
  - destruct (while_ _ _ _ _) as [s|]; [|discriminate].
    intros Hrun. injection Hrun as <- _. repeat split.
  - destruct (while_ _ _ _ _) as [s|]; [|discriminate].
    intros Hrun. injection Hrun as <- _. repeat split.
  - destruct (BitPackedLoop _ _ _ _ _ _ _ _ _ _) as [s|]; [|discriminate].
    intros Hrun. injection Hrun as <- _. repeat split.
  - destruct (BitPackedLoop _ _ _ _ _ _ _ _ _ _) as [s|]; [|discriminate].
    intros Hrun. injection Hrun as <- _. repeat split.
Qed.

End PassCases.

Lemma fsqrt_not_below_zero (x : spec_float) : flt (fsqrt x) fzero = false.
Proof.
  unfold fsqrt, SFsqrt.
  destruct x as [[|]|[|]| |[|] m e]; try reflexivity.
  destruct (SFsqrt_core_binary 53 1024 (Z.pos m) e) as [[mz ez] lz].
  unfold binary_round_aux.
  destruct (shr_fexp 53 1024 mz ez lz) as [mrs' e'].
  destruct (shr_fexp 53 1024 _ e' loc_Exact) as [mrs'' e''].
  destruct (shr_m mrs'') as [|p|p]; try reflexivity.
  destruct (e'' <=? 1024 - 53); reflexivity.
Qed.

Section PassEffects.
Context `{BuildConfig} `{EbmStatistics}.
Variable cc : CompilerTargetStates.
Variable cTargetStates : Z.
Variable fc : FeatureCombination.
Variable d : DataSetByFeatureCombination.
Variable U : list spec_float.

Local Abbreviation V := (GET_VECTOR_LENGTH cc cTargetStates).

(** X7.  The training-set pass of a regression subtracts from the residual
    of every case the update value of the bin of the case; it changes no
    other residual, no score, and nothing else of the data set. *)
Theorem training_pass_regression_subtracts_update (cInputBits : Z) :
  IsRegression cc = true ->
  pass_ready cc cTargetStates fc d ->
  exists d',
    TrainingSetInputFeatureLoop cInputBits cc fc d U cTargetStates = Some d'
    /\ m_cCases d' = m_cCases d
    /\ m_aTargetData d' = m_aTargetData d
    /\ m_aaInputData d' = m_aaInputData d
    /\ m_aPredictionScores d' = m_aPredictionScores d
    /\ rewrites (m_aResidualErrors d) (m_aResidualErrors d') 0
         (Z.to_nat (m_cCases d))
         (fun i residualError => fsub residualError (load U (BinOf fc d i))).
Proof.
  intros Hr Hready.
  unfold TrainingSetInputFeatureLoop.
  rewrite (TrainingSetTargetFeatureLoop_fold cc cTargetStates fc d U Hready).
  eexists. split; [reflexivity|].
  cbn [finish m_cCases m_aTargetData m_aaInputData m_aPredictionScores
       m_aResidualErrors].
  destruct (TrainingFold_regression cc cTargetStates fc d U
              (Z.to_nat (m_cCases d)) Hr) as (_ & Hsc & Hres).
  repeat split; try reflexivity; [exact Hsc|].
  apply (rewrites_ext _ _ _ _ _ _ Hres).
  intros k x _ _. unfold UpdateIndex.
  rewrite (GET_VECTOR_LENGTH_flat cc cTargetStates) by (rewrite Hr; reflexivity).
  rewrite Z.div_1_r, Z.mod_1_r, Nat2Z.id, Z.mul_1_r, Z.add_0_r. reflexivity.
Qed.

(** X8.  The validation-set pass of a classification adds to every score
    of every case the update value of the bin of the case and the class of
    the score; it changes no residual and nothing else of the data set. *)
Theorem validation_pass_classification_adds_update (cInputBits : Z) :
  IsRegression cc = false ->
  pass_ready cc cTargetStates fc d ->
  exists d' metric,
    ValidationSetInputFeatureLoop cInputBits cc fc d U cTargetStates
    = Some (d', metric)
    /\ m_cCases d' = m_cCases d
    /\ m_aTargetData d' = m_aTargetData d
    /\ m_aaInputData d' = m_aaInputData d
    /\ m_aResidualErrors d' = m_aResidualErrors d
    /\ rewrites (m_aPredictionScores d) (m_aPredictionScores d') 0
         (Z.to_nat (m_cCases d) * Z.to_nat V)
         (fun k score =>
            fadd score
              (load U (BinOf fc d (Z.to_nat (Z.of_nat k / V)) * V
                       + Z.of_nat k mod V))).
Proof.
  intros Hr Hready. pose proof Hready as (HV & _).
  unfold ValidationSetInputFeatureLoop.
  rewrite (ValidationSetTargetFeatureLoop_fold cc cTargetStates fc d U Hready).
  eexists. eexists. split; [reflexivity|].
  cbn [finish m_cCases m_aTargetData m_aaInputData m_aPredictionScores
       m_aResidualErrors].
  destruct (ValidationFold_classification cc cTargetStates fc d U HV
              (Z.to_nat (m_cCases d)) Hr) as (_ & _ & Hres & Hsc & _).
  repeat split; try reflexivity; [exact Hres|exact Hsc].
Qed.

(** X9.  On the same data set and update, the validation-set pass leaves
    the buffer it updates exactly as the training-set pass does: the
    residuals for regression, the scores for classification. *)
Theorem passes_update_alike (cInputBits cInputBits' : Z) :
  pass_ready cc cTargetStates fc d ->
  TrainingSetHolds cc cTargetStates d ->
  exists dTraining dValidation metric,
    TrainingSetInputFeatureLoop cInputBits cc fc d U cTargetStates
    = Some dTraining
    /\ ValidationSetInputFeatureLoop cInputBits' cc fc d U cTargetStates
       = Some (dValidation, metric)
    /\ if IsRegression cc
       then m_aResidualErrors dValidation = m_aResidualErrors dTraining
            /\ m_aPredictionScores dValidation = m_aPredictionScores dTraining
       else m_aPredictionScores dValidation = m_aPredictionScores dTraining.
Proof.
  intros Hready (_ & Hclass). pose proof Hready as (HV & _).
  unfold TrainingSetInputFeatureLoop, ValidationSetInputFeatureLoop.
  rewrite (TrainingSetTargetFeatureLoop_fold cc cTargetStates fc d U Hready).
  rewrite (ValidationSetTargetFeatureLoop_fold cc cTargetStates fc d U Hready).
  eexists. eexists. eexists. split; [reflexivity|]. split; [reflexivity|].
  cbn [finish m_aPredictionScores m_aResidualErrors].
  unfold TrainingFold, ValidationFold.
  destruct (IsRegression cc) eqn:Hr.
  - destruct (TrainingFold_regression cc cTargetStates fc d U
                (Z.to_nat (m_cCases d)) Hr) as (_ & Hsc & Hres).
    destruct (ValidationFold_regression cc cTargetStates fc d U
                (Z.to_nat (m_cCases d)) Hr) as (_ & Hsc' & Hres' & _).
    split; [|congruence].
    apply list_eq. intros k. rewrite (Hres k), (Hres' k). reflexivity.
  - destruct (Hclass eq_refl) as (Hls & Hz).
    destruct (TrainingFold_classification cc cTargetStates fc d U HV
                (Z.to_nat (m_cCases d)) Hr Hls Hz) as (_ & _ & _ & Hsc & _).
    destruct (ValidationFold_classification cc cTargetStates fc d U HV
                (Z.to_nat (m_cCases d)) Hr) as (_ & _ & _ & Hsc' & _).
    apply list_eq. intros k. rewrite (Hsc k), (Hsc' k). reflexivity.
Qed.

(** X10.  A training-set pass of a classification on a data set whose
    buffers hold every case returns, and leaves the residuals in step with
    the scores: after the pass the residual at every index is the one the
    statistics give for the scores the pass has left (zero at the zeroing
    index, when there is one); the buffers still hold every case, so that
    the same is true after the next pass. *)
Theorem training_pass_leaves_residuals_in_step (cInputBits : Z) :
  pass_ready cc cTargetStates fc d ->
  TrainingSetHolds cc cTargetStates d ->
  exists d',
    TrainingSetInputFeatureLoop cInputBits cc fc d U cTargetStates = Some d'
    /\ ResidualsInSync cc cTargetStates d'
    /\ TrainingSetHolds cc cTargetStates d'
    /\ pass_ready cc cTargetStates fc d'.
Proof.
  intros Hready Hholds.
  destruct (TrainingSetInputFeatureLoop_leaves cc cTargetStates fc d U Hready
              cInputBits Hholds) as (d' & Hrun & Hholds' & Hsync).
  exists d'. split; [exact Hrun|]. split; [exact Hsync|].
  split; [exact Hholds'|].
  apply TrainingSetInputFeatureLoop_cases in Hrun as (Hcases & _).
  destruct Hready as (HV & Hn & Hfc).
  split; [exact HV|]. split; [rewrite Hcases; exact Hn|exact Hfc].
Qed.

(** X11.  A validation-set pass on a data set whose buffer holds every
    case returns, and the metric it returns is the metric of the data set as
    the pass leaves it: the root of the mean of the squared residuals for
    regression, the sum of the log losses of the scores for
    classification. *)
Theorem validation_pass_reports_metric_of_result (cInputBits : Z) :
  pass_ready cc cTargetStates fc d ->
  ValidationSetHolds cc cTargetStates d ->
  exists d' metric,
    ValidationSetInputFeatureLoop cInputBits cc fc d U cTargetStates
    = Some (d', metric)
    /\ metric = MetricOf cc cTargetStates d'
    /\ (IsRegression cc = true ->
        metric
        = fsqrt (fdiv (fold_left
                         (fun sum i =>
                            let residualError :=
                              load (m_aResidualErrors d') (Z.of_nat i) in
                            fadd sum (fmul residualError residualError))
                         (seq 0 (Z.to_nat (m_cCases d'))) fzero)
                   (of_size_t (m_cCases d')))).
Proof.
  intros Hready Hholds.
  destruct (ValidationSetInputFeatureLoop_leaves cc cTargetStates fc d U Hready
              cInputBits Hholds) as (d' & Hrun & _).
  exists d', (MetricOf cc cTargetStates d').
  split; [exact Hrun|]. split; [reflexivity|].
  intros Hr. unfold MetricOf, CaseLoss. rewrite Hr. reflexivity.
Qed.

Lemma ValidationSetTargetFeatureLoop_regression_metric
    (cInputBits cTargetBits : Z) (d' : DataSetByFeatureCombination)
    (metric : spec_float) :
  IsRegression cc = true ->
  ValidationSetTargetFeatureLoop cInputBits cTargetBits cc fc d U cTargetStates
  = Some (d', metric) ->
  flt metric fzero = false.
Proof.
  intros Hr. unfold ValidationSetTargetFeatureLoop. rewrite Hr.
  destruct (m_cFeatures fc =? 0).
  - destruct (while_ _ _ _ _) as [s|]; [|discriminate].
    cbn. intros Hrun. injection Hrun as _ <-. apply fsqrt_not_below_zero.
  - destruct (BitPackedLoop _ _ _ _ _ _ _ _ _ _) as [s|]; [|discriminate].
    cbn. intros Hrun. injection Hrun as _ <-. apply fsqrt_not_below_zero.
Qed.
End PassEffects.

Section RegressionMetric.
Context `{BuildConfig} `{EbmStatistics} `{TreeLearners} `{Allocators}.

(** X12.  For a regression, whatever a call of
    [ApplyModelFeatureCombinationUpdate] writes through
    [validationMetricReturn] is never below zero (it can be a NaN when a
    residual is one). *)
Theorem regression_metric_never_below_zero (st : EbmTrainingState) (c : Z)
    (modelUpdateTensor : option (list spec_float)) (v : spec_float)
    (st' : EbmTrainingState) (ret : Z) (metric : spec_float) :
  m_bRegression st = true ->
  ApplyModelFeatureCombinationUpdate st c modelUpdateTensor (Some v)
  = Some (st', ret, Some metric) ->
  flt metric fzero = false.
Proof.
  intros Hreg. unfold ApplyModelFeatureCombinationUpdate.
  destruct modelUpdateTensor as [U|].
  - rewrite Hreg. intros Hrun.
    destruct (ApplyPerTargetStates_inv _ _ _ _ _ _ _ _ Hrun)
      as (cur & pc & fcs & fc & ts' & _ & _ & _ & _ & _ & Hval).
    cbv zeta in Hval.
    destruct (m_pValidationSet st) as [vs|].
    + destruct Hval as (vs' & m & Hpass & Hcase).
      unfold ValidationSetInputFeatureLoop in Hpass.
      apply (ValidationSetTargetFeatureLoop_regression_metric k_Regression
               _ _ _ _ _ _ _ _ eq_refl) in Hpass.
      destruct (flt m (m_bestModelMetric st)).
      * destruct Hcase as (best & err & best' & _ & _ & _ & _ & Hcell).
        cbn in Hcell. injection Hcell as ->.
        destruct err; [reflexivity|exact Hpass].
      * destruct Hcase as (_ & _ & Hcell). cbn in Hcell.
        injection Hcell as ->. exact Hpass.
    + destruct Hval as (_ & _ & Hcell). cbn in Hcell.
      injection Hcell as ->. reflexivity.
  - intros Hrun. cbn in Hrun. injection Hrun as _ _ <-. reflexivity.
Qed.
End RegressionMetric.

Section ColumnWords.
Context `{BuildConfig} `{EbmStatistics}.
Variable cc : CompilerTargetStates.
Variable cTargetStates : Z.
Variable fc : FeatureCombination.
Variable U : list spec_float.

Lemma BinOf_words (d d' : DataSetByFeatureCombination) (i : nat) :
  pass_ready cc cTargetStates fc d ->
  (let P := m_cItemsPerBitPackDataUnit fc in
   let cWords := Z.to_nat ((m_cCases d + P - 1) / P) in
   take cWords (GetDataPointer d' fc) = take cWords (GetDataPointer d fc)) ->
  (i < Z.to_nat (m_cCases d))%nat ->
  BinOf fc d' i = BinOf fc d i.
Proof.
  intros (_ & Hn & Hfc) Hwords Hi. cbv zeta in Hwords.
  unfold BinOf. destruct (Z.eqb_spec (m_cFeatures fc) 0) as [|Hnz];
    [reflexivity|].
  destruct (Hfc Hnz) as (HP & _).
  unfold BinOfCase. f_equal. f_equal.
  set (P := m_cItemsPerBitPackDataUnit fc) in *.
  assert (Hw : 0 <= Z.of_nat i / P < (m_cCases d + P - 1) / P).
  { split; [apply Z.div_pos; lia|].
    replace (m_cCases d + P - 1) with (m_cCases d - 1 + 1 * P) by lia.
    rewrite Z.div_add by lia.
    assert (Z.of_nat i / P <= (m_cCases d - 1) / P)
      by (apply Z.div_le_mono; lia).
    lia. }
  apply load_ext.
  rewrite <- (lookup_take_lt (GetDataPointer d' fc)
                (Z.to_nat ((m_cCases d + P - 1) / P))) by lia.
  rewrite <- (lookup_take_lt (GetDataPointer d fc)
                (Z.to_nat ((m_cCases d + P - 1) / P))) by lia.
  rewrite Hwords. reflexivity.
Qed.

(** X13.  A pass reads of the packed input column of its feature
    combination only the words that hold its cases, the first
    [ceil(cCases / cItemsPerBitPackDataUnit)]: two data sets that differ
    only in their input columns, and whose columns for the combination
    agree on these words, come out of the training-set pass and of the
    validation-set pass with the same residuals, the same scores and the
    same metric. *)
Theorem passes_read_only_the_words_of_their_cases
    (d d' : DataSetByFeatureCombination) (cInputBits : Z) :
  pass_ready cc cTargetStates fc d ->
  m_cCases d' = m_cCases d ->
  m_aResidualErrors d' = m_aResidualErrors d ->
  m_aPredictionScores d' = m_aPredictionScores d ->
  m_aTargetData d' = m_aTargetData d ->
  (let P := m_cItemsPerBitPackDataUnit fc in
   let cWords := Z.to_nat ((m_cCases d + P - 1) / P) in
   take cWords (GetDataPointer d' fc) = take cWords (GetDataPointer d fc)) ->
  (exists r r',
     TrainingSetInputFeatureLoop cInputBits cc fc d U cTargetStates = Some r
     /\ TrainingSetInputFeatureLoop cInputBits cc fc d' U cTargetStates
        = Some r'
     /\ m_aResidualErrors r' = m_aResidualErrors r
     /\ m_aPredictionScores r' = m_aPredictionScores r)
  /\ (exists r r' metric,
        ValidationSetInputFeatureLoop cInputBits cc fc d U cTargetStates
        = Some (r, metric)
        /\ ValidationSetInputFeatureLoop cInputBits cc fc d' U cTargetStates
           = Some (r', metric)
        /\ m_aResidualErrors r' = m_aResidualErrors r
        /\ m_aPredictionScores r' = m_aPredictionScores r).
Proof.
  intros Hready Hcases Hres Hsc Htg Hwords.
  assert (Hready' : pass_ready cc cTargetStates fc d').
  { destruct Hready as (HV & Hn & Hfc). split; [exact HV|].
    split; [rewrite Hcases; exact Hn|exact Hfc]. }
  assert (Hstart : start d' = start d)
    by (unfold start; rewrite Hres, Hsc; reflexivity).
  assert (HT : TrainingFold cc cTargetStates fc d' U
               = TrainingFold cc cTargetStates fc d U).
  { unfold TrainingFold. rewrite Hcases, Htg, Hstart.
    apply fold_left_ext_elem. intros i s Hi. apply elem_of_seq in Hi.
    rewrite (BinOf_words d d' i Hready Hwords) by lia. reflexivity. }
  assert (HVl : ValidationFold cc cTargetStates fc d' U
                = ValidationFold cc cTargetStates fc d U).
  { unfold ValidationFold. rewrite Hcases, Htg, Hstart.
    apply fold_left_ext_elem. intros i s Hi. apply elem_of_seq in Hi.
    rewrite (BinOf_words d d' i Hready Hwords) by lia. reflexivity. }
  unfold TrainingSetInputFeatureLoop, ValidationSetInputFeatureLoop.
  rewrite (TrainingSetTargetFeatureLoop_fold cc cTargetStates fc d U Hready).
  rewrite (TrainingSetTargetFeatureLoop_fold cc cTargetStates fc d' U Hready').
  rewrite (ValidationSetTargetFeatureLoop_fold cc cTargetStates fc d U Hready).
  rewrite (ValidationSetTargetFeatureLoop_fold cc cTargetStates fc d' U Hready').
  rewrite HT, HVl, Hcases. split.
  - eexists. eexists. repeat split; reflexivity.
  - eexists. eexists. eexists. repeat split; reflexivity.
Qed.
End ColumnWords.

Lemma Example_pass_ready_regression (d : DataSetByFeatureCombination) :
  0 <= m_cCases d ->
  @pass_ready Example.config k_Regression 0 Example.combination d.
Proof.
  intros Hd. split; [vm_compute; discriminate|]. split; [exact Hd|].
  intros _. split; vm_compute; discriminate.
Qed.

Lemma Example_pass_ready_multiclass (d : DataSetByFeatureCombination) :
  0 <= m_cCases d ->
  @pass_ready Example.config_zeroing (k_Compiled 3) 3 Example.combination d.
Proof.
  intros Hd. split; [vm_compute; discriminate|]. split; [exact Hd|].
  intros _. split; vm_compute; discriminate.
Qed.

Lemma Example_multiclass_set_holds :
  @TrainingSetHolds Example.config_zeroing (k_Compiled 3) 3
    Example.multiclass_set.
Proof.
  split; [vm_compute; lia|]. intros _. split; [vm_compute; lia|].
  intros _ _. reflexivity.
Qed.

Lemma training_pass_regression_subtracts_update_witness :
  exists d',
    @TrainingSetInputFeatureLoop Example.config Example.statistics 1
      k_Regression Example.combination Example.regression_set Example.update 0
    = Some d'
    /\ m_cCases d' = 5
    /\ m_aTargetData d' = []
    /\ m_aaInputData d' = m_aaInputData Example.regression_set
    /\ m_aPredictionScores d' = []
    /\ rewrites (m_aResidualErrors Example.regression_set)
         (m_aResidualErrors d') 0 5
         (fun i residualError =>
            fsub residualError
              (load Example.update
                 (@BinOf Example.config Example.combination
                    Example.regression_set i))).
Proof.
  apply (@training_pass_regression_subtracts_update Example.config
           Example.statistics k_Regression 0 Example.combination
           Example.regression_set Example.update 1).
  - reflexivity.
  - apply Example_pass_ready_regression. vm_compute. discriminate.
Defined.

Lemma validation_pass_classification_adds_update_witness :
  exists d' metric,
    @ValidationSetInputFeatureLoop Example.config_zeroing Example.statistics 1
      (k_Compiled 3) Example.combination Example.multiclass_validation
      Example.multiclass_update 3
    = Some (d', metric)
    /\ m_cCases d' = 2
    /\ m_aTargetData d' = [1; 2]
    /\ m_aaInputData d' = m_aaInputData Example.multiclass_validation
    /\ m_aResidualErrors d' = []
    /\ rewrites (m_aPredictionScores Example.multiclass_validation)
         (m_aPredictionScores d') 0 6
         (fun k score =>
            fadd score
              (load Example.multiclass_update
                 (@BinOf Example.config_zeroing Example.combination
                    Example.multiclass_validation
                    (Z.to_nat (Z.of_nat k / 3)) * 3
                  + Z.of_nat k mod 3))).
Proof.
  apply (@validation_pass_classification_adds_update Example.config_zeroing
           Example.statistics (k_Compiled 3) 3 Example.combination
           Example.multiclass_validation Example.multiclass_update 1).
  - reflexivity.
  - apply Example_pass_ready_multiclass. vm_compute. discriminate.
Defined.

Lemma passes_update_alike_witness :
  exists dTraining dValidation metric,
    @TrainingSetInputFeatureLoop Example.config_zeroing Example.statistics 1
      (k_Compiled 3) Example.combination Example.multiclass_set
      Example.multiclass_update 3 = Some dTraining
    /\ @ValidationSetInputFeatureLoop Example.config_zeroing Example.statistics
         1 (k_Compiled 3) Example.combination Example.multiclass_set
         Example.multiclass_update 3 = Some (dValidation, metric)
    /\ m_aPredictionScores dValidation = m_aPredictionScores dTraining.
Proof.
  apply (@passes_update_alike Example.config_zeroing Example.statistics
           (k_Compiled 3) 3 Example.combination Example.multiclass_set
           Example.multiclass_update 1 1).
  - apply Example_pass_ready_multiclass. vm_compute. discriminate.
  - exact Example_multiclass_set_holds.
Defined.

Lemma training_pass_leaves_residuals_in_step_witness :
  exists d',
    @TrainingSetInputFeatureLoop Example.config_zeroing Example.statistics 1
      (k_Compiled 3) Example.combination Example.multiclass_set
      Example.multiclass_update 3 = Some d'
    /\ @ResidualsInSync Example.config_zeroing Example.statistics
         (k_Compiled 3) 3 d'
    /\ @TrainingSetHolds Example.config_zeroing (k_Compiled 3) 3 d'
    /\ @pass_ready Example.config_zeroing (k_Compiled 3) 3
         Example.combination d'.
Proof.
  apply (@training_pass_leaves_residuals_in_step Example.config_zeroing
           Example.statistics (k_Compiled 3) 3 Example.combination
           Example.multiclass_set Example.multiclass_update 1).
  - apply Example_pass_ready_multiclass. vm_compute. discriminate.
  - exact Example_multiclass_set_holds.
Defined.

(** The validation-set pass on [Example.validation_set]: residuals 1, 0
    and 2, metric the root of 5/3. *)
Example regression_validation_pass_example :
  @ValidationSetInputFeatureLoop Example.config Example.statistics 1
    k_Regression Example.combination Example.validation_set Example.update 0
  = Some ({| m_cCases := 3;
             m_aResidualErrors := [Example.one; fzero; Example.two];
             m_aPredictionScores := [];
             m_aTargetData := [];
             m_aaInputData := m_aaInputData Example.validation_set |},
          S754_finite false 5814122118263953 (-52)).
Proof. vm_compute. reflexivity. Qed.

Lemma validation_pass_reports_metric_of_result_witness :
  exists d' metric,
    @ValidationSetInputFeatureLoop Example.config Example.statistics 1
      k_Regression Example.combination Example.validation_set
      Example.update 0 = Some (d', metric)
    /\ metric = @MetricOf Example.statistics k_Regression 0 d'.
Proof.
  destruct (@validation_pass_reports_metric_of_result Example.config
              Example.statistics k_Regression 0 Example.combination
              Example.validation_set Example.update 1)
    as (d' & metric & Hrun & Hmetric & _).
  - apply Example_pass_ready_regression. vm_compute. discriminate.
  - vm_compute. lia.
  - exists d', metric. split; [exact Hrun|exact Hmetric].
Defined.

Lemma regression_metric_never_below_zero_witness :
  exists st' ret metric,
    @ApplyModelFeatureCombinationUpdate Example.config Example.statistics
      Example.tensors Example.learners
      (Example.regression_state (Some Example.validation_set)) 0
      (Some Example.update) (Some fzero)
    = Some (st', ret, Some metric)
    /\ flt metric fzero = false.
Proof.
  pose proof apply_example as Hex.
  destruct (@ApplyModelFeatureCombinationUpdate Example.config
              Example.statistics Example.tensors Example.learners
              (Example.regression_state (Some Example.validation_set)) 0
              (Some Example.update) (Some fzero))
    as [[[st' ret] [metric|]]|] eqn:Hrun; try discriminate Hex.
  exists st', ret, metric. split; [reflexivity|].
  exact (@regression_metric_never_below_zero Example.config
           Example.statistics Example.tensors Example.learners
           (Example.regression_state (Some Example.validation_set)) 0
           (Some Example.update) fzero st' ret metric eq_refl Hrun).
Defined.

Lemma passes_read_only_the_words_of_their_cases_witness :
  (exists r r',
     @TrainingSetInputFeatureLoop Example.config Example.statistics 1
       k_Regression Example.combination Example.regression_set
       Example.update 0 = Some r
     /\ @TrainingSetInputFeatureLoop Example.config Example.statistics 1
          k_Regression Example.combination Example.regression_set_longer
          Example.update 0 = Some r'
     /\ m_aResidualErrors r' = m_aResidualErrors r
     /\ m_aPredictionScores r' = m_aPredictionScores r)
  /\ (exists r r' metric,
        @ValidationSetInputFeatureLoop Example.config Example.statistics 1
          k_Regression Example.combination Example.regression_set
          Example.update 0 = Some (r, metric)
        /\ @ValidationSetInputFeatureLoop Example.config Example.statistics 1
             k_Regression Example.combination Example.regression_set_longer
             Example.update 0 = Some (r', metric)
        /\ m_aResidualErrors r' = m_aResidualErrors r
        /\ m_aPredictionScores r' = m_aPredictionScores r).
Proof.
  apply (@passes_read_only_the_words_of_their_cases Example.config
           Example.statistics k_Regression 0 Example.combination
           Example.update Example.regression_set
           Example.regression_set_longer 1).
  - apply Example_pass_ready_regression. vm_compute. discriminate.
  - reflexivity.
  - reflexivity.
  - reflexivity.
  - reflexivity.
  - vm_compute. reflexivity.
Defined.

(** ** The models as the accessors show them *)

Section AccessorProperties.
Context `{BuildConfig} `{EbmStatistics} `{TreeLearners} `{Allocators}.

(** X14.  On a state on which update application is defined,
    [ApplyModelFeatureCombinationUpdate] with an update for combination [c]
    returns, and whatever its status [GetCurrentModelFeatureCombination]
    returns afterwards: for [c], the values of the tensor [AddExpanded] made
    of the tensor of before and the update (their elementwise sums with
    the update when [AddExpanded] adds elementwise); for every other
    combination, what it returned before the call. *)
Theorem current_model_after_apply (st : EbmTrainingState) (c : Z)
    (U : list spec_float) (validationMetricReturn : option spec_float) :
  Degenerate st = false ->
  apply_ready st c ->
  exists st' ret validationMetricReturn' apCurrentModel pCurrentModel,
    ApplyModelFeatureCombinationUpdate st c (Some U) validationMetricReturn
    = Some (st', ret, validationMetricReturn')
    /\ m_apCurrentModel st = Some apCurrentModel
    /\ apCurrentModel !! Z.to_nat c = Some pCurrentModel
    /\ GetCurrentModelFeatureCombination st' c
       = Some (Some (m_aValues (AddExpanded pCurrentModel U)))
    /\ (m_aValues (AddExpanded pCurrentModel U)
        = zip_with fadd (m_aValues pCurrentModel) U ->
        GetCurrentModelFeatureCombination st' c
        = Some (Some (zip_with fadd (m_aValues pCurrentModel) U)))
    /\ (forall c', 0 <= c' -> c' <> c ->
        GetCurrentModelFeatureCombination st' c'
        = GetCurrentModelFeatureCombination st c').
Proof.
  intros Hdeg Hready.
  assert (Hc : 0 <= c) by (destruct Hready as (? & ? & ? & ? & ? & ?); tauto).
  destruct (ApplyPerTargetStates_total st c U validationMetricReturn Hready)
    as (st' & ret & p' & Hrun).
  exists st', ret, p'.
  rewrite (Apply_nondegenerate _ _ _ _ Hdeg).
  destruct (ApplyPerTargetStates_inv _ _ _ _ _ _ _ _ Hrun)
    as (cur & pc & fcs & fc & ts' & Hcur & Hpc & _ & _ & _ & Hval).
  cbv zeta in Hval.
  exists cur, pc. split; [exact Hrun|]. split; [exact Hcur|].
  split; [exact Hpc|].
  assert (Hcur' : m_apCurrentModel st' = Some (store cur c (AddExpanded pc U))).
  { destruct (m_pValidationSet st) as [vs|].
    - destruct Hval as (vs' & m & _ & Hcase).
      destruct (flt m (m_bestModelMetric st)).
      + destruct Hcase as (best & err & best' & _ & _ & -> & _). reflexivity.
      + destruct Hcase as (-> & _). reflexivity.
    - destruct Hval as (-> & _). reflexivity. }
  assert (Hget : GetCurrentModelFeatureCombination st' c
                 = Some (Some (m_aValues (AddExpanded pc U)))).
  { unfold GetCurrentModelFeatureCombination. rewrite Hcur'. unfold store.
    rewrite list_lookup_insert_eq by (apply lookup_lt_is_Some; eauto).
    reflexivity. }
  split; [exact Hget|]. split.
  - intros <-. exact Hget.
  - intros c' Hc' Hne. unfold GetCurrentModelFeatureCombination.
    rewrite Hcur', Hcur. unfold store.
    rewrite list_lookup_insert_ne by lia. reflexivity.
Qed.

(** X15.  After a call of [ApplyModelFeatureCombinationUpdate] with status
    0, [GetBestModelFeatureCombination] returns for every combination
    either what it returned before the call, or (when [Copy] copies the
    values) what [GetCurrentModelFeatureCombination] returns after the
    call; the second exactly when the metric of the update was strictly
    better than the best metric. *)
Theorem best_model_after_apply (st : EbmTrainingState) (c : Z)
    (U : list spec_float) (validationMetricReturn : option spec_float)
    (st' : EbmTrainingState)
    (validationMetricReturn' : option spec_float) :
  (forall dst src, (Copy dst src).1 = false ->
     m_aValues (Copy dst src).2 = m_aValues src) ->
  ApplyModelFeatureCombinationUpdate st c (Some U) validationMetricReturn
  = Some (st', 0, validationMetricReturn') ->
  match ComputedValidationMetric st c U with
  | Some m =>
      if flt m (m_bestModelMetric st) then
        forall i, 0 <= i < m_cFeatureCombinations st ->
          GetBestModelFeatureCombination st' i
          = GetCurrentModelFeatureCombination st' i
      else
        forall i, GetBestModelFeatureCombination st' i
                  = GetBestModelFeatureCombination st i
  | None =>
      forall i, GetBestModelFeatureCombination st' i
                = GetBestModelFeatureCombination st i
  end.
Proof.
  intros Hcopy Hrun.
  destruct (Degenerate st) eqn:Hdeg.
  - rewrite (Apply_degenerate _ _ _ _ Hdeg) in Hrun.
    injection Hrun as <- _. unfold ComputedValidationMetric. rewrite Hdeg.
    intros i. reflexivity.
  - rewrite (Apply_nondegenerate _ _ _ _ Hdeg) in Hrun.
    destruct (ApplyPerTargetStates_inv _ _ _ _ _ _ _ _ Hrun)
      as (cur & pc & fcs & fc & ts' & Hcur & Hpc & Hfcs & Hfc & _ & Hval).
    cbv zeta in Hval.
    unfold ComputedValidationMetric. rewrite Hdeg, Hfcs. cbn [mbind option_bind].
    rewrite Hfc. cbn [mbind option_bind].
    destruct (m_pValidationSet st) as [vs|].
    + destruct Hval as (vs' & m & Hpass & Hcase).
      cbn [mbind option_bind]. rewrite Hpass.
      cbn [fmap option_fmap option_map snd].
      destruct (flt m (m_bestModelMetric st)) eqn:Hlt.
      * destruct Hcase as (best & err & best' & Hbest & Hcp & -> & Hret & _).
        destruct err; [discriminate Hret|].
        intros i Hi.
        destruct (CopyModels_copies _ 0 _ _ _ ltac:(lia) Hcp)
          as (_ & _ & Hin).
        destruct (Hin (Z.to_nat i) ltac:(lia))
          as (pb & pcur & _ & Hcuri & Herr & Hbi).
        unfold GetBestModelFeatureCombination, GetCurrentModelFeatureCombination.
        cbn [set_best set_training m_apBestModel m_apCurrentModel].
        rewrite Hbi, Hcuri. cbn [mbind option_bind].
        rewrite (Hcopy _ _ Herr). reflexivity.
      * destruct Hcase as (-> & _). intros i. reflexivity.
    + destruct Hval as (-> & _). intros i. reflexivity.
Qed.
End AccessorProperties.

Lemma current_model_after_apply_witness :
  exists st' ret validationMetricReturn',
    @ApplyModelFeatureCombinationUpdate Example.config Example.statistics
      Example.tensors Example.learners
      (Example.regression_state (Some Example.validation_set)) 0
      (Some Example.update) (Some fzero)
    = Some (st', ret, validationMetricReturn')
    /\ @GetCurrentModelFeatureCombination Example.tensors Example.learners
         st' 0
       = Some (Some (zip_with fadd Example.zeros Example.update)).
Proof.
  destruct (@current_model_after_apply Example.config Example.statistics
              Example.tensors Example.learners
              (Example.regression_state (Some Example.validation_set)) 0
              Example.update (Some fzero) eq_refl)
    as (st' & ret & p' & cur & pc & Hrun & Hcur & Hpc & _ & Hsum & _).
  - apply regression_state_ready. intros d Hd. injection Hd as <-.
    vm_compute. discriminate.
  - exists st', ret, p'. split; [exact Hrun|].
    cbn in Hcur. injection Hcur as <-. cbn in Hpc. injection Hpc as <-.
    apply Hsum. reflexivity.
Defined.

(** The metric of [Example.update] on the validation set of the example
    state. *)
Example computed_metric_example :
  @ComputedValidationMetric Example.config Example.statistics
    Example.tensors Example.learners
    (Example.regression_state (Some Example.validation_set)) 0 Example.update
  = Some (S754_finite false 5814122118263953 (-52)).
Proof. vm_compute. reflexivity. Qed.

Lemma best_model_after_apply_witness :
  exists st' validationMetricReturn',
    @ApplyModelFeatureCombinationUpdate Example.config Example.statistics
      Example.tensors Example.learners
      (Example.regression_state (Some Example.validation_set)) 0
      (Some Example.update) (Some fzero)
    = Some (st', 0, validationMetricReturn')
    /\ @GetBestModelFeatureCombination Example.tensors Example.learners st' 0
       = @GetCurrentModelFeatureCombination Example.tensors Example.learners
           st' 0.
Proof.
  pose proof apply_example as Hex.
  destruct (@ApplyModelFeatureCombinationUpdate Example.config
              Example.statistics Example.tensors Example.learners
              (Example.regression_state (Some Example.validation_set)) 0
              (Some Example.update) (Some fzero))
    as [[[st' ret] p']|] eqn:Hrun; [|discriminate Hex].
  assert (Hret : ret = 0) by (cbn in Hex; congruence).
  subst ret. exists st', p'. split; [reflexivity|].
  pose proof (@best_model_after_apply Example.config Example.statistics
                Example.tensors Example.learners
                (Example.regression_state (Some Example.validation_set)) 0
                Example.update (Some fzero) st' p'
                ltac:(intros dst src _; reflexivity) Hrun) as Hbest.
  rewrite computed_metric_example in Hbest.
  cbn [Example.regression_state m_bestModelMetric] in Hbest.
  change (flt (S754_finite false 5814122118263953 (-52)) finfinity)
    with true in Hbest.
  apply Hbest. cbn. lia.
Defined.

(** ** What no call changes *)

Section Frame.
Context `{BuildConfig} `{EbmStatistics} `{TreeLearners} `{Allocators}.

Lemma CopyModels_length (n : nat) (iModel : Z)
    (apBestModel apCurrentModel apBestModel' : list SegmentedTensor)
    (err : bool) :
  CopyModels n iModel apBestModel apCurrentModel = Some (err, apBestModel') ->
  length apBestModel' = length apBestModel.
Proof.
  revert iModel apBestModel.
  induction n as [|n IH]; intros iModel apBestModel Hrun.
  - cbn in Hrun. injection Hrun as _ <-. reflexivity.
  - cbn [CopyModels] in Hrun.
    destruct (apBestModel !! Z.to_nat iModel) as [pBest|]; [|discriminate].
    cbn [mbind option_bind] in Hrun.
    destruct (apCurrentModel !! Z.to_nat iModel) as [pCurrent|];
      [|discriminate].
    cbn [mbind option_bind] in Hrun.
    destruct (Copy pBest pCurrent) as [[|] pBest'].
    + injection Hrun as _ <-. unfold store. apply length_insert.
    + apply IH in Hrun. rewrite Hrun. unfold store. apply length_insert.
Qed.

(** What the statement of the invariant lists. *)
Local Abbreviation unchanged st st' :=
  (m_bRegression st' = m_bRegression st
   /\ m_cTargetStates st' = m_cTargetStates st
   /\ m_cFeaturesOfState st' = m_cFeaturesOfState st
   /\ m_aFeatures st' = m_aFeatures st
   /\ m_cFeatureCombinations st' = m_cFeatureCombinations st
   /\ m_apFeatureCombinations st' = m_apFeatureCombinations st
   /\ m_cSamplingSets st' = m_cSamplingSets st
   /\ m_apSamplingSets st' = m_apSamplingSets st
   /\ option_Forall2 SameCases (m_pTrainingSet st) (m_pTrainingSet st')
   /\ option_Forall2 SameCases (m_pValidationSet st) (m_pValidationSet st')
   /\ length <$> m_apCurrentModel st' = length <$> m_apCurrentModel st
   /\ length <$> m_apBestModel st' = length <$> m_apBestModel st).

Lemma unchanged_refl (st : EbmTrainingState) : unchanged st st.
Proof. repeat split; try reflexivity; apply option_SameCases_refl. Qed.

Lemma Generate_unchanged (st : EbmTrainingState) (c : Z)
    (learningRate : spec_float) (cSplits cCasesMin : Z)
    (g : option spec_float) (st' : EbmTrainingState)
    (r : option (list spec_float)) (g' : option spec_float) :
  GenerateModelFeatureCombinationUpdate st c learningRate cSplits cCasesMin g
  = Some (st', r, g') ->
  unchanged st st'.
Proof.
  intros Hrun.
  destruct (Generate_keeps _ _ _ _ _ _ _ _ _ Hrun) as [->|(o & a & ->)];
    repeat split; try reflexivity; apply option_SameCases_refl.
Qed.

Lemma Apply_unchanged (st : EbmTrainingState) (c : Z)
    (t : option (list spec_float)) (ptr : option spec_float)
    (st' : EbmTrainingState) (ret : Z) (ptr' : option spec_float) :
  ApplyModelFeatureCombinationUpdate st c t ptr = Some (st', ret, ptr') ->
  unchanged st st'.
Proof.
  intros Hrun. destruct t as [U|].
  2:{ cbn in Hrun. injection Hrun as <- _ _. apply unchanged_refl. }
  destruct (Degenerate st) eqn:Hdeg.
  { rewrite (Apply_degenerate _ _ _ _ Hdeg) in Hrun.
    injection Hrun as <- _ _. apply unchanged_refl. }
  rewrite (Apply_nondegenerate _ _ _ _ Hdeg) in Hrun.
  destruct (ApplyPerTargetStates_inv _ _ _ _ _ _ _ _ Hrun)
    as (cur & pc & fcs & fc & ts' & Hcur & Hpc & Hfcs & Hfc & Hts & Hval).
  cbv zeta in Hval.
  assert (Htrain : option_Forall2 SameCases (m_pTrainingSet st) ts').
  { destruct (m_pTrainingSet st) as [ts|].
    - destruct Hts as (ts0 & Hpass & ->). constructor.
      eapply TrainingSetInputFeatureLoop_cases. exact Hpass.
    - subst ts'. constructor. }
  assert (Hlen : length (store cur c (AddExpanded pc U)) = length cur)
    by (unfold store; apply length_insert).
  destruct (m_pValidationSet st) as [vs|].
  - destruct Hval as (vs' & m & Hpass & Hcase).
    apply ValidationSetInputFeatureLoop_cases in Hpass.
    destruct (flt m (m_bestModelMetric st)).
    + destruct Hcase as (best & err & best' & Hbest & Hcp & -> & _).
      apply CopyModels_length in Hcp.
      cbn [set_best set_training m_bRegression m_cTargetStates
           m_cFeaturesOfState m_aFeatures m_cFeatureCombinations
           m_apFeatureCombinations m_cSamplingSets m_apSamplingSets
           m_pTrainingSet m_pValidationSet m_apCurrentModel m_apBestModel].
      rewrite Hcur, Hbest. cbn [fmap option_fmap option_map].
      rewrite Hlen, Hcp.
      repeat split; try reflexivity; [exact Htrain|constructor; exact Hpass].
    + destruct Hcase as (-> & _).
      cbn [set_training m_bRegression m_cTargetStates
           m_cFeaturesOfState m_aFeatures m_cFeatureCombinations
           m_apFeatureCombinations m_cSamplingSets m_apSamplingSets
           m_pTrainingSet m_pValidationSet m_apCurrentModel m_apBestModel].
      rewrite Hcur. cbn [fmap option_fmap option_map]. rewrite Hlen.
      repeat split; try reflexivity; [exact Htrain|constructor; exact Hpass].
  - destruct Hval as (-> & _).
    cbn [set_training m_bRegression m_cTargetStates
         m_cFeaturesOfState m_aFeatures m_cFeatureCombinations
         m_apFeatureCombinations m_cSamplingSets m_apSamplingSets
         m_pTrainingSet m_pValidationSet m_apCurrentModel m_apBestModel].
    rewrite Hcur. cbn [fmap option_fmap option_map]. rewrite Hlen.
    repeat split; try reflexivity; [exact Htrain|constructor].
Qed.

Lemma unchanged_trans (st1 st2 st3 : EbmTrainingState) :
  unchanged st1 st2 -> unchanged st2 st3 -> unchanged st1 st3.
Proof.
  intros (A1 & A2 & A3 & A4 & A5 & A6 & A7 & A8 & A9 & A10 & A11 & A12)
         (B1 & B2 & B3 & B4 & B5 & B6 & B7 & B8 & B9 & B10 & B11 & B12).
  repeat split; try congruence;
    eapply option_SameCases_trans; eassumption.
Qed.

(** X16.  No sequence of calls of generate_update, apply_update and
    training_step changes what the initialisation has laid down: the
    learning type, the class count, the features, the feature
    combinations, the sampling sets, the number of tensors of either
    model, and of either data set whether it exists, its case count, its
    targets and its packed inputs. *)
Theorem calls_never_change_the_descriptors (st st' : EbmTrainingState) :
  rtc api_step st st' ->
  m_bRegression st' = m_bRegression st
  /\ m_cTargetStates st' = m_cTargetStates st
  /\ m_cFeaturesOfState st' = m_cFeaturesOfState st
  /\ m_aFeatures st' = m_aFeatures st
  /\ m_cFeatureCombinations st' = m_cFeatureCombinations st
  /\ m_apFeatureCombinations st' = m_apFeatureCombinations st
  /\ m_cSamplingSets st' = m_cSamplingSets st
  /\ m_apSamplingSets st' = m_apSamplingSets st
  /\ option_Forall2 SameCases (m_pTrainingSet st) (m_pTrainingSet st')
  /\ option_Forall2 SameCases (m_pValidationSet st) (m_pValidationSet st')
  /\ length <$> m_apCurrentModel st' = length <$> m_apCurrentModel st
  /\ length <$> m_apBestModel st' = length <$> m_apBestModel st.
Proof.
  intros Hsteps.
  induction Hsteps as [st|st st1 st2 Hstep _ IH]; [apply unchanged_refl|].
  apply (unchanged_trans st st1 st2); [|exact IH].
  clear IH. destruct Hstep as
    [st c lr cs cm g st' r g' Hrun
    |st c t p st' r p' Hrun
    |st c lr cs cm p st' r p' Hrun].
  - eapply Generate_unchanged. exact Hrun.
  - eapply Apply_unchanged. exact Hrun.
  - unfold TrainingStep in Hrun.
    destruct (negb (m_bRegression st) && (m_cTargetStates st <=? 1)).
    + injection Hrun as <- _ _. apply unchanged_refl.
    + destruct (GenerateModelFeatureCombinationUpdate st c lr cs cm
                  (Some fzero)) as [[[st1' [values|]] g1]|] eqn:Hgen;
        [| |discriminate].
      * apply (unchanged_trans st st1' st').
        -- eapply Generate_unchanged. exact Hgen.
        -- eapply Apply_unchanged. exact Hrun.
      * injection Hrun as <- _ _. eapply Generate_unchanged. exact Hgen.
Qed.
End Frame.

(** ** Initialisation *)

Lemma bind_Done {A B} (m : Outcome A) (f : A -> Outcome B) (b : B) :
  m ≫= f = Done b -> exists a, m = Done a /\ f a = Done b.
Proof. destruct m as [| |a]; try discriminate. intros Hf. eauto. Qed.

Lemma read_Done {A} (a : list A) (i : Z) (x : A) :
  read a i = Done x -> a !! Z.to_nat i = Some x.
Proof. unfold read. destruct (a !! Z.to_nat i); congruence. Qed.

Lemma read_at_Done {A} (a : option (list A)) (i : Z) (x : A) :
  read_at a i = Done x -> default [] a !! Z.to_nat i = Some x.
Proof. destruct a as [a|]; [apply read_Done|discriminate]. Qed.

Lemma nonnull_Done {A} (p : option A) (x : A) :
  nonnull p = Done x -> p = Some x.
Proof. destruct p; cbn; congruence. Qed.

Lemma IndexesFrom_cons (indexes : list Z) (p : Z) (n : nat) (k : Z) :
  0 <= p ->
  indexes !! Z.to_nat p = Some k ->
  IndexesFrom indexes p (Z.of_nat (S n))
  = k :: IndexesFrom indexes (p + 1) (Z.of_nat n).
Proof.
  intros Hp Hk. unfold IndexesFrom. rewrite !Nat2Z.id.
  rewrite (drop_S _ _ _ Hk). cbn [take].
  replace (Z.to_nat (p + 1)) with (S (Z.to_nat p)) by lia. reflexivity.
Qed.

Section InitializationLoops.
Context `{BuildConfig} `{TreeLearners} `{Allocators}.
Context `{!Initializers}.

(** The tensors [InitializeSegmentedTensorsLoop] appends. *)
Lemma InitializeSegmentedTensorsLoop_inv (n : nat) (i : Z)
    (fcs : list FeatureCombination) (V : Z) (acc l : list SegmentedTensor) :
  0 <= i ->
  InitializeSegmentedTensorsLoop n i fcs V acc = Done l ->
  exists new,
    l = acc ++ new
    /\ length new = n
    /\ forall k, (k < n)%nat ->
         exists fc t,
           fcs !! (Z.to_nat i + k)%nat = Some fc
           /\ Allocate (m_cFeatures fc) V = Some t
           /\ if m_cFeatures fc =? 0
              then new !! k = Some (set_bExpanded t true)
              else (Expand t (DivisionIntegersEnd fc (m_cFeatures fc))).1 = false
                   /\ new !! k
                      = Some (Expand t
                                (DivisionIntegersEnd fc (m_cFeatures fc))).2.
Proof.
  revert i acc. induction n as [|n IH]; intros i acc Hi Hrun.
  - cbn in Hrun. injection Hrun as <-. exists [].
    rewrite app_nil_r. repeat split. intros k Hk. lia.
  - cbn [InitializeSegmentedTensorsLoop] in Hrun.
    apply bind_Done in Hrun as (fc & Hfc & Hrun). apply read_Done in Hfc.
    apply bind_Done in Hrun as (t & Ht & Hrun). apply nonnull_Done in Ht.
    apply bind_Done in Hrun as (t' & Ht' & Hrun).
    apply IH in Hrun as (new & -> & Hlen & Hnew); [|lia].
    exists (t' :: new). split; [rewrite <- app_assoc; reflexivity|].
    split; [cbn; lia|].
    intros [|k] Hk.
    + exists fc, t. rewrite Nat.add_0_r. split; [exact Hfc|].
      split; [exact Ht|].
      destruct (m_cFeatures fc =? 0).
      * injection Ht' as <-. reflexivity.
      * destruct (Expand t _) as [[|] t2]; [discriminate|].
        injection Ht' as <-. split; reflexivity.
    + destruct (Hnew k ltac:(lia)) as (fc' & t2 & Hfc' & Ht2 & Hk').
      exists fc', t2.
      replace (Z.to_nat i + S k)%nat with (Z.to_nat (i + 1) + k)%nat by lia.
      split; [exact Hfc'|]. split; [exact Ht2|]. exact Hk'.
Qed.

(** The features [InitializeFeatures] constructs. *)
Lemma InitializeFeatures_inv (n : nat) (i : Z)
    (aFeatures : list EbmCoreFeature) (l l' : list Feature) :
  0 <= i ->
  InitializeFeatures n i aFeatures l = Done l' ->
  length l' = length l
  /\ (forall k, (k < Z.to_nat i \/ Z.to_nat i + n <= k)%nat -> l' !! k = l !! k)
  /\ forall k, (Z.to_nat i <= k < Z.to_nat i + n)%nat ->
       exists f,
         aFeatures !! k = Some f
         /\ IsNumberConvertable_size_t (countBins f) = true
         /\ ((k < length l)%nat ->
             l' !! k
             = Some (Feature_new (countBins f) (Z.of_nat k) (featureType f)
                       (negb (hasMissing f =? 0)))).
Proof.
  revert i l. induction n as [|n IH]; intros i l Hi Hrun.
  - cbn in Hrun. injection Hrun as <-. repeat split. intros k Hk. lia.
  - cbn [InitializeFeatures] in Hrun.
    apply bind_Done in Hrun as (f & Hf & Hrun). apply read_Done in Hf.
    destruct (IsNumberConvertable_size_t (countBins f)) eqn:Hconv;
      [|discriminate].
    cbn [negb] in Hrun.
    apply IH in Hrun as (Hlen & Hout & Hin); [|lia].
    unfold store in Hlen, Hout, Hin. rewrite length_insert in Hlen, Hin.
    split; [exact Hlen|]. split.
    + intros k Hk. rewrite Hout by lia.
      apply list_lookup_insert_ne. lia.
    + intros k Hk. destruct (decide (k = Z.to_nat i)) as [->|Hne].
      * exists f. split; [exact Hf|]. split; [exact Hconv|].
        intros Hkl. rewrite Hout by lia.
        rewrite list_lookup_insert_eq by exact Hkl.
        rewrite Z2Nat.id by lia. reflexivity.
      * apply Hin. lia.
Qed.

(** The first loop over the indexes of a combination reads every index of
    the combination, finds the feature each names, and counts the
    significant ones. *)
Lemma CountSignificantFeatures_inv (n : nat) (p : Z) (indexes : list Z)
    (features : option (list Feature)) (c c' : Z) :
  0 <= p ->
  CountSignificantFeatures n p indexes features c = Done c' ->
  let named := FeaturesAt features (IndexesFrom indexes p (Z.of_nat n)) in
  length (IndexesFrom indexes p (Z.of_nat n)) = n
  /\ length named = n
  /\ Forall (fun k => 0 <= k) (IndexesFrom indexes p (Z.of_nat n))
  /\ c' = c + Z.of_nat (length (Significant named)).
Proof.
  revert p c. induction n as [|n IH]; intros p c Hp Hrun.
  - cbn in Hrun. injection Hrun as <-. cbv zeta. unfold IndexesFrom.
    change (Z.to_nat (Z.of_nat 0)) with 0%nat. rewrite take_0. cbn.
    repeat split; [constructor|lia].
  - cbn [CountSignificantFeatures] in Hrun.
    apply bind_Done in Hrun as (k & Hk & Hrun). apply read_Done in Hk.
    destruct (IsNumberConvertable_size_t k) eqn:Hconv; [|discriminate].
    cbn [negb] in Hrun.
    apply bind_Done in Hrun as (f & Hf & Hrun). apply read_at_Done in Hf.
    apply IH in Hrun as (Hlen & Hnamed & Hpos & ->); [|lia].
    cbv zeta. rewrite (IndexesFrom_cons _ _ _ _ Hp Hk).
    unfold FeaturesAt in *. cbn [omap list_omap]. rewrite Hf.
    cbn [length]. rewrite Hlen, Hnamed.
    split; [reflexivity|]. split; [reflexivity|]. split.
    + constructor; [|exact Hpos].
      unfold IsNumberConvertable_size_t in Hconv.
      apply andb_true_iff in Hconv as (Hk0 & _). lia.
    + unfold Significant. rewrite filter_cons.
      destruct (Z.ltb_spec 1 (m_cStates f)) as [Hs|Hs];
        destruct (decide (1 < m_cStates f)) as [Hd|Hd]; try lia;
        cbn [length]; lia.
Qed.

(** The second loop enters the significant features of the combination in
    order, from the entry pointer on, and multiplies up their state
    counts. *)
Lemma EnterSignificantFeatures_inv (n : nat) (p : Z) (indexes : list Z)
    (features : option (list Feature)) (fc : FeatureCombination)
    (e cT : Z) (fc' : FeatureCombination) (e' cT' : Z) :
  0 <= p -> 0 <= e ->
  EnterSignificantFeatures n p indexes features fc e cT = Done (fc', e', cT') ->
  let sig :=
    Significant (FeaturesAt features (IndexesFrom indexes p (Z.of_nat n))) in
  e' = e + Z.of_nat (length sig)
  /\ cT' = fold_left (fun c f => (c * m_cStates f) mod 2 ^ 64) sig cT
  /\ m_cFeatures fc' = m_cFeatures fc
  /\ m_iInputData fc' = m_iInputData fc
  /\ m_cItemsPerBitPackDataUnit fc' = m_cItemsPerBitPackDataUnit fc
  /\ forall j,
       m_FeatureCombinationEntry fc' !! j
       = if decide ((Z.to_nat e <= j < Z.to_nat e + length sig)%nat
                    /\ (j < length (m_FeatureCombinationEntry fc))%nat)
         then sig !! (j - Z.to_nat e)%nat
         else m_FeatureCombinationEntry fc !! j.
Proof.
  revert p fc e cT. induction n as [|n IH]; intros p fc e cT Hp He Hrun.
  - cbn in Hrun. injection Hrun as <- <- <-. cbv zeta. unfold IndexesFrom.
    change (Z.to_nat (Z.of_nat 0)) with 0%nat. rewrite take_0. cbn.
    repeat split; try lia. intros j.
    destruct (decide _) as [Hj|_]; [lia|reflexivity].
  - cbn [EnterSignificantFeatures] in Hrun.
    apply bind_Done in Hrun as (k & Hk & Hrun). apply read_Done in Hk.
    apply bind_Done in Hrun as (f & Hf & Hrun). apply read_at_Done in Hf.
    cbv zeta. rewrite (IndexesFrom_cons _ _ _ _ Hp Hk).
    unfold FeaturesAt. cbn [omap list_omap]. rewrite Hf.
    unfold Significant. rewrite filter_cons.
    destruct (Z.ltb_spec 1 (m_cStates f)) as [Hs|Hs];
      destruct (decide (1 < m_cStates f)) as [Hd|Hd]; try lia.
    + destruct (IsMultiplyError cT (m_cStates f)); [discriminate|].
      apply IH in Hrun as (-> & -> & Hc & Hi & Hb & Hent); [|lia|lia].
      cbn [set_m_pFeature m_cFeatures m_iInputData m_cItemsPerBitPackDataUnit
           m_FeatureCombinationEntry] in Hc, Hi, Hb, Hent.
      unfold store in Hent. rewrite length_insert in Hent.
      unfold Significant, FeaturesAt in Hent |- *.
      set (rest := filter _ (omap _ _)) in *.
      cbn [length fold_left].
      split; [lia|]. split; [reflexivity|].
      split; [exact Hc|]. split; [exact Hi|]. split; [exact Hb|].
      intros j. rewrite (Hent j).
      destruct (decide (j = Z.to_nat e)) as [->|Hne].
      * destruct (decide ((Z.to_nat (e + 1) <= Z.to_nat e
                           < Z.to_nat (e + 1) + length rest)%nat /\ _))
          as [Hj|_]; [lia|].
        destruct (decide ((Z.to_nat e <= Z.to_nat e
                           < Z.to_nat e + S (length rest))%nat /\ _))
          as [(_ & Hj)|Hj].
        -- rewrite list_lookup_insert_eq by exact Hj.
           rewrite Nat.sub_diag. reflexivity.
        -- rewrite list_insert_ge by lia. reflexivity.
      * rewrite list_lookup_insert_ne by lia.
        destruct (decide ((Z.to_nat (e + 1) <= j
                           < Z.to_nat (e + 1) + length rest)%nat /\ _))
          as [Hj|Hj];
          destruct (decide ((Z.to_nat e <= j
                             < Z.to_nat e + S (length rest))%nat /\ _))
            as [Hj'|Hj']; try lia; [|reflexivity].
        replace (j - Z.to_nat e)%nat with (S (j - Z.to_nat (e + 1)))%nat by lia.
        reflexivity.
    + apply IH in Hrun; [|lia|lia]. exact Hrun.
Qed.

Lemma CombinationOffset_S (aFC : list EbmCoreFeatureCombination) (k : nat)
    (c : EbmCoreFeatureCombination) :
  aFC !! k = Some c ->
  CombinationOffset aFC (S k)
  = CombinationOffset aFC k + countFeaturesInCombination c.
Proof.
  intros Hc. unfold CombinationOffset.
  rewrite (take_S_r _ _ _ Hc), fold_left_app. reflexivity.
Qed.

(** The combination one iteration of the loop over the combinations
    builds: it holds the significant features among those its indexes
    name, in order, and nothing else. *)
Lemma InitializeFeatureCombination_inv (i p : Z)
    (interop : EbmCoreFeatureCombination) (indexes : list Z)
    (features : option (list Feature)) (fc : FeatureCombination) :
  AllocationLaws ->
  0 <= p ->
  InitializeFeatureCombination i p interop indexes features = Done fc ->
  let count := countFeaturesInCombination interop in
  let named := FeaturesAt features (IndexesFrom indexes p count) in
  0 <= count
  /\ length (IndexesFrom indexes p count) = Z.to_nat count
  /\ length named = Z.to_nat count
  /\ Forall (fun k => 0 <= k) (IndexesFrom indexes p count)
  /\ (Significant named <> [] ->
      Z.of_nat (length (Significant named)) <= k_cDimensionsMax)
  /\ m_cFeatures fc = Z.of_nat (length (Significant named))
  /\ m_iInputData fc = i
  /\ m_FeatureCombinationEntry fc = Significant named
  /\ (Significant named <> [] ->
      m_cItemsPerBitPackDataUnit fc
      = GetCountItemsBitPacked
          (CountBitsRequiredCore (TensorStates (Significant named) - 1))).
Proof.
  intros (Halloc & _) Hp. unfold InitializeFeatureCombination.
  destruct (IsNumberConvertable_size_t (countFeaturesInCombination interop))
    eqn:Hconv; [|discriminate].
  cbn [negb]. intros Hrun.
  assert (Hcount : 0 <= countFeaturesInCombination interop).
  { unfold IsNumberConvertable_size_t in Hconv.
    apply andb_true_iff in Hconv as (Hc & _). lia. }
  cbv zeta. set (count := countFeaturesInCombination interop) in *.
  apply bind_Done in Hrun as (cSig & HcSig & Hrun).
  apply bind_Done in Hrun as (fc0 & Hfc0 & Hrun). apply nonnull_Done in Hfc0.
  destruct (Halloc _ _ _ Hfc0) as (Hc0 & Hi0 & Hlen0).
  assert (Hfacts :
    length (IndexesFrom indexes p count) = Z.to_nat count
    /\ length (FeaturesAt features (IndexesFrom indexes p count))
       = Z.to_nat count
    /\ Forall (fun k => 0 <= k) (IndexesFrom indexes p count)
    /\ cSig = Z.of_nat (length (Significant
                 (FeaturesAt features (IndexesFrom indexes p count))))
    /\ (count <> 0 -> cSig <= k_cDimensionsMax)).
  { destruct (Z.eqb_spec count 0) as [Hz|Hnz].
    - injection HcSig as <-. rewrite Hz. unfold IndexesFrom.
      change (Z.to_nat 0) with 0%nat. rewrite take_0. cbn.
      repeat split; [constructor|congruence].
    - apply bind_Done in HcSig as (c & Hc & HcSig).
      apply CountSignificantFeatures_inv in Hc; [|exact Hp].
      cbv zeta in Hc.
      replace (Z.of_nat (do_while_count count)) with count in Hc
        by (unfold do_while_count; lia).
      destruct Hc as (Hl & Hn & Hpos & ->).
      destruct (Z.ltb_spec k_cDimensionsMax
                  (0 + Z.of_nat (length (Significant
                     (FeaturesAt features (IndexesFrom indexes p count))))))
        as [|Hle]; [discriminate|].
      injection HcSig as <-.
      replace (do_while_count count) with (Z.to_nat count) in Hl, Hn
        by (unfold do_while_count; lia).
      repeat split; try assumption; lia. }
  destruct Hfacts as (Hl & Hn & Hpos & HcSigv & Hmax).
  set (sig := Significant _) in *.
  split; [exact Hcount|]. split; [exact Hl|]. split; [exact Hn|].
  split; [exact Hpos|].
  assert (Hmax' : sig <> [] -> Z.of_nat (length sig) <= k_cDimensionsMax).
  { intros Hne. rewrite <- HcSigv. apply Hmax. intros Hz.
    apply Hne. unfold sig. rewrite Hz. unfold IndexesFrom.
    change (Z.to_nat 0) with 0%nat. rewrite take_0. reflexivity. }
  split; [exact Hmax'|].
  destruct (Z.eqb_spec cSig 0) as [Hz|Hnz].
  - injection Hrun as <-.
    assert (Hsig : sig = []) by (apply nil_length_inv; lia).
    rewrite Hc0, Hi0, Hsig. split; [cbn; lia|]. split; [reflexivity|].
    split; [|congruence].
    apply nil_length_inv. rewrite Hlen0. lia.
  - apply bind_Done in Hrun as ([[fc1 e1] cT1] & Hfill & Hrun).
    injection Hrun as <-.
    apply EnterSignificantFeatures_inv in Hfill; [|exact Hp|lia].
    cbv zeta in Hfill.
    replace (Z.of_nat (do_while_count count)) with count in Hfill.
    2:{ unfold do_while_count.
        destruct (Z.eqb_spec count 0) as [Hz|Hnz']; [|lia].
        exfalso. apply Hnz. rewrite HcSigv. unfold sig. rewrite Hz.
        unfold IndexesFrom. change (Z.to_nat 0) with 0%nat.
        rewrite take_0. reflexivity. }
    fold sig in Hfill.
    destruct Hfill as (_ & -> & Hc1 & Hi1 & _ & Hent).
    cbn [set_m_cItemsPerBitPackDataUnit m_cFeatures m_iInputData
         m_cItemsPerBitPackDataUnit m_FeatureCombinationEntry].
    split; [congruence|]. split; [congruence|]. split; [|reflexivity].
    apply list_eq. intros j. rewrite (Hent j).
    change (Z.to_nat 0) with 0%nat. rewrite Nat.sub_0_r.
    destruct (decide _) as [_|Hout]; [reflexivity|].
    rewrite lookup_ge_None_2 by lia.
    symmetry. apply lookup_ge_None_2. lia.
Qed.

(** The loop over the combinations: combination [k] is built from the
    indexes at [CombinationOffset aFC k]. *)
Lemma InitializeFeatureCombinations_inv (n : nat) (i p : Z)
    (aFC : list EbmCoreFeatureCombination) (indexes : list Z)
    (features : option (list Feature)) (l l' : list FeatureCombination) :
  0 <= i ->
  p = CombinationOffset aFC (Z.to_nat i) ->
  0 <= p ->
  InitializeFeatureCombinations n i p aFC indexes features l = Done l' ->
  length l' = length l
  /\ (forall k, (k < Z.to_nat i \/ Z.to_nat i + n <= k)%nat -> l' !! k = l !! k)
  /\ forall k, (Z.to_nat i <= k < Z.to_nat i + n)%nat ->
       exists interop fc,
         aFC !! k = Some interop
         /\ 0 <= CombinationOffset aFC k
         /\ InitializeFeatureCombination (Z.of_nat k)
              (CombinationOffset aFC k) interop indexes features = Done fc
         /\ ((k < length l)%nat -> l' !! k = Some fc).
Proof.
  revert i p l. induction n as [|n IH]; intros i p l Hi Hp Hp0 Hrun.
  - cbn in Hrun. injection Hrun as <-. repeat split. intros k Hk. lia.
  - cbn [InitializeFeatureCombinations] in Hrun.
    apply bind_Done in Hrun as (interop & Hint & Hrun). apply read_Done in Hint.
    apply bind_Done in Hrun as (fc & Hfc & Hrun).
    assert (Hcount : 0 <= countFeaturesInCombination interop).
    { unfold InitializeFeatureCombination in Hfc.
      destruct (IsNumberConvertable_size_t
                  (countFeaturesInCombination interop)) eqn:Hconv;
        [|discriminate].
      unfold IsNumberConvertable_size_t in Hconv.
      apply andb_true_iff in Hconv as (Hc & _). lia. }
    apply IH in Hrun as (Hlen & Hout & Hin); [|lia| |lia].
    2:{ replace (Z.to_nat (i + 1)) with (S (Z.to_nat i)) by lia.
        rewrite (CombinationOffset_S _ _ _ Hint), Hp. reflexivity. }
    unfold store in Hlen, Hout, Hin. rewrite length_insert in Hlen, Hin.
    split; [exact Hlen|]. split.
    + intros k Hk. rewrite Hout by lia. apply list_lookup_insert_ne. lia.
    + intros k Hk. destruct (decide (k = Z.to_nat i)) as [->|Hne].
      * exists interop, fc. split; [exact Hint|].
        rewrite <- Hp. split; [exact Hp0|].
        rewrite Z2Nat.id by lia. split; [exact Hfc|].
        intros Hkl. rewrite Hout by lia.
        apply list_lookup_insert_eq. exact Hkl.
      * apply Hin. lia.
Qed.
End InitializationLoops.

Lemma omap_length_le {A B} (f : A -> option B) (l : list A) :
  (length (omap f l) <= length l)%nat.
Proof.
  induction l as [|a l IH]; [reflexivity|].
  cbn [omap list_omap]. destruct (f a); cbn [length]; lia.
Qed.

Lemma omap_length_all {A B} (f : A -> option B) (l : list A) :
  length (omap f l) = length l -> forall x, x ∈ l -> is_Some (f x).
Proof.
  induction l as [|a l IH]; intros Hlen x Hx; [inversion Hx|].
  cbn [omap list_omap] in Hlen.
  pose proof (omap_length_le f l) as Hle.
  destruct (f a) as [b|] eqn:Hfa; cbn [length] in Hlen; [|lia].
  apply elem_of_cons in Hx as [->|Hx]; [rewrite Hfa; eauto|].
  apply IH; [lia|exact Hx].
Qed.

Lemma omap_fmap_pointwise {A B C} (f1 : A -> option B) (f2 : A -> option C)
    (g : B -> C) (l : list A) :
  (forall x, x ∈ l -> g <$> f1 x = f2 x) ->
  g <$> omap f1 l = omap f2 l.
Proof.
  induction l as [|a l IH]; intros Hpt; [reflexivity|].
  cbn [omap list_omap]. rewrite <- (Hpt a) by (left).
  rewrite <- IH by (intros x Hx; apply Hpt; right; exact Hx).
  destruct (f1 a); reflexivity.
Qed.

Lemma filter_fmap_states (l : list Feature) :
  m_cStates <$> filter (fun f => 1 < m_cStates f) l
  = filter (fun c => 1 < c) (m_cStates <$> l).
Proof.
  induction l as [|f l IH]; [reflexivity|].
  rewrite fmap_cons, !filter_cons.
  destruct (decide (1 < m_cStates f)); [rewrite fmap_cons|]; rewrite IH;
    reflexivity.
Qed.

Lemma fold_left_fmap_states (g : Z -> Z -> Z) (l : list Feature) (a : Z) :
  fold_left (fun c f => g c (m_cStates f)) l a
  = fold_left g (m_cStates <$> l) a.
Proof.
  revert a. induction l as [|f l IH]; intros a; [reflexivity|].
  cbn. apply IH.
Qed.

Lemma fmap_load_seq {A B} `{Inhabited A} (g : A -> B) (l : list A) :
  (fun i : nat => g (load l (Z.of_nat i))) <$> seq 0 (length l) = g <$> l.
Proof.
  apply list_eq. intros i. rewrite !list_lookup_fmap.
  destruct (decide (i < length l)%nat) as [Hi|Hi].
  - rewrite lookup_seq_lt by exact Hi.
    destruct (lookup_lt_is_Some_2 l i Hi) as [x Hx].
    rewrite Hx. cbn. f_equal. f_equal. apply load_Some.
    rewrite Nat2Z.id. exact Hx.
  - rewrite lookup_seq_ge by lia. rewrite lookup_ge_None_2 by lia.
    reflexivity.
Qed.

Section InitializeProperties.
Context `{BuildConfig} `{TreeLearners} `{Allocators}.
Context `{!Initializers}.

(** What a successful [Initialize] has done. *)
Lemma Initialize_inv (st : EbmTrainingState) (randomSeed : Z)
    (aFeatures : list EbmCoreFeature)
    (aFeatureCombinations : list EbmCoreFeatureCombination)
    (featureCombinationIndexes : list Z)
    (cTrainingCases : Z) (aTrainingTargets : option Targets)
    (aTrainingData : option (list Z))
    (aTrainingPredictionScores : option (list spec_float))
    (cValidationCases : Z) (aValidationTargets : option Targets)
    (aValidationData : option (list Z))
    (aValidationPredictionScores : option (list spec_float))
    (st' : EbmTrainingState) :
  Initialize st randomSeed aFeatures aFeatureCombinations
    featureCombinationIndexes cTrainingCases aTrainingTargets aTrainingData
    aTrainingPredictionScores cValidationCases aValidationTargets
    aValidationData aValidationPredictionScores = Done st' ->
  let cVectorLength := GetVectorLengthFlatCore (m_cTargetStates st) in
  (m_bRegression st' = m_bRegression st
   /\ m_cTargetStates st' = m_cTargetStates st
   /\ m_cFeatureCombinations st' = m_cFeatureCombinations st
   /\ m_cSamplingSets st' = m_cSamplingSets st
   /\ m_bestModelMetric st' = m_bestModelMetric st
   /\ m_cFeaturesOfState st' = m_cFeaturesOfState st
   /\ m_pSmallChangeToModelOverwriteSingleSamplingSet st'
      = m_pSmallChangeToModelOverwriteSingleSamplingSet st
   /\ m_pSmallChangeToModelAccumulatedFromSamplingSets st'
      = m_pSmallChangeToModelAccumulatedFromSamplingSets st)
  /\ CachedTrainingThreadResources_IsError (m_bRegression st) cVectorLength
     = false
  /\ is_Some (m_pSmallChangeToModelOverwriteSingleSamplingSet st)
  /\ is_Some (m_pSmallChangeToModelAccumulatedFromSamplingSets st)
  /\ (if m_cFeaturesOfState st =? 0 then m_aFeatures st' = m_aFeatures st
      else
        exists a a',
          m_aFeatures st = Some a
          /\ InitializeFeatures (do_while_count (m_cFeaturesOfState st)) 0
               aFeatures a = Done a'
          /\ m_aFeatures st' = Some a')
  /\ (if m_cFeatureCombinations st =? 0
      then m_apFeatureCombinations st' = m_apFeatureCombinations st
      else
        exists a a',
          m_apFeatureCombinations st = Some a
          /\ InitializeFeatureCombinations
               (do_while_count (m_cFeatureCombinations st)) 0 0
               aFeatureCombinations featureCombinationIndexes
               (m_aFeatures st') a = Done a'
          /\ m_apFeatureCombinations st' = Some a')
  /\ (if cTrainingCases =? 0
      then m_pTrainingSet st' = m_pTrainingSet st
           /\ m_apSamplingSets st' = m_apSamplingSets st
      else
        exists d randomStream sets,
          DataSetByFeatureCombination_new true (negb (m_bRegression st))
            (negb (m_bRegression st)) (m_cFeatureCombinations st)
            (m_apFeatureCombinations st') cTrainingCases aTrainingData
            aTrainingTargets aTrainingPredictionScores cVectorLength = Some d
          /\ m_pTrainingSet st'
             = Some (set_residuals d
                       (InitializeResiduals (ResidualsInstance st)
                          cTrainingCases aTrainingTargets
                          aTrainingPredictionScores (m_aResidualErrors d)
                          (ResidualsTargetStates st)))
          /\ RandomStream_new randomSeed = Some randomStream
          /\ GenerateSamplingSets randomStream (Some d) (m_cSamplingSets st)
             = Some sets
          /\ m_apSamplingSets st' = Some sets)
  /\ (if cValidationCases =? 0
      then m_pValidationSet st' = m_pValidationSet st
      else
        exists d,
          DataSetByFeatureCombination_new (m_bRegression st)
            (negb (m_bRegression st)) (negb (m_bRegression st))
            (m_cFeatureCombinations st) (m_apFeatureCombinations st')
            cValidationCases aValidationData aValidationTargets
            aValidationPredictionScores cVectorLength = Some d
          /\ m_pValidationSet st'
             = Some (if m_bRegression st
                     then set_residuals d
                            (InitializeResiduals k_Regression cValidationCases
                               aValidationTargets aValidationPredictionScores
                               (m_aResidualErrors d) 0)
                     else d))
  /\ (if HasModels st
      then
        exists fcs current best,
          m_apFeatureCombinations st' = Some fcs
          /\ InitializeSegmentedTensors (m_cFeatureCombinations st) fcs
               cVectorLength = Done current
          /\ InitializeSegmentedTensors (m_cFeatureCombinations st) fcs
               cVectorLength = Done best
          /\ m_apCurrentModel st' = Some current
          /\ m_apBestModel st' = Some best
      else m_apCurrentModel st' = m_apCurrentModel st
           /\ m_apBestModel st' = m_apBestModel st).
Proof.
  unfold Initialize, HasModels, ResidualsInstance, ResidualsTargetStates.
  destruct (CachedTrainingThreadResources_IsError _ _) eqn:Hcached;
    [discriminate|].
  destruct (negb (m_cFeaturesOfState st =? 0)
            && bool_decide (m_aFeatures st = None)); [discriminate|].
  destruct (negb (m_cFeatureCombinations st =? 0)
            && bool_decide (m_apFeatureCombinations st = None));
    [discriminate|].
  intros Hrun.
  apply bind_Done in Hrun as (ow & How & Hrun). apply nonnull_Done in How.
  apply bind_Done in Hrun as (acc & Hacc & Hrun). apply nonnull_Done in Hacc.
  apply bind_Done in Hrun as (features' & Hfeatures & Hrun).
  apply bind_Done in Hrun as (fcs' & Hfcs & Hrun).
  apply bind_Done in Hrun as (ts & Hts & Hrun).
  apply bind_Done in Hrun as (vs & Hvs & Hrun).
  apply bind_Done in Hrun as (rs & Hrs & Hrun). apply nonnull_Done in Hrs.
  apply bind_Done in Hrun as (sets & Hsets & Hrun).
  apply bind_Done in Hrun as ([cur best] & Hmodels & Hrun).
  cbv zeta in Hrun |- *.
  set (V := GetVectorLengthFlatCore (m_cTargetStates st)) in *.
  assert (Hf : if m_cFeaturesOfState st =? 0 then features' = m_aFeatures st
               else exists a a',
                   m_aFeatures st = Some a
                   /\ InitializeFeatures
                        (do_while_count (m_cFeaturesOfState st)) 0
                        aFeatures a = Done a'
                   /\ features' = Some a').
  { destruct (m_cFeaturesOfState st =? 0); cbn [negb] in Hfeatures.
    - injection Hfeatures as <-. reflexivity.
    - apply bind_Done in Hfeatures as (a & Ha & Hfeatures).
      apply nonnull_Done in Ha.
      apply bind_Done in Hfeatures as (a' & Ha' & Hfeatures).
      injection Hfeatures as <-. eauto. }
  assert (Hc : if m_cFeatureCombinations st =? 0
               then fcs' = m_apFeatureCombinations st
               else exists a a',
                   m_apFeatureCombinations st = Some a
                   /\ InitializeFeatureCombinations
                        (do_while_count (m_cFeatureCombinations st)) 0 0
                        aFeatureCombinations featureCombinationIndexes
                        features' a = Done a'
                   /\ fcs' = Some a').
  { destruct (m_cFeatureCombinations st =? 0); cbn [negb] in Hfcs.
    - injection Hfcs as <-. reflexivity.
    - apply bind_Done in Hfcs as (a & Ha & Hfcs). apply nonnull_Done in Ha.
      apply bind_Done in Hfcs as (a' & Ha' & Hfcs).
      injection Hfcs as <-. eauto. }
  assert (Ht : if cTrainingCases =? 0
               then ts = m_pTrainingSet st /\ sets = m_apSamplingSets st
               else exists d a,
                   DataSetByFeatureCombination_new true
                     (negb (m_bRegression st)) (negb (m_bRegression st))
                     (m_cFeatureCombinations st) fcs' cTrainingCases
                     aTrainingData aTrainingTargets aTrainingPredictionScores
                     V = Some d
                   /\ ts = Some d
                   /\ GenerateSamplingSets rs (Some d) (m_cSamplingSets st)
                      = Some a
                   /\ sets = Some a).
  { destruct (cTrainingCases =? 0); cbn [negb] in Hts, Hsets.
    - injection Hts as <-. injection Hsets as <-. split; reflexivity.
    - apply bind_Done in Hts as (d & Hd & Hts). apply nonnull_Done in Hd.
      injection Hts as <-.
      apply bind_Done in Hsets as (a & Ha & Hsets). apply nonnull_Done in Ha.
      injection Hsets as <-. eauto 10. }
  assert (Hv : if cValidationCases =? 0 then vs = m_pValidationSet st
               else exists d,
                   DataSetByFeatureCombination_new (m_bRegression st)
                     (negb (m_bRegression st)) (negb (m_bRegression st))
                     (m_cFeatureCombinations st) fcs' cValidationCases
                     aValidationData aValidationTargets
                     aValidationPredictionScores V = Some d
                   /\ vs = Some d).
  { destruct (cValidationCases =? 0); cbn [negb] in Hvs.
    - injection Hvs as <-. reflexivity.
    - apply bind_Done in Hvs as (d & Hd & Hvs). apply nonnull_Done in Hd.
      injection Hvs as <-. eauto. }
  assert (Hm : if negb (m_cFeatureCombinations st =? 0)
                  && (m_bRegression st || (2 <=? m_cTargetStates st))
               then exists a c b,
                   fcs' = Some a
                   /\ InitializeSegmentedTensors (m_cFeatureCombinations st)
                        a V = Done c
                   /\ InitializeSegmentedTensors (m_cFeatureCombinations st)
                        a V = Done b
                   /\ cur = Some c /\ best = Some b
               else cur = m_apCurrentModel st /\ best = m_apBestModel st).
  { destruct (negb (m_cFeatureCombinations st =? 0)
              && (m_bRegression st || (2 <=? m_cTargetStates st))).
    - apply bind_Done in Hmodels as (a & Ha & Hmodels).
      destruct fcs' as [a0|]; [|discriminate]. injection Ha as ->.
      apply bind_Done in Hmodels as (c & Hc' & Hmodels).
      apply bind_Done in Hmodels as (b & Hb & Hmodels).
      injection Hmodels as <- <-. eauto 10.
    - injection Hmodels as <- <-. split; reflexivity. }
  clear Hfeatures Hfcs Hts Hvs Hsets Hmodels.
  assert (Hst : m_aFeatures st' = features'
                /\ m_apFeatureCombinations st' = fcs'
                /\ m_apSamplingSets st' = sets
                /\ m_apCurrentModel st' = cur
                /\ m_apBestModel st' = best
                /\ m_bRegression st' = m_bRegression st
                /\ m_cTargetStates st' = m_cTargetStates st
                /\ m_cFeatureCombinations st' = m_cFeatureCombinations st
                /\ m_cSamplingSets st' = m_cSamplingSets st
                /\ m_bestModelMetric st' = m_bestModelMetric st
                /\ m_cFeaturesOfState st' = m_cFeaturesOfState st
                /\ m_pSmallChangeToModelOverwriteSingleSamplingSet st'
                   = m_pSmallChangeToModelOverwriteSingleSamplingSet st
                /\ m_pSmallChangeToModelAccumulatedFromSamplingSets st'
                   = m_pSmallChangeToModelAccumulatedFromSamplingSets st).
  { destruct (m_bRegression st); [|destruct (m_cTargetStates st =? 2)];
      injection Hrun as <-; repeat split; reflexivity. }
  destruct Hst as (-> & -> & -> & -> & -> & Hst).
  split; [tauto|]. split; [reflexivity|].
  split; [rewrite How; eauto|]. split; [rewrite Hacc; eauto|].
  split; [exact Hf|]. split; [exact Hc|].
  split.
  { destruct (cTrainingCases =? 0).
    - destruct Ht as (-> & ->). split; [|reflexivity].
      destruct (m_bRegression st); [|destruct (m_cTargetStates st =? 2)];
        injection Hrun as <-; reflexivity.
    - destruct Ht as (d & a & Hd & -> & Ha & ->).
      exists d, rs, a. split; [exact Hd|]. split; [|auto].
      destruct (m_bRegression st); [|destruct (m_cTargetStates st =? 2)];
        injection Hrun as <-; reflexivity. }
  split.
  { destruct (cValidationCases =? 0).
    - subst vs.
      destruct (m_bRegression st); [|destruct (m_cTargetStates st =? 2)];
        injection Hrun as <-; reflexivity.
    - destruct Hv as (d & Hd & ->). exists d. split; [exact Hd|].
      destruct (m_bRegression st); [|destruct (m_cTargetStates st =? 2)];
        injection Hrun as <-; reflexivity. }
  exact Hm.
Qed.

Lemma AllocateCore_inv (bRegression : bool) (randomSeed countFeatures : Z)
    (features : list EbmCoreFeature) (countFeatureCombinations : Z)
    (featureCombinations : list EbmCoreFeatureCombination)
    (featureCombinationIndexes : list Z)
    (countTargetStates countTrainingCases : Z)
    (trainingTargets : option Targets) (trainingData : option (list Z))
    (trainingPredictionScores : option (list spec_float))
    (countValidationCases : Z)
    (validationTargets : option Targets) (validationData : option (list Z))
    (validationPredictionScores : option (list spec_float))
    (countInnerBags : Z) (st : EbmTrainingState) :
  AllocateCore bRegression randomSeed countFeatures features
    countFeatureCombinations featureCombinations featureCombinationIndexes
    countTargetStates countTrainingCases trainingTargets trainingData
    trainingPredictionScores countValidationCases validationTargets
    validationData validationPredictionScores countInnerBags = Done st ->
  (0 <= countFeatures /\ 0 <= countFeatureCombinations
   /\ 0 <= countTargetStates /\ 0 <= countTrainingCases
   /\ 0 <= countValidationCases /\ 0 <= countInnerBags)
  /\ IsMultiplyError (GetVectorLengthFlatCore countTargetStates)
       countTrainingCases = false
  /\ IsMultiplyError (GetVectorLengthFlatCore countTargetStates)
       countValidationCases = false
  /\ Initialize
       (EbmTrainingState_new bRegression countTargetStates countFeatures
          countFeatureCombinations countInnerBags)
       randomSeed features featureCombinations featureCombinationIndexes
       countTrainingCases trainingTargets trainingData
       trainingPredictionScores countValidationCases validationTargets
       validationData validationPredictionScores = Done st.
Proof.
  unfold AllocateCore, IsNumberConvertable_size_t.
  repeat match goal with
         | |- context [(0 <=? ?c) && _] =>
             destruct (Z.leb_spec 0 c); cbn [andb negb]; [|discriminate];
             destruct (_ <=? size_t_max); cbn [negb]; [|discriminate]
         end.
  cbv zeta.
  destruct (IsMultiplyError _ countTrainingCases); [discriminate|].
  destruct (IsMultiplyError _ countValidationCases); [discriminate|].
  destruct (new_EbmTrainingState _ _ _ _ _); [|discriminate].
  cbn [negb]. intros Hrun. repeat split; try assumption.
Qed.

Section Creation.
Variable bRegression : bool.
Variables randomSeed countFeatures : Z.
Variable features : list EbmCoreFeature.
Variable countFeatureCombinations : Z.
Variable featureCombinations : list EbmCoreFeatureCombination.
Variable featureCombinationIndexes : list Z.
Variables countTargetStates countTrainingCases : Z.
Variable trainingTargets : option Targets.
Variable trainingData : option (list Z).
Variable trainingPredictionScores : option (list spec_float).
Variable countValidationCases : Z.
Variable validationTargets : option Targets.
Variable validationData : option (list Z).
Variable validationPredictionScores : option (list spec_float).
Variable countInnerBags : Z.

Local Abbreviation created :=
  (AllocateCore bRegression randomSeed countFeatures features
     countFeatureCombinations featureCombinations featureCombinationIndexes
     countTargetStates countTrainingCases trainingTargets trainingData
     trainingPredictionScores countValidationCases validationTargets
     validationData validationPredictionScores countInnerBags).

(** X17.  [AllocateCore] (and so [InitializeTrainingRegression] and
    [InitializeTrainingClassification]) returns [nullptr], before it reads
    any of the arrays of its caller, when one of its counts is negative,
    when the cached thread resources are in error, or when the constructor
    of the state could not allocate a scratch tensor, the feature array or
    the array of feature combinations. *)
Theorem allocate_core_fails_before_reading :
  countFeatures < 0 \/ countFeatureCombinations < 0 \/ countTargetStates < 0
  \/ countTrainingCases < 0 \/ countValidationCases < 0
  \/ countInnerBags < 0
  \/ CachedTrainingThreadResources_IsError bRegression
       (GetVectorLengthFlatCore countTargetStates) = true
  \/ Allocate k_cDimensionsMax (GetVectorLengthFlatCore countTargetStates)
     = None
  \/ (countFeatures <> 0 /\ malloc_Features countFeatures = None)
  \/ (countFeatureCombinations <> 0
      /\ AllocateFeatureCombinations countFeatureCombinations = None) ->
  created = Failed.
Proof.
  intros Hcause. unfold AllocateCore, IsNumberConvertable_size_t.
  repeat match goal with
         | |- context [(0 <=? ?c) && _] =>
             destruct (Z.leb_spec 0 c); cbn [andb negb]; [|reflexivity];
             destruct (_ <=? size_t_max); cbn [negb]; [|reflexivity]
         end.
  cbv zeta.
  destruct (IsMultiplyError _ countTrainingCases); [reflexivity|].
  destruct (IsMultiplyError _ countValidationCases); [reflexivity|].
  destruct (new_EbmTrainingState _ _ _ _ _); [|reflexivity].
  cbn [negb]. unfold Initialize.
  cbn [EbmTrainingState_new m_bRegression m_cTargetStates m_cFeaturesOfState
       m_aFeatures m_cFeatureCombinations m_apFeatureCombinations
       m_pSmallChangeToModelOverwriteSingleSamplingSet
       m_pSmallChangeToModelAccumulatedFromSamplingSets].
  destruct (CachedTrainingThreadResources_IsError _ _) eqn:Hcached;
    [reflexivity|].
  destruct (Z.eqb_spec countFeatures 0) as [Hf|Hf]; cbn [negb andb].
  - destruct (Z.eqb_spec countFeatureCombinations 0) as [Hc|Hc];
      cbn [negb andb].
    + destruct (Allocate _ _) eqn:Hal; [|reflexivity].
      exfalso. intuition (try lia; try congruence).
    + destruct (AllocateFeatureCombinations _) eqn:Hfc.
      * rewrite bool_decide_eq_false_2 by discriminate.
        destruct (Allocate _ _) eqn:Hal; [|reflexivity].
        exfalso. intuition (try lia; try congruence).
      * rewrite bool_decide_eq_true_2 by reflexivity. reflexivity.
  - destruct (malloc_Features _) eqn:Hmf.
    + rewrite bool_decide_eq_false_2 by discriminate.
      destruct (Z.eqb_spec countFeatureCombinations 0) as [Hc|Hc];
        cbn [negb andb].
      * destruct (Allocate _ _) eqn:Hal; [|reflexivity].
        exfalso. intuition (try lia; try congruence).
      * destruct (AllocateFeatureCombinations _) eqn:Hfc.
        -- rewrite bool_decide_eq_false_2 by discriminate.
           destruct (Allocate _ _) eqn:Hal; [|reflexivity].
           exfalso. intuition (try lia; try congruence).
        -- rewrite bool_decide_eq_true_2 by reflexivity. reflexivity.
    + rewrite bool_decide_eq_true_2 by reflexivity. reflexivity.
Qed.

(** X18.  The state a successful [AllocateCore] returns: it records the
    learning type and the counts of the call, its best metric is
    [+infinity], both scratch tensors exist, and it has a training set
    exactly when there are training cases, sampling sets exactly when it
    has a training set, and a validation set exactly when there are
    validation cases. *)
Theorem created_state_shape (st : EbmTrainingState) :
  created = Done st ->
  m_bRegression st = bRegression
  /\ m_cTargetStates st = countTargetStates
  /\ m_cFeaturesOfState st = countFeatures
  /\ m_cFeatureCombinations st = countFeatureCombinations
  /\ m_cSamplingSets st = countInnerBags
  /\ m_bestModelMetric st = finfinity
  /\ is_Some (m_pSmallChangeToModelOverwriteSingleSamplingSet st)
  /\ is_Some (m_pSmallChangeToModelAccumulatedFromSamplingSets st)
  /\ (m_pTrainingSet st = None <-> countTrainingCases = 0)
  /\ (m_apSamplingSets st = None <-> m_pTrainingSet st = None)
  /\ (m_pValidationSet st = None <-> countValidationCases = 0).
Proof.
  intros Hrun. apply AllocateCore_inv in Hrun as (_ & _ & _ & Hrun).
  apply Initialize_inv in Hrun.
  cbv zeta in Hrun.
  destruct Hrun as ((Hr & Ht & Hc & Hs & Hb & Hf & How & Hacc) & _ & Hs1 & Hs2
                    & _ & _ & Htrain & Hval & _).
  cbn [EbmTrainingState_new m_bRegression m_cTargetStates m_cFeaturesOfState
       m_cFeatureCombinations m_cSamplingSets m_bestModelMetric
       m_pTrainingSet m_pValidationSet m_apSamplingSets] in *.
  rewrite <- How in Hs1. rewrite <- Hacc in Hs2.
  repeat (split; [assumption|]).
  destruct (Z.eqb_spec countTrainingCases 0) as [Hz|Hnz].
  - destruct Htrain as (-> & ->).
    split; [tauto|]. split; [tauto|].
    destruct (Z.eqb_spec countValidationCases 0) as [Hvz|Hvnz].
    + rewrite Hval. tauto.
    + destruct Hval as (d & _ & ->). split; [discriminate|tauto].
  - destruct Htrain as (d & rs & sets & _ & -> & _ & _ & ->).
    split; [split; [discriminate|tauto]|].
    split; [split; discriminate|].
    destruct (Z.eqb_spec countValidationCases 0) as [Hvz|Hvnz].
    + rewrite Hval. tauto.
    + destruct Hval as (d' & _ & ->). split; [discriminate|tauto].
Qed.

(** The models of a created state. *)
Lemma created_models_inv (st : EbmTrainingState) :
  created = Done st ->
  if (countFeatureCombinations =? 0)
     || (negb bRegression && (countTargetStates <? 2))
  then m_apCurrentModel st = None /\ m_apBestModel st = None
  else
    exists fcs tensors,
      m_apFeatureCombinations st = Some fcs
      /\ m_apCurrentModel st = Some tensors
      /\ m_apBestModel st = Some tensors
      /\ length tensors = Z.to_nat countFeatureCombinations
      /\ forall i, (i < Z.to_nat countFeatureCombinations)%nat ->
           exists fc t,
             fcs !! i = Some fc
             /\ Allocate (m_cFeatures fc)
                  (GetVectorLengthFlatCore countTargetStates) = Some t
             /\ if m_cFeatures fc =? 0
                then tensors !! i = Some (set_bExpanded t true)
                else
                  (Expand t (DivisionIntegersEnd fc (m_cFeatures fc))).1
                  = false
                  /\ tensors !! i
                     = Some (Expand t
                               (DivisionIntegersEnd fc (m_cFeatures fc))).2.
Proof.
  intros Hrun. apply AllocateCore_inv in Hrun as (_ & _ & _ & Hrun).
  apply Initialize_inv in Hrun. cbv zeta in Hrun.
  destruct Hrun as (_ & _ & _ & _ & _ & _ & _ & _ & Hmodels).
  unfold HasModels in Hmodels.
  cbn [EbmTrainingState_new m_bRegression m_cTargetStates
       m_cFeatureCombinations m_apCurrentModel m_apBestModel] in Hmodels.
  destruct (countFeatureCombinations =? 0); cbn [negb andb orb] in *;
    [exact Hmodels|].
  destruct bRegression; cbn [negb andb orb] in *.
  - destruct Hmodels as (fcs & cur & best & Hfcs & Hcur & Hbest & -> & ->).
    rewrite Hcur in Hbest. injection Hbest as <-.
    unfold InitializeSegmentedTensors in Hcur.
    destruct (new_SegmentedTensorPointers _); [|discriminate].
    cbn [negb] in Hcur.
    apply InitializeSegmentedTensorsLoop_inv in Hcur
      as (new & -> & Hlen & Hnew); [|lia].
    exists fcs, new. cbn [app]. repeat split; try assumption.
  - destruct (Z.ltb_spec countTargetStates 2) as [Hlt|Hge];
      destruct (Z.leb_spec 2 countTargetStates) as [Hle|Hgt]; try lia;
      [exact Hmodels|].
    destruct Hmodels as (fcs & cur & best & Hfcs & Hcur & Hbest & -> & ->).
    rewrite Hcur in Hbest. injection Hbest as <-.
    unfold InitializeSegmentedTensors in Hcur.
    destruct (new_SegmentedTensorPointers _); [|discriminate].
    cbn [negb] in Hcur.
    apply InitializeSegmentedTensorsLoop_inv in Hcur
      as (new & -> & Hlen & Hnew); [|lia].
    exists fcs, new. cbn [app]. repeat split; try assumption.
Qed.

(** The feature combinations of a created state, in terms of the bins of
    the features the caller passed. *)
Lemma created_combination_built (st : EbmTrainingState) (i : nat) :
  AllocationLaws ->
  created = Done st ->
  (i < Z.to_nat countFeatureCombinations)%nat ->
  Forall (fun k => k < countFeatures)
    (CombinationIndexes featureCombinations featureCombinationIndexes i) ->
  let indexes :=
    CombinationIndexes featureCombinations featureCombinationIndexes i in
  let bins := filter (fun c => 1 < c) (BinsAt features indexes) in
  exists fc,
    (forall fcs, m_apFeatureCombinations st = Some fcs ->
       (i < length fcs)%nat -> fcs !! i = Some fc)
    /\ length (BinsAt features indexes) = length indexes
    /\ m_cStates <$> m_FeatureCombinationEntry fc = bins
    /\ m_cFeatures fc = Z.of_nat (length bins)
    /\ m_iInputData fc = Z.of_nat i
    /\ (bins <> [] ->
        Z.of_nat (length bins) <= k_cDimensionsMax
        /\ m_cItemsPerBitPackDataUnit fc
           = GetCountItemsBitPacked
               (CountBitsRequiredCore
                  (fold_left (fun c b => (c * b) mod 2 ^ 64) bins 1 - 1))).
Proof.
  intros Hlaws Hrun Hi Hbound.
  apply AllocateCore_inv in Hrun as (Hcounts & _ & _ & Hrun).
  apply Initialize_inv in Hrun. cbv zeta in Hrun.
  destruct Hrun as (_ & _ & _ & _ & Hfeat & Hcomb & _).
  cbn [EbmTrainingState_new m_cFeaturesOfState m_aFeatures
       m_cFeatureCombinations m_apFeatureCombinations] in Hfeat, Hcomb.
  destruct (Z.eqb_spec countFeatureCombinations 0) as [Hz|Hnz]; [lia|].
  destruct Hcomb as (a & a' & _ & Hloop & Ha').
  apply InitializeFeatureCombinations_inv in Hloop
    as (Hlen & _ & Hin); [|lia|reflexivity|reflexivity].
  destruct (Hin i) as (interop & fc & Hint & Hoff & Hbuild & Hstored).
  { change (Z.to_nat 0) with 0%nat. unfold do_while_count. lia. }
  exists fc. split.
  { intros fcs Hfcs Hlt. rewrite Hfcs in Ha'. injection Ha' as ->.
    apply Hstored. lia. }
  apply (InitializeFeatureCombination_inv _ _ _ _ _ _ Hlaws Hoff) in Hbuild.
  cbv zeta in Hbuild |- *.
  unfold CombinationIndexes in Hbound |- *. rewrite Hint in Hbound |- *.
  set (indexes := IndexesFrom featureCombinationIndexes _ _) in *.
  destruct Hbuild as (_ & Hli & Hnamed & Hpos & Hmax & Hcf & Hid & Hent & Hbits).
  assert (Hpt : forall k, k ∈ indexes ->
            m_cStates <$> (default [] (m_aFeatures st) !! Z.to_nat k)
            = countBins <$> features !! Z.to_nat k).
  { intros k Hk.
    assert (Hk0 : 0 <= k) by (rewrite Forall_forall in Hpos; auto).
    assert (Hk1 : k < countFeatures) by (rewrite Forall_forall in Hbound; auto).
    assert (Hall : length (omap (fun k => default [] (m_aFeatures st)
                                              !! Z.to_nat k) indexes)
                   = length indexes).
    { change (length (FeaturesAt (m_aFeatures st) indexes) = length indexes).
      lia. }
    destruct (omap_length_all _ indexes Hall k Hk) as [f Hf].
    destruct (Z.eqb_spec countFeatures 0) as [|Hcf0]; [lia|].
    destruct Hfeat as (b & b' & _ & Hfl & Hb').
    rewrite Hb' in Hf |- *.
    change (default [] (Some b')) with b' in Hf |- *.
    apply InitializeFeatures_inv in Hfl as (Hblen & _ & Hbin); [|lia].
    destruct (Hbin (Z.to_nat k)) as (f0 & Hf0 & _ & Hnew).
    { change (Z.to_nat 0) with 0%nat. unfold do_while_count. lia. }
    rewrite Hf0.
    rewrite Hnew by (rewrite <- Hblen; apply lookup_lt_is_Some; eauto).
    cbn. f_equal. apply (proj2 Hlaws). }
  assert (Hstates : m_cStates <$> FeaturesAt (m_aFeatures st) indexes
                    = BinsAt features indexes).
  { unfold FeaturesAt, BinsAt. apply omap_fmap_pointwise. exact Hpt. }
  assert (Hsig : m_cStates <$> Significant (FeaturesAt (m_aFeatures st) indexes)
                 = filter (fun c => 1 < c) (BinsAt features indexes)).
  { unfold Significant. rewrite filter_fmap_states, Hstates. reflexivity. }
  set (sig := Significant _) in *.
  set (bins := filter _ (BinsAt features indexes)) in *.
  assert (Hlb : length bins = length sig)
    by (rewrite <- Hsig, length_fmap; reflexivity).
  split; [rewrite <- Hstates, length_fmap; lia|].
  split; [rewrite Hent; exact Hsig|].
  split; [rewrite Hcf, Hlb; reflexivity|].
  split; [exact Hid|].
  intros Hne.
  assert (Hsne : sig <> [])
    by (intros Hs; apply Hne; rewrite <- Hsig, Hs; reflexivity).
  split; [rewrite Hlb; apply Hmax, Hsne|].
  rewrite (Hbits Hsne). unfold TensorStates.
  rewrite (fold_left_fmap_states (fun c b => (c * b) mod 2 ^ 64)), Hsig.
  reflexivity.
Qed.

(** X19.  The models of a state [AllocateCore] returns.  Without feature
    combinations, or for a classification with fewer than two classes,
    there are none, and both accessors return [nullptr].  Otherwise both
    models hold one tensor for every feature combination, the arrays the
    drivers index with a combination index below the count exist, and
    [GetBestModelFeatureCombination] returns the same values as
    [GetCurrentModelFeatureCombination]. *)
Theorem created_state_models (st : EbmTrainingState) :
  created = Done st ->
  if (countFeatureCombinations =? 0)
     || (negb bRegression && (countTargetStates <? 2))
  then
    forall i,
      GetCurrentModelFeatureCombination st i = Some None
      /\ GetBestModelFeatureCombination st i = Some None
  else
    exists fcs apCurrentModel apBestModel,
      m_apFeatureCombinations st = Some fcs
      /\ m_apCurrentModel st = Some apCurrentModel
      /\ m_apBestModel st = Some apBestModel
      /\ length apCurrentModel = Z.to_nat countFeatureCombinations
      /\ length apBestModel = Z.to_nat countFeatureCombinations
      /\ forall i, 0 <= i < countFeatureCombinations ->
           is_Some (fcs !! Z.to_nat i)
           /\ exists values,
                GetCurrentModelFeatureCombination st i = Some (Some values)
                /\ GetBestModelFeatureCombination st i = Some (Some values).
Proof.
  intros Hrun. apply created_models_inv in Hrun.
  destruct ((countFeatureCombinations =? 0)
            || (negb bRegression && (countTargetStates <? 2))).
  - destruct Hrun as (Hcur & Hbest). intros i.
    unfold GetCurrentModelFeatureCombination, GetBestModelFeatureCombination.
    rewrite Hcur, Hbest. split; reflexivity.
  - destruct Hrun as (fcs & tensors & Hfcs & Hcur & Hbest & Hlen & Hall).
    exists fcs, tensors, tensors. repeat (split; [assumption|]).
    intros i Hi.
    destruct (Hall (Z.to_nat i) ltac:(lia)) as (fc & t & Hfc & _ & Ht).
    split; [eauto|].
    unfold GetCurrentModelFeatureCombination, GetBestModelFeatureCombination.
    rewrite Hcur, Hbest.
    destruct (lookup_lt_is_Some_2 tensors (Z.to_nat i) ltac:(lia))
      as [tensor ->].
    eexists. split; reflexivity.
Qed.

(** X20.  Every feature combination of a state [AllocateCore] returns
    holds the features with more than one bin among those its indexes
    name, in the order of the indexes, and no other: the state counts of
    its entries are the bin counts above one, its dimension count is their
    number (at most [k_cDimensionsMax]), and its items per storage word
    come from the product of these counts. *)
Theorem created_combination_holds_significant_features
    (st : EbmTrainingState) (i : nat)
    (fcs : list FeatureCombination) (fc : FeatureCombination) :
  AllocationLaws ->
  created = Done st ->
  m_apFeatureCombinations st = Some fcs ->
  (i < Z.to_nat countFeatureCombinations)%nat ->
  fcs !! i = Some fc ->
  Forall (fun k => k < countFeatures)
    (CombinationIndexes featureCombinations featureCombinationIndexes i) ->
  let indexes :=
    CombinationIndexes featureCombinations featureCombinationIndexes i in
  let bins := filter (fun c => 1 < c) (BinsAt features indexes) in
  length (BinsAt features indexes) = length indexes
  /\ m_cStates <$> m_FeatureCombinationEntry fc = bins
  /\ m_cFeatures fc = Z.of_nat (length bins)
  /\ m_iInputData fc = Z.of_nat i
  /\ (bins <> [] ->
      Z.of_nat (length bins) <= k_cDimensionsMax
      /\ m_cItemsPerBitPackDataUnit fc
         = GetCountItemsBitPacked
             (CountBitsRequiredCore
                (fold_left (fun c b => (c * b) mod 2 ^ 64) bins 1 - 1))).
Proof.
  intros Hlaws Hrun Hfcs Hi Hfc Hbound.
  destruct (created_combination_built st i Hlaws Hrun Hi Hbound)
    as (fc' & Hstored & Hfacts).
  rewrite (Hstored fcs Hfcs) in Hfc
    by (apply lookup_lt_is_Some; eauto).
  injection Hfc as <-. exact Hfacts.
Qed.

(** X21.  The tensor a state [AllocateCore] returns holds for a feature
    combination, in the current and in the best model: a tensor allocated
    with as many dimensions as the combination names features with more
    than one bin, expanded to the bin counts of these features, or marked
    expanded as it is when there is no such feature. *)
Theorem created_model_tensor_is_expanded_to_bins (st : EbmTrainingState)
    (i : Z) :
  AllocationLaws ->
  created = Done st ->
  (countFeatureCombinations =? 0)
  || (negb bRegression && (countTargetStates <? 2)) = false ->
  0 <= i < countFeatureCombinations ->
  Forall (fun k => k < countFeatures)
    (CombinationIndexes featureCombinations featureCombinationIndexes
       (Z.to_nat i)) ->
  let bins :=
    filter (fun c => 1 < c)
      (BinsAt features
         (CombinationIndexes featureCombinations featureCombinationIndexes
            (Z.to_nat i))) in
  exists t,
    Allocate (Z.of_nat (length bins))
      (GetVectorLengthFlatCore countTargetStates) = Some t
    /\ let tensor :=
         if decide (bins = []) then set_bExpanded t true
         else (Expand t bins).2 in
       (bins <> [] -> (Expand t bins).1 = false)
       /\ GetCurrentModelFeatureCombination st i
          = Some (Some (m_aValues tensor))
       /\ GetBestModelFeatureCombination st i
          = Some (Some (m_aValues tensor)).
Proof.
  intros Hlaws Hrun Hmodels Hi Hbound.
  pose proof (created_models_inv st Hrun) as Hinv. rewrite Hmodels in Hinv.
  destruct Hinv as (fcs & tensors & Hfcs & Hcur & Hbest & Hlen & Hall).
  destruct (Hall (Z.to_nat i) ltac:(lia)) as (fc & t & Hfc & Ht & Htensor).
  destruct (created_combination_built st (Z.to_nat i) Hlaws Hrun ltac:(lia)
              Hbound) as (fc' & Hstored & Hcomb).
  rewrite (Hstored fcs Hfcs) in Hfc by (apply lookup_lt_is_Some; eauto).
  injection Hfc as ->.
  cbv zeta in Hcomb |- *.
  set (bins := filter _ (BinsAt features _)) in *.
  destruct Hcomb as (_ & Hstates & Hcf & _ & _).
  exists t. rewrite <- Hcf. split; [exact Ht|].
  unfold GetCurrentModelFeatureCombination, GetBestModelFeatureCombination.
  rewrite Hcur, Hbest.
  destruct (decide (bins = [])) as [Hnil|Hne].
  - rewrite Hnil in Hcf. cbn in Hcf. rewrite Hcf in Htensor.
    cbn in Htensor. rewrite Htensor.
    split; [intros Hc; exfalso; apply Hc; exact Hnil|].
    split; reflexivity.
  - assert (Hpos : (0 < length bins)%nat).
    { destruct bins; [congruence|cbn; lia]. }
    assert (Hdiv : DivisionIntegersEnd fc (m_cFeatures fc) = bins).
    { unfold DivisionIntegersEnd. rewrite <- Hstates.
      replace (do_while_count (m_cFeatures fc))
        with (length (m_FeatureCombinationEntry fc)).
      - apply fmap_load_seq.
      - unfold do_while_count. rewrite Hcf, <- Hstates, length_fmap.
        rewrite <- Hstates, length_fmap in Hpos. lia. }
    destruct (Z.eqb_spec (m_cFeatures fc) 0) as [Hz|_]; [lia|].
    rewrite Hdiv in Htensor. destruct Htensor as (Herr & ->).
    split; [intros _; exact Herr|]. split; reflexivity.
Qed.

(** X22.  [AllocateCore] never returns a state when one of the feature
    combinations names more than [k_cDimensionsMax] features with more than
    one bin. *)
Theorem creation_fails_beyond_dimension_limit (i : nat)
    (st : EbmTrainingState) :
  AllocationLaws ->
  0 <= k_cDimensionsMax ->
  (i < Z.to_nat countFeatureCombinations)%nat ->
  Forall (fun k => k < countFeatures)
    (CombinationIndexes featureCombinations featureCombinationIndexes i) ->
  k_cDimensionsMax
  < Z.of_nat
      (length
         (filter (fun c => 1 < c)
            (BinsAt features
               (CombinationIndexes featureCombinations
                  featureCombinationIndexes i)))) ->
  created <> Done st.
Proof.
  intros Hlaws Hk Hi Hbound Hmany Hrun.
  destruct (created_combination_built st i Hlaws Hrun Hi Hbound)
    as (fc & _ & _ & _ & _ & _ & Hmax).
  cbv zeta in Hmax.
  set (bins := filter _ (BinsAt features _)) in *.
  assert (Hne : bins <> []).
  { intros Hnil. rewrite Hnil in Hmany. cbn in Hmany. lia. }
  destruct (Hmax Hne) as (Hle & _). lia.
Qed.
End Creation.

(** X23.  A classification with at most one class, from its creation on:
    the state [InitializeTrainingClassification] returns has no models,
    both accessors return [nullptr] for every index, update generation
    returns [nullptr] with gain zero, and the training step returns status
    0 with metric zero and leaves the state as it is. *)
Theorem one_class_classification_from_creation `{EbmStatistics}
    (randomSeed countFeatures : Z)
    (features : list EbmCoreFeature) (countFeatureCombinations : Z)
    (featureCombinations : list EbmCoreFeatureCombination)
    (featureCombinationIndexes : list Z)
    (countTargetStates countTrainingCases : Z)
    (trainingTargets : option (list Z)) (trainingData : option (list Z))
    (trainingPredictionScores : option (list spec_float))
    (countValidationCases : Z)
    (validationTargets : option (list Z)) (validationData : option (list Z))
    (validationPredictionScores : option (list spec_float))
    (countInnerBags : Z) (st : EbmTrainingState) :
  countTargetStates <= 1 ->
  InitializeTrainingClassification randomSeed countFeatures features
    countFeatureCombinations featureCombinations featureCombinationIndexes
    countTargetStates countTrainingCases trainingTargets trainingData
    trainingPredictionScores countValidationCases validationTargets
    validationData validationPredictionScores countInnerBags = Done st ->
  (forall i,
     GetCurrentModelFeatureCombination st i = Some None
     /\ GetBestModelFeatureCombination st i = Some None)
  /\ (forall c learningRate cSplits cCasesMin gainReturn,
        GenerateModelFeatureCombinationUpdate st c learningRate cSplits
          cCasesMin gainReturn
        = Some (st, None, assign gainReturn fzero))
  /\ (forall c learningRate cSplits cCasesMin validationMetricReturn,
        TrainingStep st c learningRate cSplits cCasesMin
          validationMetricReturn
        = Some (st, 0, assign validationMetricReturn fzero)).
Proof.
  intros Hone Hrun. unfold InitializeTrainingClassification in Hrun.
  pose proof (created_models_inv _ _ _ _ _ _ _ _ _ _ _ _ _ _ _ _ _ _ Hrun)
    as Hmodels.
  apply AllocateCore_inv in Hrun as (_ & _ & _ & Hrun).
  apply Initialize_inv in Hrun. cbv zeta in Hrun.
  destruct Hrun as ((Hr & Ht & _) & _).
  cbn [EbmTrainingState_new m_bRegression m_cTargetStates] in Hr, Ht.
  cbn [negb andb] in Hmodels.
  destruct (Z.ltb_spec countTargetStates 2) as [_|]; [|lia].
  rewrite orb_true_r in Hmodels. destruct Hmodels as (Hcur & Hbest).
  assert (Hle : (m_cTargetStates st <=? 1) = true)
    by (rewrite Ht; apply Z.leb_le; exact Hone).
  split; [|split].
  - intros i.
    unfold GetCurrentModelFeatureCombination, GetBestModelFeatureCombination.
    rewrite Hcur, Hbest. split; reflexivity.
  - intros. unfold GenerateModelFeatureCombinationUpdate.
    rewrite Hr, Hle. reflexivity.
  - intros. unfold TrainingStep. rewrite Hr, Hle. reflexivity.
Qed.
End InitializeProperties.

(** ** The creation of the example states *)

Lemma Example_allocation_laws :
  @AllocationLaws Example.tensors Example.learners Example.initializers.
Proof.
  split.
  - intros c i fc Hfc. cbn in Hfc. injection Hfc as <-. cbn.
    rewrite length_replicate. repeat split; reflexivity.
  - intros. reflexivity.
Qed.

(** The feature combinations, the features and the first tensor of the
    current model of [Example.created_regression]: the combination of the
    two features holds the one with four bins only. *)
Example created_regression_example :
  match Example.created_regression with
  | Done st =>
      Some (m_apFeatureCombinations st, m_aFeatures st,
            @GetCurrentModelFeatureCombination Example.tensors
              Example.learners st 0)
  | _ => None
  end
  = Some (Some [ {| m_cFeatures := 1; m_iInputData := 0;
                    m_cItemsPerBitPackDataUnit := 32;
                    m_FeatureCombinationEntry := [ {| m_cStates := 4 |} ] |};
                 {| m_cFeatures := 0; m_iInputData := 1;
                    m_cItemsPerBitPackDataUnit := 0;
                    m_FeatureCombinationEntry := [] |} ],
          Some [ {| m_cStates := 4 |}; {| m_cStates := 1 |} ],
          Some (Some [fzero])).
Proof. vm_compute. reflexivity. Qed.

(** [Example.created_one_class]: the class count, and the training set
    the stand-in constructor builds. *)
Example created_one_class_example :
  match Example.created_one_class with
  | Done st => Some (m_cTargetStates st, m_pTrainingSet st)
  | _ => None
  end
  = Some (1, Some {| m_cCases := 2;
                     m_aResidualErrors := [fzero; fzero];
                     m_aPredictionScores := [fzero; fzero];
                     m_aTargetData := [0; 0];
                     m_aaInputData := [pack 32 2 [1; 3]; pack 32 2 [1; 3]] |}).
Proof. vm_compute. reflexivity. Qed.

Lemma allocate_core_fails_before_reading_witness :
  @AllocateCore Example.config Example.tensors Example.learners
    Example.array_allocators Example.initializers
    true 7 2 [] (-1) [] [] 0 5 None None None 3 None None None 0
  = Failed.
Proof.
  apply (@allocate_core_fails_before_reading Example.config Example.tensors
           Example.learners Example.array_allocators Example.initializers
           true 7 2 [] (-1) [] [] 0 5 None None None 3 None None None 0).
  right. left. lia.
Defined.

Lemma created_state_shape_witness :
  match Example.created_regression with
  | Done st =>
      m_bRegression st = true
      /\ m_cTargetStates st = 0
      /\ m_bestModelMetric st = finfinity
      /\ m_pTrainingSet st <> None
      /\ m_apSamplingSets st <> None
      /\ m_pValidationSet st <> None
  | _ => False
  end.
Proof.
  pose proof created_regression_example as Hex.
  destruct Example.created_regression as [| |st] eqn:Hrun;
    try discriminate Hex.
  destruct (@created_state_shape Example.config Example.tensors
              Example.learners Example.array_allocators
              Example.initializers _ _ _ _ _ _ _ _ _ _ _ _ _ _ _ _ _ st Hrun)
    as (Hr & Ht & _ & _ & _ & Hb & _ & _ & Hts & Hsets & Hvs).
  split; [exact Hr|]. split; [exact Ht|]. split; [exact Hb|].
  assert (Hts' : m_pTrainingSet st <> None) by (rewrite Hts; lia).
  split; [exact Hts'|]. split; [rewrite Hsets; exact Hts'|].
  rewrite Hvs. lia.
Defined.

Lemma created_state_models_witness :
  match Example.created_regression with
  | Done st =>
      exists values,
        @GetCurrentModelFeatureCombination Example.tensors Example.learners
          st 1 = Some (Some values)
        /\ @GetBestModelFeatureCombination Example.tensors Example.learners
             st 1 = Some (Some values)
  | _ => False
  end.
Proof.
  pose proof created_regression_example as Hex.
  destruct Example.created_regression as [| |st] eqn:Hrun;
    try discriminate Hex.
  pose proof (@created_state_models Example.config Example.tensors
                Example.learners Example.array_allocators
                Example.initializers _ _ _ _ _ _ _ _ _ _ _ _ _ _ _ _ _
                st Hrun) as Hmodels.
  cbn [Z.eqb negb andb orb] in Hmodels.
  destruct Hmodels as (fcs & cur & best & _ & _ & _ & _ & _ & Hall).
  destruct (Hall 1 ltac:(lia)) as (_ & Hvalues). exact Hvalues.
Defined.

Lemma created_combination_holds_significant_features_witness :
  match Example.created_regression with
  | Done st =>
      exists fc,
        m_apFeatureCombinations st ≫= (fun fcs => fcs !! 0%nat) = Some fc
        /\ m_cStates <$> m_FeatureCombinationEntry fc = [4]
        /\ m_cFeatures fc = 1
  | _ => False
  end.
Proof.
  pose proof created_regression_example as Hex.
  destruct Example.created_regression as [| |st] eqn:Hrun;
    try discriminate Hex.
  injection Hex as Hfcs _ _.
  eexists. rewrite Hfcs. split; [reflexivity|].
  destruct (@created_combination_holds_significant_features Example.config
              Example.tensors Example.learners Example.array_allocators
              Example.initializers _ _ _ _ _ _ _ _ _ _ _ _ _ _ _ _ _
              st 0%nat _ _ Example_allocation_laws Hrun Hfcs ltac:(cbn; lia)
              eq_refl)
    as (_ & Hstates & Hcf & _).
  - vm_compute. repeat constructor.
  - split; [exact Hstates|exact Hcf].
Defined.

Lemma created_model_tensor_is_expanded_to_bins_witness :
  match Example.created_regression with
  | Done st =>
      @GetCurrentModelFeatureCombination Example.tensors Example.learners st 0
      = Some (Some [fzero])
      /\ @GetBestModelFeatureCombination Example.tensors Example.learners st 0
         = Some (Some [fzero])
  | _ => False
  end.
Proof.
  pose proof created_regression_example as Hex.
  destruct Example.created_regression as [| |st] eqn:Hrun;
    try discriminate Hex.
  destruct (@created_model_tensor_is_expanded_to_bins Example.config
              Example.tensors Example.learners Example.array_allocators
              Example.initializers _ _ _ _ _ _ _ _ _ _ _ _ _ _ _ _ _
              st 0 Example_allocation_laws Hrun eq_refl ltac:(lia))
    as (t & Ht & _ & Hcur & Hbest).
  - vm_compute. repeat constructor.
  - cbn in Ht. injection Ht as <-. split; [exact Hcur|exact Hbest].
Defined.

Lemma one_class_classification_from_creation_witness :
  match Example.created_one_class with
  | Done st =>
      @GetCurrentModelFeatureCombination Example.tensors Example.learners st 0
      = Some None
      /\ @TrainingStep Example.config Example.statistics Example.tensors
           Example.learners st 0 Example.one 1 1 (Some Example.two)
         = Some (st, 0, Some fzero)
  | _ => False
  end.
Proof.
  pose proof created_one_class_example as Hex.
  destruct Example.created_one_class as [| |st] eqn:Hrun;
    try discriminate Hex.
  destruct (@one_class_classification_from_creation Example.config
              Example.tensors Example.learners Example.array_allocators
              Example.initializers Example.statistics
              _ _ _ _ _ _ 1 _ _ _ _ _ _ _ _ _ st ltac:(lia) Hrun)
    as (Hget & _ & Hstep).
  split; [apply Hget|apply Hstep].
Defined.

Lemma creation_fails_beyond_dimension_limit_witness :
  match Example.created_three_dimensions with
  | Done _ => False
  | _ => True
  end.
Proof.
  destruct Example.created_three_dimensions as [| |st] eqn:Hrun;
    [exact I|exact I|].
  apply (@creation_fails_beyond_dimension_limit Example.config Example.tensors
           Example.learners Example.array_allocators Example.initializers
           true 7 3 Example.creation_features_three 1
           [ {| countFeaturesInCombination := 3 |} ] [0; 1; 2] 0
           0 None None None 0 None None None 0 0%nat st
           Example_allocation_laws).
  - vm_compute. discriminate.
  - vm_compute. lia.
  - vm_compute. repeat constructor.
  - vm_compute. reflexivity.
  - exact Hrun.
Defined.

Lemma calls_never_change_the_descriptors_witness :
  exists st',
    rtc (@api_step Example.config Example.statistics Example.tensors
           Example.learners)
      (Example.regression_state (Some Example.validation_set)) st'
    /\ m_apFeatureCombinations st' = Some [Example.combination]
    /\ length <$> m_apCurrentModel st' = Some 1%nat.
Proof.
  pose proof apply_example as Hex.
  destruct (@ApplyModelFeatureCombinationUpdate Example.config
              Example.statistics Example.tensors Example.learners
              (Example.regression_state (Some Example.validation_set)) 0
              (Some Example.update) (Some fzero))
    as [[[st' ret] p']|] eqn:Hrun; [|discriminate Hex].
  assert (Hsteps : rtc (@api_step Example.config Example.statistics
                          Example.tensors Example.learners)
                     (Example.regression_state (Some Example.validation_set))
                     st').
  { apply rtc_once. eapply step_apply. exact Hrun. }
  exists st'. split; [exact Hsteps|].
  destruct (@calls_never_change_the_descriptors Example.config
              Example.statistics Example.tensors Example.learners
              _ _ Hsteps)
    as (_ & _ & _ & _ & _ & Hfcs & _ & _ & _ & _ & Hcur & _).
  split; [exact Hfcs|exact Hcur].
Defined.

(** Update generation on the state created without cases: there are no
    sampling sets, the update is zero and so is the gain. *)
Example generate_without_cases_example :
  match Example.created_without_cases with
  | Done st =>
      Some (match m_apSamplingSets st with None => true | Some _ => false end,
            (fun r => (r.1.2, r.2)) <$>
              @GenerateModelFeatureCombinationUpdate Example.config
                Example.tensors Example.learners st 0 Example.one 1 1
                (Some Example.two))
  | _ => None
  end
  = Some (true, Some (Some [fzero], Some fzero)).
Proof. vm_compute. reflexivity. Qed.

Lemma generate_without_sampling_sets_witness :
  match Example.created_without_cases with
  | Done st =>
      match
        @GenerateModelFeatureCombinationUpdate Example.config Example.tensors
          Example.learners st 0 Example.one 1 1 (Some Example.two)
      with
      | Some (_, Some _, gainReturn') => gainReturn' = Some fzero
      | _ => False
      end
  | _ => False
  end.
Proof.
  pose proof generate_without_cases_example as Hex.
  destruct Example.created_without_cases as [| |st] eqn:Hcreated;
    try discriminate Hex.
  injection Hex as Hsets Hex.
  destruct (@GenerateModelFeatureCombinationUpdate Example.config
              Example.tensors Example.learners st 0 Example.one 1 1
              (Some Example.two))
    as [[[st' [values|]] g']|] eqn:Hrun; try discriminate Hex.
  destruct (@generate_without_sampling_sets Example.config Example.tensors
              Example.learners st 0 Example.one 1 1 (Some Example.two)
              st' values g') as (Hgain & _).
  - destruct (m_apSamplingSets st); [discriminate Hsets|reflexivity].
  - exact Hrun.
  - exact Hgain.
Defined.
